(* ===== verification/_CoqProject ===== *)
-Q . S2P
Prelude.v
KeyedList.v
ReducerHelpers.v
JsNumber.v
JsDate.v
CommonState.v
Terminal.v
Changeset.v
Annotations.v
Canvas.v
ResourceWatch.v
ChatState.v
ChatActions.v
ChatReducer.v
ChatToolCalls.v
ChatTurns.v
ChatStatus.v
ChatQueue.v
ChatProperties.v
SessionState.v
SessionActions.v
SessionReducer.v
SessionLemmas.v
SessionProperties.v
Root.v
Automation.v
ChannelProperties.v
AsyncQueue.v
QueueProperties.v
StateMirror.v
MirrorProperties.v
Client.v
ClientLemmas.v
ClientProperties.v
