(* ===== verification/Prelude.v ===== *)
(** * Agent Host Protocol: a verification of the TypeScript reference code

    The Agent Host Protocol keeps the state of agent sessions in step between a
    host and its clients.  A host owns channels (root, session, chat, terminal,
    changeset, annotations, canvas, resource watch, automation, automation run);
    each has a state, a set of actions and a pure reducer
    [(state, action) -> state] that host and clients run alike.  A client
    receives a snapshot of a channel and then its actions, in order, over a
    JSON-RPC connection.  The reference implementation is the TypeScript code
    under src/types/ (states, actions, reducers) and
    src/clients/typescript/src/client/ (connection, queues, mirrors).  This
    library models both and proves what makes them correct.

    ** The parts and their files

    - [Prelude] (this file): record update, JSON values, the two effects of the
      code (diagnostics, exceptions), JavaScript array idioms.
    - [KeyedList]: lemmas on those idioms; the specification [OrderedMap] that
      keyed arrays implement.
    - [ReducerHelpers], [CommonState]: src/types/common/.
    - [JsNumber]: the 32-bit bitwise operators and the rounding of integer sums to
      binary64; [JsDate]: [Date.parse] and
      [toISOString], and addMillisecondsToTimestamp of common/timestamps.ts.
    - [ChatState], [ChatActions], [ChatReducer]: src/types/channels-chat/.  A
      constructor or field is named after the TypeScript one; [on_X] is the case
      of action [X] in the switch.
    - [SessionState], [SessionActions], [SessionReducer]: channels-session/.
    - [Terminal], [Changeset], [Annotations], [Canvas], [ResourceWatch], [Root],
      [Automation] (both automation channels): one channel each, state, actions
      and reducer.
    - [AsyncQueue]: async-queue.ts, the broadcast queue of the client.
    - [StateMirror]: state-mirror.ts and hosts/state-mirror.ts, the stores that
      route snapshots and actions to the reducers.
    - [Client]: client.ts, the connection: requests, timers, the receive loop,
      fan-out, teardown.

    A reducer is a function to [Logged S] (the new state and the diagnostics), or
    to [Logged (JsResult S)] for the chat, the one that can throw.  The queue is
    a state with one function per method and a list of the promises it resolves.
    The client is a state machine: [Client.Input] is a call or something the
    environment does, [Client.client_step] runs the code to its next [await].
    Interleavings are lists of operations or inputs, quantified over.

    ** The theorems

    - Chat ([ChatProperties], with lemmas in [ChatToolCalls], [ChatTurns],
      [ChatStatus], [ChatQueue]): the tool-call state machine is exactly its
      transition table; the activity bits agree with the active turn; ending a
      turn archives it with nothing unsettled; settled parts and history never
      change; error and resume are inverse; the reducer throws in exactly one
      situation; loading, truncating, queueing and streaming do what they say.
    - Session ([SessionProperties], lemmas in [SessionLemmas]): keyed collections
      stay keyed, the catalogue is an ordered map, the input-needed bit is exact,
      customization trees keep their shape.
    - Other channels ([ChannelProperties]): ordered maps, error fields, terminal
      transcript, configuration changes (root and session ignore them without a
      configuration, a chat creates one).
    - Queue ([QueueProperties]): the shared buffer refines one bounded FIFO per
      reader; values are delivered in order and, to a reader that keeps up, all
      of them; memory is bounded; a parked [next] is answered by the next
      publication or by [close], unless a call on its own iterator displaces it.
    - Mirrors ([MirrorProperties]): compound keys are unambiguous; the multi-host
      mirror simulates one single-host mirror per host; the automation index is
      the catalogue's.
    - Client ([ClientProperties], lemmas in [ClientLemmas]): every request is
      settled at most once and none is left when the client is closed; sequence
      numbers are fresh as long as they are safe integers; a subscription sees
      exactly what the notifications of its channel tell, a table of the protocol
      independent of the code, until it is unsubscribed or the client closes, in
      order (this uses the queue's refinement).
    Each theorem with hypotheses has a witness, at a concrete input, that ends the
    section it belongs to.  Lemmas called observations record where the code does
    not do what its documentation says.

    ** Conventions and assumptions

    - An optional property is an [option]; an absent property and one set to
      [undefined] are both [None].  Values of type [unknown] are [json].
    - Numbers that count, identify or measure (sequence numbers, durations in
      whole milliseconds, bit sets, positions) are [Z]; other numbers are binary64.
      Where a caller can make an integer unsafe (the sequence numbers of
      [dispatch]) the addition rounds as that of JavaScript; elsewhere the values
      are small or, for timestamps, bounded by the code.
    - A [string] is a sequence of code units.  A JavaScript object used as a map,
      and a [Map] whose order is not observed, is a [gmap]; arrays are lists.
    - Reducers copy; where the code returns the very same object to signal "no
      change", the model returns [None] from the helper and the caller keeps the
      state.  Cursors and queues, which are shared and mutated, live in stores.
    - An action of an unknown type carries its [JSON.stringify] text.
    - [JsDate.Platform] holds what a JavaScript engine may choose: the time zone
      offset and how strings outside the standard format parse.  [json_parse] and
      [utf8_decode] are parameters of the client.
    - No function needs fuel: recursion is structural throughout.

    ** Not modelled

    The transports and the WebSocket binding (input and output: the client is
    proved against any behaviour of its environment), the managed subscriptions,
    the host runtime with its reconnect policy, the version registry, the table of
    dispatchable actions, type declarations of commands without behaviour, the
    code generators and the clients in other languages.  Next in order: managed
    subscriptions over the client, the reconnect policy and the state machine of
    the host runtime, the dispatch validation table. *)

From Stdlib Require Export ZArith Lia.
From Stdlib Require Import SpecFloat.
From stdpp Require Export base tactics option list strings gmap.

#[export] Set Default Goal Selector "!".

Declare Scope ahp_scope.
Delimit Scope ahp_scope with ahp.
#[global] Open Scope ahp_scope.

(** ** Record update: the spread expression [{ ...r, f: v }]

    [Eta R] is the eta-expanded constructor of the record type [R]; from it the
    setter of each field is computed once and for all by abstracting the
    projection, so that [r <| f := v |>] copies every other field. *)

Class Eta (R : Type) := eta_expand : R → R.
Class Setter {R T : Type} (f : R → T) := set_field : (T → T) → R → R.
Arguments set_field {R T} f {_} _ _ /.

Ltac derive_setter :=
  match goal with
  | |- @Setter ?R ?T ?f =>
      let inst := constr:(_ : Eta R) in
      let body := eval red in inst in
      match eval pattern f in body with
      | ?abs _ => let s := eval cbv beta in (λ g : T → T, abs (λ r : R, g (f r))) in exact s
      end
  end.

#[export] Hint Extern 0 (Setter _) => derive_setter : typeclass_instances.

Notation "r <| f := v |>" := (set_field f (λ _, v) r)
  (at level 1, f at level 200, v at level 200, left associativity) : ahp_scope.

(** ** Values of the wire format

    [float64] is the Standard Library's model of IEEE-754 binary64, the carrier
    of a JavaScript [number] that need not be an integer.  Integral quantities
    (milliseconds, counters, bit sets, sequence numbers) are [Z]. *)

Abbreviation float64 := spec_float.

(** A JSON value; it stands for the TypeScript type [unknown]. *)
Inductive json :=
| JNull
| JBool (b : bool)
| JNumber (n : float64)
| JString (s : string)
| JArray (l : list json)
| JObject (l : list (string * json)).

(** [Record<string, unknown>]. *)
Abbreviation Meta := (gmap string json).

(** ** Effects

    A reducer is pure except for its diagnostics.  [LogOrWarn m] is
    [(log ?? console.warn)(m)], [LogIfGiven m] is [log?.(m)].  [Logged A] is a
    computation that returns an [A] and emits such lines in order; [JsResult A]
    is the outcome of code that may throw. *)

Inductive LogLine := LogOrWarn (msg : string) | LogIfGiven (msg : string).

Definition Logged (A : Type) : Type := A * list LogLine.
Definition val {A} (m : Logged A) : A := m.1.
Definition log_of {A} (m : Logged A) : list LogLine := m.2.
#[export] Instance logged_ret : MRet Logged := λ A a, (a, []).
#[export] Instance logged_bind : MBind Logged := λ A B f m, ((f m.1).1, m.2 ++ (f m.1).2).
#[export] Instance logged_fmap : FMap Logged := λ A B f m, (f m.1, m.2).
Definition emit (l : LogLine) : Logged unit := (tt, [l]).

Inductive JsError :=
| RangeError (msg : string)
| TypeError (msg : string)
| PlainError (msg : string).

Inductive JsResult (A : Type) := Ok (a : A) | Throw (e : JsError).
Arguments Ok {A} a.
Arguments Throw {A} e.
#[export] Instance js_result_ret : MRet JsResult := @Ok.
#[export] Instance js_result_bind : MBind JsResult := λ A B f m,
  match m with Ok a => f a | Throw e => Throw e end.
#[export] Instance js_result_fmap : FMap JsResult := λ A B f m,
  match m with Ok a => Ok (f a) | Throw e => Throw e end.

(** [a ?? b] on a pair of optional values, and on an optional value with a
    default.  An optional property is [None] when it is absent or [undefined]. *)
Definition nullish {A} (a b : option A) : option A :=
  match a with Some x => Some x | None => b end.
Definition default_to {A} (d : A) (a : option A) : A :=
  match a with Some x => x | None => d end.
Infix "??" := nullish (at level 60, right associativity) : ahp_scope.
Infix "??!" := (λ a d, default_to d a) (at level 60) : ahp_scope.

(** Truthiness of an optional boolean and of an optional string. *)
Definition truthy (b : option bool) : bool := default_to false b.
Arguments truthy : simpl never.
Definition truthy_string (s : option string) : option string :=
  match s with Some "" => None | o => o end.

(** [{ ...a, ...b }] on dictionaries: the right operand wins. *)
Definition spread {V} (a b : gmap string V) : gmap string V := b ∪ a.

(** String equality as a boolean test. *)
Definition str_eqb (a b : string) : bool := bool_decide (a = b).
Infix "=?s" := str_eqb (at level 70) : ahp_scope.

(** ** Array primitives shared by the reducers *)

(** [Array.prototype.findIndex], with [None] for [-1]. *)
Fixpoint findIndex {A} (p : A → bool) (l : list A) : option nat :=
  match l with
  | [] => None
  | x :: l => if p x then Some 0 else S <$> findIndex p l
  end.

(** [Array.prototype.find]. *)
Fixpoint find_js {A} (p : A → bool) (l : list A) : option A :=
  match l with
  | [] => None
  | x :: l => if p x then Some x else find_js p l
  end.

(** [Array.prototype.includes] on strings. *)
Definition includes (l : list string) (x : string) : bool := existsb (str_eqb x) l.

(** The find-then-replace idiom [idx < 0 ? [...l, x] : (l[idx] = x)]. *)
Definition upsert {A} (p : A → bool) (x : A) (l : list A) : list A :=
  match findIndex p l with
  | None => l ++ [x]
  | Some i => <[i := x]> l
  end.

(** The find-then-[splice(idx, 1)] idiom; [None] when nothing matches. *)
Definition removeFirst {A} (p : A → bool) (l : list A) : option (list A) :=
  i ← findIndex p l; Some (delete i l).

(** The [for] loop that replaces the first element [f] accepts and returns. *)
Fixpoint replaceFirst {A} (f : A → option A) (l : list A) : option (list A) :=
  match l with
  | [] => None
  | x :: l =>
      match f x with
      | Some y => Some (y :: l)
      | None => (cons x) <$> replaceFirst f l
      end
  end.

(** The property a collection of the protocol is keyed by: [id], [resource], ...
    [has_key k] is the callback [x => x.id === k]. *)
Class Keyed (A : Type) := key_of : A → string.
Definition has_key {A} `{Keyed A} (k : string) (x : A) : bool := key_of x =?s k.
Definition keys {A} `{Keyed A} (l : list A) : list string := map key_of l.
#[export] Instance keyed_string : Keyed string := λ x, x.

(** [new Map(l.map(x => [key(x), x]))]: later entries win. *)
Definition mapBy {A} (key : A → string) (l : list A) : gmap string A :=
  foldl (λ m x, <[key x := x]> m) ∅ l.

(** [Object.keys(m).length > 0 ? m : undefined]. *)
Definition non_empty_map {V} (m : gmap string V) : option (gmap string V) :=
  if (size m =? 0)%nat then None else Some m.

(** [l.length > 0 ? l : undefined]. *)
Definition non_empty_list {A} (l : list A) : option (list A) :=
  match l with [] => None | _ => Some l end.
