(* ===== verification/KeyedList.v ===== *)
(** * Keyed collections

    The channels keep ordered arrays of objects addressed by a key
    ([findIndex] on [id], then replace, append or splice).  This file relates the
    array idioms of Prelude to their specification, an ordered finite map: the
    list of the keys in order together with the map from key to object. *)

From S2P Require Import Prelude.

Lemma str_eqb_true (a b : string) : (a =?s b) = true ↔ a = b.
Proof. apply bool_decide_eq_true. Qed.
Lemma str_eqb_false (a b : string) : (a =?s b) = false ↔ a ≠ b.
Proof. apply bool_decide_eq_false. Qed.
Lemma str_eqb_refl (a : string) : (a =?s a) = true.
Proof. by apply str_eqb_true. Qed.

Lemma append_assoc (a b c : string) : (a +:+ b) +:+ c = a +:+ (b +:+ c).
Proof. induction a as [|x a IH]; [done|]. change (String x ((a +:+ b) +:+ c) = String x (a +:+ (b +:+ c))). by rewrite IH. Qed.

(** Case analysis on a string comparison of the goal. *)
Ltac case_str a b :=
  let E := fresh "E" in
  destruct (a =?s b) eqn:E; [apply str_eqb_true in E | apply str_eqb_false in E].

Lemma includes_spec l x : includes l x = true ↔ x ∈ l.
Proof.
  unfold includes. rewrite existsb_exists. setoid_rewrite str_eqb_true.
  setoid_rewrite <- list_elem_of_In. naive_solver.
Qed.
Lemma includes_false l x : includes l x = false ↔ x ∉ l.
Proof. rewrite <- includes_spec. destruct (includes l x); naive_solver. Qed.

(** ** [findIndex] *)

Section FindIndex.
Context {A : Type} (p : A → bool).

Lemma findIndex_Some l i :
  findIndex p l = Some i ↔
  ∃ l1 x l2, l = l1 ++ x :: l2 ∧ length l1 = i ∧ p x = true ∧ Forall (λ y, p y = false) l1.
Proof.
  split.
  - revert i. induction l as [|y l IH]; intros i; simpl; [done|].
    destruct (p y) eqn:Ey.
    + intros [= <-]. by exists [], y, l.
    + destruct (findIndex p l) as [j|]; [|done]. intros [= <-].
      destruct (IH j eq_refl) as (l1 & x & l2 & -> & <- & Hx & Hl).
      exists (y :: l1), x, l2. auto.
  - intros (l1 & x & l2 & -> & <- & Hx & Hl).
    induction Hl as [|y l1 Hy Hl IH]; simpl; [by rewrite Hx|]. by rewrite Hy, IH.
Qed.

Lemma findIndex_None l : findIndex p l = None ↔ Forall (λ y, p y = false) l.
Proof.
  induction l as [|y l IH]; simpl; [by split|].
  rewrite Forall_cons. destruct (p y); [naive_solver|].
  destruct (findIndex p l); naive_solver.
Qed.

Lemma findIndex_lookup l i : findIndex p l = Some i → ∃ x, l !! i = Some x ∧ p x = true.
Proof.
  intros (l1 & x & l2 & -> & <- & Hx & _)%findIndex_Some.
  exists x. by rewrite list_lookup_middle.
Qed.

Lemma upsert_shape x l :
  (Forall (λ y, p y = false) l ∧ upsert p x l = l ++ [x]) ∨
  (∃ l1 y l2, l = l1 ++ y :: l2 ∧ p y = true ∧ Forall (λ z, p z = false) l1 ∧
              upsert p x l = l1 ++ x :: l2).
Proof.
  unfold upsert. destruct (findIndex p l) as [i|] eqn:E.
  - right. apply findIndex_Some in E as (l1 & y & l2 & -> & <- & ? & ?).
    exists l1, y, l2. repeat split; [done..|].
    by rewrite insert_app_r_alt, Nat.sub_diag by lia.
  - left. by apply findIndex_None in E.
Qed.

Lemma removeFirst_Some l l' :
  removeFirst p l = Some l' ↔
  ∃ l1 y l2, l = l1 ++ y :: l2 ∧ p y = true ∧ Forall (λ z, p z = false) l1 ∧ l' = l1 ++ l2.
Proof.
  unfold removeFirst. split.
  - intros (i & (l1 & y & l2 & -> & <- & ? & ?)%findIndex_Some & [= <-])%bind_Some.
    exists l1, y, l2. by rewrite delete_middle.
  - intros (l1 & y & l2 & -> & ? & ? & ->).
    rewrite (proj2 (findIndex_Some (l1 ++ y :: l2) (length l1))) by eauto 8.
    simpl. by rewrite delete_middle.
Qed.

Lemma removeFirst_None l : removeFirst p l = None ↔ Forall (λ y, p y = false) l.
Proof.
  unfold removeFirst. rewrite bind_None, findIndex_None. naive_solver.
Qed.

Lemma elem_of_upsert_new x l : x ∈ upsert p x l.
Proof. destruct (upsert_shape x l) as [[_ ->]|(l1 & y & l2 & _ & _ & _ & ->)]; set_solver. Qed.

Lemma elem_of_upsert_old x y l : y ∈ l → p y = false → y ∈ upsert p x l.
Proof.
  intros Hy Hp. destruct (upsert_shape x l) as [[_ ->]|(l1 & z & l2 & -> & Hz & _ & ->)];
    [set_solver|]. revert Hy. rewrite !elem_of_app, !elem_of_cons.
  assert (y ≠ z) by congruence. naive_solver.
Qed.

Lemma elem_of_upsert x y l : y ∈ upsert p x l → y = x ∨ y ∈ l.
Proof. destruct (upsert_shape x l) as [[_ ->]|(l1 & z & l2 & -> & _ & _ & ->)]; set_solver. Qed.

Lemma elem_of_removeFirst_old l l' y : removeFirst p l = Some l' → y ∈ l → p y = false → y ∈ l'.
Proof.
  intros (l1 & z & l2 & -> & Hz & _ & ->)%removeFirst_Some Hy Hp. revert Hy.
  rewrite !elem_of_app, !elem_of_cons. assert (y ≠ z) by congruence. naive_solver.
Qed.

Lemma elem_of_removeFirst l l' y : removeFirst p l = Some l' → y ∈ l' → y ∈ l.
Proof. intros (l1 & z & l2 & -> & _ & _ & ->)%removeFirst_Some. set_solver. Qed.

End FindIndex.

Lemma non_empty_list_default {A} (l : list A) : (non_empty_list l ??! []) = l.
Proof. by destruct l. Qed.

Lemma elem_of_filter_js {A} (p : A → bool) (k : list A) x : x ∈ List.filter p k ↔ x ∈ k ∧ p x = true.
Proof. by rewrite !list_elem_of_In, filter_In. Qed.

Lemma sublist_filter_js {A} (p : A → bool) (k : list A) : List.filter p k `sublist_of` k.
Proof. induction k as [|x k IH]; simpl; [done|]. destruct (p x); by constructor. Qed.

Lemma filter_ne_id (k : string) (l : list string) : k ∉ l → filter (.≠ k) l = l.
Proof.
  induction l as [|x l IH]; [done|]. rewrite not_elem_of_cons. intros [? ?].
  rewrite filter_cons_True by done. by rewrite IH.
Qed.

(** ** The ordered map a keyed list stands for *)

Section Keyed.
Context {A : Type} `{Keyed A}.
Implicit Types (l : list A) (x : A) (k : string).

Lemma has_key_true k x : has_key k x = true ↔ key_of x = k.
Proof. apply str_eqb_true. Qed.
Lemma has_key_false k x : has_key k x = false ↔ key_of x ≠ k.
Proof. apply str_eqb_false. Qed.
Lemma Forall_has_key_false k l : Forall (λ y, has_key k y = false) l ↔ k ∉ keys l.
Proof.
  unfold keys. rewrite Forall_forall. setoid_rewrite has_key_false.
  rewrite list_elem_of_fmap. naive_solver.
Qed.

(** The specification state: the keys in order, and the entry of each key. *)
Record OrderedMap := mkOrderedMap { om_order : list string; om_entries : gmap string A }.

Definition entries_of l : gmap string A := list_to_map ((λ x, (key_of x, x)) <$> l).
Definition ordered_map l : OrderedMap := mkOrderedMap (keys l) (entries_of l).

Definition om_insert x (m : OrderedMap) : OrderedMap :=
  mkOrderedMap (if decide (key_of x ∈ om_order m) then om_order m else om_order m ++ [key_of x])
               (<[key_of x := x]> (om_entries m)).
Definition om_delete k (m : OrderedMap) : OrderedMap :=
  mkOrderedMap (filter (.≠ k) (om_order m)) (delete k (om_entries m)).

Lemma entries_of_cons x l : entries_of (x :: l) = <[key_of x := x]> (entries_of l).
Proof. done. Qed.

Lemma entries_of_None l k : entries_of l !! k = None ↔ k ∉ keys l.
Proof.
  unfold entries_of, keys. rewrite <- not_elem_of_list_to_map.
  by rewrite <- list_fmap_compose.
Qed.

Lemma entries_of_app l1 l2 : entries_of (l1 ++ l2) = entries_of l1 ∪ entries_of l2.
Proof. unfold entries_of. by rewrite fmap_app, list_to_map_app. Qed.

Lemma entries_of_Some l k x :
  NoDup (keys l) → entries_of l !! k = Some x ↔ x ∈ l ∧ key_of x = k.
Proof.
  intros Hnd. unfold entries_of. rewrite <- elem_of_list_to_map.
  - rewrite list_elem_of_fmap. naive_solver.
  - by rewrite <- list_fmap_compose.
Qed.

(** [new Map(...)] is the map of the entries when the keys are distinct. *)
Lemma mapBy_entries l : NoDup (keys l) → mapBy key_of l = entries_of l.
Proof.
  unfold mapBy. induction l as [|x l IH] using rev_ind; [done|].
  unfold keys. rewrite map_app, foldl_app. simpl.
  intros (Hl & Hx & _)%NoDup_app. rewrite IH by done.
  rewrite entries_of_app. simpl. apply map_eq. intros k.
  rewrite lookup_union, entries_of_cons. destruct (decide (k = key_of x)) as [->|Hk].
  - rewrite !lookup_insert, !decide_True by done.
    rewrite (proj2 (entries_of_None l _)); [done|]. intros Hin. apply (Hx _ Hin). by left.
  - rewrite !lookup_insert_ne by done. by destruct (entries_of l !! k).
Qed.

Lemma keys_app l1 l2 : keys (l1 ++ l2) = keys l1 ++ keys l2.
Proof. apply map_app. Qed.
Lemma keys_cons x l : keys (x :: l) = key_of x :: keys l.
Proof. done. Qed.

Lemma keys_upsert x l :
  keys (upsert (has_key (key_of x)) x l) =
  if decide (key_of x ∈ keys l) then keys l else keys l ++ [key_of x].
Proof.
  destruct (upsert_shape (has_key (key_of x)) x l)
    as [[Hl ->]|(l1 & y & l2 & -> & Hy & Hl & ->)].
  - rewrite decide_False by (by apply Forall_has_key_false). apply keys_app.
  - apply has_key_true in Hy. rewrite decide_True.
    + by rewrite !keys_app, !keys_cons, Hy.
    + rewrite keys_app, keys_cons, Hy. set_solver.
Qed.

Lemma NoDup_keys_upsert x l :
  NoDup (keys l) → NoDup (keys (upsert (has_key (key_of x)) x l)).
Proof.
  intros Hnd. rewrite keys_upsert. case_decide; [done|].
  apply NoDup_app. split_and!; [done| |apply NoDup_singleton]. set_solver.
Qed.

Lemma entries_upsert x l :
  NoDup (keys l) →
  entries_of (upsert (has_key (key_of x)) x l) = <[key_of x := x]> (entries_of l).
Proof.
  intros Hnd.
  destruct (upsert_shape (has_key (key_of x)) x l)
    as [[Hl ->]|(l1 & y & l2 & -> & Hy & Hl & ->)].
  - apply Forall_has_key_false, entries_of_None in Hl.
    rewrite entries_of_app, entries_of_cons. simpl.
    by rewrite <- insert_union_r, right_id by done || by apply _.
  - apply has_key_true in Hy. rewrite !entries_of_app, !entries_of_cons, Hy.
    apply Forall_has_key_false, entries_of_None in Hl.
    rewrite <- !insert_union_r by done. by rewrite insert_insert_eq.
Qed.

(** [upsert] on the key implements insertion into the ordered map. *)
Lemma ordered_map_upsert x l :
  NoDup (keys l) →
  ordered_map (upsert (has_key (key_of x)) x l) = om_insert x (ordered_map l).
Proof.
  intros Hnd. unfold ordered_map, om_insert; simpl.
  by rewrite keys_upsert, entries_upsert.
Qed.

Lemma filter_ne_middle k l1 y l2 :
  NoDup (keys (l1 ++ y :: l2)) → key_of y = k →
  filter (.≠ k) (keys (l1 ++ y :: l2)) = keys (l1 ++ l2).
Proof.
  rewrite !keys_app, keys_cons. intros Hnd <-.
  apply NoDup_app in Hnd as (_ & H1 & [H2 _]%NoDup_cons).
  rewrite filter_app, filter_cons_False by naive_solver.
  rewrite !filter_ne_id; [done|done|]. intros Hin. apply (H1 _ Hin). by left.
Qed.

(** The [splice] idiom implements deletion from the ordered map. *)
Lemma ordered_map_removeFirst k l l' :
  NoDup (keys l) → removeFirst (has_key k) l = Some l' →
  k ∈ keys l ∧ ordered_map l' = om_delete k (ordered_map l).
Proof.
  intros Hnd (l1 & y & l2 & -> & Hy & Hl & ->)%removeFirst_Some.
  apply has_key_true in Hy. split; [rewrite keys_app, keys_cons, Hy; set_solver|].
  unfold ordered_map, om_delete; simpl. rewrite filter_ne_middle by done. f_equal.
  assert (entries_of l2 !! k = None).
  { rewrite keys_app, keys_cons in Hnd. apply entries_of_None.
    apply NoDup_app in Hnd as (_ & _ & [? _]%NoDup_cons). by subst. }
  apply Forall_has_key_false, entries_of_None in Hl.
  rewrite !entries_of_app, entries_of_cons, Hy, <- insert_union_r by done.
  rewrite delete_insert_id; [done|]. by rewrite lookup_union, Hl, H0.
Qed.

Lemma removeFirst_key_None k l : removeFirst (has_key k) l = None ↔ k ∉ keys l.
Proof. by rewrite removeFirst_None, Forall_has_key_false. Qed.

Lemma NoDup_keys_removeFirst (p : A → bool) l l' :
  NoDup (keys l) → removeFirst p l = Some l' → NoDup (keys l').
Proof.
  intros Hnd (l1 & y & l2 & -> & _ & _ & ->)%removeFirst_Some. revert Hnd.
  rewrite !keys_app, keys_cons, !NoDup_app, NoDup_cons. set_solver.
Qed.

Lemma NoDup_keys_filter (p : A → bool) l : NoDup (keys l) → NoDup (keys (List.filter p l)).
Proof.
  unfold keys. induction l as [|x l IH]; simpl; [done|].
  rewrite NoDup_cons. intros [Hx Hl]. destruct (p x); [|by apply IH].
  simpl. rewrite NoDup_cons. split; [|by apply IH].
  intros Hin. apply Hx. revert Hin.
  rewrite !list_elem_of_In, !in_map_iff. setoid_rewrite filter_In. naive_solver.
Qed.

(** Replacing the entry at an index by one with the same key. *)
Lemma keys_insert_same l i x y :
  l !! i = Some y → key_of x = key_of y → keys (<[i := x]> l) = keys l.
Proof.
  intros Hi Hk. unfold keys. change (map key_of ?l) with (key_of <$> l).
  rewrite list_fmap_insert, Hk. apply list_insert_id. by rewrite list_lookup_fmap, Hi.
Qed.

End Keyed.

Arguments OrderedMap A : clear implicits.
Create HintDb keyed.
#[export] Hint Resolve NoDup_keys_upsert NoDup_keys_removeFirst NoDup_keys_filter : keyed.
