(* ===== verification/ReducerHelpers.v ===== *)
(** * types/common/reducer-helpers.ts *)

From S2P Require Import Prelude.

(** The diagnostic of the [default] branch of every reducer; the argument is
    [JSON.stringify] of the action, which the unknown-action constructors carry. *)
Definition softAssertNever (stringified : string) : Logged unit :=
  emit (LogOrWarn ("Unhandled action type: " +:+ stringified)).
