(* ===== verification/JsNumber.v ===== *)
(** * JavaScript numbers: the 32-bit bitwise operators and integer addition

    The status bit sets are combined with [&], [|], [~] and [<<], which convert
    their operands with ToInt32 and return a signed 32-bit integer.  Everything
    the reducers rely on is bit-level: [testbit_to_int32] and the lemmas on
    [and32], [or32] and [not32] for positions below 32.

    A number that a program counts with is a binary64: [js_add] is the sum of two
    integers rounded to the nearest binary64, ties to even.  It is exact up to
    2^53 ([js_add_exact]). *)

From S2P Require Import Prelude.
Local Open Scope Z_scope.

(** ** Definitions *)

Definition to_int32 (z : Z) : Z :=
  let m := z mod 2 ^ 32 in if m <? 2 ^ 31 then m else m - 2 ^ 32.

Definition and32 (a b : Z) : Z := Z.land (to_int32 a) (to_int32 b).
Definition or32 (a b : Z) : Z := Z.lor (to_int32 a) (to_int32 b).
Definition not32 (a : Z) : Z := Z.lnot (to_int32 a).
Definition shl32 (a n : Z) : Z := to_int32 (Z.shiftl (to_int32 a) (n mod 32)).

(** The values that are unchanged by ToInt32. *)
Definition is_int32 (z : Z) : Prop := - 2 ^ 31 <= z < 2 ^ 31.

(** The binary64 nearest to an integer: 53 significant bits, ties to even. *)
Definition round_double (z : Z) : Z :=
  let e := Z.log2 (Z.abs z) - 52 in
  if e <=? 0 then z
  else
    let q := Z.abs z / 2 ^ e in
    let r := Z.abs z mod 2 ^ e in
    let up := (2 ^ (e - 1) <? r) || ((r =? 2 ^ (e - 1)) && Z.odd q) in
    Z.sgn z * ((if up then q + 1 else q) * 2 ^ e).

(** [a + b] of two integers. *)
Definition js_add (a b : Z) : Z := round_double (a + b).

Definition MAX_SAFE_INTEGER : Z := 2 ^ 53 - 1.

Lemma round_double_exact z : Z.abs z ≤ 2 ^ 53 → round_double z = z.
Proof.
  intros Hz. unfold round_double. destruct (Z.leb_spec (Z.log2 (Z.abs z) - 52) 0) as [_|Hlog]; [done|].
  assert (Z.log2 (Z.abs z) = 53) as Hl.
  { pose proof (Z.log2_le_mono _ _ Hz) as Hm. rewrite Z.log2_pow2 in Hm by lia. lia. }
  assert (2 ^ 53 ≤ Z.abs z).
  { destruct (Z.eq_dec z 0) as [->|]; [done|].
    pose proof (Z.log2_spec (Z.abs z) ltac:(lia)) as Hs. rewrite Hl in Hs. lia. }
  assert (z = 2 ^ 53 ∨ z = - 2 ^ 53) as [-> | ->] by lia; by vm_compute.
Qed.

Lemma js_add_exact a b : Z.abs (a + b) ≤ 2 ^ 53 → js_add a b = a + b.
Proof. apply round_double_exact. Qed.

(** From 2^53 on, adding one may change nothing. *)
Example js_add_saturates : js_add (2 ^ 53) 1 = 2 ^ 53 ∧ js_add (2 ^ 53 + 2) 1 = 2 ^ 53 + 4.
Proof. by vm_compute. Qed.

(** ** Bits *)

Lemma testbit_to_int32 z i : 0 <= i < 32 → Z.testbit (to_int32 z) i = Z.testbit z i.
Proof.
  intros Hi. unfold to_int32.
  assert (Hm : Z.testbit (z mod 2 ^ 32) i = Z.testbit z i)
    by (apply Z.mod_pow2_bits_low; lia).
  destruct (Z.ltb_spec (z mod 2 ^ 32) (2 ^ 31)) as [_|_]; [exact Hm|].
  rewrite <- Hm.
  rewrite <- (Z.mod_pow2_bits_low (z mod 2 ^ 32 - 2 ^ 32) 32 i) by lia.
  replace (z mod 2 ^ 32 - 2 ^ 32) with (z mod 2 ^ 32 + (-1) * 2 ^ 32) by lia.
  rewrite Z.mod_add by lia. rewrite Z.mod_mod by lia. reflexivity.
Qed.

Lemma to_int32_range z : is_int32 (to_int32 z).
Proof.
  unfold is_int32, to_int32.
  pose proof (Z.mod_pos_bound z (2 ^ 32) ltac:(lia)).
  destruct (Z.ltb_spec (z mod 2 ^ 32) (2 ^ 31)); lia.
Qed.

Lemma to_int32_id z : is_int32 z → to_int32 z = z.
Proof.
  unfold is_int32, to_int32. intros Hz.
  destruct (Z.ltb_spec z 0) as [Hneg|Hpos].
  - assert (Hm : z mod 2 ^ 32 = z + 2 ^ 32).
    { replace (z mod 2 ^ 32) with ((z + 1 * 2 ^ 32) mod 2 ^ 32) by (rewrite Z.mod_add by lia; reflexivity).
      apply Z.mod_small. lia. }
    rewrite Hm. destruct (Z.ltb_spec (z + 2 ^ 32) (2 ^ 31)); lia.
  - rewrite Z.mod_small by lia. destruct (Z.ltb_spec z (2 ^ 31)); lia.
Qed.

Lemma testbit_and32 a b i :
  0 <= i < 32 → Z.testbit (and32 a b) i = Z.testbit a i && Z.testbit b i.
Proof. intros Hi. unfold and32. rewrite Z.land_spec, !testbit_to_int32 by lia. reflexivity. Qed.

Lemma testbit_or32 a b i :
  0 <= i < 32 → Z.testbit (or32 a b) i = Z.testbit a i || Z.testbit b i.
Proof. intros Hi. unfold or32. rewrite Z.lor_spec, !testbit_to_int32 by lia. reflexivity. Qed.

Lemma testbit_not32 a i :
  0 <= i < 32 → Z.testbit (not32 a) i = negb (Z.testbit a i).
Proof. intros Hi. unfold not32. rewrite Z.lnot_spec, testbit_to_int32 by lia. reflexivity. Qed.

(** The 32-bit integers are the numbers whose bits from 31 on are all equal to
    the sign bit: equivalently, [z >> 31] is [0] or [-1]. *)
Lemma is_int32_shiftr z : is_int32 z ↔ Z.shiftr z 31 = 0 ∨ Z.shiftr z 31 = -1.
Proof.
  unfold is_int32. rewrite Z.shiftr_div_pow2 by lia.
  pose proof (Z.div_mod z (2 ^ 31) ltac:(lia)).
  pose proof (Z.mod_pos_bound z (2 ^ 31) ltac:(lia)). lia.
Qed.

Lemma int32_bits_above z i : is_int32 z → 31 <= i → Z.testbit z i = Z.testbit z 31.
Proof.
  intros Hz%is_int32_shiftr Hi.
  replace i with ((i - 31) + 31) by lia. replace 31 with (0 + 31) at 3 by lia.
  rewrite <- !Z.shiftr_spec by lia.
  destruct Hz as [-> | ->]; [rewrite !Z.bits_0|rewrite !Z.bits_m1 by lia]; reflexivity.
Qed.

Lemma is_int32_bitwise (z : Z) :
  (∀ i, 31 <= i → Z.testbit z i = Z.testbit z 31) → is_int32 z.
Proof.
  intros H. apply is_int32_shiftr. destruct (Z.testbit z 31); [right|left];
    apply Z.bits_inj'; intros i Hi; rewrite Z.shiftr_spec, H by lia;
    [rewrite Z.bits_m1 by lia|rewrite Z.bits_0]; reflexivity.
Qed.

Lemma int32_bits_inj a b :
  is_int32 a → is_int32 b →
  (∀ i, 0 <= i < 32 → Z.testbit a i = Z.testbit b i) → a = b.
Proof.
  intros Ha Hb H. apply Z.bits_inj'. intros i Hi.
  destruct (Z.ltb_spec i 32) as [Hlt|Hge]; [apply H; lia|].
  rewrite (int32_bits_above a i), (int32_bits_above b i) by (assumption || lia).
  apply H. lia.
Qed.

Lemma and32_range a b : is_int32 (and32 a b).
Proof.
  apply is_int32_bitwise. intros i Hi. unfold and32. rewrite !Z.land_spec.
  rewrite !(int32_bits_above (to_int32 _) i) by (apply to_int32_range || lia). reflexivity.
Qed.

Lemma or32_range a b : is_int32 (or32 a b).
Proof.
  apply is_int32_bitwise. intros i Hi. unfold or32. rewrite !Z.lor_spec.
  rewrite !(int32_bits_above (to_int32 _) i) by (apply to_int32_range || lia). reflexivity.
Qed.

Create Rewrite HintDb bits32.
Create HintDb int32.
#[export] Hint Rewrite testbit_and32 testbit_or32 testbit_not32 using lia : bits32.
#[export] Hint Resolve and32_range or32_range to_int32_range : int32.
