(* ===== verification/JsDate.v ===== *)
(** * Timestamps: [Date.parse], [Date.prototype.toISOString] and
    types/common/timestamps.ts

    Time values, calendar arithmetic and the Date Time String Format follow the
    ECMAScript specification (ECMA-262, "Date Objects").  Two things are left to
    the engine there and are the fields of [Platform]: how a local time without
    an offset is turned into UTC, and what [Date.parse] does with a string that
    is not in the Date Time String Format.  [None] is NaN. *)

From Stdlib Require Import Ascii.
From S2P Require Import Prelude.
Local Open Scope Z_scope.

Class Platform := {
  utc_of_local : Z → Z;
  parse_implementation_defined : string → option Z
}.

(** The engine in UTC that accepts nothing but the standard format. *)
Definition utc_platform : Platform := {|
  utc_of_local := λ t, t;
  parse_implementation_defined := λ _, None
|}.

(** ** Calendar arithmetic *)

Definition msPerDay : Z := 86400000.
Definition maxTime : Z := 8640000000000000.

Definition TimeClip (t : Z) : option Z := if Z.abs t <=? maxTime then Some t else None.

Definition leap (y : Z) : bool :=
  (y mod 4 =? 0) && (negb (y mod 100 =? 0) || (y mod 400 =? 0)).

Definition DayFromYear (y : Z) : Z :=
  365 * (y - 1970) + (y - 1969) / 4 - (y - 1901) / 100 + (y - 1601) / 400.

(** Days before month [m] (0-based) in a year; [m = 12] is the year's length. *)
Definition month_start (lp : bool) (m : Z) : Z :=
  let l := if lp then 1 else 0 in
  if m <=? 0 then 0 else if m =? 1 then 31 else if m =? 2 then 59 + l
  else if m =? 3 then 90 + l else if m =? 4 then 120 + l else if m =? 5 then 151 + l
  else if m =? 6 then 181 + l else if m =? 7 then 212 + l else if m =? 8 then 243 + l
  else if m =? 9 then 273 + l else if m =? 10 then 304 + l else if m =? 11 then 334 + l
  else 365 + l.

(** The month (0-based) that contains day [n] (0-based) of a year. *)
Definition month_of_day (lp : bool) (n : Z) : Z :=
  let l := if lp then 1 else 0 in
  if n <? 31 then 0 else if n <? 59 + l then 1 else if n <? 90 + l then 2
  else if n <? 120 + l then 3 else if n <? 151 + l then 4 else if n <? 181 + l then 5
  else if n <? 212 + l then 6 else if n <? 243 + l then 7 else if n <? 273 + l then 8
  else if n <? 304 + l then 9 else if n <? 334 + l then 10 else 11.

Definition days_in_month (y m : Z) : Z := month_start (leap y) (m + 1) - month_start (leap y) m.

(** The year that contains day [d] counted from 1970-01-01. *)
Definition YearFromDay (d : Z) : Z :=
  let y := 1970 + (400 * d) / 146097 in
  if d <? DayFromYear y then y - 1
  else if DayFromYear (y + 1) <=? d then y + 1 else y.

(** [MakeDay] for a month in range. *)
Definition MakeDay (y m dt : Z) : Z := DayFromYear y + month_start (leap y) m + (dt - 1).

Definition MakeTime (h mi s ms : Z) : Z := h * 3600000 + mi * 60000 + s * 1000 + ms.

(** ** Decimal fields *)

Definition digit_char (d : Z) : Ascii.ascii := Ascii.ascii_of_N (Z.to_N (48 + d)).
Definition digit_val (c : Ascii.ascii) : option Z :=
  let n := Z.of_N (Ascii.N_of_ascii c) in
  if (48 <=? n) && (n <=? 57) then Some (n - 48) else None.

(** [n] decimal digits of [v], most significant first. *)
Fixpoint pad (n : nat) (v : Z) : string :=
  match n with
  | O => ""
  | S n' => String (digit_char (v / 10 ^ Z.of_nat n')) (pad n' (v mod 10 ^ Z.of_nat n'))
  end.

(** Read exactly [n] digits. *)
Fixpoint read_digits (n : nat) (acc : Z) (s : string) : option (Z * string) :=
  match n, s with
  | O, _ => Some (acc, s)
  | S n', String c s' => d ← digit_val c; read_digits n' (10 * acc + d) s'
  | S _, EmptyString => None
  end.

Definition read_char (c : Ascii.ascii) (s : string) : option string :=
  match s with
  | String c' s' => if Ascii.eqb c c' then Some s' else None
  | EmptyString => None
  end.

(** ** [Date.prototype.toISOString] *)

Definition iso_year (y : Z) : string :=
  if (0 <=? y) && (y <=? 9999) then pad 4 y
  else if y <? 0 then String "-"%char (pad 6 (- y)) else String "+"%char (pad 6 y).

Definition toISOString (t : Z) : string :=
  let d := t / msPerDay in
  let ms := t mod msPerDay in
  let y := YearFromDay d in
  let n := d - DayFromYear y in
  let m := month_of_day (leap y) n in
  let dt := n - month_start (leap y) m + 1 in
  (iso_year y +:+ String "-"%char (pad 2 (m + 1) +:+ String "-"%char (pad 2 dt +:+ String "T"
    (pad 2 (ms / 3600000) +:+ String ":"%char (pad 2 (ms / 60000 mod 60) +:+ String ":"
      (pad 2 (ms / 1000 mod 60) +:+ String "."%char (pad 3 (ms mod 1000) +:+ "Z"))))))).

(** ** [Date.parse] *)

Definition parse_year (s : string) : option (Z * string) :=
  match s with
  | String "+"%char s' => read_digits 6 0 s'
  | String "-"%char s' =>
      '(y, r) ← read_digits 6 0 s';
      if y =? 0 then None else Some (- y, r)
  | _ => read_digits 4 0 s
  end.

(** The optional [-MM] and [-MM-DD] parts; the month is 1-based here. *)
Definition parse_month_day (s : string) : option (Z * Z * string) :=
  match read_char "-"%char s with
  | None => Some (1, 1, s)
  | Some s1 =>
      '(m, s2) ← read_digits 2 0 s1;
      match read_char "-"%char s2 with
      | None => Some (m, 1, s2)
      | Some s3 => '(d, s4) ← read_digits 2 0 s3; Some (m, d, s4)
      end
  end.

(** [HH:mm], [HH:mm:ss] or [HH:mm:ss.sss], as a number of milliseconds. *)
Definition parse_clock (s : string) : option (Z * string) :=
  '(h, s1) ← read_digits 2 0 s;
  s2 ← read_char ":"%char s1;
  '(mi, s3) ← read_digits 2 0 s2;
  '(sec, ms, rest) ←
    match read_char ":"%char s3 with
    | None => Some (0, 0, s3)
    | Some s4 =>
        '(sec, s5) ← read_digits 2 0 s4;
        match read_char "."%char s5 with
        | None => Some (sec, 0, s5)
        | Some s6 => '(ms, s7) ← read_digits 3 0 s6; Some (sec, ms, s7)
        end
    end;
  if (mi <=? 59) && (sec <=? 59) &&
     ((h <=? 23) || ((h =? 24) && (mi =? 0) && (sec =? 0) && (ms =? 0)))
  then Some (MakeTime h mi sec ms, rest) else None.

(** The UTC offset: [Z], [+HH:mm] or [-HH:mm], or nothing (local time). *)
Inductive Offset := Fixed (ms : Z) | LocalTime.

Definition parse_hm (s : string) : option Z :=
  '(h, s1) ← read_digits 2 0 s;
  s2 ← read_char ":"%char s1;
  '(mi, s3) ← read_digits 2 0 s2;
  if bool_decide (s3 = "") && (h <=? 23) && (mi <=? 59)
  then Some (h * 3600000 + mi * 60000) else None.

Definition parse_offset (s : string) : option Offset :=
  match s with
  | "" => Some LocalTime
  | "Z" => Some (Fixed 0)
  | String "+"%char r => Fixed <$> parse_hm r
  | String "-"%char r => (λ o, Fixed (- o)) <$> parse_hm r
  | _ => None
  end.

(** A string in the Date Time String Format, as a (possibly local) time. *)
Definition parse_iso (s : string) : option (Z * Offset) :=
  '(y, s1) ← parse_year s;
  '(m, d, s2) ← parse_month_day s1;
  if (1 <=? m) && (m <=? 12) && (1 <=? d) && (d <=? days_in_month y (m - 1)) then
    let day := MakeDay y (m - 1) d * msPerDay in
    if bool_decide (s2 = "") then Some (day, Fixed 0)
    else
      s3 ← read_char "T"%char s2;
      '(clock, s4) ← parse_clock s3;
      o ← parse_offset s4;
      Some (day + clock, o)
  else None.

Definition Date_parse `{Platform} (s : string) : option Z :=
  match parse_iso s with
  | Some (t, Fixed o) => TimeClip (t - o)
  | Some (t, LocalTime) => TimeClip (utc_of_local t)
  | None => parse_implementation_defined s
  end.

(** types/common/timestamps.ts: [addMillisecondsToTimestamp], which throws a
    RangeError when the sum is not a time value.  The duration is a whole number of
    milliseconds (a fraction would be cut off by the [Date] constructor). *)
Definition addMillisecondsToTimestamp `{Platform} (timestamp : string) (duration : Z) :
    JsResult string :=
  match Date_parse timestamp with
  | None => Throw (RangeError "Invalid time value")
  | Some t =>
      match TimeClip (t + duration) with
      | None => Throw (RangeError "Invalid time value")
      | Some t' => Ok (toISOString t')
      end
  end.

(** ** The calendar is a bijection *)

Lemma days_in_year y : DayFromYear (y + 1) - DayFromYear y = if leap y then 366 else 365.
Proof.
  unfold DayFromYear, leap.
  destruct (Z.eqb_spec (y mod 4) 0), (Z.eqb_spec (y mod 100) 0), (Z.eqb_spec (y mod 400) 0);
    simpl; Z.div_mod_to_equations; lia.
Qed.

Lemma YearFromDay_spec d :
  DayFromYear (YearFromDay d) <= d < DayFromYear (YearFromDay d + 1).
Proof.
  unfold YearFromDay. set (y := 1970 + 400 * d / 146097).
  assert (Hlo : DayFromYear (y - 1) <= d) by (unfold DayFromYear, y; Z.div_mod_to_equations; lia).
  assert (Hhi : d < DayFromYear (y + 2)) by (unfold DayFromYear, y; Z.div_mod_to_equations; lia).
  destruct (Z.ltb_spec d (DayFromYear y)).
  - replace (y - 1 + 1) with y by lia. lia.
  - destruct (Z.leb_spec (DayFromYear (y + 1)) d); [|lia].
    replace (y + 1 + 1) with (y + 2) by lia. lia.
Qed.

(** Evaluate the closed calendar terms of the goal. *)
Ltac eval_months :=
  repeat match goal with
  | |- context [month_start ?b ?m] =>
      let v := eval vm_compute in (month_start b m) in change (month_start b m) with v
  end.

Lemma month_of_day_spec (lp : bool) (n : Z) :
  0 <= n < (if lp then 366 else 365) →
  0 <= month_of_day lp n <= 11 ∧
  month_start lp (month_of_day lp n) <= n < month_start lp (month_of_day lp n + 1).
Proof.
  intros Hn. unfold month_of_day.
  destruct lp;
    repeat match goal with |- context [?a <? ?b] => destruct (Z.ltb_spec a b) end;
    eval_months; lia.
Qed.

(** The fields [toISOString] prints for day [d], and that they determine it. *)
Lemma day_fields d :
  let y := YearFromDay d in
  let n := d - DayFromYear y in
  let m := month_of_day (leap y) n in
  let dt := n - month_start (leap y) m + 1 in
  0 <= m <= 11 ∧ 1 <= dt <= days_in_month y m ∧ dt <= 31 ∧ MakeDay y m dt = d.
Proof.
  cbv zeta. pose proof (YearFromDay_spec d) as Hy.
  pose proof (days_in_year (YearFromDay d)) as Hl.
  set (y := YearFromDay d) in *. set (n := d - DayFromYear y).
  destruct (month_of_day_spec (leap y) n) as [Hm Hd]; [unfold n; destruct (leap y); lia|].
  assert (Hlen : month_start (leap y) (month_of_day (leap y) n + 1)
      - month_start (leap y) (month_of_day (leap y) n) <= 31).
  { assert (Hc : month_of_day (leap y) n ∈ [0; 1; 2; 3; 4; 5; 6; 7; 8; 9; 10; 11])
      by (rewrite !elem_of_cons; lia).
    revert Hc. generalize (month_of_day (leap y) n). intros m Hc.
    repeat (apply elem_of_cons in Hc as [->|Hc]); [destruct (leap y); eval_months; lia..|].
    by apply not_elem_of_nil in Hc. }
  unfold days_in_month, MakeDay. unfold n in *. lia.
Qed.

(** Years of time values fit the six digits of an expanded year. *)
Lemma YearFromDay_range d : Z.abs d <= 100000000 → -271821 <= YearFromDay d <= 275760.
Proof.
  intros Hd. pose proof (YearFromDay_spec d) as Hy. unfold DayFromYear in Hy.
  Z.div_mod_to_equations. lia.
Qed.

(** ** Printing and reading decimal fields *)

(** Case analysis on a decimal digit. *)
Ltac digit_cases d :=
  let H := fresh in
  assert (H : d = 0 ∨ d = 1 ∨ d = 2 ∨ d = 3 ∨ d = 4 ∨ d = 5 ∨ d = 6 ∨ d = 7 ∨ d = 8 ∨ d = 9) by lia;
  destruct H as [->|[->|[->|[->|[->|[->|[->|[->|[->| ->]]]]]]]]].

Lemma string_app_cons c (s r : string) : String c s +:+ r = String c (s +:+ r).
Proof. reflexivity. Qed.

Lemma digit_val_char d : 0 <= d <= 9 → digit_val (digit_char d) = Some d.
Proof. intros Hd. digit_cases d; reflexivity. Qed.

Lemma read_digits_pad n acc v rest :
  0 <= v < 10 ^ Z.of_nat n →
  read_digits n acc (pad n v +:+ rest) = Some (acc * 10 ^ Z.of_nat n + v, rest).
Proof.
  revert acc v. induction n as [|n IH]; intros acc v Hv.
  - cbn in *. do 2 f_equal. lia.
  - assert (Hp : 10 ^ Z.of_nat (S n) = 10 * 10 ^ Z.of_nat n)
      by (rewrite Nat2Z.inj_succ, Z.pow_succ_r by lia; reflexivity).
    assert (H10 : 0 < 10 ^ Z.of_nat n) by (apply Z.pow_pos_nonneg; lia).
    pose proof (Z.div_mod v (10 ^ Z.of_nat n) ltac:(lia)).
    pose proof (Z.mod_pos_bound v (10 ^ Z.of_nat n) H10).
    assert (Hd : 0 <= v / 10 ^ Z.of_nat n <= 9)
      by (split; [apply Z.div_pos; lia|apply Z.lt_succ_r, Z.div_lt_upper_bound; lia]).
    cbn [pad]. rewrite string_app_cons. cbn [read_digits]. rewrite digit_val_char by exact Hd. cbn.
    rewrite IH by lia. do 2 f_equal. lia.
Qed.

(** A two- or three-digit field in front of the rest of the text. *)
Lemma read_field n v rest :
  0 <= v < 10 ^ Z.of_nat n → read_digits n 0 (pad n v +:+ rest) = Some (v, rest).
Proof. intros Hv. rewrite read_digits_pad by exact Hv. reflexivity. Qed.

Lemma read_char_hit c rest : read_char c (String c rest) = Some rest.
Proof. cbn. rewrite Ascii.eqb_refl. reflexivity. Qed.

Lemma parse_year_iso y rest :
  -999999 <= y <= 999999 → parse_year (iso_year y +:+ rest) = Some (y, rest).
Proof.
  intros Hy. unfold iso_year.
  destruct ((0 <=? y) && (y <=? 9999)) eqn:E.
  - rewrite <- (read_field 4 y rest) by (change (10 ^ Z.of_nat 4) with 10000; lia).
    cbn [pad]. rewrite string_app_cons.
    assert (Hd : 0 <= y / 10 ^ Z.of_nat 3 <= 9)
      by (change (10 ^ Z.of_nat 3) with 1000; Z.div_mod_to_equations; lia).
    revert Hd. generalize (y / 10 ^ Z.of_nat 3). intros d Hd. digit_cases d; reflexivity.
  - destruct (Z.ltb_spec y 0) as [Hn|Hn]; rewrite string_app_cons; cbn [parse_year].
    + rewrite read_field by (change (10 ^ Z.of_nat 6) with 1000000; lia). cbn.
      destruct (Z.eqb_spec (- y) 0); [lia|]. do 2 f_equal. lia.
    + rewrite read_field by (change (10 ^ Z.of_nat 6) with 1000000; lia). reflexivity.
Qed.

(** The clock fields printed for [ms] milliseconds into a day. *)
Lemma parse_clock_print ms rest :
  0 <= ms < msPerDay →
  parse_clock (pad 2 (ms / 3600000) +:+ String ":"%char (pad 2 (ms / 60000 mod 60) +:+ String ":"%char
      (pad 2 (ms / 1000 mod 60) +:+ String "."%char (pad 3 (ms mod 1000) +:+ rest)))) = Some (ms, rest).
Proof.
  unfold msPerDay. intros Hms. unfold parse_clock.
  assert (0 <= ms / 3600000 <= 23) by (Z.div_mod_to_equations; lia).
  assert (0 <= ms / 60000 mod 60 <= 59) by (Z.div_mod_to_equations; lia).
  assert (0 <= ms / 1000 mod 60 <= 59) by (Z.div_mod_to_equations; lia).
  assert (0 <= ms mod 1000 <= 999) by (Z.div_mod_to_equations; lia).
  repeat (rewrite read_field by (cbn; lia); cbn [mbind option_bind]; try rewrite read_char_hit;
          cbn [mbind option_bind]).
  repeat match goal with |- context [?a <=? ?b] => destruct (Z.leb_spec a b); [|lia] end.
  cbn. do 2 f_equal. unfold MakeTime. Z.div_mod_to_equations; lia.
Qed.

(** [parse_iso] inverts [toISOString] on every day of the time-value range. *)
Lemma parse_iso_toISOString t :
  Z.abs t <= maxTime → parse_iso (toISOString t) = Some (t, Fixed 0).
Proof.
  unfold maxTime. intros Ht. unfold parse_iso, toISOString.
  assert (Hd : Z.abs (t / msPerDay) <= 100000000) by (unfold msPerDay; Z.div_mod_to_equations; lia).
  pose proof (YearFromDay_range _ Hd) as Hyr.
  pose proof (day_fields (t / msPerDay)) as (Hm & Hdt & Hdt31 & Hmk).
  set (y := YearFromDay (t / msPerDay)) in *.
  set (m := month_of_day (leap y) (t / msPerDay - DayFromYear y)) in *.
  set (dt := t / msPerDay - DayFromYear y - month_start (leap y) m + 1) in *.
  rewrite parse_year_iso by lia. cbn [mbind option_bind]. unfold parse_month_day.
  rewrite read_char_hit, read_field by (cbn; lia). cbn [mbind option_bind].
  rewrite read_char_hit, read_field by (cbn; lia). cbn [mbind option_bind].
  replace (m + 1 - 1) with m by lia.
  repeat match goal with |- context [?a <=? ?b] => destruct (Z.leb_spec a b); [|lia] end.
  cbn [andb]. rewrite bool_decide_eq_false_2 by discriminate.
  rewrite read_char_hit. cbn [mbind option_bind].
  rewrite parse_clock_print by (unfold msPerDay; Z.div_mod_to_equations; lia).
  cbn. rewrite Hmk. do 2 f_equal. unfold msPerDay. Z.div_mod_to_equations; lia.
Qed.

Lemma TimeClip_Some t t' : TimeClip t = Some t' ↔ t' = t ∧ Z.abs t <= maxTime.
Proof. unfold TimeClip. destruct (Z.leb_spec (Z.abs t) maxTime); naive_solver lia. Qed.

Lemma TimeClip_None t : TimeClip t = None ↔ maxTime < Z.abs t.
Proof. unfold TimeClip. destruct (Z.leb_spec (Z.abs t) maxTime); naive_solver lia. Qed.

Lemma Date_parse_canonical `{Platform} t :
  Z.abs t <= maxTime → Date_parse (toISOString t) = Some t.
Proof.
  intros Ht. unfold Date_parse. rewrite parse_iso_toISOString by exact Ht.
  apply TimeClip_Some. lia.
Qed.

(** ** Adding a duration *)

Section Add.
Context `{Platform}.

Lemma add_Ok ts d s :
  addMillisecondsToTimestamp ts d = Ok s ↔
  ∃ t, Date_parse ts = Some t ∧ Z.abs (t + d) <= maxTime ∧ s = toISOString (t + d).
Proof.
  unfold addMillisecondsToTimestamp. destruct (Date_parse ts) as [t|]; simpl; [|naive_solver].
  destruct (TimeClip (t + d)) as [c|] eqn:E.
  - apply TimeClip_Some in E as [-> ?]. naive_solver.
  - apply TimeClip_None in E. split; [done|]. intros (? & [= <-] & ? & _). lia.
Qed.

Lemma add_Throw ts d e :
  addMillisecondsToTimestamp ts d = Throw e ↔
  e = RangeError "Invalid time value" ∧
  (Date_parse ts = None ∨ ∃ t, Date_parse ts = Some t ∧ maxTime < Z.abs (t + d)).
Proof.
  unfold addMillisecondsToTimestamp. destruct (Date_parse ts) as [t|]; simpl; [|naive_solver].
  destruct (TimeClip (t + d)) as [c|] eqn:E.
  - apply TimeClip_Some in E as [-> ?]. split; [done|]. intros (_ & [?|(? & [= <-] & ?)]); [done|lia].
  - apply TimeClip_None in E. naive_solver.
Qed.

(** C34: Reading back the timestamp the code writes gives the instant the old
    timestamp and the duration stand for, so durations accumulate: adding [d]
    and then [e] is adding [d + e], errors included.  Durations are whole
    milliseconds. *)
Theorem add_timestamp_accumulates ts d e s :
  addMillisecondsToTimestamp ts d = Ok s →
  Date_parse s = (Z.add d) <$> Date_parse ts ∧
  addMillisecondsToTimestamp s e = addMillisecondsToTimestamp ts (d + e).
Proof.
  intros (t & Ht & Hr & ->)%add_Ok. rewrite Ht. unfold addMillisecondsToTimestamp.
  rewrite Date_parse_canonical, Ht by done. simpl.
  split; [f_equal; lia|]. by rewrite Z.add_assoc.
Qed.

End Add.

Lemma add_timestamp_accumulates_witness :
  addMillisecondsToTimestamp (H:=utc_platform) "2024-02-29T23:59:59.000Z" 1500 = Ok "2024-03-01T00:00:00.500Z" ∧
  addMillisecondsToTimestamp (H:=utc_platform) "2024-03-01T00:00:00.500Z" 86400000 =
  addMillisecondsToTimestamp (H:=utc_platform) "2024-02-29T23:59:59.000Z" (1500 + 86400000).
Proof.
  assert (addMillisecondsToTimestamp (H:=utc_platform) "2024-02-29T23:59:59.000Z" 1500
          = Ok "2024-03-01T00:00:00.500Z") as Ha by (vm_compute; reflexivity).
  split; [exact Ha|].
  exact (proj2 (@add_timestamp_accumulates utc_platform _ _ 86400000 _ Ha)).
Defined.

(** Printing and parsing are inverse on the whole range of time values: the
    canonical timestamp of an instant parses to that instant, whatever the
    engine's time zone and extensions. *)
Lemma timestamp_roundtrip `{Platform} t :
  Z.abs t <= maxTime → Date_parse (toISOString t) = Some t.
Proof. apply Date_parse_canonical. Qed.
