(* ===== verification/CommonState.v ===== *)
(** * Types shared by the channels: types/common/state.ts, and the leaf types of
    the root and session channels that the chat channel uses

    An interface is a record, a string-literal enumeration or a discriminated
    union an inductive type (the discriminating property is the constructor), an
    optional property an [option].  Field [f] of an interface is written
    [prefix_f], the prefix being the interface's name or, for the interfaces the
    reducers update, a short form of it ([ChatState]: [cs], [ActiveTurn]: [at],
    ...).  An interface the record extends is its [base], [params], [post],
    [result] or [ref] field. *)

From S2P Require Import Prelude JsNumber.
Local Open Scope Z_scope.

(** [URI]: types/common/state.ts:24. *)
Abbreviation URI := string.

(** [ChannelReceiveLimits]: types/common/state.ts:42-65. *)
Record ChannelReceiveLimits := mkChannelReceiveLimits {
  ChannelReceiveLimits_windowBytes : Z;
  ChannelReceiveLimits_maximumFrameBytes : Z
}.

(** [ChannelFlowControl]: types/common/state.ts:77-82. *)
Record ChannelFlowControl := mkChannelFlowControl {
  ChannelFlowControl_clientReceive : ChannelReceiveLimits;
  ChannelFlowControl_hostReceive : ChannelReceiveLimits
}.

(** [ChannelRecoveryKind]: types/common/state.ts:93-100. *)
Inductive ChannelRecoveryKind :=
| ChannelRecoveryKind_Snapshot
| ChannelRecoveryKind_Replay
| ChannelRecoveryKind_Live.
#[export] Instance ChannelRecoveryKind_eq_dec : EqDecision ChannelRecoveryKind.
Proof. solve_decision. Defined.

(** [ResumedChannelSubscription]: types/common/state.ts:114-125. *)
Record ResumedChannelSubscription := mkResumedChannelSubscription {
  ResumedChannelSubscription_channel : URI;
  ResumedChannelSubscription_flowControl : ChannelFlowControl;
  ResumedChannelSubscription_recovery : ChannelRecoveryKind
}.

(** [StringOrMarkdown]: types/common/state.ts:133. *)
Inductive StringOrMarkdown :=
| PlainString (s : string)
| Markdown (markdown : string).

(** [JsonPrimitive]: types/common/state.ts:136. *)
Inductive JsonPrimitive :=
| JsonPrimitive_string (s : string)
| JsonPrimitive_number (n : float64)
| JsonPrimitive_boolean (b : bool)
| JsonPrimitive_null.

(** The literal type of [Icon.theme]: types/common/state.ts:145-180. *)
Inductive IconTheme := IconTheme_light | IconTheme_dark.

(** [Icon]: types/common/state.ts:145-180. *)
Record Icon := mkIcon {
  Icon_src : URI;
  Icon_contentType : option string;
  Icon_sizes : option (list string);
  Icon_theme : option IconTheme
}.

(** [ProtectedResourceMetadata]: types/common/state.ts:194-240. *)
Record ProtectedResourceMetadata := mkProtectedResourceMetadata {
  ProtectedResourceMetadata_resource : string;
  ProtectedResourceMetadata_resource_name : option string;
  ProtectedResourceMetadata_authorization_servers : option (list string);
  ProtectedResourceMetadata_jwks_uri : option string;
  ProtectedResourceMetadata_scopes_supported : option (list string);
  ProtectedResourceMetadata_bearer_methods_supported : option (list string);
  ProtectedResourceMetadata_resource_signing_alg_values_supported : option (list string);
  ProtectedResourceMetadata_resource_documentation : option string;
  ProtectedResourceMetadata_resource_policy_uri : option string;
  ProtectedResourceMetadata_resource_tos_uri : option string;
  ProtectedResourceMetadata_required : option bool
}.

(** [ConfigPropertySchema]: types/common/state.ts:257-296.  The interface refers
    to itself through [items], [properties] and [additionalProperties], hence an
    inductive with one constructor; [properties] keeps the declaration order. *)
Inductive ConfigPropertyType :=
| ConfigProperty_string
| ConfigProperty_number
| ConfigProperty_boolean
| ConfigProperty_array
| ConfigProperty_object.
Inductive ConfigPropertySchema := mkConfigPropertySchema
  (type : ConfigPropertyType)
  (title : string)
  (description : option string)
  (default : option json)
  (enum : option (list JsonPrimitive))
  (enumLabels : option (list string))
  (enumDescriptions : option (list string))
  (readOnly : option bool)
  (items : option ConfigPropertySchema)
  (minItems : option Z)
  (maxItems : option Z)
  (properties : option (list (string * ConfigPropertySchema)))
  (required : option (list string))
  (additionalProperties : option ConfigPropertySchema).

(** [ConfigSchema]: types/common/state.ts:306-313. *)
Record ConfigSchema := mkConfigSchema {
  ConfigSchema_properties : list (string * ConfigPropertySchema);
  ConfigSchema_required : option (list string)
}.

(** [TextPosition]: types/common/state.ts:322-327. *)
Record TextPosition := mkTextPosition {
  TextPosition_line : Z;
  TextPosition_character : Z
}.

(** [TextRange]: types/common/state.ts:334-339. *)
Record TextRange := mkTextRange {
  TextRange_start : TextPosition;
  TextRange_end : TextPosition
}.

(** [TextSelection]: types/common/state.ts:350-353. *)
Record TextSelection := mkTextSelection {
  TextSelection_range : TextRange
}.

(** [ContentRef]: types/common/state.ts:360-369. *)
Record ContentRef := mkContentRef {
  cref_uri : URI;
  cref_sizeHint : option Z;
  cref_contentType : option string;
  cref_nonce : option string
}.

(** [FileEditSide]: types/common/state.ts:373-378. *)
Record FileEditSide := mkFileEditSide {
  FileEditSide_uri : URI;
  FileEditSide_content : ContentRef
}.

(** [FileEditDiffStats]: types/common/state.ts:380-385. *)
Record FileEditDiffStats := mkFileEditDiffStats {
  FileEditDiffStats_added : option Z;
  FileEditDiffStats_removed : option Z
}.

(** [FileEdit]: types/common/state.ts:395-402. *)
Record FileEdit := mkFileEdit {
  FileEdit_before : option FileEditSide;
  FileEdit_after : option FileEditSide;
  FileEdit_diff : option FileEditDiffStats
}.

(** [FileEditCollection]: types/common/state.ts:404-406. *)
Record FileEditCollection := mkFileEditCollection {
  FileEditCollection_items : list FileEdit
}.

(** [UsageInfo]: types/common/state.ts:413-427. *)
Record UsageInfo := mkUsageInfo {
  ui_inputTokens : option Z;
  ui_outputTokens : option Z;
  ui_model : option string;
  ui_cacheReadTokens : option Z;
  ui_meta : option Meta
}.

(** [ErrorInfo]: types/common/state.ts:432-445. *)
Record ErrorInfo := mkErrorInfo {
  ei_errorType : string;
  ei_message : string;
  ei_stack : option string;
  ei_meta : option Meta
}.

(** [McpAuthRequiredReason]: types/channels-session/state.ts:1373-1397. *)
Inductive McpAuthRequiredReason :=
| McpAuthRequiredReason_Required
| McpAuthRequiredReason_Expired
| McpAuthRequiredReason_InsufficientScope.
#[export] Instance McpAuthRequiredReason_eq_dec : EqDecision McpAuthRequiredReason.
Proof. solve_decision. Defined.

(** [McpOAuthClient]: types/channels-session/state.ts:1434-1442. *)
Record McpOAuthClient := mkMcpOAuthClient {
  McpOAuthClient_clientId : string;
  McpOAuthClient_clientSecret : option string
}.

(** [McpAuthRequirement]: types/channels-session/state.ts:1465-1490. *)
Record McpAuthRequirement := mkMcpAuthRequirement {
  McpAuthRequirement_reason : McpAuthRequiredReason;
  McpAuthRequirement_oauthClient : option McpOAuthClient;
  McpAuthRequirement_resource : ProtectedResourceMetadata;
  McpAuthRequirement_requiredScopes : option (list string);
  McpAuthRequirement_description : option string
}.

(** [ModelSelection]: types/channels-root/state.ts:250-259. *)
Record ModelSelection := mkModelSelection {
  ModelSelection_id : string;
  ModelSelection_config : option (gmap string JsonPrimitive)
}.

(** [SessionConfigPropertySchema]: types/channels-session/state.ts:620-635. *)
Record SessionConfigPropertySchema := mkSessionConfigPropertySchema {
  SessionConfigPropertySchema_property : ConfigPropertySchema;
  SessionConfigPropertySchema_enumDynamic : option bool;
  SessionConfigPropertySchema_sessionMutable : option bool;
  SessionConfigPropertySchema_chatMutable : option bool
}.

(** [SessionConfigSchema]: types/channels-session/state.ts:642-649. *)
Record SessionConfigSchema := mkSessionConfigSchema {
  SessionConfigSchema_properties : list (string * SessionConfigPropertySchema);
  SessionConfigSchema_required : option (list string)
}.

(** [AgentSelection]: types/channels-session/state.ts:605-608. *)
Record AgentSelection := mkAgentSelection {
  AgentSelection_uri : URI
}.

(** [SessionStatus]: types/channels-session/state.ts:55-68, a bit set held in a
    JavaScript number.  Hosts may set bits this enumeration does not name. *)
Definition SessionStatus : Type := Z.
Module SessionStatus.
Definition Idle : SessionStatus := 1.
Definition Error : SessionStatus := shl32 1 1.
Definition InProgress : SessionStatus := shl32 1 3.
Definition InputNeeded : SessionStatus := or32 (shl32 1 3) (shl32 1 4).
Definition IsRead : SessionStatus := shl32 1 5.
Definition IsArchived : SessionStatus := shl32 1 6.
End SessionStatus.

(** [ChangesSummary]: types/channels-session/state.ts:582-589. *)
Record ChangesSummary := mkChangesSummary {
  ChangesSummary_additions : option Z;
  ChangesSummary_deletions : option Z;
  ChangesSummary_files : option Z
}.

