(* ===== verification/Terminal.v ===== *)
(** * The terminal channel: types/channels-terminal/ *)

From S2P Require Import Prelude ReducerHelpers JsNumber CommonState.
Local Open Scope Z_scope.

(** [TerminalRunningLifecycleState]: types/channels-terminal/state.ts:46-48. *)
Record TerminalRunningLifecycleState := mkTerminalRunningLifecycleState { }.

(** [TerminalExitedLifecycleState]: types/channels-terminal/state.ts:55-59. *)
Record TerminalExitedLifecycleState := mkTerminalExitedLifecycleState {
  TerminalExitedLifecycleState_exitCode : option Z
}.

(** [TerminalLifecycleState]: types/channels-terminal/state.ts:66-68. *)
Inductive TerminalLifecycleState :=
| TerminalLifecycleState_Running (x : TerminalRunningLifecycleState)
| TerminalLifecycleState_Exited (x : TerminalExitedLifecycleState).

(** [TerminalClientClaim]: types/channels-terminal/state.ts:86-91. *)
Record TerminalClientClaim := mkTerminalClientClaim {
  TerminalClientClaim_clientId : string
}.

(** [TerminalSessionClaim]: types/channels-terminal/state.ts:98-109. *)
Record TerminalSessionClaim := mkTerminalSessionClaim {
  TerminalSessionClaim_session : URI;
  TerminalSessionClaim_chat : URI;
  TerminalSessionClaim_turnId : option string;
  TerminalSessionClaim_toolCallId : option string
}.

(** [TerminalClaim]: types/channels-terminal/state.ts:117-117. *)
Inductive TerminalClaim :=
| TerminalClaim_Client (x : TerminalClientClaim)
| TerminalClaim_Session (x : TerminalSessionClaim).

(** [TerminalInfo]: types/channels-terminal/state.ts:19-28. *)
Record TerminalInfo := mkTerminalInfo {
  TerminalInfo_resource : URI;
  TerminalInfo_title : string;
  TerminalInfo_claim : TerminalClaim;
  TerminalInfo_lifecycle : TerminalLifecycleState
}.

(** [TerminalUnclassifiedPart]: types/channels-terminal/state.ts:180-184. *)
Record TerminalUnclassifiedPart := mkTerminalUnclassifiedPart {
  tup_value : string
}.
#[export] Instance eta_TerminalUnclassifiedPart : Eta TerminalUnclassifiedPart :=
  λ r, mkTerminalUnclassifiedPart r.(tup_value).

(** [TerminalCommandPart]: types/channels-terminal/state.ts:195-217. *)
Record TerminalCommandPart := mkTerminalCommandPart {
  tcmd_commandId : string;
  tcmd_commandLine : string;
  tcmd_output : string;
  tcmd_timestamp : Z;
  tcmd_isComplete : bool;
  tcmd_exitCode : option Z;
  tcmd_durationMs : option Z
}.
#[export] Instance eta_TerminalCommandPart : Eta TerminalCommandPart :=
  λ r, mkTerminalCommandPart 
    r.(tcmd_commandId) r.(tcmd_commandLine) r.(tcmd_output) r.(tcmd_timestamp)
    r.(tcmd_isComplete) r.(tcmd_exitCode) r.(tcmd_durationMs).

(** [TerminalContentPart]: types/channels-terminal/state.ts:170-172. *)
Inductive TerminalContentPart :=
| TerminalContentPart_unclassified (x : TerminalUnclassifiedPart)
| TerminalContentPart_command (x : TerminalCommandPart).

(** [TerminalState]: types/channels-terminal/state.ts:124-161. *)
Record TerminalState := mkTerminalState {
  ts_title : string;
  ts_cwd : option URI;
  ts_cols : option Z;
  ts_rows : option Z;
  ts_content : list TerminalContentPart;
  ts_lifecycle : TerminalLifecycleState;
  ts_claim : TerminalClaim;
  ts_supportsCommandDetection : option bool;
  ts_isPty : option bool
}.
#[export] Instance eta_TerminalState : Eta TerminalState :=
  λ r, mkTerminalState 
    r.(ts_title) r.(ts_cwd) r.(ts_cols) r.(ts_rows) r.(ts_content) r.(ts_lifecycle) r.(ts_claim)
    r.(ts_supportsCommandDetection) r.(ts_isPty).

(** [TerminalDataAction]: types/channels-terminal/actions.ts:28-32. *)
Record TerminalDataAction := mkTerminalDataAction {
  TerminalData_data : string
}.

(** [TerminalInputAction]: types/channels-terminal/actions.ts:47-51. *)
Record TerminalInputAction := mkTerminalInputAction {
  TerminalInput_data : string
}.

(** [TerminalResizedAction]: types/channels-terminal/actions.ts:63-69. *)
Record TerminalResizedAction := mkTerminalResizedAction {
  TerminalResized_cols : Z;
  TerminalResized_rows : Z
}.

(** [TerminalClaimedAction]: types/channels-terminal/actions.ts:81-85. *)
Record TerminalClaimedAction := mkTerminalClaimedAction {
  TerminalClaimed_claim : TerminalClaim
}.

(** [TerminalTitleChangedAction]: types/channels-terminal/actions.ts:97-101. *)
Record TerminalTitleChangedAction := mkTerminalTitleChangedAction {
  TerminalTitleChanged_title : string
}.

(** [TerminalCwdChangedAction]: types/channels-terminal/actions.ts:109-113. *)
Record TerminalCwdChangedAction := mkTerminalCwdChangedAction {
  TerminalCwdChanged_cwd : URI
}.

(** [TerminalExitedAction]: types/channels-terminal/actions.ts:121-125. *)
Record TerminalExitedAction := mkTerminalExitedAction {
  TerminalExited_exitCode : option Z
}.

(** [TerminalClearedAction]: types/channels-terminal/actions.ts:134-136. *)
Record TerminalClearedAction := mkTerminalClearedAction { }.

(** [TerminalCommandDetectionAvailableAction]: types/channels-terminal/actions.ts:149-151. *)
Record TerminalCommandDetectionAvailableAction := mkTerminalCommandDetectionAvailableAction { }.

(** [TerminalCommandExecutedAction]: types/channels-terminal/actions.ts:161-175. *)
Record TerminalCommandExecutedAction := mkTerminalCommandExecutedAction {
  TerminalCommandExecuted_commandId : string;
  TerminalCommandExecuted_commandLine : string;
  TerminalCommandExecuted_timestamp : Z
}.

(** [TerminalCommandFinishedAction]: types/channels-terminal/actions.ts:187-198. *)
Record TerminalCommandFinishedAction := mkTerminalCommandFinishedAction {
  TerminalCommandFinished_commandId : string;
  TerminalCommandFinished_exitCode : option Z;
  TerminalCommandFinished_durationMs : option Z
}.

(** [TerminalAction]: types/action-origin.generated.ts:318-330.  The last constructor is any
    action whose [type] this version does not know, given by its
    [JSON.stringify] text. *)
Inductive TerminalAction :=
| TerminalData (a : TerminalDataAction)
| TerminalInput (a : TerminalInputAction)
| TerminalResized (a : TerminalResizedAction)
| TerminalClaimed (a : TerminalClaimedAction)
| TerminalTitleChanged (a : TerminalTitleChangedAction)
| TerminalCwdChanged (a : TerminalCwdChangedAction)
| TerminalExited (a : TerminalExitedAction)
| TerminalCleared (a : TerminalClearedAction)
| TerminalCommandDetectionAvailable (a : TerminalCommandDetectionAvailableAction)
| TerminalCommandExecuted (a : TerminalCommandExecutedAction)
| TerminalCommandFinished (a : TerminalCommandFinishedAction)
| UnknownTerminalAction (stringified : string).

(** ** The reducer: types/channels-terminal/reducer.ts *)

Definition append_output (part : TerminalContentPart) (data : string) : option TerminalContentPart :=
  match part with
  | TerminalContentPart_command p =>
      if p.(tcmd_isComplete) then None
      else Some (TerminalContentPart_command (p <| tcmd_output := p.(tcmd_output) +:+ data |>))
  | TerminalContentPart_unclassified p =>
      Some (TerminalContentPart_unclassified (p <| tup_value := p.(tup_value) +:+ data |>))
  end.

(** [TerminalData]: extend the tail part in place, or push a new one. *)
Definition append_data (content : list TerminalContentPart) (data : string) :
    list TerminalContentPart :=
  match last content ≫= (λ tail, append_output tail data) with
  | Some tail => <[(length content - 1)%nat := tail]> content
  | None => content ++ [TerminalContentPart_unclassified (mkTerminalUnclassifiedPart data)]
  end.

Definition finish_command (action : TerminalCommandFinishedAction) (p : TerminalContentPart) :
    TerminalContentPart :=
  match p with
  | TerminalContentPart_command c =>
      if c.(tcmd_commandId) =?s action.(TerminalCommandFinished_commandId) then
        TerminalContentPart_command
          (c <| tcmd_isComplete := true |>
             <| tcmd_exitCode := action.(TerminalCommandFinished_exitCode) |>
             <| tcmd_durationMs := action.(TerminalCommandFinished_durationMs) |>)
      else p
  | TerminalContentPart_unclassified _ => p
  end.

Definition terminalReducer (state : TerminalState) (action : TerminalAction) : Logged TerminalState :=
  match action with
  | TerminalData a =>
      mret (state <| ts_content := append_data state.(ts_content) a.(TerminalData_data) |>)
  | TerminalInput _ => mret state
  | TerminalResized a =>
      mret (state <| ts_cols := Some a.(TerminalResized_cols) |>
                  <| ts_rows := Some a.(TerminalResized_rows) |>)
  | TerminalClaimed a => mret (state <| ts_claim := a.(TerminalClaimed_claim) |>)
  | TerminalTitleChanged a => mret (state <| ts_title := a.(TerminalTitleChanged_title) |>)
  | TerminalCwdChanged a => mret (state <| ts_cwd := Some a.(TerminalCwdChanged_cwd) |>)
  | TerminalExited a =>
      mret (state <| ts_lifecycle := TerminalLifecycleState_Exited
        (mkTerminalExitedLifecycleState a.(TerminalExited_exitCode)) |>)
  | TerminalCleared _ => mret (state <| ts_content := [] |>)
  | TerminalCommandDetectionAvailable _ =>
      mret (state <| ts_supportsCommandDetection := Some true |>)
  | TerminalCommandExecuted a =>
      let part :=
        TerminalContentPart_command (mkTerminalCommandPart a.(TerminalCommandExecuted_commandId)
          a.(TerminalCommandExecuted_commandLine) "" a.(TerminalCommandExecuted_timestamp)
          false None None) in
      mret (state <| ts_content := state.(ts_content) ++ [part] |>
                  <| ts_supportsCommandDetection := Some true |>)
  | TerminalCommandFinished a =>
      mret (state <| ts_content := map (finish_command a) state.(ts_content) |>)
  | UnknownTerminalAction stringified => _ ← softAssertNever stringified; mret state
  end.
