(* ===== verification/Changeset.v ===== *)
(** * The changeset channel: types/channels-changeset/ *)

From S2P Require Import Prelude ReducerHelpers JsNumber CommonState.
Local Open Scope Z_scope.

(** [ChangesetCapabilities]: types/channels-changeset/state.ts:91-100. *)
Record ChangesetCapabilities := mkChangesetCapabilities {
  ChangesetCapabilities_review : option unit
}.

(** [Changeset]: types/channels-changeset/state.ts:25-79. *)
Record Changeset := mkChangeset {
  Changeset_label : string;
  Changeset_uriTemplate : string;
  Changeset_description : option string;
  Changeset_changeKind : string;
  Changeset_capabilities : option ChangesetCapabilities
}.

(** [ChangesetStatus]: types/channels-changeset/state.ts:108-124. *)
Inductive ChangesetStatus :=
| ChangesetStatus_Computing
| ChangesetStatus_Recomputing
| ChangesetStatus_Ready
| ChangesetStatus_Error.
#[export] Instance ChangesetStatus_eq_dec : EqDecision ChangesetStatus.
Proof. solve_decision. Defined.

(** [ChangesetFile]: types/channels-changeset/state.ts:156-202. *)
Record ChangesetFile := mkChangesetFile {
  chf_id : string;
  chf_edit : FileEdit;
  chf_reviewed : option bool;
  chf_meta : option Meta;
  chf_nonce : option string;
  chf_isEditing : option bool
}.
#[export] Instance eta_ChangesetFile : Eta ChangesetFile :=
  λ r, mkChangesetFile r.(chf_id) r.(chf_edit) r.(chf_reviewed) r.(chf_meta) r.(chf_nonce) r.(chf_isEditing).

(** [ChangesetOperationStatus]: types/channels-changeset/state.ts:215-232. *)
Inductive ChangesetOperationStatus :=
| ChangesetOperationStatus_Idle
| ChangesetOperationStatus_Running
| ChangesetOperationStatus_Error
| ChangesetOperationStatus_Disabled.
#[export] Instance ChangesetOperationStatus_eq_dec : EqDecision ChangesetOperationStatus.
Proof. solve_decision. Defined.

(** [ChangesetOperationScope]: types/channels-changeset/state.ts:240-247. *)
Inductive ChangesetOperationScope :=
| ChangesetOperationScope_Changeset
| ChangesetOperationScope_Resource
| ChangesetOperationScope_Range.
#[export] Instance ChangesetOperationScope_eq_dec : EqDecision ChangesetOperationScope.
Proof. solve_decision. Defined.

(** [ChangesetOperation]: types/channels-changeset/state.ts:259-298. *)
Record ChangesetOperation := mkChangesetOperation {
  cho_id : string;
  cho_label : string;
  cho_description : option string;
  cho_scopes : list ChangesetOperationScope;
  cho_confirmation : option StringOrMarkdown;
  cho_icon : option string;
  cho_group : option string;
  cho_status : ChangesetOperationStatus;
  cho_error : option ErrorInfo
}.
#[export] Instance eta_ChangesetOperation : Eta ChangesetOperation :=
  λ r, mkChangesetOperation 
    r.(cho_id) r.(cho_label) r.(cho_description) r.(cho_scopes) r.(cho_confirmation)
    r.(cho_icon) r.(cho_group) r.(cho_status) r.(cho_error).

(** [ChangesetState]: types/channels-changeset/state.ts:137-149. *)
Record ChangesetState := mkChangesetState {
  chs_status : ChangesetStatus;
  chs_error : option ErrorInfo;
  chs_files : list ChangesetFile;
  chs_operations : option (list ChangesetOperation)
}.
#[export] Instance eta_ChangesetState : Eta ChangesetState :=
  λ r, mkChangesetState r.(chs_status) r.(chs_error) r.(chs_files) r.(chs_operations).

(** [ChangesetStatusChangedAction]: types/channels-changeset/actions.ts:25-31. *)
Record ChangesetStatusChangedAction := mkChangesetStatusChangedAction {
  ChangesetStatusChanged_status : ChangesetStatus;
  ChangesetStatusChanged_error : option ErrorInfo
}.

(** [ChangesetFileSetAction]: types/channels-changeset/actions.ts:40-44. *)
Record ChangesetFileSetAction := mkChangesetFileSetAction {
  ChangesetFileSet_file : ChangesetFile
}.

(** [ChangesetFileRemovedAction]: types/channels-changeset/actions.ts:55-59. *)
Record ChangesetFileRemovedAction := mkChangesetFileRemovedAction {
  ChangesetFileRemoved_fileId : string
}.

(** [ChangesetFilesReviewChangedAction]: types/channels-changeset/actions.ts:89-95. *)
Record ChangesetFilesReviewChangedAction := mkChangesetFilesReviewChangedAction {
  ChangesetFilesReviewChanged_files : list string;
  ChangesetFilesReviewChanged_reviewed : bool
}.

(** [ChangesetContentChangedAction]: types/channels-changeset/actions.ts:109-115. *)
Record ChangesetContentChangedAction := mkChangesetContentChangedAction {
  ChangesetContentChanged_files : list ChangesetFile;
  ChangesetContentChanged_operations : option (list ChangesetOperation)
}.

(** [ChangesetOperationsChangedAction]: types/channels-changeset/actions.ts:125-129. *)
Record ChangesetOperationsChangedAction := mkChangesetOperationsChangedAction {
  ChangesetOperationsChanged_operations : option (list ChangesetOperation)
}.

(** [ChangesetOperationStatusChangedAction]: types/channels-changeset/actions.ts:146-154. *)
Record ChangesetOperationStatusChangedAction := mkChangesetOperationStatusChangedAction {
  ChangesetOperationStatusChanged_operationId : string;
  ChangesetOperationStatusChanged_status : ChangesetOperationStatus;
  ChangesetOperationStatusChanged_error : option ErrorInfo
}.

(** [ChangesetClearedAction]: types/channels-changeset/actions.ts:175-177. *)
Record ChangesetClearedAction := mkChangesetClearedAction { }.

(** [ChangesetAction]: types/action-origin.generated.ts:352-361.  The last constructor is any
    action whose [type] this version does not know, given by its
    [JSON.stringify] text. *)
Inductive ChangesetAction :=
| ChangesetStatusChanged (a : ChangesetStatusChangedAction)
| ChangesetFileSet (a : ChangesetFileSetAction)
| ChangesetFileRemoved (a : ChangesetFileRemovedAction)
| ChangesetFilesReviewChanged (a : ChangesetFilesReviewChangedAction)
| ChangesetContentChanged (a : ChangesetContentChangedAction)
| ChangesetOperationsChanged (a : ChangesetOperationsChangedAction)
| ChangesetOperationStatusChanged (a : ChangesetOperationStatusChangedAction)
| ChangesetCleared (a : ChangesetClearedAction)
| UnknownChangesetAction (stringified : string).

(** ** The reducer: types/channels-changeset/reducer.ts *)

#[export] Instance keyed_file : Keyed ChangesetFile := chf_id.
#[export] Instance keyed_operation : Keyed ChangesetOperation := cho_id.

Definition on_ChangesetStatusChanged (state : ChangesetState)
    (action : ChangesetStatusChangedAction) : ChangesetState :=
  match action.(ChangesetStatusChanged_status) with
  | ChangesetStatus_Error =>
      state <| chs_status := ChangesetStatus_Error |>
            <| chs_error := action.(ChangesetStatusChanged_error) |>
  | status => state <| chs_error := None |> <| chs_status := status |>
  end.

Definition on_ChangesetFileSet (state : ChangesetState) (action : ChangesetFileSetAction) :
    ChangesetState :=
  let file := action.(ChangesetFileSet_file) in
  state <| chs_files := upsert (has_key (key_of file)) file state.(chs_files) |>.

Definition on_ChangesetFileRemoved (state : ChangesetState) (action : ChangesetFileRemovedAction) :
    ChangesetState :=
  match removeFirst (has_key action.(ChangesetFileRemoved_fileId)) state.(chs_files) with
  | None => state
  | Some next => state <| chs_files := next |>
  end.

(** The [map] callback of the batch review: whether it changed the file, and the file. *)
Definition review_file (ids : list string) (reviewed : bool) (f : ChangesetFile) :
    bool * ChangesetFile :=
  if negb (includes ids f.(chf_id)) || bool_decide (f.(chf_reviewed) = Some reviewed)
  then (false, f) else (true, f <| chf_reviewed := Some reviewed |>).

Definition on_ChangesetFilesReviewChanged (state : ChangesetState)
    (action : ChangesetFilesReviewChangedAction) : ChangesetState :=
  let next :=
    map (review_file action.(ChangesetFilesReviewChanged_files)
           action.(ChangesetFilesReviewChanged_reviewed)) state.(chs_files) in
  if existsb fst next then state <| chs_files := map snd next |> else state.

Definition on_ChangesetContentChanged (state : ChangesetState)
    (action : ChangesetContentChangedAction) : ChangesetState :=
  match action.(ChangesetContentChanged_operations) with
  | None => state <| chs_files := action.(ChangesetContentChanged_files) |>
  | Some operations =>
      state <| chs_files := action.(ChangesetContentChanged_files) |>
            <| chs_operations := Some operations |>
  end.

Definition set_operation_status (current : ChangesetOperation)
    (action : ChangesetOperationStatusChangedAction) : ChangesetOperation :=
  match action.(ChangesetOperationStatusChanged_status) with
  | ChangesetOperationStatus_Error =>
      current <| cho_status := ChangesetOperationStatus_Error |>
              <| cho_error := action.(ChangesetOperationStatusChanged_error) |>
  | status => current <| cho_error := None |> <| cho_status := status |>
  end.

Definition on_ChangesetOperationStatusChanged (state : ChangesetState)
    (action : ChangesetOperationStatusChangedAction) : ChangesetState :=
  match state.(chs_operations) with
  | None => state
  | Some operations =>
      match findIndex (has_key action.(ChangesetOperationStatusChanged_operationId)) operations with
      | None => state
      | Some idx =>
          match operations !! idx with
          | None => state
          | Some current =>
              state <| chs_operations :=
                Some (<[idx := set_operation_status current action]> operations) |>
          end
      end
  end.

Definition changesetReducer (state : ChangesetState) (action : ChangesetAction) :
    Logged ChangesetState :=
  match action with
  | ChangesetStatusChanged a => mret (on_ChangesetStatusChanged state a)
  | ChangesetFileSet a => mret (on_ChangesetFileSet state a)
  | ChangesetFileRemoved a => mret (on_ChangesetFileRemoved state a)
  | ChangesetFilesReviewChanged a => mret (on_ChangesetFilesReviewChanged state a)
  | ChangesetContentChanged a => mret (on_ChangesetContentChanged state a)
  | ChangesetOperationsChanged a =>
      mret (state <| chs_operations := a.(ChangesetOperationsChanged_operations) |>)
  | ChangesetOperationStatusChanged a => mret (on_ChangesetOperationStatusChanged state a)
  | ChangesetCleared _ =>
      mret (match state.(chs_files) with [] => state | _ => state <| chs_files := [] |> end)
  | UnknownChangesetAction stringified => _ ← softAssertNever stringified; mret state
  end.
