(* ===== verification/Annotations.v ===== *)
(** * The annotations channel: types/channels-annotations/ *)

From S2P Require Import Prelude ReducerHelpers JsNumber CommonState.
Local Open Scope Z_scope.

(** [AnnotationsSummary]: types/channels-annotations/state.ts:25-37. *)
Record AnnotationsSummary := mkAnnotationsSummary {
  AnnotationsSummary_resource : URI;
  AnnotationsSummary_annotationCount : Z;
  AnnotationsSummary_entryCount : Z
}.

(** [AnnotationOrigin]: types/channels-annotations/state.ts:57-64. *)
Record AnnotationOrigin := mkAnnotationOrigin {
  AnnotationOrigin_session : URI;
  AnnotationOrigin_chat : option URI;
  AnnotationOrigin_turnId : option string
}.

(** [AnnotationEntry]: types/channels-annotations/state.ts:126-144. *)
Record AnnotationEntry := mkAnnotationEntry {
  ane_id : string;
  ane_text : StringOrMarkdown;
  ane_meta : option Meta
}.

(** [Annotation]: types/channels-annotations/state.ts:84-117. *)
Record Annotation := mkAnnotation {
  ann_id : string;
  ann_origin : AnnotationOrigin;
  ann_resource : URI;
  ann_range : option TextRange;
  ann_resolved : bool;
  ann_entries : list AnnotationEntry;
  ann_meta : option Meta
}.
#[export] Instance eta_Annotation : Eta Annotation :=
  λ r, mkAnnotation 
    r.(ann_id) r.(ann_origin) r.(ann_resource) r.(ann_range) r.(ann_resolved) r.(ann_entries)
    r.(ann_meta).

(** [AnnotationsState]: types/channels-annotations/state.ts:47-50. *)
Record AnnotationsState := mkAnnotationsState {
  ans_annotations : list Annotation
}.
#[export] Instance eta_AnnotationsState : Eta AnnotationsState :=
  λ r, mkAnnotationsState r.(ans_annotations).

(** [AnnotationsSetAction]: types/channels-annotations/actions.ts:41-45. *)
Record AnnotationsSetAction := mkAnnotationsSetAction {
  AnnotationsSet_annotation : Annotation
}.

(** [AnnotationsUpdatedAction]: types/channels-annotations/actions.ts:69-92. *)
Record AnnotationsUpdatedAction := mkAnnotationsUpdatedAction {
  AnnotationsUpdated_annotationId : string;
  AnnotationsUpdated_origin : option AnnotationOrigin;
  AnnotationsUpdated_resource : option URI;
  AnnotationsUpdated_range : option TextRange;
  AnnotationsUpdated_resolved : option bool
}.

(** [AnnotationsRemovedAction]: types/channels-annotations/actions.ts:106-110. *)
Record AnnotationsRemovedAction := mkAnnotationsRemovedAction {
  AnnotationsRemoved_annotationId : string
}.

(** [AnnotationsEntrySetAction]: types/channels-annotations/actions.ts:123-129. *)
Record AnnotationsEntrySetAction := mkAnnotationsEntrySetAction {
  AnnotationsEntrySet_annotationId : string;
  AnnotationsEntrySet_entry : AnnotationEntry
}.

(** [AnnotationsEntryRemovedAction]: types/channels-annotations/actions.ts:144-150. *)
Record AnnotationsEntryRemovedAction := mkAnnotationsEntryRemovedAction {
  AnnotationsEntryRemoved_annotationId : string;
  AnnotationsEntryRemoved_entryId : string
}.

(** [AnnotationsAction]: types/action-origin.generated.ts:380-386.  The last constructor is any
    action whose [type] this version does not know, given by its
    [JSON.stringify] text. *)
Inductive AnnotationsAction :=
| AnnotationsSet (a : AnnotationsSetAction)
| AnnotationsUpdated (a : AnnotationsUpdatedAction)
| AnnotationsRemoved (a : AnnotationsRemovedAction)
| AnnotationsEntrySet (a : AnnotationsEntrySetAction)
| AnnotationsEntryRemoved (a : AnnotationsEntryRemovedAction)
| UnknownAnnotationsAction (stringified : string).

(** ** The reducer: types/channels-annotations/reducer.ts *)

#[export] Instance keyed_annotation : Keyed Annotation := ann_id.
#[export] Instance keyed_entry : Keyed AnnotationEntry := ane_id.

(** The find-annotation-then-update idiom shared by the remaining actions:
    unknown annotation or an update that returns [None]: no change. *)
Definition update_annotation (state : AnnotationsState) (annotationId : string)
    (f : Annotation → option Annotation) : AnnotationsState :=
  match findIndex (has_key annotationId) state.(ans_annotations) with
  | None => state
  | Some idx =>
      match state.(ans_annotations) !! idx ≫= f with
      | None => state
      | Some updated => state <| ans_annotations := <[idx := updated]> state.(ans_annotations) |>
      end
  end.

Definition on_AnnotationsSet (state : AnnotationsState) (action : AnnotationsSetAction) :
    AnnotationsState :=
  let annotation := action.(AnnotationsSet_annotation) in
  state <| ans_annotations := upsert (has_key (key_of annotation)) annotation state.(ans_annotations) |>.

Definition apply_update (action : AnnotationsUpdatedAction) (annotation : Annotation) : Annotation :=
  annotation
    <| ann_origin := action.(AnnotationsUpdated_origin) ??! annotation.(ann_origin) |>
    <| ann_resource := action.(AnnotationsUpdated_resource) ??! annotation.(ann_resource) |>
    <| ann_range := action.(AnnotationsUpdated_range) ?? annotation.(ann_range) |>
    <| ann_resolved := action.(AnnotationsUpdated_resolved) ??! annotation.(ann_resolved) |>.

Definition on_AnnotationsUpdated (state : AnnotationsState) (action : AnnotationsUpdatedAction) :
    AnnotationsState :=
  update_annotation state action.(AnnotationsUpdated_annotationId) (Some ∘ apply_update action).

Definition on_AnnotationsRemoved (state : AnnotationsState) (action : AnnotationsRemovedAction) :
    AnnotationsState :=
  match removeFirst (has_key action.(AnnotationsRemoved_annotationId)) state.(ans_annotations) with
  | None => state
  | Some next => state <| ans_annotations := next |>
  end.

Definition on_AnnotationsEntrySet (state : AnnotationsState) (action : AnnotationsEntrySetAction) :
    AnnotationsState :=
  let entry := action.(AnnotationsEntrySet_entry) in
  update_annotation state action.(AnnotationsEntrySet_annotationId) (λ annotation,
    Some (annotation <| ann_entries :=
      upsert (has_key (key_of entry)) entry annotation.(ann_entries) |>)).

Definition on_AnnotationsEntryRemoved (state : AnnotationsState)
    (action : AnnotationsEntryRemovedAction) : AnnotationsState :=
  update_annotation state action.(AnnotationsEntryRemoved_annotationId) (λ annotation,
    (λ entries, annotation <| ann_entries := entries |>) <$>
      removeFirst (has_key action.(AnnotationsEntryRemoved_entryId)) annotation.(ann_entries)).

Definition annotationsReducer (state : AnnotationsState) (action : AnnotationsAction) :
    Logged AnnotationsState :=
  match action with
  | AnnotationsSet a => mret (on_AnnotationsSet state a)
  | AnnotationsUpdated a => mret (on_AnnotationsUpdated state a)
  | AnnotationsRemoved a => mret (on_AnnotationsRemoved state a)
  | AnnotationsEntrySet a => mret (on_AnnotationsEntrySet state a)
  | AnnotationsEntryRemoved a => mret (on_AnnotationsEntryRemoved state a)
  | UnknownAnnotationsAction stringified => _ ← softAssertNever stringified; mret state
  end.
