(* ===== verification/Canvas.v ===== *)
(** * The canvas channel: types/channels-canvas/ *)

From S2P Require Import Prelude ReducerHelpers JsNumber CommonState.
Local Open Scope Z_scope.

(** [CanvasReference]: types/channels-canvas/state.ts:21-24. *)
Record CanvasReference := mkCanvasReference {
  CanvasReference_resource : URI
}.

(** [CanvasState]: types/channels-canvas/state.ts:35-65. *)
Record CanvasState := mkCanvasState {
  cvs_instanceId : string;
  cvs_extensionId : string;
  cvs_extensionName : option string;
  cvs_canvasId : string;
  cvs_title : option string;
  cvs_status : option string;
  cvs_url : option URI
}.

(** [CanvasStateChangedAction]: types/channels-canvas/actions.ts:20-24. *)
Record CanvasStateChangedAction := mkCanvasStateChangedAction {
  CanvasStateChanged_canvas : CanvasState
}.

(** [CanvasAction]: types/action-origin.generated.ts:303-305.  The last constructor is any
    action whose [type] this version does not know, given by its
    [JSON.stringify] text. *)
Inductive CanvasAction :=
| CanvasStateChanged (a : CanvasStateChangedAction)
| UnknownCanvasAction (stringified : string).

(** ** The reducer: types/channels-canvas/reducer.ts *)

Definition canvasReducer (state : CanvasState) (action : CanvasAction) : Logged CanvasState :=
  match action with
  | CanvasStateChanged a => mret a.(CanvasStateChanged_canvas)
  | UnknownCanvasAction stringified =>
      _ ← emit (LogOrWarn ("Unhandled action type: " +:+ stringified)); mret state
  end.
