(* ===== verification/ResourceWatch.v ===== *)
(** * The resource-watch channel: types/channels-resource-watch/ *)

From S2P Require Import Prelude ReducerHelpers JsNumber CommonState.
Local Open Scope Z_scope.

(** [ResourceWatchState]: types/channels-resource-watch/state.ts:25-49. *)
Record ResourceWatchState := mkResourceWatchState {
  rws_root : URI;
  rws_recursive : bool;
  rws_excludes : option (list string);
  rws_includes : option (list string)
}.

(** [ResourceChangeType]: types/channels-resource-watch/state.ts:59-63. *)
Inductive ResourceChangeType :=
| ResourceChangeType_Added
| ResourceChangeType_Updated
| ResourceChangeType_Deleted.
#[export] Instance ResourceChangeType_eq_dec : EqDecision ResourceChangeType.
Proof. solve_decision. Defined.

(** [ResourceChange]: types/channels-resource-watch/state.ts:70-75. *)
Record ResourceChange := mkResourceChange {
  ResourceChange_uri : URI;
  ResourceChange_type : ResourceChangeType
}.

(** [ResourceWatchChangedAction]: types/channels-resource-watch/actions.ts:25-29. *)
Record ResourceWatchChangedAction := mkResourceWatchChangedAction {
  ResourceWatchChanged_changes : list ResourceChange
}.

(** [ResourceWatchAction]: types/action-origin.generated.ts:403-405.  The last constructor is any
    action whose [type] this version does not know, given by its
    [JSON.stringify] text. *)
Inductive ResourceWatchAction :=
| ResourceWatchChanged (a : ResourceWatchChangedAction)
| UnknownResourceWatchAction (stringified : string).

(** ** The reducer: types/channels-resource-watch/reducer.ts *)

Definition resourceWatchReducer (state : ResourceWatchState) (action : ResourceWatchAction) :
    Logged ResourceWatchState :=
  match action with
  | ResourceWatchChanged _ => mret state
  | UnknownResourceWatchAction stringified =>
      _ ← emit (LogOrWarn ("Unhandled action type: " +:+ stringified)); mret state
  end.
