(* ===== verification/ChatState.v ===== *)
(** * Data of the chat channel: types/channels-chat/state.ts *)

From S2P Require Import Prelude JsNumber CommonState Changeset Canvas.
Local Open Scope Z_scope.

(** [BackgroundWorkBase]: types/channels-chat/state.ts:268-283. *)
Record BackgroundWorkBase := mkBackgroundWorkBase {
  bwb_id : string;
  bwb_label : string;
  bwb_startedAt : string;
  bwb_meta : option Meta
}.

(** [BackgroundShellWork]: types/channels-chat/state.ts:293-304. *)
Record BackgroundShellWork := mkBackgroundShellWork {
  bsh_base : BackgroundWorkBase;
  bsh_command : string;
  bsh_terminal : option URI
}.

(** [BackgroundSubagentWork]: types/channels-chat/state.ts:311-318. *)
Record BackgroundSubagentWork := mkBackgroundSubagentWork {
  bsub_base : BackgroundWorkBase;
  bsub_chat : URI
}.

(** [BackgroundWork]: types/channels-chat/state.ts:327-329. *)
Inductive BackgroundWork :=
| BackgroundWork_Shell (x : BackgroundShellWork)
| BackgroundWork_Subagent (x : BackgroundSubagentWork).

(** [SideChatSelection]: types/channels-chat/state.ts:356-371. *)
Record SideChatSelection := mkSideChatSelection {
  SideChatSelection_text : string;
  SideChatSelection_responsePartId : option string
}.

(** [ChatOrigin]: types/channels-chat/state.ts:401-405. *)
Inductive ChatOrigin :=
| ChatOrigin_User
| ChatOrigin_Fork (chat : URI) (turnId : string)
| ChatOrigin_SideChat (chat : URI) (turnId : string) (selection : option SideChatSelection)
| ChatOrigin_Tool (chat : URI) (toolCallId : string).

(** [ChatInteractivity]: types/channels-chat/state.ts:422-429. *)
Inductive ChatInteractivity :=
| ChatInteractivity_Full
| ChatInteractivity_ReadOnly
| ChatInteractivity_Hidden.
#[export] Instance ChatInteractivity_eq_dec : EqDecision ChatInteractivity.
Proof. solve_decision. Defined.

(** [ChatConfigState]: types/channels-chat/state.ts:447-462. *)
Record ChatConfigState := mkChatConfigState {
  ccs_schema : option SessionConfigSchema;
  ccs_values : Meta
}.
#[export] Instance eta_ChatConfigState : Eta ChatConfigState :=
  λ r, mkChatConfigState r.(ccs_schema) r.(ccs_values).

(** [PendingMessageKind]: types/channels-chat/state.ts:472-477. *)
Inductive PendingMessageKind :=
| PendingMessageKind_Steering
| PendingMessageKind_Queued.
#[export] Instance PendingMessageKind_eq_dec : EqDecision PendingMessageKind.
Proof. solve_decision. Defined.

(** [MessageKind]: types/channels-chat/state.ts:828-845. *)
Inductive MessageKind :=
| MessageKind_User
| MessageKind_Agent
| MessageKind_Tool
| MessageKind_Automation
| MessageKind_SystemNotification.
#[export] Instance MessageKind_eq_dec : EqDecision MessageKind.
Proof. solve_decision. Defined.

(** [MessageOrigin]: types/channels-chat/state.ts:854-857. *)
Record MessageOrigin := mkMessageOrigin {
  MessageOrigin_kind : MessageKind
}.

(** [MessageAttachmentBase]: types/channels-chat/state.ts:911-947. *)
Record MessageAttachmentBase := mkMessageAttachmentBase {
  MessageAttachmentBase_label : string;
  MessageAttachmentBase_range : option TextRange;
  MessageAttachmentBase_displayKind : option string;
  MessageAttachmentBase_meta : option Meta
}.

(** [SimpleMessageAttachment]: types/channels-chat/state.ts:955-968. *)
Record SimpleMessageAttachment := mkSimpleMessageAttachment {
  SimpleMessageAttachment_base : MessageAttachmentBase;
  SimpleMessageAttachment_modelRepresentation : option string
}.

(** [MessageEmbeddedResourceAttachment]: types/channels-chat/state.ts:978-991. *)
Record MessageEmbeddedResourceAttachment := mkMessageEmbeddedResourceAttachment {
  MessageEmbeddedResourceAttachment_base : MessageAttachmentBase;
  MessageEmbeddedResourceAttachment_data : string;
  MessageEmbeddedResourceAttachment_contentType : string;
  MessageEmbeddedResourceAttachment_selection : option TextSelection
}.

(** [MessageResourceAttachment]: types/channels-chat/state.ts:999-1008. *)
Record MessageResourceAttachment := mkMessageResourceAttachment {
  MessageResourceAttachment_base : MessageAttachmentBase;
  MessageResourceAttachment_ref : ContentRef;
  MessageResourceAttachment_selection : option TextSelection
}.

(** [MessageAnnotationsAttachment]: types/channels-chat/state.ts:1020-1033. *)
Record MessageAnnotationsAttachment := mkMessageAnnotationsAttachment {
  MessageAnnotationsAttachment_base : MessageAttachmentBase;
  MessageAnnotationsAttachment_resource : URI;
  MessageAnnotationsAttachment_annotationIds : option (list string)
}.

(** [MessageChatAttachment]: types/channels-chat/state.ts:1059-1069. *)
Record MessageChatAttachment := mkMessageChatAttachment {
  MessageChatAttachment_base : MessageAttachmentBase;
  MessageChatAttachment_resource : URI;
  MessageChatAttachment_endTurn : option string
}.

(** [MessageAttachment]: types/channels-chat/state.ts:1076-1081. *)
Inductive MessageAttachment :=
| MessageAttachment_Simple (x : SimpleMessageAttachment)
| MessageAttachment_EmbeddedResource (x : MessageEmbeddedResourceAttachment)
| MessageAttachment_Resource (x : MessageResourceAttachment)
| MessageAttachment_Annotations (x : MessageAnnotationsAttachment)
| MessageAttachment_Chat (x : MessageChatAttachment).

(** [Message]: types/channels-chat/state.ts:871-904. *)
Record Message := mkMessage {
  msg_text : string;
  msg_origin : MessageOrigin;
  msg_attachments : option (list MessageAttachment);
  msg_model : option ModelSelection;
  msg_agent : option AgentSelection;
  msg_meta : option Meta
}.

(** [PendingMessage]: types/channels-chat/state.ts:488-497. *)
Record PendingMessage := mkPendingMessage {
  pm_id : string;
  pm_kind : option PendingMessageKind;
  pm_message : Message
}.

(** [TurnState]: types/channels-chat/state.ts:748-752. *)
Inductive TurnState :=
| TurnState_Complete
| TurnState_Cancelled
| TurnState_Error.
#[export] Instance TurnState_eq_dec : EqDecision TurnState.
Proof. solve_decision. Defined.

(** [MarkdownResponsePart]: types/channels-chat/state.ts:1104-1111. *)
Record MarkdownResponsePart := mkMarkdownResponsePart {
  mdp_id : string;
  mdp_content : string
}.
#[export] Instance eta_MarkdownResponsePart : Eta MarkdownResponsePart :=
  λ r, mkMarkdownResponsePart r.(mdp_id) r.(mdp_content).

(** [ResourceResponsePart]: types/channels-chat/state.ts:1118-1121. *)
Record ResourceResponsePart := mkResourceResponsePart {
  ResourceResponsePart_ref : ContentRef
}.

(** [ToolCallClientContributor]: types/channels-chat/state.ts:1398-1408. *)
Record ToolCallClientContributor := mkToolCallClientContributor {
  tccl_clientId : string
}.

(** [ToolCallMcpContributor]: types/channels-chat/state.ts:1410-1416. *)
Record ToolCallMcpContributor := mkToolCallMcpContributor {
  tcmcp_customizationId : string
}.

(** [ToolCallContributor]: types/channels-chat/state.ts:1418-1418. *)
Inductive ToolCallContributor :=
| ToolCallContributor_Client (x : ToolCallClientContributor)
| ToolCallContributor_MCP (x : ToolCallMcpContributor).

(** [ToolCallBase]: types/channels-chat/state.ts:1430-1451. *)
Record ToolCallBase := mkToolCallBase {
  tcb_toolCallId : string;
  tcb_toolName : string;
  tcb_displayName : string;
  tcb_intention : option string;
  tcb_contributor : option ToolCallContributor;
  tcb_meta : option Meta
}.
#[export] Instance eta_ToolCallBase : Eta ToolCallBase :=
  λ r, mkToolCallBase 
    r.(tcb_toolCallId) r.(tcb_toolName) r.(tcb_displayName) r.(tcb_intention)
    r.(tcb_contributor) r.(tcb_meta).

(** [ToolCallStreamingState]: types/channels-chat/state.ts:1516-1522. *)
Record ToolCallStreamingState := mkToolCallStreamingState {
  tcs_base : ToolCallBase;
  tcs_partialInput : option string;
  tcs_invocationMessage : option StringOrMarkdown
}.
#[export] Instance eta_ToolCallStreamingState : Eta ToolCallStreamingState :=
  λ r, mkToolCallStreamingState r.(tcs_base) r.(tcs_partialInput) r.(tcs_invocationMessage).

(** [ToolCallRiskAssessmentKind]: types/channels-chat/state.ts:1293-1295. *)
Inductive ToolCallRiskAssessmentKind :=
| ToolCallRiskAssessmentKind_Judge.
#[export] Instance ToolCallRiskAssessmentKind_eq_dec : EqDecision ToolCallRiskAssessmentKind.
Proof. solve_decision. Defined.

(** [ToolCallRiskAssessmentBase]: types/channels-chat/state.ts:1308-1310. *)
Record ToolCallRiskAssessmentBase := mkToolCallRiskAssessmentBase {
  ToolCallRiskAssessmentBase_kind : ToolCallRiskAssessmentKind
}.

(** [ToolCallRiskAssessmentLoadingState]: types/channels-chat/state.ts:1317-1319. *)
Record ToolCallRiskAssessmentLoadingState := mkToolCallRiskAssessmentLoadingState {
  ToolCallRiskAssessmentLoadingState_base : ToolCallRiskAssessmentBase
}.

(** [ToolCallRiskAssessmentCompleteState]: types/channels-chat/state.ts:1326-1334. *)
Record ToolCallRiskAssessmentCompleteState := mkToolCallRiskAssessmentCompleteState {
  ToolCallRiskAssessmentCompleteState_base : ToolCallRiskAssessmentBase;
  ToolCallRiskAssessmentCompleteState_reason : StringOrMarkdown;
  ToolCallRiskAssessmentCompleteState_safety : float64
}.

(** [ToolCallRiskAssessment]: types/channels-chat/state.ts:1336-1338. *)
Inductive ToolCallRiskAssessment :=
| ToolCallRiskAssessment_Loading (x : ToolCallRiskAssessmentLoadingState)
| ToolCallRiskAssessment_Complete (x : ToolCallRiskAssessmentCompleteState).

(** [ConfirmationOptionKind]: types/channels-chat/state.ts:1358-1361. *)
Inductive ConfirmationOptionKind :=
| ConfirmationOptionKind_Approve
| ConfirmationOptionKind_Deny.
#[export] Instance ConfirmationOptionKind_eq_dec : EqDecision ConfirmationOptionKind.
Proof. solve_decision. Defined.

(** [ConfirmationOption]: types/channels-chat/state.ts:1370-1385. *)
Record ConfirmationOption := mkConfirmationOption {
  copt_id : string;
  copt_label : string;
  copt_kind : ConfirmationOptionKind;
  copt_group : option Z
}.

(** [ToolInput]: types/channels-chat/state.ts:1477. *)
Inductive ToolInput :=
| ToolInput_string (s : string)
| ToolInput_ref (r : ContentRef).

(** [ToolCallParameterFields]: types/channels-chat/state.ts:1458-1470. *)
Record ToolCallParameterFields := mkToolCallParameterFields {
  tpf_invocationMessage : StringOrMarkdown;
  tpf_toolInput : option ToolInput
}.
#[export] Instance eta_ToolCallParameterFields : Eta ToolCallParameterFields :=
  λ r, mkToolCallParameterFields r.(tpf_invocationMessage) r.(tpf_toolInput).

(** [ToolCallPendingConfirmationState]: types/channels-chat/state.ts:1530-1547. *)
Record ToolCallPendingConfirmationState := mkToolCallPendingConfirmationState {
  tcpc_base : ToolCallBase;
  tcpc_params : ToolCallParameterFields;
  tcpc_confirmationTitle : option StringOrMarkdown;
  tcpc_riskAssessment : option ToolCallRiskAssessment;
  tcpc_edits : option FileEditCollection;
  tcpc_editable : option bool;
  tcpc_options : option (list ConfirmationOption)
}.
#[export] Instance eta_ToolCallPendingConfirmationState : Eta ToolCallPendingConfirmationState :=
  λ r, mkToolCallPendingConfirmationState 
    r.(tcpc_base) r.(tcpc_params) r.(tcpc_confirmationTitle) r.(tcpc_riskAssessment)
    r.(tcpc_edits) r.(tcpc_editable) r.(tcpc_options).

(** [ToolCallConfirmationReason]: types/channels-chat/state.ts:1281-1285. *)
Inductive ToolCallConfirmationReason :=
| ToolCallConfirmationReason_NotNeeded
| ToolCallConfirmationReason_UserAction
| ToolCallConfirmationReason_Setting.
#[export] Instance ToolCallConfirmationReason_eq_dec : EqDecision ToolCallConfirmationReason.
Proof. solve_decision. Defined.

(** [ToolCallPostConfirmationFields]: types/channels-chat/state.ts:1560-1565. *)
Record ToolCallPostConfirmationFields := mkToolCallPostConfirmationFields {
  tpc_confirmed : ToolCallConfirmationReason;
  tpc_selectedOption : option ConfirmationOption
}.

(** [ToolResultTextContent]: types/channels-chat/state.ts:1721-1725. *)
Record ToolResultTextContent := mkToolResultTextContent {
  ToolResultTextContent_text : string
}.

(** [ToolResultEmbeddedResourceContent]: types/channels-chat/state.ts:1734-1740. *)
Record ToolResultEmbeddedResourceContent := mkToolResultEmbeddedResourceContent {
  ToolResultEmbeddedResourceContent_data : string;
  ToolResultEmbeddedResourceContent_contentType : string
}.

(** [ToolResultResourceContent]: types/channels-chat/state.ts:1749-1751. *)
Record ToolResultResourceContent := mkToolResultResourceContent {
  ToolResultResourceContent_ref : ContentRef
}.

(** [ToolResultFileEditContent]: types/channels-chat/state.ts:1758-1760. *)
Record ToolResultFileEditContent := mkToolResultFileEditContent {
  ToolResultFileEditContent_edit : FileEdit
}.

(** [TerminalCommandResult]: types/channels-chat/state.ts:1801-1813. *)
Record TerminalCommandResult := mkTerminalCommandResult {
  TerminalCommandResult_exitCode : option Z;
  TerminalCommandResult_preview : option string;
  TerminalCommandResult_truncated : option bool
}.

(** [ToolResultTerminalContent]: types/channels-chat/state.ts:1779-1793. *)
Record ToolResultTerminalContent := mkToolResultTerminalContent {
  ToolResultTerminalContent_resource : URI;
  ToolResultTerminalContent_title : string;
  ToolResultTerminalContent_isPty : option bool;
  ToolResultTerminalContent_result : option TerminalCommandResult
}.

(** [ToolResultSubagentContent]: types/channels-chat/state.ts:1825-1835. *)
Record ToolResultSubagentContent := mkToolResultSubagentContent {
  ToolResultSubagentContent_resource : URI;
  ToolResultSubagentContent_title : string;
  ToolResultSubagentContent_agentName : option string;
  ToolResultSubagentContent_description : option string
}.

(** [ToolResultContent]: types/channels-chat/state.ts:1849-1855. *)
Inductive ToolResultContent :=
| ToolResultContent_Text (x : ToolResultTextContent)
| ToolResultContent_EmbeddedResource (x : ToolResultEmbeddedResourceContent)
| ToolResultContent_Resource (x : ToolResultResourceContent)
| ToolResultContent_FileEdit (x : ToolResultFileEditContent)
| ToolResultContent_Terminal (x : ToolResultTerminalContent)
| ToolResultContent_Subagent (x : ToolResultSubagentContent).

(** [ToolCallRunningState]: types/channels-chat/state.ts:1572-1581. *)
Record ToolCallRunningState := mkToolCallRunningState {
  tcrun_base : ToolCallBase;
  tcrun_params : ToolCallParameterFields;
  tcrun_post : ToolCallPostConfirmationFields;
  tcrun_content : option (list ToolResultContent)
}.
#[export] Instance eta_ToolCallRunningState : Eta ToolCallRunningState :=
  λ r, mkToolCallRunningState r.(tcrun_base) r.(tcrun_params) r.(tcrun_post) r.(tcrun_content).

(** [ToolCallAuthRequiredState]: types/channels-chat/state.ts:1614-1622. *)
Record ToolCallAuthRequiredState := mkToolCallAuthRequiredState {
  tcar_toolCallId : string;
  tcar_toolName : string;
  tcar_displayName : string;
  tcar_intention : option string;
  tcar_meta : option Meta;
  tcar_params : ToolCallParameterFields;
  tcar_post : ToolCallPostConfirmationFields;
  tcar_contributor : ToolCallMcpContributor;
  tcar_auth : McpAuthRequirement;
  tcar_content : option (list ToolResultContent)
}.
#[export] Instance eta_ToolCallAuthRequiredState : Eta ToolCallAuthRequiredState :=
  λ r, mkToolCallAuthRequiredState 
    r.(tcar_toolCallId) r.(tcar_toolName) r.(tcar_displayName) r.(tcar_intention) r.(tcar_meta)
    r.(tcar_params) r.(tcar_post) r.(tcar_contributor) r.(tcar_auth) r.(tcar_content).

(** The inline type of [ToolCallResult.error]: types/channels-chat/state.ts:1484-1509. *)
Record ToolCallResultError := mkToolCallResultError {
  ToolCallResultError_message : string;
  ToolCallResultError_code : option string
}.

(** [ToolCallResult]: types/channels-chat/state.ts:1484-1509. *)
Record ToolCallResult := mkToolCallResult {
  tcr_success : bool;
  tcr_pastTenseMessage : StringOrMarkdown;
  tcr_content : option (list ToolResultContent);
  tcr_structuredContent : option Meta;
  tcr_resultMetadata : option Meta;
  tcr_error : option ToolCallResultError
}.
#[export] Instance eta_ToolCallResult : Eta ToolCallResult :=
  λ r, mkToolCallResult 
    r.(tcr_success) r.(tcr_pastTenseMessage) r.(tcr_content) r.(tcr_structuredContent)
    r.(tcr_resultMetadata) r.(tcr_error).

(** [ToolCallPendingResultConfirmationState]: types/channels-chat/state.ts:1629-1631. *)
Record ToolCallPendingResultConfirmationState := mkToolCallPendingResultConfirmationState {
  tcprc_base : ToolCallBase;
  tcprc_params : ToolCallParameterFields;
  tcprc_result : ToolCallResult;
  tcprc_post : ToolCallPostConfirmationFields
}.
#[export] Instance eta_ToolCallPendingResultConfirmationState : Eta ToolCallPendingResultConfirmationState :=
  λ r, mkToolCallPendingResultConfirmationState r.(tcprc_base) r.(tcprc_params) r.(tcprc_result) r.(tcprc_post).

(** [ToolCallCompletedState]: types/channels-chat/state.ts:1638-1640. *)
Record ToolCallCompletedState := mkToolCallCompletedState {
  tccomp_base : ToolCallBase;
  tccomp_params : ToolCallParameterFields;
  tccomp_result : ToolCallResult;
  tccomp_post : ToolCallPostConfirmationFields
}.
#[export] Instance eta_ToolCallCompletedState : Eta ToolCallCompletedState :=
  λ r, mkToolCallCompletedState r.(tccomp_base) r.(tccomp_params) r.(tccomp_result) r.(tccomp_post).

(** [ToolCallCancellationReason]: types/channels-chat/state.ts:1346-1350. *)
Inductive ToolCallCancellationReason :=
| ToolCallCancellationReason_Denied
| ToolCallCancellationReason_Skipped
| ToolCallCancellationReason_ResultDenied.
#[export] Instance ToolCallCancellationReason_eq_dec : EqDecision ToolCallCancellationReason.
Proof. solve_decision. Defined.

(** [ToolCallCancelledState]: types/channels-chat/state.ts:1647-1657. *)
Record ToolCallCancelledState := mkToolCallCancelledState {
  tccanc_base : ToolCallBase;
  tccanc_params : ToolCallParameterFields;
  tccanc_reason : ToolCallCancellationReason;
  tccanc_reasonMessage : option StringOrMarkdown;
  tccanc_userSuggestion : option Message;
  tccanc_selectedOption : option ConfirmationOption
}.
#[export] Instance eta_ToolCallCancelledState : Eta ToolCallCancelledState :=
  λ r, mkToolCallCancelledState 
    r.(tccanc_base) r.(tccanc_params) r.(tccanc_reason) r.(tccanc_reasonMessage)
    r.(tccanc_userSuggestion) r.(tccanc_selectedOption).

(** [ToolCallState]: types/channels-chat/state.ts:1667-1674. *)
Inductive ToolCallState :=
| ToolCallState_Streaming (x : ToolCallStreamingState)
| ToolCallState_PendingConfirmation (x : ToolCallPendingConfirmationState)
| ToolCallState_Running (x : ToolCallRunningState)
| ToolCallState_AuthRequired (x : ToolCallAuthRequiredState)
| ToolCallState_PendingResultConfirmation (x : ToolCallPendingResultConfirmationState)
| ToolCallState_Completed (x : ToolCallCompletedState)
| ToolCallState_Cancelled (x : ToolCallCancelledState).

(** [ToolCallResponsePart]: types/channels-chat/state.ts:1132-1137. *)
Record ToolCallResponsePart := mkToolCallResponsePart {
  tcp_toolCall : ToolCallState
}.
#[export] Instance eta_ToolCallResponsePart : Eta ToolCallResponsePart :=
  λ r, mkToolCallResponsePart r.(tcp_toolCall).

(** [ReasoningResponsePart]: types/channels-chat/state.ts:1144-1155. *)
Record ReasoningResponsePart := mkReasoningResponsePart {
  rp_id : string;
  rp_content : string;
  rp_startedAt : option string;
  rp_duration : option Z
}.
#[export] Instance eta_ReasoningResponsePart : Eta ReasoningResponsePart :=
  λ r, mkReasoningResponsePart r.(rp_id) r.(rp_content) r.(rp_startedAt) r.(rp_duration).

(** [ChatInputResponseKind]: types/channels-chat/state.ts:508-512. *)
Inductive ChatInputResponseKind :=
| ChatInputResponseKind_Accept
| ChatInputResponseKind_Decline
| ChatInputResponseKind_Cancel.
#[export] Instance ChatInputResponseKind_eq_dec : EqDecision ChatInputResponseKind.
Proof. solve_decision. Defined.

(** [ChatInputQuestionBase]: types/channels-chat/state.ts:545-554. *)
Record ChatInputQuestionBase := mkChatInputQuestionBase {
  ChatInputQuestionBase_id : string;
  ChatInputQuestionBase_title : option string;
  ChatInputQuestionBase_message : string;
  ChatInputQuestionBase_required : option bool
}.

(** [ChatInputTextQuestion]: types/channels-chat/state.ts:557-567. *)
Record ChatInputTextQuestion := mkChatInputTextQuestion {
  ChatInputTextQuestion_base : ChatInputQuestionBase;
  ChatInputTextQuestion_format : option string;
  ChatInputTextQuestion_min : option Z;
  ChatInputTextQuestion_max : option Z;
  ChatInputTextQuestion_defaultValue : option string
}.

(** [ChatInputQuestionKind]: types/channels-chat/state.ts:520-527. *)
Inductive ChatInputQuestionKind :=
| ChatInputQuestionKind_Text
| ChatInputQuestionKind_Number
| ChatInputQuestionKind_Integer
| ChatInputQuestionKind_Boolean
| ChatInputQuestionKind_SingleSelect
| ChatInputQuestionKind_MultiSelect.
#[export] Instance ChatInputQuestionKind_eq_dec : EqDecision ChatInputQuestionKind.
Proof. solve_decision. Defined.

(** [ChatInputNumberQuestion]: types/channels-chat/state.ts:570-587. *)
Record ChatInputNumberQuestion := mkChatInputNumberQuestion {
  ChatInputNumberQuestion_base : ChatInputQuestionBase;
  ChatInputNumberQuestion_kind : ChatInputQuestionKind;
  ChatInputNumberQuestion_min : option float64;
  ChatInputNumberQuestion_max : option float64;
  ChatInputNumberQuestion_defaultValue : option float64
}.

(** [ChatInputBooleanQuestion]: types/channels-chat/state.ts:590-594. *)
Record ChatInputBooleanQuestion := mkChatInputBooleanQuestion {
  ChatInputBooleanQuestion_base : ChatInputQuestionBase;
  ChatInputBooleanQuestion_defaultValue : option bool
}.

(** [ChatInputOption]: types/channels-chat/state.ts:534-543. *)
Record ChatInputOption := mkChatInputOption {
  ChatInputOption_id : string;
  ChatInputOption_label : string;
  ChatInputOption_description : option string;
  ChatInputOption_recommended : option bool
}.

(** [ChatInputSingleSelectQuestion]: types/channels-chat/state.ts:597-603. *)
Record ChatInputSingleSelectQuestion := mkChatInputSingleSelectQuestion {
  ChatInputSingleSelectQuestion_base : ChatInputQuestionBase;
  ChatInputSingleSelectQuestion_options : list ChatInputOption;
  ChatInputSingleSelectQuestion_allowFreeformInput : option bool
}.

(** [ChatInputMultiSelectQuestion]: types/channels-chat/state.ts:606-616. *)
Record ChatInputMultiSelectQuestion := mkChatInputMultiSelectQuestion {
  ChatInputMultiSelectQuestion_base : ChatInputQuestionBase;
  ChatInputMultiSelectQuestion_options : list ChatInputOption;
  ChatInputMultiSelectQuestion_allowFreeformInput : option bool;
  ChatInputMultiSelectQuestion_min : option Z;
  ChatInputMultiSelectQuestion_max : option Z
}.

(** [ChatInputQuestion]: types/channels-chat/state.ts:623-627. *)
Inductive ChatInputQuestion :=
| ChatInputQuestion_Text (x : ChatInputTextQuestion)
| ChatInputQuestion_Number (x : ChatInputNumberQuestion)
| ChatInputQuestion_Boolean (x : ChatInputBooleanQuestion)
| ChatInputQuestion_SingleSelect (x : ChatInputSingleSelectQuestion)
| ChatInputQuestion_MultiSelect (x : ChatInputMultiSelectQuestion).

(** [ChatInputTextAnswerValue]: types/channels-chat/state.ts:670-673. *)
Record ChatInputTextAnswerValue := mkChatInputTextAnswerValue {
  ChatInputTextAnswerValue_value : string
}.

(** [ChatInputNumberAnswerValue]: types/channels-chat/state.ts:675-679. *)
Record ChatInputNumberAnswerValue := mkChatInputNumberAnswerValue {
  ChatInputNumberAnswerValue_value : float64
}.

(** [ChatInputBooleanAnswerValue]: types/channels-chat/state.ts:681-684. *)
Record ChatInputBooleanAnswerValue := mkChatInputBooleanAnswerValue {
  ChatInputBooleanAnswerValue_value : bool
}.

(** [ChatInputSelectedAnswerValue]: types/channels-chat/state.ts:686-691. *)
Record ChatInputSelectedAnswerValue := mkChatInputSelectedAnswerValue {
  ChatInputSelectedAnswerValue_value : string;
  ChatInputSelectedAnswerValue_freeformValues : option (list string)
}.

(** [ChatInputSelectedManyAnswerValue]: types/channels-chat/state.ts:693-698. *)
Record ChatInputSelectedManyAnswerValue := mkChatInputSelectedManyAnswerValue {
  ChatInputSelectedManyAnswerValue_value : list string;
  ChatInputSelectedManyAnswerValue_freeformValues : option (list string)
}.

(** [ChatInputAnswerValue]: types/channels-chat/state.ts:700-704. *)
Inductive ChatInputAnswerValue :=
| ChatInputAnswerValue_Text (x : ChatInputTextAnswerValue)
| ChatInputAnswerValue_Number (x : ChatInputNumberAnswerValue)
| ChatInputAnswerValue_Boolean (x : ChatInputBooleanAnswerValue)
| ChatInputAnswerValue_Selected (x : ChatInputSelectedAnswerValue)
| ChatInputAnswerValue_SelectedMany (x : ChatInputSelectedManyAnswerValue).

(** [ChatInputAnswerState]: types/channels-chat/state.ts:726-730. *)
Inductive ChatInputAnswerState :=
| ChatInputAnswerState_Draft
| ChatInputAnswerState_Submitted
| ChatInputAnswerState_Skipped.
#[export] Instance ChatInputAnswerState_eq_dec : EqDecision ChatInputAnswerState.
Proof. solve_decision. Defined.

(** [ChatInputAnswered]: types/channels-chat/state.ts:706-711. *)
Record ChatInputAnswered := mkChatInputAnswered {
  ChatInputAnswered_state : ChatInputAnswerState;
  ChatInputAnswered_value : ChatInputAnswerValue
}.

(** [ChatInputSkipped]: types/channels-chat/state.ts:713-718. *)
Record ChatInputSkipped := mkChatInputSkipped {
  ChatInputSkipped_freeformValues : option (list string)
}.

(** [ChatInputAnswer]: types/channels-chat/state.ts:737-737. *)
Inductive ChatInputAnswer :=
| ChatInputAnswer_Answered (x : ChatInputAnswered)
| ChatInputAnswer_Skipped (x : ChatInputSkipped).

(** [ChatInputRequest]: types/channels-chat/state.ts:638-649. *)
Record ChatInputRequest := mkChatInputRequest {
  cir_id : string;
  cir_message : option string;
  cir_url : option URI;
  cir_questions : option (list ChatInputQuestion);
  cir_answers : option (gmap string ChatInputAnswer)
}.
#[export] Instance eta_ChatInputRequest : Eta ChatInputRequest :=
  λ r, mkChatInputRequest r.(cir_id) r.(cir_message) r.(cir_url) r.(cir_questions) r.(cir_answers).

(** [InputRequestResponsePart]: types/channels-chat/state.ts:1183-1196. *)
Record InputRequestResponsePart := mkInputRequestResponsePart {
  irp_request : ChatInputRequest;
  irp_response : option ChatInputResponseKind
}.
#[export] Instance eta_InputRequestResponsePart : Eta InputRequestResponsePart :=
  λ r, mkInputRequestResponsePart r.(irp_request) r.(irp_response).

(** [ErrorResponsePart]: types/channels-chat/state.ts:1211-1218. *)
Record ErrorResponsePart := mkErrorResponsePart {
  ep_error : ErrorInfo;
  ep_resumable : option bool
}.

(** [SystemNotificationResponsePart]: types/channels-chat/state.ts:1230-1245. *)
Record SystemNotificationResponsePart := mkSystemNotificationResponsePart {
  SystemNotificationResponsePart_content : StringOrMarkdown;
  SystemNotificationResponsePart_meta : option Meta
}.

(** [ResponsePart]: types/channels-chat/state.ts:1160-1167. *)
Inductive ResponsePart :=
| ResponsePart_Markdown (x : MarkdownResponsePart)
| ResponsePart_ContentRef (x : ResourceResponsePart)
| ResponsePart_ToolCall (x : ToolCallResponsePart)
| ResponsePart_Reasoning (x : ReasoningResponsePart)
| ResponsePart_SystemNotification (x : SystemNotificationResponsePart)
| ResponsePart_InputRequest (x : InputRequestResponsePart)
| ResponsePart_Error (x : ErrorResponsePart).

(** [Turn]: types/channels-chat/state.ts:778-798. *)
Record Turn := mkTurn {
  turn_id : string;
  turn_startedAt : option string;
  turn_duration : option Z;
  turn_message : Message;
  turn_responseParts : list ResponsePart;
  turn_usage : option UsageInfo;
  turn_state : TurnState
}.
#[export] Instance eta_Turn : Eta Turn :=
  λ r, mkTurn 
    r.(turn_id) r.(turn_startedAt) r.(turn_duration) r.(turn_message) r.(turn_responseParts)
    r.(turn_usage) r.(turn_state).

(** [ActiveTurn]: types/channels-chat/state.ts:805-820. *)
Record ActiveTurn := mkActiveTurn {
  at_id : string;
  at_startedAt : string;
  at_message : Message;
  at_responseParts : list ResponsePart;
  at_usage : option UsageInfo
}.
#[export] Instance eta_ActiveTurn : Eta ActiveTurn :=
  λ r, mkActiveTurn r.(at_id) r.(at_startedAt) r.(at_message) r.(at_responseParts) r.(at_usage).

(** [ChatState]: types/channels-chat/state.ts:49-192. *)
Record ChatState := mkChatState {
  cs_resource : URI;
  cs_title : string;
  cs_status : SessionStatus;
  cs_activity : option string;
  cs_modifiedAt : string;
  cs_changes : option ChangesSummary;
  cs_origin : option ChatOrigin;
  cs_movable : option bool;
  cs_interactivity : option ChatInteractivity;
  cs_provider : option string;
  cs_workingDirectories : option (list URI);
  cs_changesets : option (list Changeset);
  cs_backgroundWork : option (list BackgroundWork);
  cs_canvases : option (list CanvasReference);
  cs_config : option ChatConfigState;
  cs_turns : list Turn;
  cs_turnsNextCursor : option string;
  cs_activeTurn : option ActiveTurn;
  cs_steeringMessage : option PendingMessage;
  cs_queuedMessages : option (list PendingMessage);
  cs_draft : option Message;
  cs_meta : option Meta
}.
#[export] Instance eta_ChatState : Eta ChatState :=
  λ r, mkChatState 
    r.(cs_resource) r.(cs_title) r.(cs_status) r.(cs_activity) r.(cs_modifiedAt) r.(cs_changes)
    r.(cs_origin) r.(cs_movable) r.(cs_interactivity) r.(cs_provider) r.(cs_workingDirectories)
    r.(cs_changesets) r.(cs_backgroundWork) r.(cs_canvases) r.(cs_config) r.(cs_turns)
    r.(cs_turnsNextCursor) r.(cs_activeTurn) r.(cs_steeringMessage) r.(cs_queuedMessages)
    r.(cs_draft) r.(cs_meta).

(** [ChatSummary]: types/channels-chat/state.ts:201-245. *)
Record ChatSummary := mkChatSummary {
  csum_resource : URI;
  csum_title : string;
  csum_status : SessionStatus;
  csum_activity : option string;
  csum_modifiedAt : string;
  csum_changes : option ChangesSummary;
  csum_origin : option ChatOrigin;
  csum_movable : option bool;
  csum_interactivity : option ChatInteractivity;
  csum_provider : option string;
  csum_workingDirectories : option (list URI)
}.
#[export] Instance eta_ChatSummary : Eta ChatSummary :=
  λ r, mkChatSummary 
    r.(csum_resource) r.(csum_title) r.(csum_status) r.(csum_activity) r.(csum_modifiedAt)
    r.(csum_changes) r.(csum_origin) r.(csum_movable) r.(csum_interactivity) r.(csum_provider)
    r.(csum_workingDirectories).

(** [ToolCallStatus]: types/channels-chat/state.ts:1256-1269. *)
Inductive ToolCallStatus :=
| ToolCallStatus_Streaming
| ToolCallStatus_PendingConfirmation
| ToolCallStatus_Running
| ToolCallStatus_AuthRequired
| ToolCallStatus_PendingResultConfirmation
| ToolCallStatus_Completed
| ToolCallStatus_Cancelled.
#[export] Instance ToolCallStatus_eq_dec : EqDecision ToolCallStatus.
Proof. solve_decision. Defined.

(** [ToolCallConfirmationState]: types/channels-chat/state.ts:1692-1694. *)
Inductive ToolCallConfirmationState :=
| ToolCallConfirmationState_PendingConfirmation (x : ToolCallPendingConfirmationState)
| ToolCallConfirmationState_PendingResultConfirmation (x : ToolCallPendingResultConfirmationState).

