(* ===== verification/ChatActions.v ===== *)
(** * Actions of the chat channel: types/channels-chat/actions.ts *)

From S2P Require Import Prelude JsNumber CommonState Changeset Canvas ChatState.
Local Open Scope Z_scope.

(** [ToolCallActionBase]: types/channels-chat/actions.ts:43-57. *)
Record ToolCallActionBase := mkToolCallActionBase {
  ToolCallActionBase_turnId : string;
  ToolCallActionBase_toolCallId : string;
  ToolCallActionBase_meta : option Meta
}.

(** [ChatTurnStartedAction]: types/channels-chat/actions.ts:69-92. *)
Record ChatTurnStartedAction := mkChatTurnStartedAction {
  ChatTurnStarted_turnId : string;
  ChatTurnStarted_startedAt : string;
  ChatTurnStarted_message : Message;
  ChatTurnStarted_queuedMessageId : option string;
  ChatTurnStarted_meta : option Meta
}.

(** [ChatDeltaAction]: types/channels-chat/actions.ts:103-121. *)
Record ChatDeltaAction := mkChatDeltaAction {
  ChatDelta_turnId : string;
  ChatDelta_partId : string;
  ChatDelta_content : string;
  ChatDelta_meta : option Meta
}.

(** [ChatResponsePartAction]: types/channels-chat/actions.ts:132-148. *)
Record ChatResponsePartAction := mkChatResponsePartAction {
  ChatResponsePart_turnId : string;
  ChatResponsePart_part : ResponsePart;
  ChatResponsePart_meta : option Meta
}.

(** [ChatToolCallStartAction]: types/channels-chat/actions.ts:162-175. *)
Record ChatToolCallStartAction := mkChatToolCallStartAction {
  ChatToolCallStart_base : ToolCallActionBase;
  ChatToolCallStart_toolName : string;
  ChatToolCallStart_displayName : string;
  ChatToolCallStart_intention : option string;
  ChatToolCallStart_contributor : option ToolCallContributor
}.

(** [ChatToolCallDeltaAction]: types/channels-chat/actions.ts:183-189. *)
Record ChatToolCallDeltaAction := mkChatToolCallDeltaAction {
  ChatToolCallDelta_base : ToolCallActionBase;
  ChatToolCallDelta_content : option string;
  ChatToolCallDelta_invocationMessage : option StringOrMarkdown
}.

(** [ChatToolCallReadyAction]: types/channels-chat/actions.ts:209-242. *)
Record ChatToolCallReadyAction := mkChatToolCallReadyAction {
  ChatToolCallReady_base : ToolCallActionBase;
  ChatToolCallReady_contributor : option ToolCallContributor;
  ChatToolCallReady_intention : option string;
  ChatToolCallReady_invocationMessage : StringOrMarkdown;
  ChatToolCallReady_toolInput : option ToolInput;
  ChatToolCallReady_confirmationTitle : option StringOrMarkdown;
  ChatToolCallReady_riskAssessment : option ToolCallRiskAssessment;
  ChatToolCallReady_edits : option FileEditCollection;
  ChatToolCallReady_editable : option bool;
  ChatToolCallReady_confirmed : option ToolCallConfirmationReason;
  ChatToolCallReady_options : option (list ConfirmationOption)
}.

(** [ChatToolCallApprovedAction]: types/channels-chat/actions.ts:251-267. *)
Record ChatToolCallApprovedAction := mkChatToolCallApprovedAction {
  ChatToolCallApproved_base : ToolCallActionBase;
  ChatToolCallApproved_confirmed : ToolCallConfirmationReason;
  ChatToolCallApproved_editedToolInput : option string;
  ChatToolCallApproved_selectedOptionId : option string
}.

(** [ChatToolCallDeniedAction]: types/channels-chat/actions.ts:279-291. *)
Record ChatToolCallDeniedAction := mkChatToolCallDeniedAction {
  ChatToolCallDenied_base : ToolCallActionBase;
  ChatToolCallDenied_reason : ToolCallCancellationReason;
  ChatToolCallDenied_userSuggestion : option Message;
  ChatToolCallDenied_reasonMessage : option StringOrMarkdown;
  ChatToolCallDenied_selectedOptionId : option string
}.

(** [ChatToolCallConfirmedAction]: types/channels-chat/actions.ts:300-302. *)
Inductive ChatToolCallConfirmedAction :=
| ChatToolCallConfirmedAction_Approved (a : ChatToolCallApprovedAction)
| ChatToolCallConfirmedAction_Denied (a : ChatToolCallDeniedAction).

(** [ChatToolCallCompleteAction]: types/channels-chat/actions.ts:337-343. *)
Record ChatToolCallCompleteAction := mkChatToolCallCompleteAction {
  ChatToolCallComplete_base : ToolCallActionBase;
  ChatToolCallComplete_result : ToolCallResult;
  ChatToolCallComplete_requiresResultConfirmation : option bool
}.

(** [ChatToolCallResultConfirmedAction]: types/channels-chat/actions.ts:354-358. *)
Record ChatToolCallResultConfirmedAction := mkChatToolCallResultConfirmedAction {
  ChatToolCallResultConfirmed_base : ToolCallActionBase;
  ChatToolCallResultConfirmed_approved : bool
}.

(** [ChatToolCallContentChangedAction]: types/channels-chat/actions.ts:377-381. *)
Record ChatToolCallContentChangedAction := mkChatToolCallContentChangedAction {
  ChatToolCallContentChanged_base : ToolCallActionBase;
  ChatToolCallContentChanged_content : list ToolResultContent
}.

(** [ChatToolCallAuthRequiredAction]: types/channels-chat/actions.ts:401-405. *)
Record ChatToolCallAuthRequiredAction := mkChatToolCallAuthRequiredAction {
  ChatToolCallAuthRequired_base : ToolCallActionBase;
  ChatToolCallAuthRequired_auth : McpAuthRequirement
}.

(** [ChatToolCallAuthResolvedAction]: types/channels-chat/actions.ts:419-421. *)
Record ChatToolCallAuthResolvedAction := mkChatToolCallAuthResolvedAction {
  ChatToolCallAuthResolved_base : ToolCallActionBase
}.

(** [ChatTurnCompleteAction]: types/channels-chat/actions.ts:429-450. *)
Record ChatTurnCompleteAction := mkChatTurnCompleteAction {
  ChatTurnComplete_turnId : string;
  ChatTurnComplete_duration : Z;
  ChatTurnComplete_meta : option Meta
}.

(** [ChatTurnCancelledAction]: types/channels-chat/actions.ts:459-480. *)
Record ChatTurnCancelledAction := mkChatTurnCancelledAction {
  ChatTurnCancelled_turnId : string;
  ChatTurnCancelled_duration : Z;
  ChatTurnCancelled_meta : option Meta
}.

(** [ChatErrorAction]: types/channels-chat/actions.ts:488-514. *)
Record ChatErrorAction := mkChatErrorAction {
  ChatError_turnId : string;
  ChatError_duration : Z;
  ChatError_part : ErrorResponsePart;
  ChatError_meta : option Meta
}.

(** [ChatTurnResumeAction]: types/channels-chat/actions.ts:528-532. *)
Record ChatTurnResumeAction := mkChatTurnResumeAction {
  ChatTurnResume_turnId : string
}.

(** [ChatActivityChangedAction]: types/channels-chat/actions.ts:546-550. *)
Record ChatActivityChangedAction := mkChatActivityChangedAction {
  ChatActivityChanged_activity : option string
}.

(** [ChatBackgroundWorkSetAction]: types/channels-chat/actions.ts:559-563. *)
Record ChatBackgroundWorkSetAction := mkChatBackgroundWorkSetAction {
  ChatBackgroundWorkSet_work : BackgroundWork
}.

(** [ChatBackgroundWorkRemovedAction]: types/channels-chat/actions.ts:571-575. *)
Record ChatBackgroundWorkRemovedAction := mkChatBackgroundWorkRemovedAction {
  ChatBackgroundWorkRemoved_id : string
}.

(** [ChatMovableChangedAction]: types/channels-chat/actions.ts:589-593. *)
Record ChatMovableChangedAction := mkChatMovableChangedAction {
  ChatMovableChanged_movable : bool
}.

(** [ChatChangesetsChangedAction]: types/channels-chat/actions.ts:609-613. *)
Record ChatChangesetsChangedAction := mkChatChangesetsChangedAction {
  ChatChangesetsChanged_changesets : option (list Changeset)
}.

(** [ChatCanvasesChangedAction]: types/channels-chat/actions.ts:624-628. *)
Record ChatCanvasesChangedAction := mkChatCanvasesChangedAction {
  ChatCanvasesChanged_canvases : option (list CanvasReference)
}.

(** [ChatWorkingDirectorySetAction]: types/channels-chat/actions.ts:645-649. *)
Record ChatWorkingDirectorySetAction := mkChatWorkingDirectorySetAction {
  ChatWorkingDirectorySet_directory : URI
}.

(** [ChatWorkingDirectoryRemovedAction]: types/channels-chat/actions.ts:663-667. *)
Record ChatWorkingDirectoryRemovedAction := mkChatWorkingDirectoryRemovedAction {
  ChatWorkingDirectoryRemoved_directory : URI
}.

(** [ChatUsageAction]: types/channels-chat/actions.ts:675-691. *)
Record ChatUsageAction := mkChatUsageAction {
  ChatUsage_turnId : string;
  ChatUsage_usage : UsageInfo;
  ChatUsage_meta : option Meta
}.

(** [ChatReasoningAction]: types/channels-chat/actions.ts:703-725. *)
Record ChatReasoningAction := mkChatReasoningAction {
  ChatReasoning_turnId : string;
  ChatReasoning_partId : string;
  ChatReasoning_content : string;
  ChatReasoning_startedAt : option string;
  ChatReasoning_duration : option Z;
  ChatReasoning_meta : option Meta
}.

(** [ChatTruncatedAction]: types/channels-chat/actions.ts:745-749. *)
Record ChatTruncatedAction := mkChatTruncatedAction {
  ChatTruncated_turnId : option string
}.

(** [ChatTurnsLoadedAction]: types/channels-chat/actions.ts:763-769. *)
Record ChatTurnsLoadedAction := mkChatTurnsLoadedAction {
  ChatTurnsLoaded_turns : list Turn;
  ChatTurnsLoaded_turnsNextCursor : option string
}.

(** [ChatPendingMessageSetAction]: types/channels-chat/actions.ts:787-795. *)
Record ChatPendingMessageSetAction := mkChatPendingMessageSetAction {
  ChatPendingMessageSet_kind : PendingMessageKind;
  ChatPendingMessageSet_id : string;
  ChatPendingMessageSet_message : Message
}.

(** [ChatPendingMessageRemovedAction]: types/channels-chat/actions.ts:812-818. *)
Record ChatPendingMessageRemovedAction := mkChatPendingMessageRemovedAction {
  ChatPendingMessageRemoved_kind : PendingMessageKind;
  ChatPendingMessageRemoved_id : string
}.

(** [ChatQueuedMessagesReorderedAction]: types/channels-chat/actions.ts:834-838. *)
Record ChatQueuedMessagesReorderedAction := mkChatQueuedMessagesReorderedAction {
  ChatQueuedMessagesReordered_order : list string
}.

(** [ChatDraftChangedAction]: types/channels-chat/actions.ts:859-863. *)
Record ChatDraftChangedAction := mkChatDraftChangedAction {
  ChatDraftChanged_draft : option Message
}.

(** [ChatIsReadChangedAction]: types/channels-chat/actions.ts:880-884. *)
Record ChatIsReadChangedAction := mkChatIsReadChangedAction {
  ChatIsReadChanged_isRead : bool
}.

(** [ChatIsArchivedChangedAction]: types/channels-chat/actions.ts:897-901. *)
Record ChatIsArchivedChangedAction := mkChatIsArchivedChangedAction {
  ChatIsArchivedChanged_isArchived : bool
}.

(** [ChatConfigChangedAction]: types/channels-chat/actions.ts:918-924. *)
Record ChatConfigChangedAction := mkChatConfigChangedAction {
  ChatConfigChanged_config : Meta;
  ChatConfigChanged_replace : option bool
}.

(** [ChatMovedAction]: types/channels-chat/actions.ts:940-948. *)
Record ChatMovedAction := mkChatMovedAction {
  ChatMoved_session : URI;
  ChatMoved_provider : option string;
  ChatMoved_schema : option SessionConfigSchema
}.

(** [ChatInputRequestedAction]: types/channels-chat/actions.ts:962-966. *)
Record ChatInputRequestedAction := mkChatInputRequestedAction {
  ChatInputRequested_request : ChatInputRequest
}.

(** [ChatInputAnswerChangedAction]: types/channels-chat/actions.ts:977-985. *)
Record ChatInputAnswerChangedAction := mkChatInputAnswerChangedAction {
  ChatInputAnswerChanged_requestId : string;
  ChatInputAnswerChanged_questionId : string;
  ChatInputAnswerChanged_answer : option ChatInputAnswer
}.

(** [ChatInputCompletedAction]: types/channels-chat/actions.ts:998-1006. *)
Record ChatInputCompletedAction := mkChatInputCompletedAction {
  ChatInputCompleted_requestId : string;
  ChatInputCompleted_response : ChatInputResponseKind;
  ChatInputCompleted_answers : option (gmap string ChatInputAnswer)
}.

(** [ChatAction]: types/channels-chat/actions.ts:1009-1049. *)
Inductive ChatAction :=
| ChatTurnStarted (a : ChatTurnStartedAction)
| ChatDelta (a : ChatDeltaAction)
| ChatResponsePart (a : ChatResponsePartAction)
| ChatToolCallStart (a : ChatToolCallStartAction)
| ChatToolCallDelta (a : ChatToolCallDeltaAction)
| ChatToolCallReady (a : ChatToolCallReadyAction)
| ChatToolCallConfirmed (a : ChatToolCallConfirmedAction)
| ChatToolCallComplete (a : ChatToolCallCompleteAction)
| ChatToolCallResultConfirmed (a : ChatToolCallResultConfirmedAction)
| ChatToolCallContentChanged (a : ChatToolCallContentChangedAction)
| ChatToolCallAuthRequired (a : ChatToolCallAuthRequiredAction)
| ChatToolCallAuthResolved (a : ChatToolCallAuthResolvedAction)
| ChatTurnComplete (a : ChatTurnCompleteAction)
| ChatTurnCancelled (a : ChatTurnCancelledAction)
| ChatError (a : ChatErrorAction)
| ChatTurnResume (a : ChatTurnResumeAction)
| ChatActivityChanged (a : ChatActivityChangedAction)
| ChatBackgroundWorkSet (a : ChatBackgroundWorkSetAction)
| ChatBackgroundWorkRemoved (a : ChatBackgroundWorkRemovedAction)
| ChatMovableChanged (a : ChatMovableChangedAction)
| ChatChangesetsChanged (a : ChatChangesetsChangedAction)
| ChatCanvasesChanged (a : ChatCanvasesChangedAction)
| ChatWorkingDirectorySet (a : ChatWorkingDirectorySetAction)
| ChatWorkingDirectoryRemoved (a : ChatWorkingDirectoryRemovedAction)
| ChatUsage (a : ChatUsageAction)
| ChatReasoning (a : ChatReasoningAction)
| ChatTruncated (a : ChatTruncatedAction)
| ChatTurnsLoaded (a : ChatTurnsLoadedAction)
| ChatPendingMessageSet (a : ChatPendingMessageSetAction)
| ChatPendingMessageRemoved (a : ChatPendingMessageRemovedAction)
| ChatQueuedMessagesReordered (a : ChatQueuedMessagesReorderedAction)
| ChatDraftChanged (a : ChatDraftChangedAction)
| ChatIsReadChanged (a : ChatIsReadChangedAction)
| ChatIsArchivedChanged (a : ChatIsArchivedChangedAction)
| ChatConfigChanged (a : ChatConfigChangedAction)
| ChatMoved (a : ChatMovedAction)
| ChatInputRequested (a : ChatInputRequestedAction)
| ChatInputAnswerChanged (a : ChatInputAnswerChangedAction)
| ChatInputCompleted (a : ChatInputCompletedAction)
| UnknownChatAction (stringified : string).

