(* ===== verification/ChatReducer.v ===== *)
(** * The chat reducer: types/channels-chat/reducer.ts

    Definitions only.  The helpers come first, then one function per [case] of
    [chatReducer], in the order of the file.  Three things the TypeScript code
    leaves implicit are explicit here: a tool-call updater that returns its
    argument unchanged is [None] (the code compares references), diagnostics are
    the log of [Logged], and the RangeError of [toISOString] is [Throw]. *)

From S2P Require Import Prelude ReducerHelpers JsNumber JsDate CommonState Changeset Canvas ChatState ChatActions.
Local Open Scope Z_scope.

(** ** The keys of the collections *)

Definition work_id (work : BackgroundWork) : string :=
  match work with
  | BackgroundWork_Shell w => w.(bsh_base).(bwb_id)
  | BackgroundWork_Subagent w => w.(bsub_base).(bwb_id)
  end.

#[export] Instance keyed_work : Keyed BackgroundWork := work_id.
#[export] Instance keyed_turn : Keyed Turn := turn_id.
#[export] Instance keyed_pending : Keyed PendingMessage := pm_id.

(** ** Helpers on tool calls *)

(** The fields every lifecycle state shares, whatever the state. *)
Definition tc_base_of (tc : ToolCallState) : ToolCallBase :=
  match tc with
  | ToolCallState_Streaming s => s.(tcs_base)
  | ToolCallState_PendingConfirmation s => s.(tcpc_base)
  | ToolCallState_Running s => s.(tcrun_base)
  | ToolCallState_AuthRequired s =>
      mkToolCallBase s.(tcar_toolCallId) s.(tcar_toolName) s.(tcar_displayName) s.(tcar_intention)
        (Some (ToolCallContributor_MCP s.(tcar_contributor))) s.(tcar_meta)
  | ToolCallState_PendingResultConfirmation s => s.(tcprc_base)
  | ToolCallState_Completed s => s.(tccomp_base)
  | ToolCallState_Cancelled s => s.(tccanc_base)
  end.

Definition tcBase (tc : ToolCallState) : ToolCallBase := tc_base_of tc.

Definition tcBaseWithMeta (tc : ToolCallState) (meta : option Meta) : ToolCallBase :=
  (tcBase tc) <| tcb_meta := meta ?? (tcBase tc).(tcb_meta) |>.

Definition tc_toolCallId (tc : ToolCallState) : string := (tc_base_of tc).(tcb_toolCallId).

Definition tc_status (tc : ToolCallState) : ToolCallStatus :=
  match tc with
  | ToolCallState_Streaming _ => ToolCallStatus_Streaming
  | ToolCallState_PendingConfirmation _ => ToolCallStatus_PendingConfirmation
  | ToolCallState_Running _ => ToolCallStatus_Running
  | ToolCallState_AuthRequired _ => ToolCallStatus_AuthRequired
  | ToolCallState_PendingResultConfirmation _ => ToolCallStatus_PendingResultConfirmation
  | ToolCallState_Completed _ => ToolCallStatus_Completed
  | ToolCallState_Cancelled _ => ToolCallStatus_Cancelled
  end.

Definition refineToolCallContributor (current next : option ToolCallContributor) :
    Logged (option ToolCallContributor) :=
  match next with
  | None => mret current
  | Some n =>
      match current with
      | Some (ToolCallContributor_Client c) =>
          match n with
          | ToolCallContributor_Client n' =>
              if n'.(tccl_clientId) =?s c.(tccl_clientId) then mret (Some n)
              else _ ← emit (LogIfGiven ("Ignoring contributor change for client tool call from '"
                          +:+ c.(tccl_clientId) +:+ "'"));
                   mret current
          | ToolCallContributor_MCP _ =>
              _ ← emit (LogIfGiven ("Ignoring contributor change for client tool call from '"
                     +:+ c.(tccl_clientId) +:+ "'"));
              mret current
          end
      | _ =>
          match n with
          | ToolCallContributor_Client n' =>
              _ ← emit (LogIfGiven ("Ignoring late client contributor '" +:+ n'.(tccl_clientId)
                     +:+ "' because client execution ownership must be established at tool call start"));
              mret current
          | ToolCallContributor_MCP _ => mret (Some n)
          end
      end
  end.

Definition resolveSelectedOption (options : option (list ConfirmationOption)) (id : option string) :
    option ConfirmationOption :=
  match truthy_string id, options with
  | Some i, Some os => find_js (λ o, o.(copt_id) =?s i) os
  | _, _ => None
  end.

(** ** Helpers on the chat state *)

Definition blocking_part (part : ResponsePart) : bool :=
  match part with
  | ResponsePart_ToolCall p =>
      match p.(tcp_toolCall) with
      | ToolCallState_PendingConfirmation _ | ToolCallState_PendingResultConfirmation _
      | ToolCallState_AuthRequired _ => true
      | _ => false
      end
  | _ => false
  end.

Definition hasBlockingToolCall (state : ChatState) : bool :=
  match state.(cs_activeTurn) with
  | None => false
  | Some turn => existsb blocking_part turn.(at_responseParts)
  end.

Definition open_request_part (part : ResponsePart) : bool :=
  match part with
  | ResponsePart_InputRequest p => match p.(irp_response) with None => true | Some _ => false end
  | _ => false
  end.

Definition hasOpenInputRequest (state : ChatState) : bool :=
  default_to false
    ((λ turn, existsb open_request_part turn.(at_responseParts)) <$> state.(cs_activeTurn)).

Definition open_request_with_id (requestId : string) (part : ResponsePart) : bool :=
  match part with
  | ResponsePart_InputRequest p =>
      match p.(irp_response) with
      | None => p.(irp_request).(cir_id) =?s requestId
      | Some _ => false
      end
  | _ => false
  end.

Definition findOpenInputRequestPart (responseParts : list ResponsePart) (requestId : string) :
    option (nat * InputRequestResponsePart) :=
  index ← findIndex (open_request_with_id requestId) responseParts;
  part ← responseParts !! index;
  match part with
  | ResponsePart_InputRequest p => Some (index, p)
  | _ => None
  end.

Definition hasResumableError (turn : Turn) : bool :=
  match last turn.(turn_responseParts) with
  | Some (ResponsePart_Error p) => truthy p.(ep_resumable)
  | _ => false
  end.

Definition isErrorResponsePart (part : ResponsePart) : bool :=
  match part with ResponsePart_Error _ => true | _ => false end.

Definition STATUS_ACTIVITY_MASK : Z := shl32 1 5 - 1.

Definition withStatusFlag (status flag : SessionStatus) (set : bool) : SessionStatus :=
  if set then or32 status flag else and32 status (not32 flag).

Definition summaryStatus (state : ChatState) (terminalStatus : option SessionStatus) :
    SessionStatus :=
  let activity :=
    match terminalStatus with
    | Some terminal => terminal
    | None =>
        if hasOpenInputRequest state || hasBlockingToolCall state then SessionStatus.InputNeeded
        else match state.(cs_activeTurn) with
             | Some _ => SessionStatus.InProgress
             | None => SessionStatus.Idle
             end
    end in
  or32 (and32 state.(cs_status) (not32 STATUS_ACTIVITY_MASK)) activity.

Definition refreshSummaryStatus (state : ChatState) : ChatState :=
  let status := summaryStatus state None in
  if status =? state.(cs_status) then state else state <| cs_status := status |>.

(** The part a tool call becomes when its turn ends. *)
Definition cancel_unfinished (part : ResponsePart) : ResponsePart :=
  match part with
  | ResponsePart_ToolCall p =>
      let tc := p.(tcp_toolCall) in
      match tc with
      | ToolCallState_Completed _ | ToolCallState_Cancelled _ => part
      | _ =>
          let params :=
            match tc with
            | ToolCallState_Streaming s =>
                mkToolCallParameterFields (s.(tcs_invocationMessage) ??! PlainString "") None
            | ToolCallState_PendingConfirmation s => s.(tcpc_params)
            | ToolCallState_Running s => s.(tcrun_params)
            | ToolCallState_AuthRequired s => s.(tcar_params)
            | ToolCallState_PendingResultConfirmation s => s.(tcprc_params)
            | ToolCallState_Completed s => s.(tccomp_params)
            | ToolCallState_Cancelled s => s.(tccanc_params)
            end in
          ResponsePart_ToolCall (mkToolCallResponsePart (ToolCallState_Cancelled
            (mkToolCallCancelledState (tcBase tc) params ToolCallCancellationReason_Skipped
               None None None)))
      end
  | _ => part
  end.

Section WithPlatform.
Context `{Platform}.

(** [endTurn]; the duration is a whole number of milliseconds. *)
Definition endTurn (state : ChatState) (turnId : string) (turnState : TurnState) (duration : Z)
    (terminalStatus : option SessionStatus) (errorPart : option ErrorResponsePart) :
    JsResult ChatState :=
  match state.(cs_activeTurn) with
  | None => Ok state
  | Some active =>
      if negb (active.(at_id) =?s turnId) then Ok state
      else
        let responseParts :=
          map cancel_unfinished active.(at_responseParts)
            ++ match errorPart with Some p => [ResponsePart_Error p] | None => [] end in
        let turn :=
          mkTurn active.(at_id) (Some active.(at_startedAt)) (Some (Z.max 0 duration))
            active.(at_message) responseParts active.(at_usage) turnState in
        modifiedAt ← addMillisecondsToTimestamp active.(at_startedAt)
                       (turn.(turn_duration) ??! 0);
        let next := state <| cs_turns := state.(cs_turns) ++ [turn] |>
                          <| cs_activeTurn := None |>
                          <| cs_modifiedAt := modifiedAt |> in
        Ok (next <| cs_status := summaryStatus next terminalStatus |>)
  end.

End WithPlatform.

Definition upsertInputRequestPart (state : ChatState) (request : ChatInputRequest) : ChatState :=
  match state.(cs_activeTurn) with
  | None => state
  | Some activeTurn =>
      let parts := activeTurn.(at_responseParts) in
      let responseParts :=
        match findOpenInputRequestPart parts request.(cir_id) with
        | Some (index, part) =>
            <[index := ResponsePart_InputRequest (mkInputRequestResponsePart
                (request <| cir_answers :=
                   request.(cir_answers) ?? part.(irp_request).(cir_answers) |>) None)]> parts
        | None => parts ++ [ResponsePart_InputRequest (mkInputRequestResponsePart request None)]
        end in
      let next :=
        state <| cs_activeTurn := Some (activeTurn <| at_responseParts := responseParts |>) |> in
      next <| cs_status :=
        withStatusFlag (summaryStatus next None) SessionStatus.IsRead false |>
  end.

(** The effect of an updater on one part: whether it changed, and the part. *)
Definition update_tool_part (toolCallId : string)
    (updater : ToolCallState → Logged (option ToolCallState)) (part : ResponsePart) :
    Logged (bool * ResponsePart) :=
  match part with
  | ResponsePart_ToolCall p =>
      if tc_toolCallId p.(tcp_toolCall) =?s toolCallId then
        updated ← updater p.(tcp_toolCall);
        mret match updated with
             | None => (false, part)
             | Some tc => (true, ResponsePart_ToolCall (p <| tcp_toolCall := tc |>))
             end
      else mret (false, part)
  | _ => mret (false, part)
  end.

Definition updateToolCallInParts (state : ChatState) (turnId toolCallId : string)
    (updater : ToolCallState → Logged (option ToolCallState)) : Logged ChatState :=
  match state.(cs_activeTurn) with
  | None => mret state
  | Some activeTurn =>
      if negb (activeTurn.(at_id) =?s turnId) then mret state
      else
        mapped ← mapM (update_tool_part toolCallId updater) activeTurn.(at_responseParts);
        mret (if existsb fst mapped
              then state <| cs_activeTurn :=
                     Some (activeTurn <| at_responseParts := map snd mapped |>) |>
              else state)
  end.

(** The identifier a delta addresses a part by. *)
Definition part_id (part : ResponsePart) : option string :=
  match part with
  | ResponsePart_ToolCall p => Some (tc_toolCallId p.(tcp_toolCall))
  | ResponsePart_Markdown p => Some p.(mdp_id)
  | ResponsePart_Reasoning p => Some p.(rp_id)
  | _ => None
  end.

(** Apply [updater] to the first part with the identifier; [None] if there is none. *)
Fixpoint update_first_part (partId : string) (updater : ResponsePart → ResponsePart)
    (parts : list ResponsePart) : option (list ResponsePart) :=
  match parts with
  | [] => None
  | part :: rest =>
      if bool_decide (part_id part = Some partId) then Some (updater part :: rest)
      else (cons part) <$> update_first_part partId updater rest
  end.

Definition updateResponsePart (state : ChatState) (turnId partId : string)
    (updater : ResponsePart → ResponsePart) : ChatState :=
  match state.(cs_activeTurn) with
  | None => state
  | Some activeTurn =>
      if negb (activeTurn.(at_id) =?s turnId) then state
      else match update_first_part partId updater activeTurn.(at_responseParts) with
           | None => state
           | Some responseParts =>
               state <| cs_activeTurn :=
                 Some (activeTurn <| at_responseParts := responseParts |>) |>
           end
  end.

(** ** Turn lifecycle *)

(** [{ ...state, activeTurn }] with the status derived again and marked unread. *)
Definition with_unread_summary (next : ChatState) : ChatState :=
  next <| cs_status := withStatusFlag (summaryStatus next None) SessionStatus.IsRead false |>.

Definition steering_is (state : ChatState) (id : string) : bool :=
  match state.(cs_steeringMessage) with Some m => has_key id m | None => false end.

Definition consume_pending (next : ChatState) (queuedMessageId : string) : ChatState :=
  let next :=
    if steering_is next queuedMessageId then next <| cs_steeringMessage := None |> else next in
  match next.(cs_queuedMessages) with
  | Some queued =>
      next <| cs_queuedMessages :=
        non_empty_list (List.filter (λ m, negb (has_key queuedMessageId m)) queued) |>
  | None => next
  end.

Definition on_ChatTurnStarted (state : ChatState) (action : ChatTurnStartedAction) : ChatState :=
  let next :=
    state <| cs_activeTurn := Some (mkActiveTurn action.(ChatTurnStarted_turnId)
               action.(ChatTurnStarted_startedAt) action.(ChatTurnStarted_message) [] None) |> in
  let next := (with_unread_summary next) <| cs_modifiedAt := action.(ChatTurnStarted_startedAt) |> in
  match action.(ChatTurnStarted_queuedMessageId) with
  | Some id => consume_pending next id
  | None => next
  end.

Definition append_markdown (content : string) (part : ResponsePart) : ResponsePart :=
  match part with
  | ResponsePart_Markdown p =>
      ResponsePart_Markdown (p <| mdp_content := p.(mdp_content) +:+ content |>)
  | _ => part
  end.

Definition on_ChatDelta (state : ChatState) (action : ChatDeltaAction) : ChatState :=
  updateResponsePart state action.(ChatDelta_turnId) action.(ChatDelta_partId)
    (append_markdown action.(ChatDelta_content)).

(** [{ ...state.activeTurn, ... }] guarded by [state.activeTurn.id === turnId]. *)
Definition with_active_turn (state : ChatState) (turnId : string) (f : ActiveTurn → ActiveTurn) :
    ChatState :=
  match state.(cs_activeTurn) with
  | None => state
  | Some turn =>
      if negb (turn.(at_id) =?s turnId) then state
      else state <| cs_activeTurn := Some (f turn) |>
  end.

Definition push_part (part : ResponsePart) (turn : ActiveTurn) : ActiveTurn :=
  turn <| at_responseParts := turn.(at_responseParts) ++ [part] |>.

Definition on_ChatResponsePart (state : ChatState) (action : ChatResponsePartAction) : ChatState :=
  if isErrorResponsePart action.(ChatResponsePart_part) then state
  else with_active_turn state action.(ChatResponsePart_turnId)
         (push_part action.(ChatResponsePart_part)).

Definition on_ChatTurnComplete `{Platform} (state : ChatState) (action : ChatTurnCompleteAction) :
    JsResult ChatState :=
  endTurn state action.(ChatTurnComplete_turnId) TurnState_Complete
    action.(ChatTurnComplete_duration) None None.

Definition on_ChatTurnCancelled `{Platform} (state : ChatState) (action : ChatTurnCancelledAction) :
    JsResult ChatState :=
  endTurn state action.(ChatTurnCancelled_turnId) TurnState_Cancelled
    action.(ChatTurnCancelled_duration) None None.

Definition on_ChatError `{Platform} (state : ChatState) (action : ChatErrorAction) :
    JsResult ChatState :=
  endTurn state action.(ChatError_turnId) TurnState_Error
    action.(ChatError_duration) (Some SessionStatus.Error) (Some action.(ChatError_part)).

Definition resumable (turnId : string) (turn : Turn) : bool :=
  (turn.(turn_id) =?s turnId) && bool_decide (turn.(turn_state) = TurnState_Error)
    && hasResumableError turn.

Definition on_ChatTurnResume (state : ChatState) (action : ChatTurnResumeAction) : ChatState :=
  match state.(cs_activeTurn) with
  | Some _ => state
  | None =>
      let turnIndex := (length state.(cs_turns) - 1)%nat in
      match state.(cs_turns) !! turnIndex with
      | None => state
      | Some turn =>
          if negb (resumable action.(ChatTurnResume_turnId) turn) then state
          else
            with_unread_summary
              (state <| cs_turns := delete turnIndex state.(cs_turns) |>
                     <| cs_activeTurn := Some (mkActiveTurn turn.(turn_id)
                          (turn.(turn_startedAt) ??! state.(cs_modifiedAt)) turn.(turn_message)
                          turn.(turn_responseParts) turn.(turn_usage)) |>)
      end
  end.

(** ** Metadata of the chat *)

Definition on_ChatBackgroundWorkSet (state : ChatState) (action : ChatBackgroundWorkSetAction) :
    ChatState :=
  let work := action.(ChatBackgroundWorkSet_work) in
  state <| cs_backgroundWork :=
    Some (upsert (has_key (key_of work)) work (state.(cs_backgroundWork) ??! [])) |>.

Definition on_ChatBackgroundWorkRemoved (state : ChatState)
    (action : ChatBackgroundWorkRemovedAction) : ChatState :=
  match removeFirst (has_key action.(ChatBackgroundWorkRemoved_id))
          (state.(cs_backgroundWork) ??! []) with
  | None => state
  | Some next => state <| cs_backgroundWork := Some next |>
  end.

Definition on_ChatWorkingDirectorySet (state : ChatState) (action : ChatWorkingDirectorySetAction) :
    ChatState :=
  let list := state.(cs_workingDirectories) ??! [] in
  if includes list action.(ChatWorkingDirectorySet_directory) then state
  else state <| cs_workingDirectories :=
         Some (list ++ [action.(ChatWorkingDirectorySet_directory)]) |>.

Definition on_ChatWorkingDirectoryRemoved (state : ChatState)
    (action : ChatWorkingDirectoryRemovedAction) : ChatState :=
  match state.(cs_workingDirectories) with
  | None => state
  | Some list =>
      match removeFirst (has_key action.(ChatWorkingDirectoryRemoved_directory)) list with
      | None => state
      | Some updated => state <| cs_workingDirectories := Some updated |>
      end
  end.

(** ** The tool-call state machine

    Each updater is the arrow function the case passes to
    [updateToolCallInParts]; [None] is [return tc]. *)

Definition on_ChatToolCallStart (state : ChatState) (action : ChatToolCallStartAction) : ChatState :=
  let base := action.(ChatToolCallStart_base) in
  with_active_turn state base.(ToolCallActionBase_turnId)
    (push_part (ResponsePart_ToolCall (mkToolCallResponsePart (ToolCallState_Streaming
      (mkToolCallStreamingState
        (mkToolCallBase base.(ToolCallActionBase_toolCallId) action.(ChatToolCallStart_toolName)
           action.(ChatToolCallStart_displayName) action.(ChatToolCallStart_intention)
           action.(ChatToolCallStart_contributor) base.(ToolCallActionBase_meta))
        None None))))).

Definition update_delta (action : ChatToolCallDeltaAction) (tc : ToolCallState) :
    Logged (option ToolCallState) :=
  mret match tc with
  | ToolCallState_Streaming s =>
      Some (ToolCallState_Streaming
        (mkToolCallStreamingState
          (s.(tcs_base) <| tcb_meta :=
             action.(ChatToolCallDelta_base).(ToolCallActionBase_meta) ?? s.(tcs_base).(tcb_meta) |>)
          (match action.(ChatToolCallDelta_content) with
           | Some content => Some ((s.(tcs_partialInput) ??! "") +:+ content)
           | None => s.(tcs_partialInput)
           end)
          (action.(ChatToolCallDelta_invocationMessage) ?? s.(tcs_invocationMessage))))
  | _ => None
  end.

Definition tc_toolInput (tc : ToolCallState) : option ToolInput :=
  match tc with
  | ToolCallState_Streaming _ => None
  | ToolCallState_PendingConfirmation s => s.(tcpc_params).(tpf_toolInput)
  | ToolCallState_Running s => s.(tcrun_params).(tpf_toolInput)
  | ToolCallState_AuthRequired s => s.(tcar_params).(tpf_toolInput)
  | ToolCallState_PendingResultConfirmation s => s.(tcprc_params).(tpf_toolInput)
  | ToolCallState_Completed s => s.(tccomp_params).(tpf_toolInput)
  | ToolCallState_Cancelled s => s.(tccanc_params).(tpf_toolInput)
  end.

Definition pending_of (tc : ToolCallState) : option ToolCallPendingConfirmationState :=
  match tc with ToolCallState_PendingConfirmation s => Some s | _ => None end.

Definition ready_accepts (tc : ToolCallState) : bool :=
  match tc with
  | ToolCallState_Streaming _ | ToolCallState_Running _ | ToolCallState_PendingConfirmation _ => true
  | _ => false
  end.

Definition update_ready (action : ChatToolCallReadyAction) (tc : ToolCallState) :
    Logged (option ToolCallState) :=
  if negb (ready_accepts tc) then mret None
  else
    contributor ← refineToolCallContributor (tcBase tc).(tcb_contributor)
                    action.(ChatToolCallReady_contributor);
    let base :=
      (tcBaseWithMeta tc action.(ChatToolCallReady_base).(ToolCallActionBase_meta))
        <| tcb_contributor := contributor |>
        <| tcb_intention := action.(ChatToolCallReady_intention) ?? (tcBase tc).(tcb_intention) |> in
    let params :=
      mkToolCallParameterFields action.(ChatToolCallReady_invocationMessage)
        (action.(ChatToolCallReady_toolInput) ?? tc_toolInput tc) in
    mret (Some match action.(ChatToolCallReady_confirmed) with
      | Some confirmed =>
          ToolCallState_Running
            (mkToolCallRunningState base params (mkToolCallPostConfirmationFields confirmed None) None)
      | None =>
          let pending := pending_of tc in
          ToolCallState_PendingConfirmation
            (mkToolCallPendingConfirmationState base params
              (action.(ChatToolCallReady_confirmationTitle) ?? (pending ≫= tcpc_confirmationTitle))
              (action.(ChatToolCallReady_riskAssessment) ?? (pending ≫= tcpc_riskAssessment))
              (action.(ChatToolCallReady_edits) ?? (pending ≫= tcpc_edits))
              (action.(ChatToolCallReady_editable) ?? (pending ≫= tcpc_editable))
              (action.(ChatToolCallReady_options) ?? (pending ≫= tcpc_options)))
      end).

(** [editedToolInput !== undefined && typeof tc.toolInput === 'string' ? ...]. *)
Definition edited_input (edited : option string) (toolInput : option ToolInput) : option ToolInput :=
  match edited, toolInput with
  | Some e, Some (ToolInput_string _) => Some (ToolInput_string e)
  | _, _ => toolInput
  end.

Definition update_confirmed (action : ChatToolCallConfirmedAction) (tc : ToolCallState) :
    Logged (option ToolCallState) :=
  mret match tc with
  | ToolCallState_PendingConfirmation s =>
      Some match action with
      | ChatToolCallConfirmedAction_Approved a =>
          let meta := a.(ChatToolCallApproved_base).(ToolCallActionBase_meta) in
          ToolCallState_Running (mkToolCallRunningState (tcBaseWithMeta tc meta)
            (s.(tcpc_params) <| tpf_toolInput :=
               edited_input a.(ChatToolCallApproved_editedToolInput) s.(tcpc_params).(tpf_toolInput) |>)
            (mkToolCallPostConfirmationFields a.(ChatToolCallApproved_confirmed)
               (resolveSelectedOption s.(tcpc_options) a.(ChatToolCallApproved_selectedOptionId)))
            None)
      | ChatToolCallConfirmedAction_Denied a =>
          let meta := a.(ChatToolCallDenied_base).(ToolCallActionBase_meta) in
          ToolCallState_Cancelled (mkToolCallCancelledState (tcBaseWithMeta tc meta)
            s.(tcpc_params) a.(ChatToolCallDenied_reason) a.(ChatToolCallDenied_reasonMessage)
            a.(ChatToolCallDenied_userSuggestion)
            (resolveSelectedOption s.(tcpc_options) a.(ChatToolCallDenied_selectedOptionId)))
      end
  | _ => None
  end.

(** The parameters and confirmation a completing call carries over; [None] when
    its state does not accept the completion. *)
Definition completable (tc : ToolCallState) (success : bool) :
    option (ToolCallParameterFields * ToolCallPostConfirmationFields) :=
  match tc with
  | ToolCallState_Running s => Some (s.(tcrun_params), s.(tcrun_post))
  | ToolCallState_PendingConfirmation s =>
      Some (s.(tcpc_params),
            mkToolCallPostConfirmationFields ToolCallConfirmationReason_NotNeeded None)
  | ToolCallState_AuthRequired s =>
      if success then None else Some (s.(tcar_params), s.(tcar_post))
  | _ => None
  end.

Definition preAuthContent (tc : ToolCallState) : option (list ToolResultContent) :=
  match tc with ToolCallState_AuthRequired s => s.(tcar_content) | _ => None end.

Definition is_auth_required (tc : ToolCallState) : bool :=
  match tc with ToolCallState_AuthRequired _ => true | _ => false end.

Definition update_complete (action : ChatToolCallCompleteAction) (tc : ToolCallState) :
    Logged (option ToolCallState) :=
  let result := action.(ChatToolCallComplete_result) in
  mret match completable tc result.(tcr_success) with
  | None => None
  | Some (params, post) =>
      let base := tcBaseWithMeta tc action.(ChatToolCallComplete_base).(ToolCallActionBase_meta) in
      let result := result <| tcr_content := result.(tcr_content) ?? preAuthContent tc |> in
      Some (if truthy action.(ChatToolCallComplete_requiresResultConfirmation)
                 && negb (is_auth_required tc)
            then ToolCallState_PendingResultConfirmation
                   (mkToolCallPendingResultConfirmationState base params result post)
            else ToolCallState_Completed (mkToolCallCompletedState base params result post))
  end.

Definition update_resultConfirmed (action : ChatToolCallResultConfirmedAction) (tc : ToolCallState) :
    Logged (option ToolCallState) :=
  mret match tc with
  | ToolCallState_PendingResultConfirmation s =>
      let base :=
        tcBaseWithMeta tc action.(ChatToolCallResultConfirmed_base).(ToolCallActionBase_meta) in
      Some (if action.(ChatToolCallResultConfirmed_approved)
            then ToolCallState_Completed
                   (mkToolCallCompletedState base s.(tcprc_params) s.(tcprc_result) s.(tcprc_post))
            else ToolCallState_Cancelled
                   (mkToolCallCancelledState base s.(tcprc_params)
                      ToolCallCancellationReason_ResultDenied None None
                      s.(tcprc_post).(tpc_selectedOption)))
  | _ => None
  end.

Definition update_contentChanged (action : ChatToolCallContentChangedAction) (tc : ToolCallState) :
    Logged (option ToolCallState) :=
  mret match tc with
  | ToolCallState_Running s =>
      let meta := action.(ChatToolCallContentChanged_base).(ToolCallActionBase_meta) in
      Some (ToolCallState_Running
        (s <| tcrun_base := s.(tcrun_base) <| tcb_meta := meta ?? s.(tcrun_base).(tcb_meta) |> |>
           <| tcrun_content := Some action.(ChatToolCallContentChanged_content) |>))
  | _ => None
  end.

Definition update_authRequired (action : ChatToolCallAuthRequiredAction) (tc : ToolCallState) :
    Logged (option ToolCallState) :=
  mret match tc with
  | ToolCallState_Running s =>
      match s.(tcrun_base).(tcb_contributor) with
      | Some (ToolCallContributor_MCP contributor) =>
          let base :=
            tcBaseWithMeta tc action.(ChatToolCallAuthRequired_base).(ToolCallActionBase_meta) in
          Some (ToolCallState_AuthRequired (mkToolCallAuthRequiredState
            base.(tcb_toolCallId) base.(tcb_toolName) base.(tcb_displayName) base.(tcb_intention)
            base.(tcb_meta) s.(tcrun_params) s.(tcrun_post) contributor
            action.(ChatToolCallAuthRequired_auth) s.(tcrun_content)))
      | _ => None
      end
  | _ => None
  end.

Definition update_authResolved (action : ChatToolCallAuthResolvedAction) (tc : ToolCallState) :
    Logged (option ToolCallState) :=
  mret match tc with
  | ToolCallState_AuthRequired s =>
      Some (ToolCallState_Running (mkToolCallRunningState
        (tcBaseWithMeta tc action.(ChatToolCallAuthResolved_base).(ToolCallActionBase_meta))
        s.(tcar_params) s.(tcar_post) s.(tcar_content)))
  | _ => None
  end.

(** [updateToolCallInParts(state, action.turnId, action.toolCallId, updater)]. *)
Definition update_call (state : ChatState) (base : ToolCallActionBase)
    (updater : ToolCallState → Logged (option ToolCallState)) : Logged ChatState :=
  updateToolCallInParts state base.(ToolCallActionBase_turnId)
    base.(ToolCallActionBase_toolCallId) updater.

Definition on_ChatToolCallDelta (state : ChatState) (action : ChatToolCallDeltaAction) :
    Logged ChatState :=
  update_call state action.(ChatToolCallDelta_base) (update_delta action).

Definition on_ChatToolCallReady (state : ChatState) (action : ChatToolCallReadyAction) :
    Logged ChatState :=
  refreshSummaryStatus <$> update_call state action.(ChatToolCallReady_base) (update_ready action).

Definition confirmed_base (action : ChatToolCallConfirmedAction) : ToolCallActionBase :=
  match action with
  | ChatToolCallConfirmedAction_Approved a => a.(ChatToolCallApproved_base)
  | ChatToolCallConfirmedAction_Denied a => a.(ChatToolCallDenied_base)
  end.

Definition on_ChatToolCallConfirmed (state : ChatState) (action : ChatToolCallConfirmedAction) :
    Logged ChatState :=
  refreshSummaryStatus <$> update_call state (confirmed_base action) (update_confirmed action).

Definition on_ChatToolCallComplete (state : ChatState) (action : ChatToolCallCompleteAction) :
    Logged ChatState :=
  refreshSummaryStatus <$>
    update_call state action.(ChatToolCallComplete_base) (update_complete action).

Definition on_ChatToolCallResultConfirmed (state : ChatState)
    (action : ChatToolCallResultConfirmedAction) : Logged ChatState :=
  refreshSummaryStatus <$>
    update_call state action.(ChatToolCallResultConfirmed_base) (update_resultConfirmed action).

Definition on_ChatToolCallContentChanged (state : ChatState)
    (action : ChatToolCallContentChangedAction) : Logged ChatState :=
  update_call state action.(ChatToolCallContentChanged_base) (update_contentChanged action).

Definition on_ChatToolCallAuthRequired (state : ChatState) (action : ChatToolCallAuthRequiredAction) :
    Logged ChatState :=
  refreshSummaryStatus <$>
    update_call state action.(ChatToolCallAuthRequired_base) (update_authRequired action).

Definition on_ChatToolCallAuthResolved (state : ChatState) (action : ChatToolCallAuthResolvedAction) :
    Logged ChatState :=
  refreshSummaryStatus <$>
    update_call state action.(ChatToolCallAuthResolved_base) (update_authResolved action).

(** ** Usage, reasoning, history *)

Definition on_ChatUsage (state : ChatState) (action : ChatUsageAction) : ChatState :=
  with_active_turn state action.(ChatUsage_turnId)
    (λ turn, turn <| at_usage := Some action.(ChatUsage_usage) |>).

Definition append_reasoning (action : ChatReasoningAction) (part : ResponsePart) : ResponsePart :=
  match part with
  | ResponsePart_Reasoning p =>
      ResponsePart_Reasoning
        (p <| rp_content := p.(rp_content) +:+ action.(ChatReasoning_content) |>
           <| rp_startedAt := action.(ChatReasoning_startedAt) ?? p.(rp_startedAt) |>
           <| rp_duration := action.(ChatReasoning_duration) ?? p.(rp_duration) |>)
  | _ => part
  end.

Definition on_ChatReasoning (state : ChatState) (action : ChatReasoningAction) : ChatState :=
  updateResponsePart state action.(ChatReasoning_turnId) action.(ChatReasoning_partId)
    (append_reasoning action).

(** The turns [chat/truncated] keeps; [None] when the turn is unknown. *)
Definition truncated_turns (turns : list Turn) (turnId : option string) : option (list Turn) :=
  match turnId with
  | None => Some []
  | Some id => idx ← findIndex (has_key id) turns; Some (take (idx + 1) turns)
  end.

Definition on_ChatTruncated (state : ChatState) (action : ChatTruncatedAction) : ChatState :=
  match truncated_turns state.(cs_turns) action.(ChatTruncated_turnId) with
  | None => state
  | Some turns =>
      let next := state <| cs_turns := turns |> <| cs_activeTurn := None |> in
      let next :=
        match action.(ChatTruncated_turnId) with
        | None => next <| cs_turnsNextCursor := None |>
        | Some _ => next
        end in
      next <| cs_status := summaryStatus next None |>
  end.

Definition on_ChatTurnsLoaded (state : ChatState) (action : ChatTurnsLoadedAction) : ChatState :=
  let existingIds := map turn_id state.(cs_turns) in
  let olderTurns :=
    List.filter (λ turn, negb (includes existingIds turn.(turn_id)))
      action.(ChatTurnsLoaded_turns) in
  state <| cs_turns := olderTurns ++ state.(cs_turns) |>
        <| cs_turnsNextCursor := action.(ChatTurnsLoaded_turnsNextCursor) |>.

(** ** Input requests *)

Definition on_ChatInputRequested (state : ChatState) (action : ChatInputRequestedAction) : ChatState :=
  upsertInputRequestPart state action.(ChatInputRequested_request).

(** The open request of the active turn, with the turn and its position. *)
Definition open_request (state : ChatState) (requestId : string) :
    option (ActiveTurn * (nat * InputRequestResponsePart)) :=
  activeTurn ← state.(cs_activeTurn);
  existing ← findOpenInputRequestPart activeTurn.(at_responseParts) requestId;
  Some (activeTurn, existing).

Definition replace_part (state : ChatState) (activeTurn : ActiveTurn) (index : nat)
    (part : InputRequestResponsePart) : ChatState :=
  state <| cs_activeTurn := Some (activeTurn <| at_responseParts :=
    <[index := ResponsePart_InputRequest part]> activeTurn.(at_responseParts) |>) |>.

Definition on_ChatInputAnswerChanged (state : ChatState) (action : ChatInputAnswerChangedAction) :
    ChatState :=
  match open_request state action.(ChatInputAnswerChanged_requestId) with
  | None => state
  | Some (activeTurn, (index, part)) =>
      let request := part.(irp_request) in
      let answers := request.(cir_answers) ??! ∅ in
      let answers :=
        match action.(ChatInputAnswerChanged_answer) with
        | None => delete action.(ChatInputAnswerChanged_questionId) answers
        | Some answer => <[action.(ChatInputAnswerChanged_questionId) := answer]> answers
        end in
      replace_part state activeTurn index
        (part <| irp_request := request <| cir_answers := non_empty_map answers |> |>)
  end.

Definition on_ChatInputCompleted (state : ChatState) (action : ChatInputCompletedAction) : ChatState :=
  match open_request state action.(ChatInputCompleted_requestId) with
  | None => state
  | Some (activeTurn, (index, part)) =>
      let request := part.(irp_request) in
      let finalAnswers :=
        spread (request.(cir_answers) ??! ∅) (action.(ChatInputCompleted_answers) ??! ∅) in
      let next :=
        replace_part state activeTurn index
          (part <| irp_request := request <| cir_answers := non_empty_map finalAnswers |> |>
                <| irp_response := Some action.(ChatInputCompleted_response) |>) in
      next <| cs_status := summaryStatus next None |>
  end.

(** ** Pending messages *)

Definition on_ChatPendingMessageSet (state : ChatState) (action : ChatPendingMessageSetAction) :
    ChatState :=
  let id := action.(ChatPendingMessageSet_id) in
  let entry :=
    mkPendingMessage id (Some action.(ChatPendingMessageSet_kind))
      action.(ChatPendingMessageSet_message) in
  let nextState :=
    state <| cs_queuedMessages :=
      Some (upsert (has_key id) entry (state.(cs_queuedMessages) ??! [])) |> in
  match action.(ChatPendingMessageSet_kind) with
  | PendingMessageKind_Steering => nextState <| cs_steeringMessage := Some entry |>
  | PendingMessageKind_Queued =>
      if steering_is state id then nextState <| cs_steeringMessage := None |> else nextState
  end.

Definition pm_matches (id : string) (kind : PendingMessageKind) (m : PendingMessage) : bool :=
  has_key id m && bool_decide ((m.(pm_kind) ??! PendingMessageKind_Queued) = kind).

Definition on_ChatPendingMessageRemoved (state : ChatState)
    (action : ChatPendingMessageRemovedAction) : ChatState :=
  let id := action.(ChatPendingMessageRemoved_id) in
  let kind := action.(ChatPendingMessageRemoved_kind) in
  let next :=
    if bool_decide (kind = PendingMessageKind_Steering) && steering_is state id
    then state <| cs_steeringMessage := None |> else state in
  match removeFirst (pm_matches id kind) (state.(cs_queuedMessages) ??! []) with
  | None => next
  | Some queuedMessages => next <| cs_queuedMessages := non_empty_list queuedMessages |>
  end.

(** The identifiers of [order] that are known and not yet in [ordered]: the
    [filter] whose callback fills the set [ordered] as it goes. *)
Fixpoint known_once (byId : gmap string PendingMessage) (ordered : gset string)
    (order : list string) : list string :=
  match order with
  | [] => []
  | id :: rest =>
      if bool_decide (is_Some (byId !! id)) && negb (bool_decide (id ∈ ordered))
      then id :: known_once byId ({[id]} ∪ ordered) rest
      else known_once byId ordered rest
  end.

Definition reorder_queued (existing : list PendingMessage) (order : list string) :
    list PendingMessage :=
  let byId := mapBy key_of existing in
  let ordered := known_once byId ∅ order in
  omap (λ id, byId !! id) ordered
    ++ List.filter (λ m, negb (includes ordered m.(pm_id))) existing.

Definition on_ChatQueuedMessagesReordered (state : ChatState)
    (action : ChatQueuedMessagesReorderedAction) : ChatState :=
  match state.(cs_queuedMessages) with
  | None => state
  | Some existing =>
      state <| cs_queuedMessages :=
        Some (reorder_queued existing action.(ChatQueuedMessagesReordered_order)) |>
  end.

(** ** Flags, configuration, move *)

Definition on_ChatConfigChanged (state : ChatState) (action : ChatConfigChangedAction) : ChatState :=
  let values :=
    match state.(cs_config) with
    | Some config =>
        if truthy action.(ChatConfigChanged_replace) then action.(ChatConfigChanged_config)
        else spread config.(ccs_values) action.(ChatConfigChanged_config)
    | None => action.(ChatConfigChanged_config)
    end in
  state <| cs_config := Some (mkChatConfigState (state.(cs_config) ≫= ccs_schema) values) |>.

Definition on_ChatMoved (state : ChatState) (action : ChatMovedAction) : ChatState :=
  let next := state <| cs_provider := action.(ChatMoved_provider) |> in
  match state.(cs_config), action.(ChatMoved_schema) with
  | Some config, schema => next <| cs_config := Some (config <| ccs_schema := schema |>) |>
  | None, Some schema => next <| cs_config := Some (mkChatConfigState (Some schema) ∅) |>
  | None, None => next <| cs_config := None |>
  end.

(** ** chatReducer *)

Definition ok_chat (state : ChatState) : Logged (JsResult ChatState) := mret (Ok state).
Definition may_throw (result : JsResult ChatState) : Logged (JsResult ChatState) := mret result.
Definition may_log (result : Logged ChatState) : Logged (JsResult ChatState) := Ok <$> result.

Definition chatReducer `{Platform} (state : ChatState) (action : ChatAction) :
    Logged (JsResult ChatState) :=
  match action with
  | ChatTurnStarted a => ok_chat (on_ChatTurnStarted state a)
  | ChatDelta a => ok_chat (on_ChatDelta state a)
  | ChatResponsePart a => ok_chat (on_ChatResponsePart state a)
  | ChatTurnComplete a => may_throw (on_ChatTurnComplete state a)
  | ChatTurnCancelled a => may_throw (on_ChatTurnCancelled state a)
  | ChatError a => may_throw (on_ChatError state a)
  | ChatTurnResume a => ok_chat (on_ChatTurnResume state a)
  | ChatActivityChanged a =>
      ok_chat (state <| cs_activity := a.(ChatActivityChanged_activity) |>)
  | ChatBackgroundWorkSet a => ok_chat (on_ChatBackgroundWorkSet state a)
  | ChatBackgroundWorkRemoved a => ok_chat (on_ChatBackgroundWorkRemoved state a)
  | ChatMovableChanged a =>
      ok_chat (state <| cs_movable := Some a.(ChatMovableChanged_movable) |>)
  | ChatChangesetsChanged a =>
      ok_chat (state <| cs_changesets := a.(ChatChangesetsChanged_changesets) |>)
  | ChatCanvasesChanged a =>
      ok_chat (state <| cs_canvases := a.(ChatCanvasesChanged_canvases) |>)
  | ChatWorkingDirectorySet a => ok_chat (on_ChatWorkingDirectorySet state a)
  | ChatWorkingDirectoryRemoved a => ok_chat (on_ChatWorkingDirectoryRemoved state a)
  | ChatToolCallStart a => ok_chat (on_ChatToolCallStart state a)
  | ChatToolCallDelta a => may_log (on_ChatToolCallDelta state a)
  | ChatToolCallReady a => may_log (on_ChatToolCallReady state a)
  | ChatToolCallConfirmed a => may_log (on_ChatToolCallConfirmed state a)
  | ChatToolCallComplete a => may_log (on_ChatToolCallComplete state a)
  | ChatToolCallResultConfirmed a => may_log (on_ChatToolCallResultConfirmed state a)
  | ChatToolCallContentChanged a => may_log (on_ChatToolCallContentChanged state a)
  | ChatToolCallAuthRequired a => may_log (on_ChatToolCallAuthRequired state a)
  | ChatToolCallAuthResolved a => may_log (on_ChatToolCallAuthResolved state a)
  | ChatUsage a => ok_chat (on_ChatUsage state a)
  | ChatReasoning a => ok_chat (on_ChatReasoning state a)
  | ChatTruncated a => ok_chat (on_ChatTruncated state a)
  | ChatTurnsLoaded a => ok_chat (on_ChatTurnsLoaded state a)
  | ChatInputRequested a => ok_chat (on_ChatInputRequested state a)
  | ChatInputAnswerChanged a => ok_chat (on_ChatInputAnswerChanged state a)
  | ChatInputCompleted a => ok_chat (on_ChatInputCompleted state a)
  | ChatPendingMessageSet a => ok_chat (on_ChatPendingMessageSet state a)
  | ChatPendingMessageRemoved a => ok_chat (on_ChatPendingMessageRemoved state a)
  | ChatQueuedMessagesReordered a => ok_chat (on_ChatQueuedMessagesReordered state a)
  | ChatDraftChanged a => ok_chat (state <| cs_draft := a.(ChatDraftChanged_draft) |>)
  | ChatIsReadChanged a =>
      ok_chat (state <| cs_status :=
        withStatusFlag state.(cs_status) SessionStatus.IsRead a.(ChatIsReadChanged_isRead) |>)
  | ChatIsArchivedChanged a =>
      ok_chat (state <| cs_status :=
        withStatusFlag state.(cs_status) SessionStatus.IsArchived
          a.(ChatIsArchivedChanged_isArchived) |>)
  | ChatConfigChanged a => ok_chat (on_ChatConfigChanged state a)
  | ChatMoved a => ok_chat (on_ChatMoved state a)
  | UnknownChatAction stringified => _ ← softAssertNever stringified; ok_chat state
  end.
