(* ===== verification/ChatToolCalls.v ===== *)
(** * The tool-call lifecycle

    The specification of the lifecycle is [lifecycle_next], a table on
    [ToolCallStatus]; the updaters of ChatReducer implement it exactly, keep the
    identity of the call and keep the client that owns its execution. *)

From S2P Require Import Prelude JsNumber CommonState ChatState ChatActions ChatReducer.

(** ** The specification *)

Inductive ToolEvent :=
| EvDelta
| EvReady (confirmed : bool)
| EvConfirmed (approved : bool)
| EvComplete (success review : bool)
| EvResultConfirmed (approved : bool)
| EvContentChanged
| EvAuthRequired
| EvAuthResolved.

(** The lifecycle table of docs and of [ToolCallStatus]; [mcp] says whether an MCP
    server contributed the call.  [None]: the event is ignored in that status. *)
Definition lifecycle_next (e : ToolEvent) (st : ToolCallStatus) (mcp : bool) : option ToolCallStatus :=
  match e, st with
  | EvDelta, ToolCallStatus_Streaming => Some ToolCallStatus_Streaming
  | EvReady confirmed,
    (ToolCallStatus_Streaming | ToolCallStatus_Running | ToolCallStatus_PendingConfirmation) =>
      Some (if confirmed then ToolCallStatus_Running else ToolCallStatus_PendingConfirmation)
  | EvConfirmed approved, ToolCallStatus_PendingConfirmation =>
      Some (if approved then ToolCallStatus_Running else ToolCallStatus_Cancelled)
  | EvComplete _ review, (ToolCallStatus_Running | ToolCallStatus_PendingConfirmation) =>
      Some (if review then ToolCallStatus_PendingResultConfirmation else ToolCallStatus_Completed)
  | EvComplete false _, ToolCallStatus_AuthRequired => Some ToolCallStatus_Completed
  | EvResultConfirmed approved, ToolCallStatus_PendingResultConfirmation =>
      Some (if approved then ToolCallStatus_Completed else ToolCallStatus_Cancelled)
  | EvContentChanged, ToolCallStatus_Running => Some ToolCallStatus_Running
  | EvAuthRequired, ToolCallStatus_Running =>
      if mcp then Some ToolCallStatus_AuthRequired else None
  | EvAuthResolved, ToolCallStatus_AuthRequired => Some ToolCallStatus_Running
  | _, _ => None
  end.

Definition is_terminal (st : ToolCallStatus) : bool :=
  match st with ToolCallStatus_Completed | ToolCallStatus_Cancelled => true | _ => false end.

Definition is_mcp (tc : ToolCallState) : bool :=
  match (tcBase tc).(tcb_contributor) with Some (ToolCallContributor_MCP _) => true | _ => false end.

(** The client that executes the call, fixed when the call starts. *)
Definition contributor_owner (c : option ToolCallContributor) : option string :=
  match c with
  | Some (ToolCallContributor_Client c) => Some c.(tccl_clientId)
  | _ => None
  end.
Definition client_owner (tc : ToolCallState) : option string :=
  contributor_owner (tcBase tc).(tcb_contributor).

(** ** What each tool-call action is *)

Definition Updater : Type := ToolCallState → Logged (option ToolCallState).

Definition is_some {A} (o : option A) : bool := match o with Some _ => true | None => false end.

Definition tool_action (a : ChatAction) : option (ToolEvent * ToolCallActionBase * Updater) :=
  match a with
  | ChatToolCallDelta x => Some (EvDelta, x.(ChatToolCallDelta_base), update_delta x)
  | ChatToolCallReady x =>
      Some (EvReady (is_some x.(ChatToolCallReady_confirmed)), x.(ChatToolCallReady_base),
            update_ready x)
  | ChatToolCallConfirmed x =>
      Some (EvConfirmed (match x with ChatToolCallConfirmedAction_Approved _ => true | _ => false end),
            confirmed_base x, update_confirmed x)
  | ChatToolCallComplete x =>
      Some (EvComplete x.(ChatToolCallComplete_result).(tcr_success)
              (truthy x.(ChatToolCallComplete_requiresResultConfirmation)),
            x.(ChatToolCallComplete_base), update_complete x)
  | ChatToolCallResultConfirmed x =>
      Some (EvResultConfirmed x.(ChatToolCallResultConfirmed_approved),
            x.(ChatToolCallResultConfirmed_base), update_resultConfirmed x)
  | ChatToolCallContentChanged x =>
      Some (EvContentChanged, x.(ChatToolCallContentChanged_base), update_contentChanged x)
  | ChatToolCallAuthRequired x =>
      Some (EvAuthRequired, x.(ChatToolCallAuthRequired_base), update_authRequired x)
  | ChatToolCallAuthResolved x =>
      Some (EvAuthResolved, x.(ChatToolCallAuthResolved_base), update_authResolved x)
  | _ => None
  end.

(** The lifecycle edges, whatever the event. *)
Definition tc_edge (tc tc' : ToolCallState) : Prop :=
  ∃ e, lifecycle_next e (tc_status tc) (is_mcp tc) = Some (tc_status tc').

(** What no event changes: who the call is, and which client runs it. *)
Definition base_identity (b : ToolCallBase) : string * string * string * option string :=
  (b.(tcb_toolCallId), b.(tcb_toolName), b.(tcb_displayName), contributor_owner b.(tcb_contributor)).
Definition tc_identity (tc : ToolCallState) : string * string * string * option string :=
  base_identity (tcBase tc).

Lemma terminal_no_edge e st mcp : is_terminal st = true → lifecycle_next e st mcp = None.
Proof. by destruct st, e as [|?|?|[] ?|?| | |]. Qed.

(** ** The refinement *)

(** Case analysis on the scrutinees of a goal, booleans of the action included. *)
Ltac solve_updater :=
  repeat match goal with
  | |- context [truthy ?x] => destruct (truthy x); simpl; try done
  | |- context [tcr_success ?x] => destruct (tcr_success x); simpl; try done
  | |- context [match ?x with _ => _ end] => destruct x; simpl; try done
  end.

Lemma refine_owner current next :
  contributor_owner (val (refineToolCallContributor current next)) = contributor_owner current.
Proof.
  unfold refineToolCallContributor, str_eqb.
  destruct next as [[n|n]|], current as [[c|c]|]; simpl; try done.
  case_bool_decide; simpl; congruence.
Qed.

(** The result of [update_ready], with the diagnostics left out. *)
Lemma update_ready_val x tc :
  val (update_ready x tc) =
  if ready_accepts tc then
    let base :=
      (tcBaseWithMeta tc x.(ChatToolCallReady_base).(ToolCallActionBase_meta))
        <| tcb_contributor := val (refineToolCallContributor (tcBase tc).(tcb_contributor)
                                     x.(ChatToolCallReady_contributor)) |>
        <| tcb_intention := x.(ChatToolCallReady_intention) ?? (tcBase tc).(tcb_intention) |> in
    let params :=
      mkToolCallParameterFields x.(ChatToolCallReady_invocationMessage)
        (x.(ChatToolCallReady_toolInput) ?? tc_toolInput tc) in
    Some match x.(ChatToolCallReady_confirmed) with
      | Some confirmed =>
          ToolCallState_Running
            (mkToolCallRunningState base params (mkToolCallPostConfirmationFields confirmed None) None)
      | None =>
          let pending := pending_of tc in
          ToolCallState_PendingConfirmation
            (mkToolCallPendingConfirmationState base params
              (x.(ChatToolCallReady_confirmationTitle) ?? (pending ≫= tcpc_confirmationTitle))
              (x.(ChatToolCallReady_riskAssessment) ?? (pending ≫= tcpc_riskAssessment))
              (x.(ChatToolCallReady_edits) ?? (pending ≫= tcpc_edits))
              (x.(ChatToolCallReady_editable) ?? (pending ≫= tcpc_editable))
              (x.(ChatToolCallReady_options) ?? (pending ≫= tcpc_options)))
      end
  else None.
Proof. unfold update_ready. by destruct (ready_accepts tc). Qed.

Lemma updater_status a e base u tc :
  tool_action a = Some (e, base, u) →
  tc_status <$> val (u tc) = lifecycle_next e (tc_status tc) (is_mcp tc).
Proof.
  destruct a; try done; intros [= <- _ <-]; unfold is_mcp.
  all: try rewrite update_ready_val; destruct tc; simpl; try done.
  all: unfold update_confirmed, update_complete, update_resultConfirmed, update_authRequired; simpl.
  all: solve_updater.
Qed.

Lemma ready_identity x tc tc' : val (update_ready x tc) = Some tc' → tc_identity tc' = tc_identity tc.
Proof.
  rewrite update_ready_val. destruct (ready_accepts tc); [|done].
  destruct (ChatToolCallReady_confirmed x); intros [= <-];
    unfold tc_identity, base_identity; simpl; by rewrite refine_owner.
Qed.

Lemma updater_identity a e base u tc tc' :
  tool_action a = Some (e, base, u) →
  val (u tc) = Some tc' → tc_identity tc' = tc_identity tc.
Proof.
  destruct a; try done; intros [= _ _ <-]; try apply ready_identity.
  all: destruct tc; simpl; try done.
  all: unfold update_complete, update_authRequired; simpl; intros Heq.
  all: repeat (case_match; try done); simplify_eq/=; try done.
  all: unfold tc_identity, base_identity; simpl.
  all: match goal with Hc : tcb_contributor _ = _ |- _ => by rewrite Hc end.
Qed.
