(* ===== verification/ChatTurns.v ===== *)
(** * The life of a turn

    How each action moves the active turn and the history: parts only evolve
    along their own life cycle, the history is only appended to, a turn that ends
    is archived with every tool call finished, and a resumable error can be
    resumed. *)

From S2P Require Import Prelude KeyedList JsNumber JsDate CommonState ChatState ChatActions ChatReducer ChatToolCalls.

(** ** The reducer's helpers as updates of the active turn *)

(** The part [update_tool_part] produces. *)
Definition tool_part (toolCallId : string) (u : Updater) (part : ResponsePart) : ResponsePart :=
  match part with
  | ResponsePart_ToolCall p =>
      if tc_toolCallId p.(tcp_toolCall) =?s toolCallId
      then ResponsePart_ToolCall (mkToolCallResponsePart (val (u p.(tcp_toolCall)) ??! p.(tcp_toolCall)))
      else part
  | _ => part
  end.

Definition map_parts (f : list ResponsePart → list ResponsePart) (t : ActiveTurn) : ActiveTurn :=
  t <| at_responseParts := f t.(at_responseParts) |>.

Lemma val_mapM {A B} (f : A → Logged B) (l : list A) : val (mapM f l) = map (λ x, val (f x)) l.
Proof. induction l as [|x l IH]; [done|]. simpl. by rewrite <- IH. Qed.

Lemma update_tool_part_val id u part :
  (val (update_tool_part id u part)).2 = tool_part id u part ∧
  ((val (update_tool_part id u part)).1 = false → tool_part id u part = part).
Proof.
  destruct part as [?|?|[tc]|?|?|?|?]; try done; simpl.
  destruct (tc_toolCallId tc =?s id); [|done]. unfold val.
  simpl. destruct (u tc) as [[?|] ?]; done.
Qed.

Lemma updateToolCallInParts_val s turnId tid u :
  val (updateToolCallInParts s turnId tid u) =
  with_active_turn s turnId (map_parts (map (tool_part tid u))).
Proof.
  unfold updateToolCallInParts, with_active_turn.
  destruct (cs_activeTurn s) as [t|] eqn:Et; [|done].
  destruct (negb _); [done|]. simpl. change (mapM ?f ?l).1 with (val (mapM f l)).
  rewrite val_mapM, map_map. unfold map_parts.
  rewrite (map_ext (λ x, (val (update_tool_part tid u x)).2) (tool_part tid u))
    by (intros x; apply (update_tool_part_val tid u x)).
  destruct (existsb _ _) eqn:Ef; [done|].
  rewrite (map_ext_in _ id).
  - rewrite map_id. destruct s, t; simpl in *. by subst.
  - intros x Hx. apply (update_tool_part_val tid u x).
    destruct (val _).1 eqn:E; [|done]. exfalso.
    assert (existsb fst (map (λ x, val (update_tool_part tid u x)) (at_responseParts t)) = true) as Ht.
    { apply existsb_exists. eexists. split; [by apply in_map|done]. }
    by rewrite Ht in Ef.
Qed.

Lemma updateResponsePart_val s turnId partId f :
  updateResponsePart s turnId partId f =
  with_active_turn s turnId
    (map_parts (λ parts, update_first_part partId f parts ??! parts)).
Proof.
  unfold updateResponsePart, with_active_turn, map_parts.
  destruct (cs_activeTurn s) as [t|] eqn:Et; [|done].
  destruct (negb _); [done|]. destruct (update_first_part _ _ _) eqn:E; simpl; [done|].
  destruct s, t; simpl in *. by subst.
Qed.

(** ** How a part of the active turn evolves *)

Definition part_evolves (p p' : ResponsePart) : Prop :=
  match p, p' with
  | ResponsePart_Markdown a, ResponsePart_Markdown b =>
      b.(mdp_id) = a.(mdp_id) ∧ ∃ c, b.(mdp_content) = a.(mdp_content) +:+ c
  | ResponsePart_Reasoning a, ResponsePart_Reasoning b =>
      b.(rp_id) = a.(rp_id) ∧ ∃ c, b.(rp_content) = a.(rp_content) +:+ c
  | ResponsePart_ToolCall a, ResponsePart_ToolCall b =>
      tc_identity b.(tcp_toolCall) = tc_identity a.(tcp_toolCall) ∧
      (a = b ∨ tc_edge a.(tcp_toolCall) b.(tcp_toolCall))
  | ResponsePart_InputRequest a, ResponsePart_InputRequest b =>
      a = b ∨ (a.(irp_response) = None ∧ b.(irp_request).(cir_id) = a.(irp_request).(cir_id))
  | _, _ => p' = p
  end.

(** What an action that keeps the active turn does to it. *)
Definition turn_evolves (t t' : ActiveTurn) : Prop :=
  t'.(at_id) = t.(at_id) ∧ t'.(at_startedAt) = t.(at_startedAt) ∧ t'.(at_message) = t.(at_message) ∧
  ∃ evolved added, t'.(at_responseParts) = evolved ++ added ∧
    Forall2 part_evolves t.(at_responseParts) evolved.

Lemma string_app_nil_r (s : string) : s +:+ "" = s.
Proof. induction s as [|c s IH]; [done|]. by rewrite string_app_cons, IH. Qed.

Lemma part_evolves_refl p : part_evolves p p.
Proof. destruct p; simpl; auto; split; auto; exists ""; by rewrite string_app_nil_r. Qed.

Lemma parts_evolve_refl l : Forall2 part_evolves l l.
Proof. induction l; constructor; auto using part_evolves_refl. Qed.

Lemma turn_evolves_refl t : turn_evolves t t.
Proof.
  repeat split. exists (at_responseParts t), []. split; [by rewrite app_nil_r|].
  apply parts_evolve_refl.
Qed.

Lemma turn_evolves_parts f t :
  Forall2 part_evolves (at_responseParts t) (f (at_responseParts t)) → turn_evolves t (map_parts f t).
Proof. intros Hf. repeat split. exists (f (at_responseParts t)), []. by rewrite app_nil_r. Qed.

Lemma turn_evolves_push p t : turn_evolves t (push_part p t).
Proof. repeat split. exists (at_responseParts t), [p]. split; [done|apply parts_evolve_refl]. Qed.

Create HintDb turns.
#[export] Hint Resolve part_evolves_refl parts_evolve_refl turn_evolves_refl turn_evolves_push
  : turns.

Lemma tool_part_evolves a e base u tid p :
  tool_action a = Some (e, base, u) → part_evolves p (tool_part tid u p).
Proof.
  intros Ha. destruct p as [?|?|[tc]|?|?|?|?]; eauto with turns. simpl.
  destruct (tc_toolCallId tc =?s tid); [|eauto with turns].
  destruct (val (u tc)) as [tc'|] eqn:E; simpl; [|eauto with turns].
  split; [by eapply updater_identity|]. right. exists e.
  by rewrite <- (updater_status _ _ _ _ tc Ha), E.
Qed.

Lemma tool_parts_evolve a e base u tid l :
  tool_action a = Some (e, base, u) → Forall2 part_evolves l (map (tool_part tid u) l).
Proof. intros Ha. induction l; simpl; constructor; eauto using tool_part_evolves. Qed.

Lemma update_first_evolves pid f l :
  (∀ p, part_evolves p (f p)) →
  Forall2 part_evolves l (update_first_part pid f l ??! l).
Proof.
  intros Hf. induction l as [|p l IH]; simpl; [constructor|].
  case_bool_decide; simpl; [constructor; auto with turns|].
  destruct (update_first_part pid f l) as [l'|]; simpl in *; constructor; auto with turns.
Qed.

Lemma insert_evolves l i p p' :
  l !! i = Some p → part_evolves p p' → Forall2 part_evolves l (<[i := p']> l).
Proof.
  intros Hi Hp. rewrite <- (list_insert_id l i p Hi) at 1.
  apply Forall2_insert; auto with turns.
Qed.

Lemma findOpen_spec parts rid i p :
  findOpenInputRequestPart parts rid = Some (i, p) →
  parts !! i = Some (ResponsePart_InputRequest p) ∧ irp_response p = None ∧
  cir_id (irp_request p) = rid.
Proof.
  unfold findOpenInputRequestPart. intros (j & Hj & Hp)%bind_Some.
  apply findIndex_lookup in Hj as (x & Hx & Ho). rewrite Hx in Hp. simpl in Hp.
  destruct x as [?|?|?|?|?|q|?]; simplify_eq/=. split; [done|].
  destruct (irp_response p); [done|]. by apply str_eqb_true in Ho.
Qed.

(** An input request with this id that has no response yet. *)
Definition is_open_request (rid : string) (part : ResponsePart) : Prop :=
  ∃ r, part = ResponsePart_InputRequest r ∧ irp_response r = None ∧ cir_id (irp_request r) = rid.

Lemma open_request_with_id_spec rid part : open_request_with_id rid part = true ↔ is_open_request rid part.
Proof.
  unfold is_open_request. destruct part as [?|?|?|?|?|r|?]; simpl; try (split; [done|by intros (? & ? & _)]).
  destruct (irp_response r) eqn:E.
  - split; [done|]. intros (r' & [= <-] & Hr & _). congruence.
  - rewrite str_eqb_true. split; [by exists r|]. by intros (r' & [= <-] & _ & Hr).
Qed.

Lemma no_open_request rid parts :
  Forall (λ p, ¬ is_open_request rid p) parts ↔ Forall (λ p, open_request_with_id rid p = false) parts.
Proof.
  rewrite !Forall_forall. setoid_rewrite <- open_request_with_id_spec.
  by setoid_rewrite not_true_iff_false.
Qed.

Lemma findOpen_None parts rid :
  Forall (λ p, ¬ is_open_request rid p) parts → findOpenInputRequestPart parts rid = None.
Proof. intros H%no_open_request%findIndex_None. unfold findOpenInputRequestPart. by rewrite H. Qed.

Lemma insert_at_length {A} (front : list A) x y rest :
  <[length front := y]> (front ++ x :: rest) = front ++ y :: rest.
Proof. induction front as [|z front IH]; [done|]. simpl. by rewrite IH. Qed.

(** The request that is found is the first open one. *)
Lemma findOpen_first front r rest rid :
  irp_response r = None → cir_id (irp_request r) = rid → Forall (λ p, ¬ is_open_request rid p) front →
  findOpenInputRequestPart (front ++ ResponsePart_InputRequest r :: rest) rid = Some (length front, r).
Proof.
  intros Hr Hid Hf%no_open_request. unfold findOpenInputRequestPart.
  assert (Hi : findIndex (open_request_with_id rid) (front ++ ResponsePart_InputRequest r :: rest) =
               Some (length front)).
  { apply findIndex_Some. exists front, (ResponsePart_InputRequest r), rest. split; [done|]. split; [done|].
    split; [|done]. apply open_request_with_id_spec. by exists r. }
  rewrite Hi. simpl. by rewrite list_lookup_middle.
Qed.

(** Case analysis of a handler that touches neither turns nor status. *)
Create HintDb chat_handlers.
#[export] Hint Unfold on_ChatBackgroundWorkSet on_ChatBackgroundWorkRemoved on_ChatWorkingDirectorySet
  on_ChatWorkingDirectoryRemoved on_ChatTurnsLoaded on_ChatPendingMessageSet
  on_ChatPendingMessageRemoved on_ChatQueuedMessagesReordered on_ChatConfigChanged on_ChatMoved
  : chat_handlers.
Ltac chat_cases := autounfold with chat_handlers; repeat (case_match; simpl).

(** ** Every action but a turn start evolves the active turn, or ends it *)

Section Step.
Context `{Platform}.

Definition chat_step (s : ChatState) (a : ChatAction) (s' : ChatState) : Prop :=
  val (chatReducer s a) = Ok s'.

Definition starts_turn (a : ChatAction) : bool :=
  match a with ChatTurnStarted _ => true | _ => false end.

Definition active_evolves (s s' : ChatState) : Prop :=
  ∀ t t', s.(cs_activeTurn) = Some t → s'.(cs_activeTurn) = Some t' → turn_evolves t t'.

Lemma active_same s s' : cs_activeTurn s' = cs_activeTurn s → active_evolves s s'.
Proof. intros E t t' Ht Ht'. rewrite E in Ht'. simplify_eq. apply turn_evolves_refl. Qed.

Lemma active_none s s' : cs_activeTurn s' = None → active_evolves s s'.
Proof. intros E t t' Ht Ht'. congruence. Qed.

Lemma active_with s turnId f :
  (∀ t, turn_evolves t (f t)) → active_evolves s (with_active_turn s turnId f).
Proof.
  intros Hf t t' Ht. unfold with_active_turn. rewrite Ht.
  destruct (negb _); simpl; intros; simplify_eq; auto with turns.
Qed.

Lemma active_replace s t i p p' :
  cs_activeTurn s = Some t → at_responseParts t !! i = Some (ResponsePart_InputRequest p) →
  irp_response p = None → cir_id (irp_request p') = cir_id (irp_request p) →
  active_evolves s (replace_part s t i p').
Proof.
  intros Ht Hi Hp Hid u u' Hu. rewrite Ht in Hu. simplify_eq. simpl. intros [= <-].
  apply (turn_evolves_parts (λ l, <[i := ResponsePart_InputRequest p']> l)).
  eapply insert_evolves; [done|]. simpl. auto.
Qed.

Lemma active_of_active s s' s'' :
  cs_activeTurn s'' = cs_activeTurn s' → active_evolves s s' → active_evolves s s''.
Proof. intros E Hs t t' Ht Ht'. rewrite E in Ht'. eauto. Qed.

Lemma refresh_active s : cs_activeTurn (refreshSummaryStatus s) = cs_activeTurn s.
Proof. unfold refreshSummaryStatus. by destruct (_ =? _)%Z. Qed.

(** The tool-call actions that derive the status again afterwards. *)
Definition refreshes (e : ToolEvent) : bool :=
  match e with EvDelta | EvContentChanged => false | _ => true end.

Lemma tool_step s a e base u :
  tool_action a = Some (e, base, u) →
  val (chatReducer s a) =
  Ok ((if refreshes e then refreshSummaryStatus else λ x, x)
        (with_active_turn s (ToolCallActionBase_turnId base)
           (map_parts (map (tool_part (ToolCallActionBase_toolCallId base) u))))).
Proof.
  destruct a; try done; intros [= <- <- <-]; simpl;
    by rewrite <- updateToolCallInParts_val.
Qed.

Lemma active_refresh s s' : active_evolves s s' → active_evolves s (refreshSummaryStatus s').
Proof. apply active_of_active, refresh_active. Qed.

Lemma active_text s turnId pid f :
  (∀ p, part_evolves p (f p)) → active_evolves s (updateResponsePart s turnId pid f).
Proof.
  intros Hf. rewrite updateResponsePart_val. apply active_with. intros t.
  apply turn_evolves_parts. by apply update_first_evolves.
Qed.

Lemma append_markdown_evolves c p : part_evolves p (append_markdown c p).
Proof. destruct p; try apply part_evolves_refl. simpl. eauto. Qed.
Lemma append_reasoning_evolves a p : part_evolves p (append_reasoning a p).
Proof. destruct p; try apply part_evolves_refl. simpl. eauto. Qed.

Lemma open_request_spec s rid t i p :
  open_request s rid = Some (t, (i, p)) →
  cs_activeTurn s = Some t ∧ at_responseParts t !! i = Some (ResponsePart_InputRequest p) ∧
  irp_response p = None ∧ cir_id (irp_request p) = rid.
Proof.
  unfold open_request. intros (t' & Ht & (x & Hx & [= <- ->])%bind_Some)%bind_Some.
  split; [done|]. by apply findOpen_spec.
Qed.

Lemma active_upsert s r : active_evolves s (upsertInputRequestPart s r).
Proof.
  intros t t' Ht. unfold upsertInputRequestPart. rewrite Ht. simpl. intros [= <-].
  destruct (findOpenInputRequestPart _ _) as [[i p]|] eqn:E.
  - apply findOpen_spec in E as (Hi & Hp & Hid).
    eapply (turn_evolves_parts (λ l, <[i := _]> l)), insert_evolves; [done|]. simpl. auto.
  - apply (turn_evolves_push (ResponsePart_InputRequest _)).
Qed.

Lemma endTurn_ended s turnId st d ts e s' :
  endTurn s turnId st d ts e = Ok s' → s' = s ∨ cs_activeTurn s' = None.
Proof.
  unfold endTurn. destruct (cs_activeTurn s) as [t|]; [|intros [= <-]; auto].
  destruct (negb _); [intros [= <-]; auto|]. simpl.
  destruct (addMillisecondsToTimestamp _ _); [|done]. intros [= <-]. by right.
Qed.

Lemma active_end s turnId st d ts e s' :
  endTurn s turnId st d ts e = Ok s' → active_evolves s s'.
Proof.
  intros [->|Hn]%endTurn_ended; [by apply active_same|by apply active_none].
Qed.

Lemma active_resume s a : active_evolves s (on_ChatTurnResume s a).
Proof.
  intros t t' Ht. unfold on_ChatTurnResume. rewrite Ht. intros Ht'. simplify_eq.
  apply turn_evolves_refl.
Qed.

Lemma active_answer s a : active_evolves s (on_ChatInputAnswerChanged s a).
Proof.
  unfold on_ChatInputAnswerChanged. destruct (open_request _ _) as [[t [i p]]|] eqn:E.
  - apply open_request_spec in E as (Ht & Hi & Hp & _). by eapply active_replace.
  - by apply active_same.
Qed.

Lemma active_completed s a : active_evolves s (on_ChatInputCompleted s a).
Proof.
  unfold on_ChatInputCompleted. destruct (open_request _ _) as [[t [i p]]|] eqn:E.
  - apply open_request_spec in E as (Ht & Hi & Hp & _).
    refine (active_of_active s _ _ eq_refl (active_replace s t i p _ Ht Hi Hp _)). done.
  - by apply active_same.
Qed.

Lemma active_truncated s a : active_evolves s (on_ChatTruncated s a).
Proof.
  unfold on_ChatTruncated. destruct (truncated_turns _ _); [|by apply active_same].
  apply active_none. by destruct (ChatTruncated_turnId a).
Qed.

Lemma active_tool s a e base u s' :
  tool_action a = Some (e, base, u) → chat_step s a s' → active_evolves s s'.
Proof.
  intros Ha. unfold chat_step. rewrite (tool_step _ _ _ _ _ Ha). intros [= <-].
  assert (active_evolves s (with_active_turn s (ToolCallActionBase_turnId base)
    (map_parts (map (tool_part (ToolCallActionBase_toolCallId base) u))))).
  { apply active_with. intros t. apply turn_evolves_parts. by eapply tool_parts_evolve. }
  destruct (refreshes e); [by apply active_refresh|done].
Qed.

Lemma step_evolves s a s' :
  chat_step s a s' → starts_turn a = false → active_evolves s s'.
Proof.
  destruct (tool_action a) as [[[e base] u]|] eqn:Ht; [intros; by eapply active_tool|].
  unfold chat_step. destruct a; try discriminate Ht; clear Ht; simpl; intros Hs Ha;
    try discriminate Ha.
  all: try (eapply active_end; exact Hs).
  all: injection Hs as <-.
  all: try (apply active_same; chat_cases; reflexivity).
  all: try (apply active_text; auto using append_markdown_evolves, append_reasoning_evolves).
  all: try (apply active_with; intros; solve [auto with turns]).
  - unfold on_ChatResponsePart. destruct (isErrorResponsePart _); [by apply active_same|].
    apply active_with. auto with turns.
  - apply active_resume.
  - apply active_with. intros t. destruct (turn_evolves_refl t) as (?&?&?&?). by repeat split.
  - apply active_truncated.
  - apply active_upsert.
  - apply active_answer.
  - apply active_completed.
Qed.

(** ** The history *)

(** What a turn-ending action passes to [endTurn]. *)
Definition turn_end (a : ChatAction) : option (string * TurnState * Z * option ErrorResponsePart) :=
  match a with
  | ChatTurnComplete x =>
      Some (x.(ChatTurnComplete_turnId), TurnState_Complete, x.(ChatTurnComplete_duration), None)
  | ChatTurnCancelled x =>
      Some (x.(ChatTurnCancelled_turnId), TurnState_Cancelled, x.(ChatTurnCancelled_duration), None)
  | ChatError x =>
      Some (x.(ChatError_turnId), TurnState_Error, x.(ChatError_duration), Some x.(ChatError_part))
  | _ => None
  end.

Definition end_activity (err : option ErrorResponsePart) : option SessionStatus :=
  match err with Some _ => Some SessionStatus.Error | None => None end.

Lemma turn_end_step s a turnId st d err :
  turn_end a = Some (turnId, st, d, err) →
  val (chatReducer s a) = endTurn s turnId st d (end_activity err) err.
Proof. destruct a; try done; by intros [= <- <- <- <-]. Qed.

(** The archived form of the active turn. *)
Definition archived (t : ActiveTurn) (st : TurnState) (d : Z) (err : option ErrorResponsePart) : Turn :=
  mkTurn t.(at_id) (Some t.(at_startedAt)) (Some (Z.max 0 d)) t.(at_message)
    (map cancel_unfinished t.(at_responseParts)
       ++ match err with Some p => [ResponsePart_Error p] | None => [] end)
    t.(at_usage) st.

Lemma endTurn_val s turnId st d ts err t :
  cs_activeTurn s = Some t → at_id t = turnId →
  endTurn s turnId st d ts err =
  (modifiedAt ← addMillisecondsToTimestamp (at_startedAt t) (Z.max 0 d);
   let next := s <| cs_turns := s.(cs_turns) ++ [archived t st d err] |>
                 <| cs_activeTurn := None |> <| cs_modifiedAt := modifiedAt |> in
   Ok (next <| cs_status := summaryStatus next ts |>)).
Proof.
  intros Ht <-. unfold endTurn. by rewrite Ht, str_eqb_refl.
Qed.

Lemma endTurn_other s turnId st d ts err :
  (∀ t, cs_activeTurn s = Some t → at_id t ≠ turnId) → endTurn s turnId st d ts err = Ok s.
Proof.
  intros Hne. unfold endTurn. destruct (cs_activeTurn s) as [t|]; [|done].
  by rewrite (proj2 (str_eqb_false _ _) (Hne t eq_refl)).
Qed.

(** What archiving does to a part: unfinished tool calls are cancelled as
    skipped, everything else is kept. *)
Definition closes (p p' : ResponsePart) : Prop :=
  match p, p' with
  | ResponsePart_ToolCall a, ResponsePart_ToolCall b =>
      if is_terminal (tc_status a.(tcp_toolCall)) then b = a
      else tc_identity b.(tcp_toolCall) = tc_identity a.(tcp_toolCall) ∧
           match b.(tcp_toolCall) with
           | ToolCallState_Cancelled c => c.(tccanc_reason) = ToolCallCancellationReason_Skipped
           | _ => False
           end
  | _, _ => p' = p
  end.

Lemma cancel_unfinished_closes p : closes p (cancel_unfinished p).
Proof. destruct p as [?|?|[tc]|?|?|?|?]; try done. by destruct tc. Qed.

(** No tool call is left unfinished. *)
Definition finished (p : ResponsePart) : bool :=
  match p with
  | ResponsePart_ToolCall q => is_terminal (tc_status q.(tcp_toolCall))
  | _ => true
  end.

Lemma closes_finished p p' : closes p p' → finished p' = true.
Proof.
  destruct p as [?|?|[tc]|?|?|?|?]; destruct p' as [?|?|[tc']|?|?|?|?]; simpl; try done.
  destruct (is_terminal (tc_status tc)) eqn:E; [by intros [= ->]|].
  intros [_ Hc]. by destruct tc'.
Qed.

(** Whether the action may rewrite the history instead of appending to it. *)
Definition rewrites_history (a : ChatAction) : bool :=
  match a with
  | ChatTruncated _ | ChatTurnsLoaded _ | ChatTurnResume _ => true
  | _ => false
  end.

Lemma turns_with s turnId f : cs_turns (with_active_turn s turnId f) = cs_turns s.
Proof. unfold with_active_turn. destruct (cs_activeTurn s); [|done]. by destruct (negb _). Qed.

Lemma turns_refresh s : cs_turns (refreshSummaryStatus s) = cs_turns s.
Proof. unfold refreshSummaryStatus. by destruct (_ =? _)%Z. Qed.

Lemma turns_upsert s r : cs_turns (upsertInputRequestPart s r) = cs_turns s.
Proof. unfold upsertInputRequestPart. by destruct (cs_activeTurn s). Qed.

Lemma turns_started s a : cs_turns (on_ChatTurnStarted s a) = cs_turns s.
Proof.
  unfold on_ChatTurnStarted, consume_pending. simpl.
  repeat (case_match; simpl; try done).
Qed.

Lemma turns_answer s a : cs_turns (on_ChatInputAnswerChanged s a) = cs_turns s.
Proof. unfold on_ChatInputAnswerChanged. by destruct (open_request s _) as [[? [? ?]]|]. Qed.

Lemma turns_completed s a : cs_turns (on_ChatInputCompleted s a) = cs_turns s.
Proof. unfold on_ChatInputCompleted. by destruct (open_request s _) as [[? [? ?]]|]. Qed.

Lemma history_unchanged s a s' :
  chat_step s a s' → rewrites_history a = false → turn_end a = None → cs_turns s' = cs_turns s.
Proof.
  destruct (tool_action a) as [[[e base] u]|] eqn:Ht.
  { unfold chat_step. rewrite (tool_step _ _ _ _ _ Ht). intros [= <-] _ _.
    destruct (refreshes e); rewrite ?turns_refresh; apply turns_with. }
  unfold chat_step. destruct a; try discriminate Ht; clear Ht; simpl; intros Hs Hr He;
    try discriminate Hr; try discriminate He; injection Hs as <-.
  all: try (chat_cases; reflexivity).
  all: try solve [apply turns_started | apply turns_upsert | apply turns_answer | apply turns_completed].
  all: unfold on_ChatDelta, on_ChatReasoning; rewrite ?updateResponsePart_val; try apply turns_with.
  unfold on_ChatResponsePart. destruct (isErrorResponsePart _); [done|apply turns_with].
Qed.

Lemma history_end s a s' turnId st d err :
  chat_step s a s' → turn_end a = Some (turnId, st, d, err) →
  (s' = s ∧ ∀ t, cs_activeTurn s = Some t → at_id t ≠ turnId) ∨
  ∃ t, cs_activeTurn s = Some t ∧ at_id t = turnId ∧
       cs_turns s' = cs_turns s ++ [archived t st d err].
Proof.
  unfold chat_step. intros Hs He. rewrite (turn_end_step _ _ _ _ _ _ He) in Hs.
  destruct (cs_activeTurn s) as [t|] eqn:Et.
  - destruct (decide (at_id t = turnId)) as [Hid|Hid].
    + right. exists t. rewrite (endTurn_val _ _ _ _ _ _ t) in Hs by done.
      destruct (addMillisecondsToTimestamp _ _); [|done]. by injection Hs as <-.
    + left. rewrite endTurn_other in Hs by naive_solver. injection Hs as ->.
      split; [done|]. naive_solver.
  - left. rewrite endTurn_other in Hs by naive_solver. injection Hs as ->. by split.
Qed.
End Step.
