(* ===== verification/ChatStatus.v ===== *)
(** * The status bit set of a chat

    Bits 0-4 of [ChatState.status] say what the chat is doing and are derived from
    the active turn; the bits above are independent flags.  This file relates the
    code's recomputation points to the specification [expected_activity]. *)

From S2P Require Import Prelude KeyedList JsNumber JsDate CommonState ChatState ChatActions ChatReducer ChatToolCalls ChatTurns.
Local Open Scope Z_scope.

(** ** The specification *)

(** The statuses of a tool call in which the user (or an authentication) is waited for. *)
Definition status_waits (st : ToolCallStatus) : bool :=
  match st with
  | ToolCallStatus_PendingConfirmation | ToolCallStatus_PendingResultConfirmation
  | ToolCallStatus_AuthRequired => true
  | ToolCallStatus_Streaming | ToolCallStatus_Running
  | ToolCallStatus_Completed | ToolCallStatus_Cancelled => false
  end.

(** A part that waits: such a tool call, or a request without a response. *)
Definition blocks (p : ResponsePart) : bool :=
  match p with
  | ResponsePart_ToolCall q => status_waits (tc_status q.(tcp_toolCall))
  | ResponsePart_InputRequest q => match q.(irp_response) with None => true | Some _ => false end
  | _ => false
  end.

Definition expected_activity (s : ChatState) : SessionStatus :=
  match s.(cs_activeTurn) with
  | None => SessionStatus.Idle
  | Some t => if existsb blocks t.(at_responseParts) then SessionStatus.InputNeeded
              else SessionStatus.InProgress
  end.

Definition activity_bits (status : SessionStatus) : Z := Z.land status 31.

(** The activity bits say what the active turn says; between turns they may
    also remember that the last turn failed. *)
Definition coherent (s : ChatState) : Prop :=
  activity_bits s.(cs_status) = expected_activity s ∨
  (s.(cs_activeTurn) = None ∧ activity_bits s.(cs_status) = SessionStatus.Error).

(** ** Bit-level lemmas *)

Lemma activity_bits_ext a b :
  (∀ i, 0 <= i < 5 → Z.testbit a i = Z.testbit b i) → activity_bits a = activity_bits b.
Proof.
  intros Hab. unfold activity_bits. apply Z.bits_inj'. intros i Hi. rewrite !Z.land_spec.
  destruct (decide (i < 5)); [by rewrite Hab by lia|].
  change 31 with (Z.ones 5). by rewrite Z.ones_spec_high, !andb_false_r by lia.
Qed.

Lemma mask_bit i : 0 <= i < 32 → Z.testbit STATUS_ACTIVITY_MASK i = bool_decide (i < 5).
Proof.
  intros Hi. change STATUS_ACTIVITY_MASK with (Z.ones 5). case_bool_decide.
  - by rewrite Z.ones_spec_low by lia.
  - by rewrite Z.ones_spec_high by lia.
Qed.

Lemma high_bit_small a i : 0 <= a < 32 → 5 <= i → Z.testbit a i = false.
Proof.
  intros Ha Hi. rewrite <- (Z.mod_small a (2 ^ 5)) by lia. by rewrite Z.mod_pow2_bits_high by lia.
Qed.

(** [status & ~MASK | activity], bit by bit. *)
Lemma testbit_summary status activity i :
  0 <= i < 32 → 0 <= activity < 32 →
  Z.testbit (or32 (and32 status (not32 STATUS_ACTIVITY_MASK)) activity) i =
  if decide (i < 5) then Z.testbit activity i else Z.testbit status i.
Proof.
  intros Hi Ha. autorewrite with bits32. rewrite mask_bit by lia.
  case_decide; [rewrite bool_decide_true by done|rewrite bool_decide_false by done]; simpl.
  - by rewrite andb_false_r.
  - by rewrite andb_true_r, (high_bit_small activity), orb_false_r by lia.
Qed.

Lemma activity_of_summary status activity :
  0 <= activity < 32 →
  activity_bits (or32 (and32 status (not32 STATUS_ACTIVITY_MASK)) activity) = activity.
Proof.
  intros Ha. rewrite (activity_bits_ext _ activity).
  - unfold activity_bits. change 31 with (Z.ones 5). rewrite Z.land_ones by lia.
    apply Z.mod_small. lia.
  - intros i Hi. rewrite testbit_summary by lia. by rewrite decide_True by lia.
Qed.

Definition flag_bit (flag : SessionStatus) (n : Z) : Prop := flag = 2 ^ n ∧ 5 <= n < 31.

Lemma testbit_flag status flag n set i :
  flag_bit flag n → 0 <= i < 32 →
  Z.testbit (withStatusFlag status flag set) i =
  if decide (i = n) then set else Z.testbit status i.
Proof.
  intros [-> Hn] Hi. unfold withStatusFlag.
  destruct set; autorewrite with bits32; rewrite Z.pow2_bits_eqb by lia;
    case_decide as Heq; destruct (Z.eqb_spec n i); try lia; simpl;
    by rewrite ?orb_true_r, ?orb_false_r, ?andb_false_r, ?andb_true_r.
Qed.

Lemma isRead_bit : flag_bit SessionStatus.IsRead 5.
Proof. by split. Qed.
Lemma isArchived_bit : flag_bit SessionStatus.IsArchived 6.
Proof. by split. Qed.

Lemma activity_of_flag status flag n set :
  flag_bit flag n → activity_bits (withStatusFlag status flag set) = activity_bits status.
Proof.
  intros Hf. apply activity_bits_ext. intros i Hi.
  rewrite (testbit_flag _ _ n) by (done || lia). destruct Hf as [_ ?].
  by rewrite decide_False by lia.
Qed.

(** ** What [summaryStatus] computes *)

Definition terminal_activity (ts : option SessionStatus) : Prop :=
  ts = None ∨ ts = Some SessionStatus.Error.

Lemma existsb_orb {A} (p q : A → bool) l :
  existsb (λ x, p x || q x) l = existsb p l || existsb q l.
Proof.
  induction l as [|x l IH]; [done|]. simpl. rewrite IH.
  by destruct (p x), (q x), (existsb p l), (existsb q l).
Qed.

Lemma expected_range s : 0 <= expected_activity s < 32.
Proof. unfold expected_activity. destruct (cs_activeTurn s); [destruct (existsb _ _)|]; by split. Qed.

Lemma blocks_code p : open_request_part p || blocking_part p = blocks p.
Proof. by destruct p as [?|?|[[]]|?|?|[? []]|?]. Qed.

Lemma existsb_same {A} (p q : A → bool) l : (∀ x, p x = q x) → existsb p l = existsb q l.
Proof. intros Hpq. induction l as [|x l IH]; [done|]. simpl. by rewrite Hpq, IH. Qed.

Lemma summaryStatus_val s ts :
  summaryStatus s ts =
  or32 (and32 s.(cs_status) (not32 STATUS_ACTIVITY_MASK)) (ts ??! expected_activity s).
Proof.
  unfold summaryStatus. f_equal. destruct ts as [x|]; [done|]. simpl.
  unfold hasOpenInputRequest, hasBlockingToolCall, expected_activity.
  destruct (cs_activeTurn s) as [t|]; [|done]. simpl.
  by rewrite <- (existsb_same _ _ _ blocks_code), existsb_orb.
Qed.

Lemma activity_of_summaryStatus s ts :
  terminal_activity ts → activity_bits (summaryStatus s ts) = ts ??! expected_activity s.
Proof.
  intros Hts. rewrite summaryStatus_val. apply activity_of_summary.
  destruct Hts as [-> | ->]; [apply expected_range|by split].
Qed.

(** ** The recomputation points keep the status coherent *)

Lemma coherent_status s st :
  activity_bits st = expected_activity s → coherent (s <| cs_status := st |>).
Proof. by left. Qed.

Lemma refresh_status s : cs_status (refreshSummaryStatus s) = summaryStatus s None.
Proof. unfold refreshSummaryStatus. by destruct (Z.eqb_spec (summaryStatus s None) (cs_status s)). Qed.

Lemma expected_active s s' : cs_activeTurn s' = cs_activeTurn s → expected_activity s' = expected_activity s.
Proof. unfold expected_activity. by intros ->. Qed.

Lemma coherent_refresh s : coherent (refreshSummaryStatus s).
Proof.
  left. rewrite refresh_status, (expected_active s) by apply refresh_active.
  apply (activity_of_summaryStatus s None). by left.
Qed.

Lemma coherent_unread s : coherent (with_unread_summary s).
Proof.
  apply coherent_status. rewrite (activity_of_flag _ _ 5) by apply isRead_bit.
  apply (activity_of_summaryStatus s None). by left.
Qed.

Lemma coherent_same s s' :
  cs_activeTurn s' = cs_activeTurn s → activity_bits (cs_status s') = activity_bits (cs_status s) →
  coherent s → coherent s'.
Proof. unfold coherent. intros Ht -> Hs. rewrite (expected_active s) by done. by rewrite Ht. Qed.

Lemma coherent_with s turnId f :
  (∀ t, existsb blocks (at_responseParts (f t)) = existsb blocks (at_responseParts t)) →
  coherent s → coherent (with_active_turn s turnId f).
Proof.
  intros Hf Hs. unfold with_active_turn. destruct (cs_activeTurn s) as [t|] eqn:Et; [|done].
  destruct (negb _); [done|]. left. destruct Hs as [Hs|[Hs _]]; [|congruence]. simpl. rewrite Hs.
  unfold expected_activity. rewrite Et. simpl. by rewrite Hf.
Qed.

Lemma existsb_Forall2 {A} (p : A → bool) l l' :
  Forall2 (λ x y, p y = p x) l l' → existsb p l' = existsb p l.
Proof. induction 1 as [|x y l l' E _ IH]; simpl; [done|]. by rewrite E, IH. Qed.

Lemma existsb_map_same {A} (p : A → bool) f l :
  (∀ x, p (f x) = p x) → existsb p (map f l) = existsb p l.
Proof. intros Hf. induction l as [|x l IH]; simpl; [done|]. by rewrite Hf, IH. Qed.

Lemma existsb_first pid f l :
  (∀ p, blocks (f p) = blocks p) →
  existsb blocks (update_first_part pid f l ??! l) = existsb blocks l.
Proof.
  intros Hf. induction l as [|p l IH]; simpl; [done|].
  case_bool_decide; simpl; [by rewrite Hf|].
  destruct (update_first_part pid f l); simpl in *; [by rewrite IH|done].
Qed.

Lemma blocks_delta x tid p : blocks (tool_part tid (update_delta x) p) = blocks p.
Proof.
  destruct p as [?|?|[tc]|?|?|?|?]; try done. simpl. destruct (tc_toolCallId tc =?s tid); [|done].
  by destruct tc.
Qed.

Lemma blocks_content x tid p : blocks (tool_part tid (update_contentChanged x) p) = blocks p.
Proof.
  destruct p as [?|?|[tc]|?|?|?|?]; try done. simpl. destruct (tc_toolCallId tc =?s tid); [|done].
  by destruct tc.
Qed.

Lemma blocks_markdown c p : blocks (append_markdown c p) = blocks p.
Proof. by destruct p. Qed.
Lemma blocks_reasoning a p : blocks (append_reasoning a p) = blocks p.
Proof. by destruct p. Qed.

Section Step.
Context `{Platform}.

Lemma coherent_end s turnId st d err s' :
  endTurn s turnId st d (end_activity err) err = Ok s' → coherent s → coherent s'.
Proof.
  destruct (cs_activeTurn s) as [t|] eqn:Et.
  - destruct (decide (at_id t = turnId)) as [Hid|Hid].
    + rewrite (endTurn_val _ _ _ _ _ _ t) by done. simpl.
      destruct (addMillisecondsToTimestamp _ _) as [m|]; [|done]. intros [= <-] _.
      destruct err as [e|]; simpl.
      * right. split; [done|]. simpl. rewrite activity_of_summaryStatus by (by right). done.
      * left. simpl. rewrite activity_of_summaryStatus by (by left). done.
    + rewrite endTurn_other by naive_solver. by intros [= ->].
  - rewrite endTurn_other by naive_solver. by intros [= ->].
Qed.

Lemma coherent_resume s a : coherent s → coherent (on_ChatTurnResume s a).
Proof.
  unfold on_ChatTurnResume. repeat (case_match; try done).
  intros _. apply coherent_unread.
Qed.

Lemma consume_pending_frame s id :
  cs_activeTurn (consume_pending s id) = cs_activeTurn s ∧
  cs_status (consume_pending s id) = cs_status s.
Proof. unfold consume_pending. destruct (steering_is s id); simpl; by case_match. Qed.

Lemma coherent_started s a : coherent (on_ChatTurnStarted s a).
Proof.
  unfold on_ChatTurnStarted. cbv zeta. set (next := set_field cs_activeTurn _ s).
  assert (coherent (set_field cs_modifiedAt (λ _, ChatTurnStarted_startedAt a)
                      (with_unread_summary next))).
  { by eapply coherent_same, coherent_unread. }
  destruct (ChatTurnStarted_queuedMessageId a) as [qid|]; [|done].
  eapply coherent_same; [| |done]; [apply consume_pending_frame|].
  by rewrite (proj2 (consume_pending_frame _ qid)).
Qed.

Lemma coherent_upsert s r : coherent s → coherent (upsertInputRequestPart s r).
Proof.
  unfold upsertInputRequestPart. destruct (cs_activeTurn s); [|done].
  intros _. apply coherent_unread.
Qed.

Lemma existsb_replace t i p p' :
  at_responseParts t !! i = Some p → blocks p' = blocks p →
  existsb blocks (<[i := p']> (at_responseParts t)) = existsb blocks (at_responseParts t).
Proof.
  intros Hi Hp. apply existsb_Forall2.
  rewrite <- (list_insert_id (at_responseParts t) i p Hi) at 1.
  apply Forall2_insert; [|done]. by apply Forall_Forall2_diag, Forall_true.
Qed.

Lemma coherent_answer s a : coherent s → coherent (on_ChatInputAnswerChanged s a).
Proof.
  unfold on_ChatInputAnswerChanged. destruct (open_request _ _) as [[t [i p]]|] eqn:E; [|done].
  apply open_request_spec in E as (Ht & Hi & Hp & _). unfold coherent. simpl.
  unfold expected_activity. rewrite Ht. simpl.
  rewrite (existsb_replace _ _ _ _ Hi); [by intros [?|[? _]]; [left|]|].
  unfold blocks. simpl. by rewrite Hp.
Qed.

Lemma coherent_completed s a : coherent s → coherent (on_ChatInputCompleted s a).
Proof.
  unfold on_ChatInputCompleted. destruct (open_request _ _) as [[t [i p]]|]; [|done].
  intros _. apply coherent_status. apply (activity_of_summaryStatus _ None). by left.
Qed.

Lemma coherent_truncated s a : coherent s → coherent (on_ChatTruncated s a).
Proof.
  unfold on_ChatTruncated. destruct (truncated_turns _ _); [|done].
  intros _. apply coherent_status. apply (activity_of_summaryStatus _ None). by left.
Qed.

Lemma coherent_tool s a e base u s' :
  tool_action a = Some (e, base, u) → chat_step s a s' → coherent s → coherent s'.
Proof.
  intros Ha. unfold chat_step. rewrite (tool_step _ _ _ _ _ Ha). intros [= <-] Hs.
  destruct (refreshes e) eqn:Er; [apply coherent_refresh|].
  apply coherent_with; [|done]. intros t. apply existsb_map_same. intros p.
  destruct a; try done; injection Ha as <- <- <-; try done;
    [apply blocks_delta|apply blocks_content].
Qed.

Lemma coherent_push s turnId p :
  blocks p = false → coherent s → coherent (with_active_turn s turnId (push_part p)).
Proof.
  intros Hp. apply coherent_with. intros t. simpl.
  rewrite existsb_app. simpl. by rewrite Hp, !orb_false_r.
Qed.

(** The one action that can make the status stale: it appends a part verbatim
    and does not derive the status again. *)
Definition appends_blocking (a : ChatAction) : bool :=
  match a with ChatResponsePart x => blocks x.(ChatResponsePart_part) | _ => false end.

Lemma step_coherent s a s' :
  chat_step s a s' → appends_blocking a = false → coherent s → coherent s'.
Proof.
  destruct (tool_action a) as [[[e base] u]|] eqn:Ht; [intros; by eapply coherent_tool|].
  destruct (turn_end a) as [[[[turnId st] d] err]|] eqn:He.
  { unfold chat_step. rewrite (turn_end_step _ _ _ _ _ _ He). intros Hs _. by eapply coherent_end. }
  unfold chat_step. destruct a; try discriminate Ht; try discriminate He; clear Ht He; simpl;
    intros Hs Ha; injection Hs as <-.
  all: try (apply coherent_same; chat_cases; reflexivity).
  all: auto using coherent_started, coherent_resume, coherent_upsert, coherent_answer,
         coherent_completed, coherent_truncated.
  - unfold on_ChatDelta. rewrite updateResponsePart_val. apply coherent_with. intros t.
    apply existsb_first. intros p. apply blocks_markdown.
  - unfold on_ChatResponsePart. destruct (isErrorResponsePart _); [done|].
    by apply coherent_push.
  - by apply coherent_push.
  - by apply coherent_with.
  - unfold on_ChatReasoning. rewrite updateResponsePart_val. apply coherent_with. intros t.
    apply existsb_first. intros p. apply blocks_reasoning.
  - apply coherent_same; [done|]. apply (activity_of_flag _ _ 5), isRead_bit.
  - apply coherent_same; [done|]. apply (activity_of_flag _ _ 6), isArchived_bit.
  - apply coherent_upsert.
Qed.

(** ** The flag bits *)

(** The value an action gives to the [IsRead] and [IsArchived] bits, if any. *)
Definition read_after (s : ChatState) (a : ChatAction) : option bool :=
  match a with
  | ChatIsReadChanged x => Some x.(ChatIsReadChanged_isRead)
  | ChatTurnStarted _ => Some false
  | ChatTurnResume x =>
      match s.(cs_activeTurn), last s.(cs_turns) with
      | None, Some turn => if resumable x.(ChatTurnResume_turnId) turn then Some false else None
      | _, _ => None
      end
  | ChatInputRequested _ => match s.(cs_activeTurn) with Some _ => Some false | None => None end
  | _ => None
  end.

Definition archived_after (a : ChatAction) : option bool :=
  match a with
  | ChatIsArchivedChanged x => Some x.(ChatIsArchivedChanged_isArchived)
  | _ => None
  end.

(** The flag bits of a status after an action, as a function of the bit. *)
Definition flag_after (s : ChatState) (a : ChatAction) (i : Z) : bool :=
  if decide (i = 5) then read_after s a ??! Z.testbit s.(cs_status) 5
  else if decide (i = 6) then archived_after a ??! Z.testbit s.(cs_status) 6
  else Z.testbit s.(cs_status) i.

Definition flags_kept (s s' : ChatState) : Prop :=
  ∀ i, 5 <= i < 32 → Z.testbit s'.(cs_status) i = Z.testbit s.(cs_status) i.

Definition flags_unread (s s' : ChatState) : Prop :=
  ∀ i, 5 <= i < 32 →
    Z.testbit s'.(cs_status) i = if decide (i = 5) then false else Z.testbit s.(cs_status) i.

Lemma flags_same s s' : cs_status s' = cs_status s → flags_kept s s'.
Proof. by intros E i _; rewrite E. Qed.

Lemma flags_summary s s' ts :
  terminal_activity ts → cs_status s' = cs_status s →
  ∀ i, 5 <= i < 32 → Z.testbit (summaryStatus s' ts) i = Z.testbit s.(cs_status) i.
Proof.
  intros Hts E i Hi. rewrite summaryStatus_val, testbit_summary; [|lia|].
  - rewrite decide_False by lia. by rewrite E.
  - destruct Hts as [-> | ->]; [apply expected_range|by split].
Qed.

Lemma flags_unread_summary s next :
  cs_status next = cs_status s → flags_unread s (with_unread_summary next).
Proof.
  intros E i Hi. change (cs_status (with_unread_summary next)) with
    (withStatusFlag (summaryStatus next None) SessionStatus.IsRead false).
  rewrite (testbit_flag _ _ 5) by (apply isRead_bit || lia).
  case_decide; [done|]. apply flags_summary; [by left|done|lia].
Qed.

Lemma status_with s turnId f : cs_status (with_active_turn s turnId f) = cs_status s.
Proof. unfold with_active_turn. destruct (cs_activeTurn s); [|done]. by destruct (negb _). Qed.

Lemma flags_refresh s s' : cs_status s' = cs_status s → flags_kept s (refreshSummaryStatus s').
Proof. intros E i Hi. rewrite refresh_status. by apply flags_summary; [left| |]. Qed.

Lemma flags_end s turnId st d err s' :
  endTurn s turnId st d (end_activity err) err = Ok s' → flags_kept s s'.
Proof.
  unfold endTurn. destruct (cs_activeTurn s) as [t|]; [|by intros [= ->]].
  destruct (negb _); [by intros [= ->]|]. simpl.
  destruct (addMillisecondsToTimestamp _ _); [|done]. intros [= <-] i Hi. simpl.
  apply flags_summary; [destruct err; [by right|by left]|done|lia].
Qed.

Lemma resume_eq s a :
  on_ChatTurnResume s a =
  match s.(cs_activeTurn), last s.(cs_turns) with
  | None, Some turn =>
      if resumable a.(ChatTurnResume_turnId) turn then
        with_unread_summary
          (s <| cs_turns := removelast s.(cs_turns) |>
             <| cs_activeTurn := Some (mkActiveTurn turn.(turn_id)
                  (turn.(turn_startedAt) ??! s.(cs_modifiedAt)) turn.(turn_message)
                  turn.(turn_responseParts) turn.(turn_usage)) |>)
      else s
  | _, _ => s
  end.
Proof.
  unfold on_ChatTurnResume. destruct (cs_activeTurn s); [done|].
  destruct (cs_turns s) as [|turn l _] using rev_ind; [done|].
  rewrite last_snoc, length_app, Nat.add_sub. simpl.
  rewrite list_lookup_middle by done. rewrite removelast_last.
  destruct (resumable _ _); [|done]. simpl. by rewrite delete_middle, app_nil_r.
Qed.

Definition flags_follow (s : ChatState) (a : ChatAction) (s' : ChatState) : Prop :=
  ∀ i, 5 <= i < 32 → Z.testbit s'.(cs_status) i = flag_after s a i.

Lemma follow_kept s a s' :
  read_after s a = None → archived_after a = None → flags_kept s s' → flags_follow s a s'.
Proof.
  intros Hr Ha Hk i Hi. unfold flag_after. rewrite Hr, Ha, Hk by done. repeat case_decide; by subst.
Qed.

Lemma follow_unread s a s' :
  read_after s a = Some false → archived_after a = None → flags_unread s s' → flags_follow s a s'.
Proof.
  intros Hr Ha Hk i Hi. unfold flag_after. rewrite Hr, Ha, Hk by done. repeat case_decide; by subst.
Qed.

Lemma follow_started s a : flags_follow s (ChatTurnStarted a) (on_ChatTurnStarted s a).
Proof.
  apply follow_unread; [done|done|]. unfold on_ChatTurnStarted. cbv zeta.
  set (next := set_field cs_activeTurn _ s). intros i Hi.
  rewrite <- (flags_unread_summary s next) by done.
  destruct (ChatTurnStarted_queuedMessageId a) as [qid|]; [|done].
  by rewrite (proj2 (consume_pending_frame _ qid)).
Qed.

Lemma follow_resume s a : flags_follow s (ChatTurnResume a) (on_ChatTurnResume s a).
Proof.
  rewrite resume_eq. destruct (cs_activeTurn s) eqn:Et.
  { apply follow_kept; simpl; rewrite ?Et; done. }
  destruct (last (cs_turns s)) as [turn|] eqn:El;
    [|apply follow_kept; simpl; rewrite ?Et, ?El; done].
  destruct (resumable _ turn) eqn:Er.
  - apply follow_unread; [simpl; by rewrite Et, El, Er|done|by apply flags_unread_summary].
  - apply follow_kept; [simpl; by rewrite Et, El, Er|done|done].
Qed.

Lemma follow_requested s a : flags_follow s (ChatInputRequested a) (on_ChatInputRequested s a).
Proof.
  unfold on_ChatInputRequested, upsertInputRequestPart.
  destruct (cs_activeTurn s) eqn:Et; [|apply follow_kept; simpl; rewrite ?Et; done].
  apply follow_unread; [simpl; by rewrite Et|done|]. by apply (flags_unread_summary s).
Qed.

Lemma kept_completed s a : flags_kept s (on_ChatInputCompleted s a).
Proof.
  unfold on_ChatInputCompleted. destruct (open_request _ _) as [[t [i p]]|]; [|done].
  intros j Hj. apply flags_summary; [by left|done|lia].
Qed.

Lemma kept_answer s a : flags_kept s (on_ChatInputAnswerChanged s a).
Proof. unfold on_ChatInputAnswerChanged. by destruct (open_request _ _) as [[t [i p]]|]. Qed.

Lemma kept_truncated s a : flags_kept s (on_ChatTruncated s a).
Proof.
  unfold on_ChatTruncated. destruct (truncated_turns _ _); [|done].
  intros j Hj. apply flags_summary; [by left|by destruct (ChatTruncated_turnId a)|lia].
Qed.

Lemma follow_tool s a e base u s' :
  tool_action a = Some (e, base, u) → chat_step s a s' → flags_follow s a s'.
Proof.
  intros Ht Hs. apply follow_kept; [by destruct a|by destruct a|].
  unfold chat_step in Hs. rewrite (tool_step _ _ _ _ _ Ht) in Hs. injection Hs as <-.
  destruct (refreshes e); [apply flags_refresh|apply flags_same]; apply status_with.
Qed.

Lemma follow_end s a x s' : turn_end a = Some x → chat_step s a s' → flags_follow s a s'.
Proof.
  destruct x as [[[turnId st] d] err]. intros He Hs. apply follow_kept; [by destruct a|by destruct a|].
  unfold chat_step in Hs. rewrite (turn_end_step _ _ _ _ _ _ He) in Hs. by eapply flags_end.
Qed.

Lemma step_flags s a s' : chat_step s a s' → flags_follow s a s'.
Proof.
  destruct (tool_action a) as [[[e base] u]|] eqn:Ht; [by eapply follow_tool|].
  destruct (turn_end a) as [x|] eqn:He; [by eapply follow_end|].
  unfold chat_step. intros Hs.
  destruct a; try discriminate Ht; try discriminate He; clear Ht He; injection Hs as <-.
  all: try (apply follow_kept; [reflexivity|reflexivity|]; apply flags_same; chat_cases; reflexivity).
  all: try solve [apply follow_started | apply follow_resume | apply follow_requested].
  all: try (apply follow_kept; [reflexivity|reflexivity|];
    solve [apply flags_same, status_with | apply kept_completed | apply kept_answer
          | apply kept_truncated]).
  - apply follow_kept; [done..|]. unfold on_ChatDelta. rewrite updateResponsePart_val.
    apply flags_same, status_with.
  - apply follow_kept; [done..|]. unfold on_ChatResponsePart.
    destruct (isErrorResponsePart _); [done|apply flags_same, status_with].
  - apply follow_kept; [done..|]. unfold on_ChatReasoning. rewrite updateResponsePart_val.
    apply flags_same, status_with.
  - intros i Hi. unfold flag_after. simpl. rewrite (testbit_flag _ _ 5) by (apply isRead_bit || lia).
    repeat case_decide; by subst.
  - intros i Hi. unfold flag_after. simpl. rewrite (testbit_flag _ _ 6) by (apply isArchived_bit || lia).
    repeat case_decide; subst; try done; lia.
Qed.
End Step.
