(* ===== verification/ChatQueue.v ===== *)
(** * The collections of a chat

    Lemmas on the pending messages, the keyed lists, the history edits and the
    text deltas of ChatReducer. *)

From S2P Require Import Prelude KeyedList JsNumber JsDate CommonState ChatState ChatActions ChatReducer ChatToolCalls ChatTurns.

(** ** Reordering the queue *)

Section Reorder.
Implicit Types (byId : gmap string PendingMessage) (order : list string).

Lemma known_once_spec byId ordered order id :
  id ∈ known_once byId ordered order ↔ id ∈ order ∧ is_Some (byId !! id) ∧ id ∉ ordered.
Proof.
  revert ordered. induction order as [|x order IH]; intros ordered; simpl.
  { rewrite elem_of_nil. naive_solver. }
  rewrite elem_of_cons.
  destruct (decide (is_Some (byId !! x))) as [Hx|Hx];
    [rewrite bool_decide_true by done|rewrite bool_decide_false by done; simpl; rewrite IH;
     naive_solver].
  destruct (decide (x ∈ ordered)) as [Ho|Ho];
    [rewrite bool_decide_true by done|rewrite bool_decide_false by done]; simpl.
  - rewrite IH. naive_solver.
  - rewrite elem_of_cons, IH, not_elem_of_union, not_elem_of_singleton.
    destruct (decide (id = x)) as [->|]; naive_solver.
Qed.

Lemma known_once_NoDup byId ordered order : NoDup (known_once byId ordered order).
Proof.
  revert ordered. induction order as [|x order IH]; intros ordered; simpl; [constructor|].
  destruct (_ && _); [|apply IH]. constructor; [|apply IH]. rewrite known_once_spec.
  rewrite not_elem_of_union, not_elem_of_singleton. naive_solver.
Qed.

Lemma known_once_sublist byId ordered order : known_once byId ordered order `sublist_of` order.
Proof.
  revert ordered. induction order as [|x order IH]; intros ordered; simpl; [constructor|].
  destruct (_ && _); constructor; apply IH.
Qed.

(** The messages [order] names, in its order. *)
Definition named (l : list PendingMessage) (order : list string) : list PendingMessage :=
  omap (λ id, mapBy key_of l !! id) (known_once (mapBy key_of l) ∅ order).

Definition unnamed (l : list PendingMessage) (order : list string) : list PendingMessage :=
  List.filter (λ m, negb (includes (known_once (mapBy key_of l) ∅ order) (pm_id m))) l.

Lemma reorder_split l order : reorder_queued l order = named l order ++ unnamed l order.
Proof. done. Qed.

Lemma omap_keys byId ids :
  (∀ id m, byId !! id = Some m → key_of m = id) → Forall (λ id, is_Some (byId !! id)) ids →
  keys (omap (λ id, byId !! id) ids) = ids.
Proof.
  intros Hk. induction 1 as [|id ids [m Hm] _ IH]; [done|]. simpl. rewrite Hm.
  change (key_of m :: keys (omap (λ id, byId !! id) ids) = id :: ids).
  by rewrite IH, (Hk _ _ Hm).
Qed.

Context (l : list PendingMessage) (Hnd : NoDup (keys l)).

Lemma mapBy_lookup id m : mapBy key_of l !! id = Some m ↔ m ∈ l ∧ key_of m = id.
Proof. rewrite mapBy_entries by done. by apply entries_of_Some. Qed.

Lemma keys_named order : keys (named l order) = known_once (mapBy key_of l) ∅ order.
Proof.
  apply omap_keys; [by intros id m [_ ?]%mapBy_lookup|].
  apply Forall_forall. by intros id (_ & ? & _)%known_once_spec.
Qed.

Lemma elem_of_named order m : m ∈ named l order ↔ m ∈ l ∧ key_of m ∈ order.
Proof.
  unfold named. rewrite list_elem_of_omap. setoid_rewrite known_once_spec.
  setoid_rewrite mapBy_lookup. split.
  - intros (id & (Ho & _ & _) & Hm & <-). done.
  - intros [Hm Ho]. exists (key_of m). split; [|done]. split; [done|].
    split; [|apply not_elem_of_empty]. exists m. by apply mapBy_lookup.
Qed.

Lemma elem_of_unnamed order m : m ∈ unnamed l order ↔ m ∈ l ∧ key_of m ∉ order.
Proof.
  unfold unnamed. rewrite elem_of_filter_js, negb_true_iff, includes_false, known_once_spec.
  split; [|by intros [? ?]; split; [|intros (? & _)]].
  intros [Hm Hn]. split; [done|]. intros Ho. apply Hn. split; [done|].
  split; [|apply not_elem_of_empty]. exists m. by apply mapBy_lookup.
Qed.

Lemma NoDup_of_keys (k : list PendingMessage) : NoDup (keys k) → NoDup k.
Proof. apply NoDup_fmap_1. Qed.

Lemma reorder_permutation order : reorder_queued l order ≡ₚ l.
Proof.
  rewrite reorder_split. apply NoDup_Permutation.
  - apply NoDup_app. split_and!.
    + apply NoDup_of_keys. rewrite keys_named. apply known_once_NoDup.
    + intros m [_ ?]%elem_of_named [_ ?]%elem_of_unnamed. done.
    + apply NoDup_of_keys, NoDup_keys_filter, Hnd.
  - by apply NoDup_of_keys.
  - intros m. rewrite elem_of_app, elem_of_named, elem_of_unnamed.
    destruct (decide (key_of m ∈ order)); naive_solver.
Qed.

End Reorder.

(** ** The two halves of the state

    Turn traffic touches the turns, the status and the modification time;
    everything else is metadata. *)

Definition metadata (s : ChatState) : ChatState :=
  s <| cs_status := 0%Z |> <| cs_modifiedAt := "" |> <| cs_turns := [] |>
    <| cs_turnsNextCursor := None |> <| cs_activeTurn := None |>.

(** The metadata without the pending messages. *)
Definition besides_pending (s : ChatState) : ChatState :=
  metadata s <| cs_steeringMessage := None |> <| cs_queuedMessages := None |>.

Lemma metadata_steering s : cs_steeringMessage (metadata s) = cs_steeringMessage s.
Proof. done. Qed.
Lemma metadata_queued s : cs_queuedMessages (metadata s) = cs_queuedMessages s.
Proof. done. Qed.

Lemma besides_metadata s : besides_pending (metadata s) = besides_pending s.
Proof. done. Qed.

Definition conversation (s : ChatState) : string * list Turn * option string * option ActiveTurn :=
  (s.(cs_modifiedAt), s.(cs_turns), s.(cs_turnsNextCursor), s.(cs_activeTurn)).

Definition turn_traffic (a : ChatAction) : bool :=
  match a with
  | ChatTurnStarted _ | ChatDelta _ | ChatResponsePart _ | ChatToolCallStart _ | ChatToolCallDelta _
  | ChatToolCallReady _ | ChatToolCallConfirmed _ | ChatToolCallComplete _
  | ChatToolCallResultConfirmed _ | ChatToolCallContentChanged _ | ChatToolCallAuthRequired _
  | ChatToolCallAuthResolved _ | ChatTurnComplete _ | ChatTurnCancelled _ | ChatError _
  | ChatTurnResume _ | ChatUsage _ | ChatReasoning _ | ChatTruncated _ | ChatTurnsLoaded _
  | ChatInputRequested _ | ChatInputAnswerChanged _ | ChatInputCompleted _ => true
  | _ => false
  end.

(** The pending message a starting turn consumes. *)
Definition consumes (a : ChatAction) : option string :=
  match a with ChatTurnStarted x => x.(ChatTurnStarted_queuedMessageId) | _ => None end.

Lemma metadata_with s turnId f : metadata (with_active_turn s turnId f) = metadata s.
Proof. unfold with_active_turn. destruct (cs_activeTurn s); [|done]. by destruct (negb _). Qed.

Lemma metadata_refresh s : metadata (refreshSummaryStatus s) = metadata s.
Proof. unfold refreshSummaryStatus. by destruct (_ =? _)%Z. Qed.

Lemma metadata_consume s id :
  metadata (consume_pending s id) = metadata (consume_pending (metadata s) id).
Proof.
  unfold consume_pending, steering_is. simpl. destruct (cs_steeringMessage s); simpl;
    [destruct (has_key _ _)|]; simpl; by destruct (cs_queuedMessages s).
Qed.

Section Step.
Context `{Platform}.

Lemma metadata_end s turnId st d ts err s' :
  endTurn s turnId st d ts err = Ok s' → metadata s' = metadata s.
Proof.
  unfold endTurn. destruct (cs_activeTurn s); [|by intros [= ->]].
  destruct (negb _); [by intros [= ->]|]. simpl.
  destruct (addMillisecondsToTimestamp _ _); [|done]. by intros [= <-].
Qed.

Lemma metadata_resume s a : metadata (on_ChatTurnResume s a) = metadata s.
Proof. unfold on_ChatTurnResume. repeat (case_match; try done). Qed.

Lemma metadata_upsert s r : metadata (upsertInputRequestPart s r) = metadata s.
Proof. unfold upsertInputRequestPart. by destruct (cs_activeTurn s). Qed.

Lemma metadata_answer s a : metadata (on_ChatInputAnswerChanged s a) = metadata s.
Proof. unfold on_ChatInputAnswerChanged. by destruct (open_request s _) as [[? [? ?]]|]. Qed.

Lemma metadata_completed s a : metadata (on_ChatInputCompleted s a) = metadata s.
Proof. unfold on_ChatInputCompleted. by destruct (open_request s _) as [[? [? ?]]|]. Qed.

Lemma metadata_truncated s a : metadata (on_ChatTruncated s a) = metadata s.
Proof.
  unfold on_ChatTruncated. destruct (truncated_turns _ _); [|done].
  by destruct (ChatTruncated_turnId a).
Qed.

Lemma step_metadata s a s' :
  chat_step s a s' → turn_traffic a = true →
  metadata s' = match consumes a with
                | Some id => metadata (consume_pending (metadata s) id)
                | None => metadata s
                end.
Proof.
  destruct (tool_action a) as [[[e base] u]|] eqn:Ht.
  { unfold chat_step. rewrite (tool_step _ _ _ _ _ Ht). intros [= <-] _.
    transitivity (metadata s); [|by destruct a].
    destruct (refreshes e); rewrite ?metadata_refresh; apply metadata_with. }
  destruct (turn_end a) as [[[[turnId st] d] err]|] eqn:He.
  { unfold chat_step. rewrite (turn_end_step _ _ _ _ _ _ He). intros Hs%metadata_end _.
    by destruct a. }
  unfold chat_step. destruct a; try discriminate Ht; try discriminate He; clear Ht He; simpl;
    intros Hs Ha; try discriminate Ha; injection Hs as <-.
  - unfold on_ChatTurnStarted. simpl. destruct (ChatTurnStarted_queuedMessageId a); [|done].
    by rewrite metadata_consume.
  - unfold on_ChatDelta. rewrite updateResponsePart_val. apply metadata_with.
  - unfold on_ChatResponsePart. destruct (isErrorResponsePart _); [done|apply metadata_with].
  - apply metadata_with.
  - apply metadata_resume.
  - apply metadata_with.
  - unfold on_ChatReasoning. rewrite updateResponsePart_val. apply metadata_with.
  - apply metadata_truncated.
  - done.
  - apply metadata_upsert.
  - apply metadata_answer.
  - apply metadata_completed.
Qed.

(** What is left once the message [id] is consumed. *)
Lemma consumed_pending s id :
  let s' := consume_pending s id in
  besides_pending s' = besides_pending s ∧
  cs_steeringMessage s' = (m ← cs_steeringMessage s; if decide (pm_id m = id) then None else Some m) ∧
  cs_queuedMessages s' =
    (queue ← cs_queuedMessages s;
     let left := filter (λ m, pm_id m ≠ id) queue in if decide (left = []) then None else Some left).
Proof.
  assert (Hf : ∀ l : list PendingMessage,
    List.filter (λ m, negb (has_key id m)) l = filter (λ m, pm_id m ≠ id) l).
  { induction l as [|m l IH]; [done|]. simpl. rewrite filter_cons, IH. case_decide as Hm.
    - by rewrite (proj2 (has_key_false id m)).
    - by rewrite (proj2 (has_key_true id m)). }
  assert (Hl : ∀ l : list PendingMessage, non_empty_list l = if decide (l = []) then None else Some l)
    by (by intros [|m l]).
  unfold consume_pending, steering_is. destruct s; simpl.
  destruct cs_steeringMessage as [m|]; [destruct (has_key id m) eqn:Em|]; simpl;
    destruct cs_queuedMessages as [queue|]; simpl; rewrite ?Hf, ?Hl;
    (split; [done|split; [|done]]); try done.
  - apply has_key_true in Em. by rewrite decide_True.
  - apply has_key_true in Em. by rewrite decide_True.
  - apply has_key_false in Em. by rewrite decide_False.
  - apply has_key_false in Em. by rewrite decide_False.
Qed.

Lemma step_consumes s a s' :
  chat_step s a s' → turn_traffic a = true →
  besides_pending s' = besides_pending s ∧
  match consumes a with
  | None => cs_steeringMessage s' = cs_steeringMessage s ∧ cs_queuedMessages s' = cs_queuedMessages s
  | Some id =>
      cs_steeringMessage s' = (m ← cs_steeringMessage s; if decide (pm_id m = id) then None else Some m) ∧
      cs_queuedMessages s' =
        (queue ← cs_queuedMessages s;
         let left := filter (λ m, pm_id m ≠ id) queue in if decide (left = []) then None else Some left)
  end.
Proof.
  intros Hs Ht. pose proof (step_metadata s a s' Hs Ht) as Hm.
  rewrite <- (besides_metadata s'), <- (metadata_steering s'), <- (metadata_queued s'), Hm.
  destruct (consumes a) as [id|].
  - rewrite besides_metadata, metadata_steering, metadata_queued.
    destruct (consumed_pending (metadata s) id) as (-> & -> & ->).
    rewrite besides_metadata, metadata_steering, metadata_queued. done.
  - rewrite besides_metadata, metadata_steering, metadata_queued. done.
Qed.

Lemma step_conversation s a s' :
  chat_step s a s' → turn_traffic a = false → conversation s' = conversation s.
Proof.
  unfold chat_step. destruct a; simpl; intros Hs Ha; try discriminate Ha; injection Hs as <-;
    chat_cases; reflexivity.
Qed.

(** ** Invariants of the collections *)

Definition queued (s : ChatState) : list PendingMessage := s.(cs_queuedMessages) ??! [].

(** The queue is keyed, and the steering message is one of its entries. *)
Definition pending_ok (s : ChatState) : Prop :=
  NoDup (keys (queued s)) ∧
  ∀ m, s.(cs_steeringMessage) = Some m → pm_kind m = Some PendingMessageKind_Steering ∧ m ∈ queued s.

Definition keyed_ok (s : ChatState) : Prop :=
  NoDup (keys (s.(cs_backgroundWork) ??! [])) ∧ NoDup (s.(cs_workingDirectories) ??! []).

Lemma pending_same s s' :
  cs_queuedMessages s' = cs_queuedMessages s → cs_steeringMessage s' = cs_steeringMessage s →
  pending_ok s → pending_ok s'.
Proof. unfold pending_ok, queued. by intros -> ->. Qed.

Lemma pending_metadata s : pending_ok (metadata s) ↔ pending_ok s.
Proof. by split; apply pending_same. Qed.

Lemma steering_is_true s id :
  steering_is s id = true ↔ ∃ m, cs_steeringMessage s = Some m ∧ pm_id m = id.
Proof.
  unfold steering_is. destruct (cs_steeringMessage s) as [m|]; [|naive_solver].
  rewrite has_key_true. unfold key_of, keyed_pending. naive_solver.
Qed.

Lemma pending_consume s id : pending_ok s → pending_ok (consume_pending s id).
Proof.
  intros [Hnd Hs].
  assert (queued (consume_pending s id) =
          List.filter (λ m, negb (has_key id m)) (queued s)) as Hq.
  { unfold consume_pending, queued. destruct (steering_is s id); simpl;
      destruct (cs_queuedMessages s) eqn:Eq; simpl; rewrite ?Eq, ?non_empty_list_default; done. }
  assert (∀ m, cs_steeringMessage (consume_pending s id) = Some m →
          cs_steeringMessage s = Some m ∧ pm_id m ≠ id) as Hm.
  { intros m. unfold consume_pending. destruct (steering_is s id) eqn:E; simpl.
    - by destruct (cs_queuedMessages s).
    - intros Hm. assert (cs_steeringMessage s = Some m) as Hm'
        by (revert Hm; by destruct (cs_queuedMessages s)).
      split; [done|]. intros Hid.
      assert (steering_is s id = true) by (apply steering_is_true; eauto). congruence. }
  split; rewrite Hq; [by apply NoDup_keys_filter|].
  intros m [Hm' Hid]%Hm. destruct (Hs m Hm') as [? ?]. split; [done|].
  rewrite elem_of_filter_js, negb_true_iff, has_key_false. done.
Qed.

Lemma pending_set s a : pending_ok s → pending_ok (on_ChatPendingMessageSet s a).
Proof.
  intros [Hnd Hs]. unfold on_ChatPendingMessageSet. cbv zeta.
  set (entry := mkPendingMessage _ _ _).
  set (l := upsert (has_key (ChatPendingMessageSet_id a)) entry (cs_queuedMessages s ??! [])).
  assert (NoDup (keys l)) by exact (NoDup_keys_upsert entry _ Hnd).
  destruct (ChatPendingMessageSet_kind a) eqn:Ek.
  - split; [done|]. intros m [= <-]. split; [done|]. apply elem_of_upsert_new.
  - assert (∀ m, cs_steeringMessage s = Some m → pm_id m ≠ ChatPendingMessageSet_id a →
              pm_kind m = Some PendingMessageKind_Steering ∧ m ∈ l) as Hkeep.
    { intros m Hm Hid. destruct (Hs m Hm). split; [done|].
      apply elem_of_upsert_old; [done|]. by apply has_key_false. }
    destruct (steering_is s _) eqn:E; split; try done.
    intros m Hm. apply Hkeep; [done|]. intros Hid.
    assert (steering_is s (ChatPendingMessageSet_id a) = true) by (apply steering_is_true; eauto).
    congruence.
Qed.

Lemma pending_removed s a : pending_ok s → pending_ok (on_ChatPendingMessageRemoved s a).
Proof.
  intros [Hnd Hs]. unfold on_ChatPendingMessageRemoved. cbv zeta.
  set (id := ChatPendingMessageRemoved_id a). set (kind := ChatPendingMessageRemoved_kind a).
  set (next := if bool_decide (kind = PendingMessageKind_Steering) && steering_is s id then _ else s).
  assert (∀ m, cs_steeringMessage next = Some m →
          pm_kind m = Some PendingMessageKind_Steering ∧ m ∈ queued s ∧ pm_matches id kind m = false)
    as Hnext.
  { intros m Hm. assert (cs_steeringMessage s = Some m) as Hm'
      by (subst next; by destruct (bool_decide _ && _)).
    destruct (Hs m Hm') as [Hk Hin]. split; [done|]. split; [done|].
    unfold pm_matches. rewrite Hk. simpl. destruct (has_key id m) eqn:Eid; [|done]. simpl.
    apply bool_decide_eq_false. intros Hkind. subst next.
    rewrite bool_decide_true in Hm by done. simpl in Hm.
    assert (steering_is s id = true) as Et.
    { apply steering_is_true. exists m. split; [done|]. by apply has_key_true in Eid. }
    by rewrite Et in Hm. }
  assert (queued next = queued s) as Hq by (subst next; by destruct (bool_decide _ && _)).
  destruct (removeFirst _ _) as [l|] eqn:Er; simpl.
  - split; unfold queued; simpl; rewrite non_empty_list_default; [by eapply NoDup_keys_removeFirst|].
    intros m Hm. destruct (Hnext m Hm) as (? & ? & ?). split; [done|].
    by eapply elem_of_removeFirst_old.
  - split; rewrite Hq; [done|]. intros m Hm. by destruct (Hnext m Hm) as (? & ? & ?).
Qed.

Lemma pending_reordered s a : pending_ok s → pending_ok (on_ChatQueuedMessagesReordered s a).
Proof.
  unfold on_ChatQueuedMessagesReordered, pending_ok, queued.
  destruct (cs_queuedMessages s) as [l|] eqn:El; simpl; [|rewrite El; done].
  intros [Hnd Hs]. pose proof (reorder_permutation l Hnd (ChatQueuedMessagesReordered_order a)) as Hp.
  split; [unfold keys; change (map key_of ?k) with (key_of <$> k); by rewrite Hp|].
  intros m Hm. by rewrite Hp; auto.
Qed.

Lemma step_pending s a s' : chat_step s a s' → pending_ok s → pending_ok s'.
Proof.
  intros Hs Hp. destruct (turn_traffic a) eqn:Et.
  - apply (step_metadata s a s') in Hs as Hm; [|done].
    rewrite <- (pending_metadata s'), Hm. destruct (consumes a) as [id|]; rewrite pending_metadata; [|done].
    apply pending_consume. by apply pending_metadata.
  - unfold chat_step in Hs. destruct a; try discriminate Et; injection Hs as <-.
    all: try (by apply pending_set). all: try (by apply pending_removed).
    all: try (by apply pending_reordered).
    all: apply (pending_same s); [..|done]; chat_cases; reflexivity.
Qed.
End Step.
