(* ===== verification/ChatProperties.v ===== *)
(** * What the chat reducer guarantees

    The properties of [chatReducer], over arbitrary states and actions, each
    followed by an instance at a concrete chat. *)

From S2P Require Import Prelude KeyedList JsNumber JsDate CommonState ChatState ChatActions ChatReducer ChatToolCalls ChatTurns ChatStatus ChatQueue.
Local Open Scope Z_scope.

(** ** A concrete chat for the instances *)

Module Sample.
Definition message : Message :=
    mkMessage "Hello" (mkMessageOrigin MessageKind_User) None None None None.
Definition call_base : ToolCallBase := mkToolCallBase "tc-1" "bash" "Run" None None None.
Definition params : ToolCallParameterFields :=
    mkToolCallParameterFields (PlainString "Run ls") (Some (ToolInput_string "ls")).
Definition post : ToolCallPostConfirmationFields :=
    mkToolCallPostConfirmationFields ToolCallConfirmationReason_UserAction None.
Definition running : ToolCallState :=
    ToolCallState_Running (mkToolCallRunningState call_base params post None).
Definition result : ToolCallResult :=
    mkToolCallResult true (PlainString "Ran ls") None None None None.
Definition completed : ToolCallState :=
    ToolCallState_Completed (mkToolCallCompletedState call_base params result post).
Definition call (tc : ToolCallState) : ResponsePart :=
    ResponsePart_ToolCall (mkToolCallResponsePart tc).
Definition text (c : string) : ResponsePart :=
    ResponsePart_Markdown (mkMarkdownResponsePart "md-1" c).
Definition turn (parts : list ResponsePart) : ActiveTurn :=
    mkActiveTurn "turn-1" "2025-03-01T10:00:00.000Z" message parts None.
Definition chat (status : SessionStatus) (turns : list Turn) (active : option ActiveTurn) : ChatState :=
    mkChatState "chat:/1" "Chat" status None "2025-03-01T09:00:00.000Z" None None None None None
      None None None None None turns None active None None None None.
Definition busy (parts : list ResponsePart) : ChatState :=
    chat SessionStatus.InProgress [] (Some (turn parts)).
Definition action_base : ToolCallActionBase := mkToolCallActionBase "turn-1" "tc-1" None.
Definition complete : ChatAction :=
    ChatToolCallComplete (mkChatToolCallCompleteAction action_base result None).
Definition turn_complete : ChatAction :=
    ChatTurnComplete (mkChatTurnCompleteAction "turn-1" 1500 None).
Definition failure : ErrorResponsePart :=
    mkErrorResponsePart (mkErrorInfo "network" "lost" None None) (Some true).
Definition fail : ChatAction := ChatError (mkChatErrorAction "turn-1" 250 failure None).
Definition queued_message (id : string) : PendingMessage :=
    mkPendingMessage id (Some PendingMessageKind_Queued) message.
End Sample.

(** ** Tool calls *)

(** What an event does to one part of the active turn. *)
Definition call_moves (e : ToolEvent) (toolCallId : string) (p p' : ResponsePart) : Prop :=
  match p with
  | ResponsePart_ToolCall c =>
      let tc := c.(tcp_toolCall) in
      if tc_toolCallId tc =?s toolCallId then
        match lifecycle_next e (tc_status tc) (is_mcp tc) with
        | None => p' = p
        | Some st => ∃ tc', p' = Sample.call tc' ∧ tc_status tc' = st ∧ tc_identity tc' = tc_identity tc
        end
      else p' = p
  | _ => p' = p
  end.

Lemma tool_part_moves a e base u tid p :
  tool_action a = Some (e, base, u) → call_moves e tid p (tool_part tid u p).
Proof.
  intros Ha. destruct p as [?|?|[tc]|?|?|?|?]; try done. simpl.
  destruct (tc_toolCallId tc =?s tid); [|done].
  pose proof (updater_status _ _ _ _ tc Ha) as Hst.
  destruct (val (u tc)) as [tc'|] eqn:Eu; simpl in Hst; rewrite <- Hst; [|done].
  exists tc'. split_and!; [done|done|by eapply updater_identity].
Qed.

(** C1: A tool-call action addressed to the active turn never throws and moves
    each of the turn's parts exactly as the lifecycle table says: a tool call
    with the addressed id goes to the table's next status, keeping its id, name
    and the client that runs it, and is left as it is where the table has no
    entry; every other part is untouched. *)
Theorem tool_call_lifecycle `{Platform} s a e base u t :
  tool_action a = Some (e, base, u) →
  cs_activeTurn s = Some t → at_id t = ToolCallActionBase_turnId base →
  ∃ s' t', chat_step s a s' ∧ cs_activeTurn s' = Some t' ∧
    Forall2 (call_moves e (ToolCallActionBase_toolCallId base))
      (at_responseParts t) (at_responseParts t').
Proof.
  intros Ha Ht Hid. unfold chat_step. rewrite (tool_step _ _ _ _ _ Ha).
  eexists _, _. split; [done|]. split.
  - transitivity (cs_activeTurn (with_active_turn s (ToolCallActionBase_turnId base)
      (map_parts (map (tool_part (ToolCallActionBase_toolCallId base) u))))).
    { destruct (refreshes e); [apply refresh_active|done]. }
    unfold with_active_turn. by rewrite Ht, Hid, str_eqb_refl.
  - apply Forall2_fmap_r, Forall_Forall2_diag, Forall_true. intros p. by eapply tool_part_moves.
Qed.

Lemma tool_call_lifecycle_witness :
  ∃ s' t', @chat_step utc_platform (Sample.busy [Sample.call Sample.running]) Sample.complete s' ∧
    cs_activeTurn s' = Some t' ∧
    Forall2 (call_moves (EvComplete true false) "tc-1") [Sample.call Sample.running] (at_responseParts t').
Proof.
  exact (@tool_call_lifecycle utc_platform (Sample.busy [Sample.call Sample.running]) Sample.complete
    _ _ _ (Sample.turn [Sample.call Sample.running]) eq_refl eq_refl eq_refl).
Defined.

(** A step that keeps the turn in progress. *)
Definition turn_kept `{Platform} (s s' : ChatState) : Prop :=
  ∃ a, chat_step s a s' ∧ starts_turn a = false ∧ is_Some (cs_activeTurn s').

(** A part nothing happens to any more: a finished tool call, an answered
    request, and the parts that have no life cycle. *)
Definition settled (p : ResponsePart) : bool :=
  match p with
  | ResponsePart_ToolCall q => is_terminal (tc_status q.(tcp_toolCall))
  | ResponsePart_InputRequest q => is_some q.(irp_response)
  | ResponsePart_Markdown _ | ResponsePart_Reasoning _ => false
  | _ => true
  end.

Lemma settled_stays p p' : part_evolves p p' → settled p = true → p' = p.
Proof.
  destruct p as [?|?|[tc]|?|?|q|?]; destruct p' as [?|?|[tc']|?|?|q'|?]; simpl; try done;
    try (by intros [= ->]).
  - intros [_ [[= ->]|[e He]]]; [done|]. intros Ht. by rewrite terminal_no_edge in He.
  - intros [-> |[Hr _]]; [done|]. by rewrite Hr.
Qed.

Lemma kept_settled `{Platform} s s' t :
  turn_kept s s' → cs_activeTurn s = Some t →
  ∃ t', cs_activeTurn s' = Some t' ∧ at_id t' = at_id t ∧
    ∀ i p, at_responseParts t !! i = Some p → settled p = true → at_responseParts t' !! i = Some p.
Proof.
  intros (a & Hs & Ha & [t' Ht']) Ht. exists t'. split; [done|].
  destruct (step_evolves s a s' Hs Ha t t' Ht Ht') as (Hid & _ & _ & l & k & Hl & Hf).
  split; [done|]. intros i p Hi Hp. rewrite Hl.
  destruct (Forall2_lookup_l _ _ _ _ _ Hf Hi) as (p' & Hi' & He).
  rewrite (settled_stays p p' He Hp) in Hi'. by apply lookup_app_l_Some.
Qed.

(** C4: Completed and cancelled tool calls, answered input requests, resources,
    notifications and errors are final: however many actions follow, as long as
    the turn stays in progress, the part stays at its place, unchanged. *)
Theorem settled_parts_final `{Platform} s s' t i p :
  rtc turn_kept s s' → cs_activeTurn s = Some t →
  at_responseParts t !! i = Some p → settled p = true →
  ∃ t', cs_activeTurn s' = Some t' ∧ at_id t' = at_id t ∧ at_responseParts t' !! i = Some p.
Proof.
  intros Hrun. revert t. induction Hrun as [s|s s1 s' Hk _ IH]; intros t Ht Hi Hp; [eauto|].
  destruct (kept_settled s s1 t Hk Ht) as (t1 & Ht1 & Hid1 & Hsame).
  destruct (IH t1 Ht1 (Hsame i p Hi Hp) Hp) as (t' & Ht' & Hid' & Hi').
  exists t'. split_and!; [done|congruence|done].
Qed.

Lemma settled_parts_final_witness :
  ∃ t', cs_activeTurn (Sample.busy [Sample.call Sample.completed; Sample.text "ab"]) = Some t' ∧
    at_id t' = "turn-1" ∧ at_responseParts t' !! 0%nat = Some (Sample.call Sample.completed).
Proof.
  refine (@settled_parts_final utc_platform
    (Sample.busy [Sample.call Sample.completed; Sample.text "a"]) _
    (Sample.turn [Sample.call Sample.completed; Sample.text "a"]) 0%nat
    (Sample.call Sample.completed) _ eq_refl eq_refl eq_refl).
  eapply rtc_l; [|apply rtc_refl].
  exists (ChatDelta (mkChatDeltaAction "turn-1" "md-1" "b" None)).
  split; [reflexivity|]. split; [reflexivity|]. by eexists.
Defined.

(** ** The active turn *)

(** C11: An action that neither starts nor ends the turn keeps its id, start time
    and message; its parts keep their order and evolve in place (texts only grow
    at the end, tool calls move along one lifecycle edge keeping their identity,
    open requests may change, all other parts are fixed), and new parts are only
    added at the end. *)
Theorem active_turn_evolves `{Platform} s a s' t t' :
  chat_step s a s' → starts_turn a = false →
  cs_activeTurn s = Some t → cs_activeTurn s' = Some t' → turn_evolves t t'.
Proof. intros Hs Ha. by apply step_evolves with a. Qed.

Lemma active_turn_evolves_witness :
  turn_evolves (Sample.turn [Sample.call Sample.running]) (Sample.turn [Sample.call Sample.completed]).
Proof.
  exact (@active_turn_evolves utc_platform (Sample.busy [Sample.call Sample.running]) Sample.complete
    (Sample.busy [Sample.call Sample.completed]) _ _ eq_refl eq_refl eq_refl eq_refl).
Defined.

(** ** Status *)

(** C2: The activity bits of the status always agree with the active turn: no
    turn, idle or failed; a turn with an open request or a blocking tool call,
    input needed; otherwise in progress.  Every action preserves this, except
    [chat/responsePart] when the part it appends is itself blocking. *)
Theorem status_coherent `{Platform} s a s' :
  chat_step s a s' → appends_blocking a = false → coherent s → coherent s'.
Proof. apply step_coherent. Qed.

Lemma status_coherent_witness : coherent (Sample.busy [Sample.call Sample.completed]).
Proof.
  refine (@status_coherent utc_platform (Sample.busy [Sample.call Sample.running]) Sample.complete
    _ eq_refl eq_refl _). by left.
Defined.

(** The exception is real: an appended open request leaves the chat "in
    progress" although it waits for the user. *)
Lemma appended_request_not_reported :
  let part := ResponsePart_InputRequest
    (mkInputRequestResponsePart (mkChatInputRequest "r-1" None None None None) None) in
  let s' := Sample.busy [part] in
  @chat_step utc_platform (Sample.busy [])
    (ChatResponsePart (mkChatResponsePartAction "turn-1" part None)) s' ∧
  expected_activity s' = SessionStatus.InputNeeded ∧
  activity_bits (cs_status s') = SessionStatus.InProgress.
Proof. by vm_compute. Qed.

(** A tool-call action for a turn that is no longer active is documented as
    leaving the state unchanged, but clears the error of the last turn. *)
Lemma late_tool_call_clears_error :
  let s := Sample.chat SessionStatus.Error [] None in
  @chat_step utc_platform s Sample.complete (Sample.chat SessionStatus.Idle [] None) ∧
  cs_status (Sample.chat SessionStatus.Idle [] None) ≠ cs_status s.
Proof. by split. Qed.

(** C14: The bits above the activity are independent flags: [IsRead] and
    [IsArchived] follow [flag_after] (set as asked; a turn starting, resuming or
    asking for input marks the chat unread) and every other bit, known or not,
    survives every action. *)
Theorem status_flags `{Platform} s a s' i :
  chat_step s a s' → 5 <= i < 32 → Z.testbit (cs_status s') i = flag_after s a i.
Proof. intros Hs. by apply step_flags. Qed.

Lemma status_flags_witness :
  let s := Sample.chat 1121 [] None in
  let start := ChatTurnStarted
    (mkChatTurnStartedAction "turn-1" "2025-03-01T10:00:00.000Z" Sample.message None None) in
  ∃ s', @chat_step utc_platform s start s' ∧ Z.testbit (cs_status s') 5 = false ∧
    Z.testbit (cs_status s') 6 = true ∧ Z.testbit (cs_status s') 10 = true.
Proof.
  intros s start. eexists. split; [reflexivity|].
  split; [|split]; refine (eq_trans (@status_flags utc_platform s start _ _ eq_refl _) eq_refl); lia.
Defined.

(** ** Ending a turn *)

(** C3: Ending the active turn archives it: one turn is appended to the history
    with the turn's id, message, usage and a non-negative duration, no tool call
    of it is left unfinished (unfinished ones become cancelled, marked skipped;
    finished ones and other parts are kept), an error part comes last; no turn is
    active, the modification time is the start plus the duration, and the chat is
    idle, or in error after [chat/error].  Durations are whole milliseconds. *)
Theorem turn_end_archives `{Platform} s a turnId st d err t s' :
  turn_end a = Some (turnId, st, d, err) →
  cs_activeTurn s = Some t → at_id t = turnId → chat_step s a s' →
  ∃ turn parts, cs_turns s' = cs_turns s ++ [turn] ∧ cs_activeTurn s' = None ∧
    turn_id turn = turnId ∧ turn_state turn = st ∧ turn_message turn = at_message t ∧
    turn_usage turn = at_usage t ∧ turn_duration turn = Some (Z.max 0 d) ∧
    turn_responseParts turn =
      parts ++ match err with Some p => [ResponsePart_Error p] | None => [] end ∧
    Forall2 closes (at_responseParts t) parts ∧ forallb finished (turn_responseParts turn) = true ∧
    Date_parse (cs_modifiedAt s') = Z.add (Z.max 0 d) <$> Date_parse (at_startedAt t) ∧
    activity_bits (cs_status s') = (end_activity err ??! SessionStatus.Idle).
Proof.
  intros He Ht Hid Hs. unfold chat_step in Hs.
  rewrite (turn_end_step _ _ _ _ _ _ He), (endTurn_val _ _ _ _ _ _ t) in Hs by done.
  simpl in Hs. destruct (addMillisecondsToTimestamp _ _) as [m|] eqn:Em; [|done]. injection Hs as <-.
  assert (Forall2 closes (at_responseParts t) (map cancel_unfinished (at_responseParts t))) as Hc.
  { apply Forall2_fmap_r, Forall_Forall2_diag, Forall_true. apply cancel_unfinished_closes. }
  exists (archived t st d err), (map cancel_unfinished (at_responseParts t)).
  split_and!; try done.
  - simpl. rewrite forallb_app, andb_true_iff. split; [|by destruct err].
    clear -Hc. induction Hc as [|p p' l l' Hp _ IH]; simpl; [done|].
    by rewrite (closes_finished p p' Hp), IH.
  - apply add_Ok in Em as (u & Hu & Hr & ->). rewrite Hu. simpl.
    rewrite Date_parse_canonical by done. f_equal. lia.
  - simpl. rewrite activity_of_summaryStatus by (destruct err; [by right|by left]). by destruct err.
Qed.

Lemma turn_end_archives_witness :
  ∃ turn parts, [turn] = [] ++ [turn] ∧ turn_state turn = TurnState_Error ∧
    turn_responseParts turn = parts ++ [ResponsePart_Error Sample.failure] ∧
    Forall2 closes [Sample.call Sample.running] parts.
Proof.
  destruct (@turn_end_archives utc_platform (Sample.busy [Sample.call Sample.running]) Sample.fail
    _ _ _ _ (Sample.turn [Sample.call Sample.running]) _ eq_refl eq_refl eq_refl
    ltac:(vm_compute; reflexivity))
    as (turn & parts & _ & _ & _ & H1 & _ & _ & _ & H2 & H3 & _).
  exists turn, parts. by split_and!.
Defined.

(** C18: The reducer throws in exactly one situation: a turn-ending action names
    the active turn, and the turn's start time is not a date, or leaves the range
    of dates when the duration is added; the error is [toISOString]'s RangeError. *)
Theorem chat_throws_iff `{Platform} s a e :
  val (chatReducer s a) = Throw e ↔
  e = RangeError "Invalid time value" ∧
  ∃ turnId st d err t, turn_end a = Some (turnId, st, d, err) ∧
    cs_activeTurn s = Some t ∧ at_id t = turnId ∧
    (Date_parse (at_startedAt t) = None ∨
     ∃ ms, Date_parse (at_startedAt t) = Some ms ∧ maxTime < Z.abs (ms + Z.max 0 d)).
Proof.
  destruct (turn_end a) as [[[[turnId st] d] err]|] eqn:He.
  - rewrite (turn_end_step _ _ _ _ _ _ He). destruct (cs_activeTurn s) as [t|] eqn:Et.
    + destruct (decide (at_id t = turnId)) as [Hid|Hid].
      * rewrite (endTurn_val _ _ _ _ _ _ t) by done. simpl.
        destruct (addMillisecondsToTimestamp _ _) as [m|e'] eqn:Em; simpl.
        -- apply add_Ok in Em as (u & Hu & Hr & ->). split; [done|].
           intros (_ & ? & ? & ? & ? & ? & [= <- <- <- <-] & [= <-] & _ & [Hn|(? & Hu' & ?)]);
             [congruence|]. rewrite Hu in Hu'. injection Hu' as <-. lia.
        -- apply add_Throw in Em as [-> Hr]. split; [intros [= <-]|intros [-> _]; done].
           split; [done|]. by exists turnId, st, d, err, t.
      * rewrite endTurn_other by naive_solver. naive_solver.
    + rewrite endTurn_other by naive_solver. naive_solver.
  - split; [|naive_solver]. destruct (tool_action a) as [[[ev base] u]|] eqn:Ht.
    + by rewrite (tool_step _ _ _ _ _ Ht).
    + by destruct a.
Qed.

(** ** The history *)

(** C13: Apart from truncation, loading older turns and resuming, no action edits
    the history: it stays as it is, or an action that ends the active turn
    appends that turn. *)
Theorem history_append_only `{Platform} s a s' :
  chat_step s a s' → rewrites_history a = false →
  cs_turns s' = cs_turns s ∨
  ∃ turn t, cs_turns s' = cs_turns s ++ [turn] ∧ is_some (turn_end a) = true ∧
    cs_activeTurn s = Some t ∧ turn_id turn = at_id t.
Proof.
  intros Hs Hr. destruct (turn_end a) as [[[[turnId st] d] err]|] eqn:He.
  - destruct (history_end _ _ _ _ _ _ _ Hs He) as [[-> _]|(t & Ht & Hid & Hturns)]; [by left|].
    right. by exists (archived t st d err), t.
  - left. by eapply history_unchanged.
Qed.

Lemma history_append_only_witness :
  ∃ s', @chat_step utc_platform (Sample.busy []) Sample.turn_complete s' ∧
    (cs_turns s' = [] ∨
     ∃ turn t, cs_turns s' = [] ++ [turn] ∧ true = true ∧
       Some (Sample.turn []) = Some t ∧ turn_id turn = at_id t).
Proof.
  eexists. split; [vm_compute; reflexivity|].
  exact (@history_append_only utc_platform (Sample.busy []) Sample.turn_complete _
    ltac:(vm_compute; reflexivity) eq_refl).
Defined.

(** C12: A turn that failed with a resumable error can be resumed: [chat/error]
    followed by [chat/turnResume] of the same turn restores the history and makes
    the turn active again with its message, start time and usage, its unfinished
    tool calls cancelled and the error as its last part; the chat is unread and
    its activity agrees with the turn. *)
Theorem error_resume_roundtrip `{Platform} s a d s1 s2 t turnId part :
  turn_end a = Some (turnId, TurnState_Error, d, Some part) → ep_resumable part = Some true →
  cs_activeTurn s = Some t → at_id t = turnId →
  chat_step s a s1 → chat_step s1 (ChatTurnResume (mkChatTurnResumeAction turnId)) s2 →
  cs_turns s2 = cs_turns s ∧
  (∃ t', cs_activeTurn s2 = Some t' ∧ at_id t' = at_id t ∧ at_startedAt t' = at_startedAt t ∧
     at_message t' = at_message t ∧ at_usage t' = at_usage t ∧
     at_responseParts t' = map cancel_unfinished (at_responseParts t) ++ [ResponsePart_Error part]) ∧
  coherent s2 ∧ Z.testbit (cs_status s2) 5 = false.
Proof.
  intros He Hp Ht Hid Hs1 Hs2. unfold chat_step in Hs1.
  rewrite (turn_end_step _ _ _ _ _ _ He), (endTurn_val _ _ _ _ _ _ t) in Hs1 by done.
  simpl in Hs1. destruct (addMillisecondsToTimestamp _ _) as [m|]; [|done]. injection Hs1 as <-.
  unfold chat_step in Hs2. simpl in Hs2. rewrite resume_eq in Hs2. simpl in Hs2.
  rewrite last_snoc in Hs2. unfold resumable, hasResumableError in Hs2. simpl in Hs2.
  rewrite last_snoc, Hid, str_eqb_refl, Hp in Hs2. unfold truthy in Hs2. simpl in Hs2.
  injection Hs2 as <-. split_and!.
  - simpl. by rewrite removelast_last.
  - eexists. split; [done|]. by rewrite Hid.
  - apply coherent_unread.
  - match goal with |- context [with_unread_summary ?x] =>
      rewrite (flags_unread_summary x x eq_refl 5) by lia end. done.
Qed.

Lemma error_resume_roundtrip_witness :
  ∃ s2 t', cs_activeTurn s2 = Some t' ∧
    at_responseParts t' = [Sample.text "a"; ResponsePart_Error Sample.failure].
Proof.
  assert (∃ s1, @chat_step utc_platform (Sample.busy [Sample.text "a"]) Sample.fail s1 ∧
    ∃ s2, @chat_step utc_platform s1 (ChatTurnResume (mkChatTurnResumeAction "turn-1")) s2)
    as (s1 & H1 & s2 & H2).
  { eexists. split; [vm_compute; reflexivity|]. eexists. vm_compute. reflexivity. }
  destruct (@error_resume_roundtrip utc_platform (Sample.busy [Sample.text "a"]) Sample.fail 250 s1 s2
    (Sample.turn [Sample.text "a"]) "turn-1" Sample.failure eq_refl eq_refl eq_refl eq_refl H1 H2)
    as (_ & (t' & Ht' & _ & _ & _ & _ & Hp) & _).
  by exists s2, t'.
Defined.

(** C20: [chat/truncated] with a turn id keeps exactly the turns up to the first
    one with that id, and is ignored when there is none; without an id it keeps
    no turn and forgets the history cursor.  When it acts, no turn is active any
    more and the chat is idle. *)
Theorem truncation_keeps_prefix `{Platform} s turnId s' :
  chat_step s (ChatTruncated (mkChatTruncatedAction turnId)) s' →
  match turnId with
  | None => cs_turns s' = [] ∧ cs_turnsNextCursor s' = None ∧ cs_activeTurn s' = None ∧
            activity_bits (cs_status s') = SessionStatus.Idle
  | Some id =>
      (id ∉ keys (cs_turns s) ∧ s' = s) ∨
      ∃ before turn after, cs_turns s = before ++ turn :: after ∧ turn_id turn = id ∧
        id ∉ keys before ∧ cs_turns s' = before ++ [turn] ∧
        cs_turnsNextCursor s' = cs_turnsNextCursor s ∧ cs_activeTurn s' = None ∧
        activity_bits (cs_status s') = SessionStatus.Idle
  end.
Proof.
  intros [= <-]. unfold on_ChatTruncated, truncated_turns. simpl.
  destruct turnId as [id|]; simpl.
  - destruct (findIndex (has_key id) (cs_turns s)) as [i|] eqn:Ei; simpl.
    + right. apply findIndex_Some in Ei as (l1 & x & l2 & Hl & Hi & Hx & Hf). rewrite Hl.
      exists l1, x, l2. apply has_key_true in Hx. apply Forall_has_key_false in Hf.
      split_and!; try done.
      * simpl. rewrite <- Hi. by rewrite take_app_add.
      * by rewrite activity_of_summaryStatus by (by left).
    + left. split; [|done]. by apply findIndex_None, Forall_has_key_false in Ei.
  - split_and!; try done. simpl. by rewrite activity_of_summaryStatus by (by left).
Qed.

Lemma truncation_keeps_prefix_witness :
  let turn id := mkTurn id None None Sample.message [] None TurnState_Complete in
  let s := Sample.chat SessionStatus.Idle [turn "a"; turn "b"; turn "c"] None in
  let s' := Sample.chat SessionStatus.Idle [turn "a"; turn "b"] None in
  ("b" ∉ keys (cs_turns s) ∧ s' = s) ∨
  ∃ before turn after, cs_turns s = before ++ turn :: after ∧ turn_id turn = "b" ∧
    "b" ∉ keys before ∧ cs_turns s' = before ++ [turn] ∧ None = cs_turnsNextCursor s ∧
    None = @None ActiveTurn ∧ 1 = SessionStatus.Idle.
Proof.
  intros turn s s'. exact (@truncation_keeps_prefix utc_platform s (Some "b") s' eq_refl).
Defined.

(** C19: Loading older turns puts them in front of the history, skips the ones
    already there, and never duplicates or loses a turn: the loaded history keeps
    the old one as its end, contains every offered turn's id, has distinct ids
    when both had, and loading the same page again changes nothing. *)
Theorem loading_turns `{Platform} s turns cursor s' :
  chat_step s (ChatTurnsLoaded (mkChatTurnsLoadedAction turns cursor)) s' →
  (∃ older, cs_turns s' = older ++ cs_turns s ∧ older `sublist_of` turns) ∧
  (∀ id, id ∈ keys (cs_turns s') ↔ id ∈ keys turns ∨ id ∈ keys (cs_turns s)) ∧
  (NoDup (keys turns) → NoDup (keys (cs_turns s)) → NoDup (keys (cs_turns s'))) ∧
  chat_step s' (ChatTurnsLoaded (mkChatTurnsLoadedAction turns cursor)) s'.
Proof.
  intros [= <-]. 
  set (older := List.filter (λ t, negb (includes (map turn_id (cs_turns s)) (turn_id t))) turns).
  assert (∀ x, x ∈ older ↔ x ∈ turns ∧ key_of x ∉ keys (cs_turns s)) as Holder.
  { intros x. unfold older. by rewrite elem_of_filter_js, negb_true_iff, includes_false. }
  assert (∀ id, id ∈ keys (older ++ cs_turns s) ↔ id ∈ keys turns ∨ id ∈ keys (cs_turns s)) as Hids.
  { intros id. rewrite keys_app, elem_of_app. unfold keys at 1 3. rewrite !list_elem_of_fmap.
    setoid_rewrite Holder. destruct (decide (id ∈ keys (cs_turns s))); naive_solver. }
  split_and!.
  - exists older. split; [done|]. apply sublist_filter_js.
  - done.
  - intros Ht Hs. simpl. rewrite keys_app. apply NoDup_app.
    split_and!; [by apply NoDup_keys_filter| |done].
    unfold keys at 1. intros id. rewrite list_elem_of_fmap. intros (x & -> & [_ ?]%Holder). done.
  - unfold chat_step, on_ChatTurnsLoaded. simpl. fold older.
    assert (List.filter (λ t, negb (includes (map turn_id (older ++ cs_turns s)) (turn_id t))) turns = [])
      as Hnil; [|unfold on_ChatTurnsLoaded; simpl; fold older; by rewrite Hnil].
    apply elem_of_nil_inv. intros x. rewrite elem_of_filter_js, negb_true_iff, includes_false.
    intros [Hx Hn]. apply Hn. change (key_of x ∈ keys (older ++ cs_turns s)). apply Hids. left.
    unfold keys. apply list_elem_of_fmap. eauto.
Qed.

Lemma loading_turns_witness :
  let turn id := mkTurn id None None Sample.message [] None TurnState_Complete in
  let s := Sample.chat SessionStatus.Idle [turn "b"; turn "c"] None in
  ∃ s', @chat_step utc_platform s (ChatTurnsLoaded (mkChatTurnsLoadedAction [turn "a"; turn "b"] None)) s' ∧
    NoDup (keys (cs_turns s')) ∧ keys (cs_turns s') = ["a"; "b"; "c"].
Proof.
  intros turn s. eexists. split; [reflexivity|]. split; [|reflexivity].
  apply (proj1 (proj2 (proj2 (@loading_turns utc_platform s [turn "a"; turn "b"] None _ eq_refl))));
    apply NoDup_ListNoDup; repeat constructor; simpl; intuition discriminate.
Defined.

(** ** Pending messages *)

(** C16: The queue of pending messages stays keyed by message id and, when there
    is a steering message, it is an entry of the queue of kind steering: every
    action of the chat preserves both. *)
Theorem pending_messages_ok `{Platform} s a s' : chat_step s a s' → pending_ok s → pending_ok s'.
Proof. apply step_pending. Qed.

Lemma pending_messages_ok_witness :
  let set := ChatPendingMessageSet
    (mkChatPendingMessageSetAction PendingMessageKind_Steering "m-1" Sample.message) in
  ∃ s', @chat_step utc_platform (Sample.busy []) set s' ∧ pending_ok s' ∧
    is_some (cs_steeringMessage s') = true.
Proof.
  intros set. eexists. split; [reflexivity|]. split; [|reflexivity].
  refine (@pending_messages_ok utc_platform (Sample.busy []) set _ eq_refl _).
  split; [constructor|done].
Defined.

(** C17: Reordering the queue is a permutation of it: nothing is lost, duplicated
    or invented whatever identifiers the action lists.  The messages it names come
    first, in an order it lists them in; the others follow in their old order. *)
Theorem queue_reorder `{Platform} s order s' l :
  cs_queuedMessages s = Some l → NoDup (keys l) →
  chat_step s (ChatQueuedMessagesReordered (mkChatQueuedMessagesReorderedAction order)) s' →
  ∃ front rest, cs_queuedMessages s' = Some (front ++ rest) ∧ front ++ rest ≡ₚ l ∧
    keys front `sublist_of` order ∧ rest `sublist_of` l ∧
    (∀ m, m ∈ front ↔ m ∈ l ∧ pm_id m ∈ order) ∧ (∀ m, m ∈ rest ↔ m ∈ l ∧ pm_id m ∉ order).
Proof.
  intros Hl Hnd [= <-]. unfold on_ChatQueuedMessagesReordered. rewrite Hl. simpl.
  exists (named l order), (unnamed l order). split; [by rewrite reorder_split|].
  split; [rewrite <- reorder_split; by apply reorder_permutation|].
  split; [rewrite keys_named by done; apply known_once_sublist|].
  split; [apply sublist_filter_js|].
  split; intros m; [by apply elem_of_named|by apply elem_of_unnamed].
Qed.

Lemma queue_reorder_witness :
  let l := map Sample.queued_message ["a"; "b"; "c"] in
  let s := (Sample.busy []) <| cs_queuedMessages := Some l |> in
  ∃ front rest, Some (map Sample.queued_message ["c"; "a"; "b"]) = Some (front ++ rest) ∧
    front ++ rest ≡ₚ l.
Proof.
  intros l s.
  assert (NoDup (keys l)) as Hnd
    by (apply NoDup_ListNoDup; repeat constructor; simpl; intuition discriminate).
  destruct (@queue_reorder utc_platform s ["c"; "x"; "a"; "c"] _ l eq_refl Hnd eq_refl)
    as (front & rest & Hq & Hp & _).
  exists front, rest. split; [|exact Hp]. rewrite <- Hq. vm_compute. reflexivity.
Defined.

(** ** Streaming *)

Lemma string_app_assoc (a b c : string) : (a +:+ b) +:+ c = a +:+ (b +:+ c).
Proof. induction a as [|x a IH]; [done|]. by rewrite !string_app_cons, IH. Qed.

Lemma append_markdown_twice c d p : append_markdown d (append_markdown c p) = append_markdown (c +:+ d) p.
Proof. destruct p as [m| | | | | |]; try done. simpl. by rewrite string_app_assoc. Qed.

Lemma append_markdown_id c p : part_id (append_markdown c p) = part_id p.
Proof. by destruct p. Qed.

(** [updateResponsePart]'s effect on the parts: the first part with the id. *)
Definition update_first (pid : string) (f : ResponsePart → ResponsePart) (l : list ResponsePart) :
    list ResponsePart := update_first_part pid f l ??! l.

Lemma update_first_cons pid f p l :
  update_first pid f (p :: l) =
  if bool_decide (part_id p = Some pid) then f p :: l else p :: update_first pid f l.
Proof.
  unfold update_first. simpl. case_bool_decide; [done|]. by destruct (update_first_part pid f l).
Qed.

Lemma update_first_twice pid f g h l :
  (∀ p, part_id (f p) = part_id p) → (∀ p, g (f p) = h p) →
  update_first pid g (update_first pid f l) = update_first pid h l.
Proof.
  intros Hf Hg. induction l as [|p l IH]; [done|]. rewrite !update_first_cons.
  case_bool_decide; rewrite update_first_cons.
  - by rewrite bool_decide_true, Hg by (by rewrite Hf).
  - by rewrite bool_decide_false, IH.
Qed.

(** C22: Only the concatenation of the streamed text counts, not how it is cut
    into deltas: two deltas to the same part have exactly the effect of one delta
    with both texts, whether or not the part exists. *)
Theorem delta_chunking `{Platform} s turnId partId c d m s1 s2 :
  chat_step s (ChatDelta (mkChatDeltaAction turnId partId c m)) s1 →
  chat_step s1 (ChatDelta (mkChatDeltaAction turnId partId d m)) s2 →
  chat_step s (ChatDelta (mkChatDeltaAction turnId partId (c +:+ d) m)) s2.
Proof.
  intros [= <-] [= <-]. unfold chat_step. simpl. f_equal.
  unfold on_ChatDelta. rewrite !updateResponsePart_val. simpl.
  unfold with_active_turn. destruct (cs_activeTurn s) as [t|] eqn:Et; [|by rewrite Et].
  destruct (negb (at_id t =?s turnId)) eqn:Ei; [by rewrite Et, Ei|]. simpl. rewrite Ei.
  unfold map_parts. simpl. do 3 f_equal.
  symmetry. apply update_first_twice; auto using append_markdown_id, append_markdown_twice.
Qed.

Lemma delta_chunking_witness :
  @chat_step utc_platform (Sample.busy [Sample.text "a"])
    (ChatDelta (mkChatDeltaAction "turn-1" "md-1" "bc" None)) (Sample.busy [Sample.text "abc"]).
Proof.
  exact (@delta_chunking utc_platform (Sample.busy [Sample.text "a"]) "turn-1" "md-1" "b" "c" None
    (Sample.busy [Sample.text "ab"]) (Sample.busy [Sample.text "abc"]) eq_refl eq_refl).
Defined.

(** ** Input requests *)

Lemma merged_answers (l r : gmap string ChatInputAnswer) k :
  (non_empty_map (spread l r) ??! ∅) !! k = match r !! k with Some x => Some x | None => l !! k end.
Proof.
  unfold non_empty_map. destruct (Nat.eqb_spec (size (spread l r)) 0) as [E|E]; simpl.
  - apply map_size_empty_inv in E. unfold spread in E.
    assert ((r ∪ l) !! k = None) as Hk by (by rewrite E). rewrite lookup_union in Hk.
    rewrite lookup_empty. by destruct (r !! k), (l !! k).
  - unfold spread. rewrite lookup_union. by destruct (r !! k), (l !! k).
Qed.

(** C21: Completing an input request that is open in the active turn (the first
    part that is a request with this id and without a response) closes that request
    and no other part: it gets the response, its answers are the drafts overridden
    question by question by the submitted ones, nothing else of the request or of
    the chat changes but the status, which is derived again, so that the chat stops
    waiting for input exactly when nothing else blocks it.  When no request with
    this id is without a response, the state is left alone. *)
Theorem input_completed `{Platform} s rid response answers s' :
  chat_step s (ChatInputCompleted (mkChatInputCompletedAction rid response answers)) s' →
  ((∀ t, cs_activeTurn s = Some t → Forall (λ p, ¬ is_open_request rid p) (at_responseParts t)) → s' = s) ∧
  (∀ t front request rest,
     cs_activeTurn s = Some t → Forall (λ p, ¬ is_open_request rid p) front → cir_id request = rid →
     at_responseParts t =
       front ++ ResponsePart_InputRequest (mkInputRequestResponsePart request None) :: rest →
     ∃ request',
       s' = s <| cs_activeTurn := Some (t <| at_responseParts :=
                  front ++ ResponsePart_InputRequest (mkInputRequestResponsePart request' (Some response)) :: rest |>) |>
              <| cs_status := cs_status s' |> ∧
       request' = request <| cir_answers := cir_answers request' |> ∧
       (∀ q, (cir_answers request' ??! ∅) !! q =
             match (answers ??! ∅) !! q with
             | Some x => Some x
             | None => (cir_answers request ??! ∅) !! q
             end) ∧
       activity_bits (cs_status s') = expected_activity s').
Proof.
  intros [= <-]. unfold on_ChatInputCompleted, open_request. simpl. split.
  - intros Hnone. destruct (cs_activeTurn s) as [t|]; [|done]. simpl.
    by rewrite findOpen_None by by apply Hnone.
  - intros t front request rest Ht Hfront Hid Hparts. rewrite Ht. simpl.
    rewrite Hparts, findOpen_first by done. unfold replace_part. simpl.
    rewrite Hparts, insert_at_length. eexists. split; [done|]. split; [done|].
    split; [intros q; apply merged_answers|]. by rewrite activity_of_summaryStatus by (by left).
Qed.

Definition sample_request (response : option ChatInputResponseKind) : ResponsePart :=
  ResponsePart_InputRequest
    (mkInputRequestResponsePart (mkChatInputRequest "r-1" None None None None) response).

(** A closed request of the same id in front of the open one, and none open. *)
Lemma input_completed_witness :
  let complete := ChatInputCompleted
    (mkChatInputCompletedAction "r-1" ChatInputResponseKind_Accept None) in
  let closed := sample_request (Some ChatInputResponseKind_Decline) in
  let s := Sample.chat 24 [] (Some (Sample.turn [closed; sample_request None])) in
  let s' := Sample.busy [closed; sample_request (Some ChatInputResponseKind_Accept)] in
  @chat_step utc_platform s complete s' ∧ activity_bits (cs_status s') = SessionStatus.InProgress ∧
  ∀ s'', @chat_step utc_platform (Sample.busy [closed]) complete s'' → s'' = Sample.busy [closed].
Proof.
  intros complete closed s s'.
  assert (Hclosed : ¬ is_open_request "r-1" closed) by (intros (r & [= <-] & Hr & _); done).
  assert (Hs : @chat_step utc_platform s complete s') by (vm_compute; reflexivity).
  split; [exact Hs|]. split.
  - destruct (proj2 (@input_completed utc_platform s _ _ _ s' Hs) (Sample.turn [closed; sample_request None])
      [closed] (mkChatInputRequest "r-1" None None None None) [] eq_refl ltac:(by constructor) eq_refl eq_refl) as (? & _ & _ & _ & Hc). exact Hc.
  - intros s'' Hs''. apply (proj1 (@input_completed utc_platform _ _ _ _ s'' Hs'')).
    intros t [= <-]. by constructor.
Defined.

(** ** Separation *)

(** C23: The two halves of a chat are independent.  Turn traffic changes turns,
    status and modification time only, except that a turn started from a pending
    message takes that message out: the steering message is cleared exactly when it
    has that id, the queued messages that have it are dropped and the others keep
    their order (an emptied queue is absent).  Every other action leaves the
    conversation (turns, history cursor, active turn, modification time) alone. *)
Theorem turn_traffic_separate `{Platform} s a s' :
  chat_step s a s' →
  if turn_traffic a
  then
    besides_pending s' = besides_pending s ∧
    match consumes a with
    | None => cs_steeringMessage s' = cs_steeringMessage s ∧ cs_queuedMessages s' = cs_queuedMessages s
    | Some id =>
        cs_steeringMessage s' = (m ← cs_steeringMessage s; if decide (pm_id m = id) then None else Some m) ∧
        cs_queuedMessages s' =
          (queue ← cs_queuedMessages s;
           let left := filter (λ m, pm_id m ≠ id) queue in if decide (left = []) then None else Some left)
    end
  else conversation s' = conversation s.
Proof.
  intros Hs. destruct (turn_traffic a) eqn:E; [by apply step_consumes|by eapply step_conversation].
Qed.

(** A turn started from the first of two queued messages. *)
Lemma turn_traffic_separate_witness :
  let started := ChatTurnStarted (mkChatTurnStartedAction "turn-2" "2025-03-01T11:00:00.000Z"
    Sample.message (Some "m-1") None) in
  let waiting := (Sample.chat SessionStatus.Idle [] None)
    <| cs_queuedMessages := Some [Sample.queued_message "m-1"; Sample.queued_message "m-2"] |> in
  (∃ s', @chat_step utc_platform waiting started s' ∧
     cs_queuedMessages s' = Some [Sample.queued_message "m-2"]) ∧
  besides_pending (Sample.busy [Sample.call Sample.completed]) =
    besides_pending (Sample.busy [Sample.call Sample.running]).
Proof.
  intros started waiting. split.
  - eexists. split; [reflexivity|].
    exact (proj2 (proj2 (@turn_traffic_separate utc_platform waiting started _ eq_refl))).
  - exact (proj1 (@turn_traffic_separate utc_platform (Sample.busy [Sample.call Sample.running]) Sample.complete
      (Sample.busy [Sample.call Sample.completed]) eq_refl)).
Defined.
