(* ===== verification/SessionState.v ===== *)
(** * Data of the session channel: types/channels-session/state.ts *)

From S2P Require Import Prelude JsNumber CommonState Annotations Changeset Canvas ChatState.
Local Open Scope Z_scope.

(** [CustomizationEnablement]: types/channels-session/state.ts:772-775. *)
Inductive CustomizationEnablement :=
| CustomizationEnablement_Global (enabled : bool)
| CustomizationEnablement_Workspace (uri : URI) (enabled : bool)
| CustomizationEnablement_Session (enabled : bool).

(** [CustomizationBase]: types/channels-session/state.ts:796-832. *)
Record CustomizationBase := mkCustomizationBase {
  cb_id : string;
  cb_uri : URI;
  cb_name : string;
  cb_icons : option (list Icon);
  cb_range : option TextRange;
  cb_meta : option Meta
}.

(** [CustomizationLoadingState]: types/channels-session/state.ts:852-854. *)
Record CustomizationLoadingState := mkCustomizationLoadingState { }.

(** [CustomizationLoadedState]: types/channels-session/state.ts:861-863. *)
Record CustomizationLoadedState := mkCustomizationLoadedState { }.

(** [CustomizationDegradedState]: types/channels-session/state.ts:870-874. *)
Record CustomizationDegradedState := mkCustomizationDegradedState {
  CustomizationDegradedState_message : string
}.

(** [CustomizationErrorState]: types/channels-session/state.ts:881-885. *)
Record CustomizationErrorState := mkCustomizationErrorState {
  CustomizationErrorState_message : string
}.

(** [CustomizationLoadState]: types/channels-session/state.ts:893-897. *)
Inductive CustomizationLoadState :=
| CustomizationLoadState_Loading (x : CustomizationLoadingState)
| CustomizationLoadState_Loaded (x : CustomizationLoadedState)
| CustomizationLoadState_Degraded (x : CustomizationDegradedState)
| CustomizationLoadState_Error (x : CustomizationErrorState).

(** [ChildCustomizationBase]: types/channels-session/state.ts:1008-1025. *)
Record ChildCustomizationBase := mkChildCustomizationBase {
  chb_base : CustomizationBase;
  chb_enabled : option bool
}.
#[export] Instance eta_ChildCustomizationBase : Eta ChildCustomizationBase :=
  λ r, mkChildCustomizationBase r.(chb_base) r.(chb_enabled).

(** [AgentCustomization]: types/channels-session/state.ts:1036-1071. *)
Record AgentCustomization := mkAgentCustomization {
  agc_child : ChildCustomizationBase;
  agc_description : option string;
  agc_model : option string;
  agc_tools : option (list string);
  agc_disableModelInvocation : option bool;
  agc_disableUserInvocation : option bool
}.
#[export] Instance eta_AgentCustomization : Eta AgentCustomization :=
  λ r, mkAgentCustomization 
    r.(agc_child) r.(agc_description) r.(agc_model) r.(agc_tools) r.(agc_disableModelInvocation)
    r.(agc_disableUserInvocation).

(** [SkillCustomization]: types/channels-session/state.ts:1083-1102. *)
Record SkillCustomization := mkSkillCustomization {
  skc_child : ChildCustomizationBase;
  skc_description : option string;
  skc_disableModelInvocation : option bool;
  skc_disableUserInvocation : option bool
}.
#[export] Instance eta_SkillCustomization : Eta SkillCustomization :=
  λ r, mkSkillCustomization 
    r.(skc_child) r.(skc_description) r.(skc_disableModelInvocation)
    r.(skc_disableUserInvocation).

(** [PromptCustomization]: types/channels-session/state.ts:1109-1113. *)
Record PromptCustomization := mkPromptCustomization {
  prc_child : ChildCustomizationBase;
  prc_description : option string
}.
#[export] Instance eta_PromptCustomization : Eta PromptCustomization :=
  λ r, mkPromptCustomization r.(prc_child) r.(prc_description).

(** [RuleCustomization]: types/channels-session/state.ts:1128-1145. *)
Record RuleCustomization := mkRuleCustomization {
  ruc_child : ChildCustomizationBase;
  ruc_description : option string;
  ruc_alwaysApply : option bool;
  ruc_globs : option (list string)
}.
#[export] Instance eta_RuleCustomization : Eta RuleCustomization :=
  λ r, mkRuleCustomization r.(ruc_child) r.(ruc_description) r.(ruc_alwaysApply) r.(ruc_globs).

(** [HookCustomization]: types/channels-session/state.ts:1152-1154. *)
Record HookCustomization := mkHookCustomization {
  hkc_child : ChildCustomizationBase
}.
#[export] Instance eta_HookCustomization : Eta HookCustomization :=
  λ r, mkHookCustomization r.(hkc_child).

(** Inline types of [AhpMcpUiHostCapabilities]: types/channels-session/state.ts:1286-1307. *)
Record ListChangedCapability := mkListChangedCapability {
  ListChangedCapability_listChanged : option bool
}.
Record SamplingCapability := mkSamplingCapability {
  SamplingCapability_tools : option unit
}.

(** [AhpMcpUiHostCapabilities]: types/channels-session/state.ts:1286-1307. *)
Record AhpMcpUiHostCapabilities := mkAhpMcpUiHostCapabilities {
  AhpMcpUiHostCapabilities_serverTools : option ListChangedCapability;
  AhpMcpUiHostCapabilities_serverResources : option ListChangedCapability;
  AhpMcpUiHostCapabilities_logging : option unit;
  AhpMcpUiHostCapabilities_sampling : option SamplingCapability
}.

(** [McpServerCustomizationApps]: types/channels-session/state.ts:1236-1245. *)
Record McpServerCustomizationApps := mkMcpServerCustomizationApps {
  McpServerCustomizationApps_capabilities : AhpMcpUiHostCapabilities
}.

(** [McpServerStartingState]: types/channels-session/state.ts:1404-1417. *)
Record McpServerStartingState := mkMcpServerStartingState {
  mss_blocking : option bool
}.
#[export] Instance eta_McpServerStartingState : Eta McpServerStartingState :=
  λ r, mkMcpServerStartingState r.(mss_blocking).

(** [McpServerReadyState]: types/channels-session/state.ts:1424-1426. *)
Record McpServerReadyState := mkMcpServerReadyState { }.

(** [McpServerAuthRequiredState]: types/channels-session/state.ts:1517-1519. *)
Record McpServerAuthRequiredState := mkMcpServerAuthRequiredState {
  McpServerAuthRequiredState_auth : McpAuthRequirement
}.

(** [McpServerErrorState]: types/channels-session/state.ts:1528-1532. *)
Record McpServerErrorState := mkMcpServerErrorState {
  McpServerErrorState_error : ErrorInfo
}.

(** [McpServerStoppedState]: types/channels-session/state.ts:1540-1542. *)
Record McpServerStoppedState := mkMcpServerStoppedState { }.

(** [McpServerState]: types/channels-session/state.ts:1550-1555. *)
Inductive McpServerState :=
| McpServerState_Starting (x : McpServerStartingState)
| McpServerState_Ready (x : McpServerReadyState)
| McpServerState_AuthRequired (x : McpServerAuthRequiredState)
| McpServerState_Error (x : McpServerErrorState)
| McpServerState_Stopped (x : McpServerStoppedState).

(** [McpServerCustomization]: types/channels-session/state.ts:1168-1228. *)
Record McpServerCustomization := mkMcpServerCustomization {
  mcps_base : CustomizationBase;
  mcps_enablement : option (list CustomizationEnablement);
  mcps_state : McpServerState;
  mcps_channel : option URI;
  mcps_mcpApp : option McpServerCustomizationApps;
  mcps_children : option (list SkillCustomization)
}.
#[export] Instance eta_McpServerCustomization : Eta McpServerCustomization :=
  λ r, mkMcpServerCustomization 
    r.(mcps_base) r.(mcps_enablement) r.(mcps_state) r.(mcps_channel) r.(mcps_mcpApp)
    r.(mcps_children).

(** [ChildCustomization]: types/channels-session/state.ts:1315-1321. *)
Inductive ChildCustomization :=
| ChildCustomization_Agent (x : AgentCustomization)
| ChildCustomization_Skill (x : SkillCustomization)
| ChildCustomization_Prompt (x : PromptCustomization)
| ChildCustomization_Rule (x : RuleCustomization)
| ChildCustomization_Hook (x : HookCustomization)
| ChildCustomization_McpServer (x : McpServerCustomization).

(** [ContainerCustomizationBase]: types/channels-session/state.ts:904-923. *)
Record ContainerCustomizationBase := mkContainerCustomizationBase {
  ccb_base : CustomizationBase;
  ccb_clientId : option string;
  ccb_load : option CustomizationLoadState;
  ccb_children : option (list ChildCustomization)
}.
#[export] Instance eta_ContainerCustomizationBase : Eta ContainerCustomizationBase :=
  λ r, mkContainerCustomizationBase r.(ccb_base) r.(ccb_clientId) r.(ccb_load) r.(ccb_children).

(** [PluginCustomization]: types/channels-session/state.ts:930-943. *)
Record PluginCustomization := mkPluginCustomization {
  pc_container : ContainerCustomizationBase;
  pc_enablement : option (list CustomizationEnablement);
  pc_version : option string
}.
#[export] Instance eta_PluginCustomization : Eta PluginCustomization :=
  λ r, mkPluginCustomization r.(pc_container) r.(pc_enablement) r.(pc_version).

(** [ChildCustomizationType]: types/channels-session/state.ts:783-789. *)
Inductive ChildCustomizationType :=
| ChildCustomizationType_Agent
| ChildCustomizationType_Skill
| ChildCustomizationType_Prompt
| ChildCustomizationType_Rule
| ChildCustomizationType_Hook
| ChildCustomizationType_McpServer.

(** [DirectoryCustomization]: types/channels-session/state.ts:987-995. *)
Record DirectoryCustomization := mkDirectoryCustomization {
  dc_container : ContainerCustomizationBase;
  dc_enabled : bool;
  dc_contents : ChildCustomizationType;
  dc_writable : bool
}.
#[export] Instance eta_DirectoryCustomization : Eta DirectoryCustomization :=
  λ r, mkDirectoryCustomization r.(dc_container) r.(dc_enabled) r.(dc_contents) r.(dc_writable).

(** [Customization]: types/channels-session/state.ts:1332-1335. *)
Inductive Customization :=
| Customization_Plugin (x : PluginCustomization)
| Customization_Directory (x : DirectoryCustomization)
| Customization_McpServer (x : McpServerCustomization).

(** [SessionLifecycle]: types/channels-session/state.ts:39-43. *)
Inductive SessionLifecycle :=
| SessionLifecycle_Creating
| SessionLifecycle_Ready
| SessionLifecycle_Failed.
#[export] Instance SessionLifecycle_eq_dec : EqDecision SessionLifecycle.
Proof. solve_decision. Defined.

(** [AutomationSessionOrigin]: types/channels-session/state.ts:90-96. *)
Record AutomationSessionOrigin := mkAutomationSessionOrigin {
  AutomationSessionOrigin_automation : URI;
  AutomationSessionOrigin_run : URI
}.

(** [SessionOrigin]: types/channels-session/state.ts:103, a union with one member. *)
Inductive SessionOrigin :=
| SessionOrigin_Automation (x : AutomationSessionOrigin).

(** [ProjectInfo]: types/channels-session/state.ts:455-460. *)
Record ProjectInfo := mkProjectInfo {
  ProjectInfo_uri : URI;
  ProjectInfo_displayName : string
}.

(** [SessionMetadata]: types/channels-session/state.ts:118-151. *)
Record SessionMetadata := mkSessionMetadata {
  sm_provider : string;
  sm_title : string;
  sm_status : SessionStatus;
  sm_activity : option string;
  sm_origin : option SessionOrigin;
  sm_project : option ProjectInfo;
  sm_workingDirectories : option (list URI);
  sm_annotations : option AnnotationsSummary
}.

(** [ToolAnnotations]: types/channels-session/state.ts:719-730. *)
Record ToolAnnotations := mkToolAnnotations {
  ToolAnnotations_title : option string;
  ToolAnnotations_readOnlyHint : option bool;
  ToolAnnotations_destructiveHint : option bool;
  ToolAnnotations_idempotentHint : option bool;
  ToolAnnotations_openWorldHint : option bool
}.

(** The inline type of [ToolDefinition.inputSchema] and [outputSchema]:
    types/channels-session/state.ts:673-709. *)
Record ToolSchema := mkToolSchema {
  ToolSchema_properties : option (gmap string json);
  ToolSchema_required : option (list string)
}.

(** [ToolDefinition]: types/channels-session/state.ts:673-709. *)
Record ToolDefinition := mkToolDefinition {
  ToolDefinition_name : string;
  ToolDefinition_title : option string;
  ToolDefinition_description : option string;
  ToolDefinition_inputSchema : option ToolSchema;
  ToolDefinition_outputSchema : option ToolSchema;
  ToolDefinition_annotations : option ToolAnnotations;
  ToolDefinition_meta : option Meta
}.

(** [ClientPluginCustomization]: types/channels-session/state.ts:958-972. *)
Record ClientPluginCustomization := mkClientPluginCustomization {
  ClientPluginCustomization_plugin : PluginCustomization;
  ClientPluginCustomization_nonce : option string;
  ClientPluginCustomization_childEnablement : option (gmap string (list CustomizationEnablement))
}.

(** [SessionActiveClient]: types/channels-session/state.ts:268-284. *)
Record SessionActiveClient := mkSessionActiveClient {
  sac_clientId : string;
  sac_displayName : option string;
  sac_tools : list ToolDefinition;
  sac_customizations : option (list ClientPluginCustomization)
}.

(** [SessionInputRequestBase]: types/channels-session/state.ts:314-329. *)
Record SessionInputRequestBase := mkSessionInputRequestBase {
  sirb_id : string;
  sirb_chat : URI
}.

(** [SessionChatInputRequest]: types/channels-session/state.ts:341-345. *)
Record SessionChatInputRequest := mkSessionChatInputRequest {
  sci_base : SessionInputRequestBase;
  sci_request : ChatInputRequest
}.

(** [SessionToolConfirmationRequest]: types/channels-session/state.ts:359-365. *)
Record SessionToolConfirmationRequest := mkSessionToolConfirmationRequest {
  stc_base : SessionInputRequestBase;
  stc_turnId : string;
  stc_toolCall : ToolCallConfirmationState
}.

(** [SessionToolClientExecutionRequest]: types/channels-session/state.ts:388-402. *)
Record SessionToolClientExecutionRequest := mkSessionToolClientExecutionRequest {
  stce_base : SessionInputRequestBase;
  stce_turnId : string;
  stce_clientId : string;
  stce_toolCall : ToolCallRunningState
}.

(** [SessionToolAuthenticationRequest]: types/channels-session/state.ts:421-427. *)
Record SessionToolAuthenticationRequest := mkSessionToolAuthenticationRequest {
  sta_base : SessionInputRequestBase;
  sta_turnId : string;
  sta_toolCall : ToolCallAuthRequiredState
}.

(** [SessionInputRequest]: types/channels-session/state.ts:444-448. *)
Inductive SessionInputRequest :=
| SessionInputRequest_ChatInput (x : SessionChatInputRequest)
| SessionInputRequest_ToolConfirmation (x : SessionToolConfirmationRequest)
| SessionInputRequest_ToolClientExecution (x : SessionToolClientExecutionRequest)
| SessionInputRequest_ToolAuthentication (x : SessionToolAuthenticationRequest).

(** [SessionConfigState]: types/channels-session/state.ts:659-664. *)
Record SessionConfigState := mkSessionConfigState {
  scs_schema : SessionConfigSchema;
  scs_values : Meta
}.
#[export] Instance eta_SessionConfigState : Eta SessionConfigState :=
  λ r, mkSessionConfigState r.(scs_schema) r.(scs_values).

(** [SessionState]: types/channels-session/state.ts:164-257. *)
Record SessionState := mkSessionState {
  ss_provider : string;
  ss_title : string;
  ss_status : SessionStatus;
  ss_activity : option string;
  ss_origin : option SessionOrigin;
  ss_project : option ProjectInfo;
  ss_workingDirectories : option (list URI);
  ss_annotations : option AnnotationsSummary;
  ss_lifecycle : SessionLifecycle;
  ss_creationError : option ErrorInfo;
  ss_serverTools : option (list ToolDefinition);
  ss_activeClients : list SessionActiveClient;
  ss_chats : list ChatSummary;
  ss_defaultChat : option URI;
  ss_config : option SessionConfigState;
  ss_customizations : option (list Customization);
  ss_changesets : option (list Changeset);
  ss_inputNeeded : option (list SessionInputRequest);
  ss_meta : option Meta
}.
#[export] Instance eta_SessionState : Eta SessionState :=
  λ r, mkSessionState 
    r.(ss_provider) r.(ss_title) r.(ss_status) r.(ss_activity) r.(ss_origin) r.(ss_project)
    r.(ss_workingDirectories) r.(ss_annotations) r.(ss_lifecycle) r.(ss_creationError)
    r.(ss_serverTools) r.(ss_activeClients) r.(ss_chats) r.(ss_defaultChat) r.(ss_config)
    r.(ss_customizations) r.(ss_changesets) r.(ss_inputNeeded) r.(ss_meta).

(** [SessionChatSummary]: types/channels-session/state.ts:532-571. *)
Record SessionChatSummary := mkSessionChatSummary {
  SessionChatSummary_resource : URI;
  SessionChatSummary_title : string;
  SessionChatSummary_origin : option ChatOrigin;
  SessionChatSummary_interactivity : option ChatInteractivity;
  SessionChatSummary_provider : option string;
  SessionChatSummary_status : option SessionStatus;
  SessionChatSummary_changes : option ChangesSummary
}.

(** [SessionSummary]: types/channels-session/state.ts:498-525. *)
Record SessionSummary := mkSessionSummary {
  ssum_provider : string;
  ssum_title : string;
  ssum_status : SessionStatus;
  ssum_activity : option string;
  ssum_origin : option SessionOrigin;
  ssum_project : option ProjectInfo;
  ssum_workingDirectories : option (list URI);
  ssum_annotations : option AnnotationsSummary;
  ssum_resource : URI;
  ssum_createdAt : string;
  ssum_modifiedAt : string;
  ssum_changes : option ChangesSummary;
  ssum_meta : option Meta;
  ssum_chats : option (list SessionChatSummary);
  ssum_defaultChat : option URI
}.
#[export] Instance eta_SessionSummary : Eta SessionSummary :=
  λ r, mkSessionSummary 
    r.(ssum_provider) r.(ssum_title) r.(ssum_status) r.(ssum_activity) r.(ssum_origin)
    r.(ssum_project) r.(ssum_workingDirectories) r.(ssum_annotations) r.(ssum_resource)
    r.(ssum_createdAt) r.(ssum_modifiedAt) r.(ssum_changes) r.(ssum_meta) r.(ssum_chats)
    r.(ssum_defaultChat).

