(* ===== verification/SessionActions.v ===== *)
(** * Actions of the session channel: types/channels-session/actions.ts *)

From S2P Require Import Prelude JsNumber CommonState Annotations Changeset Canvas ChatState SessionState.
Local Open Scope Z_scope.

(** [SessionReadyAction]: types/channels-session/actions.ts:29-31. *)
Record SessionReadyAction := mkSessionReadyAction { }.

(** [SessionCreationFailedAction]: types/channels-session/actions.ts:39-43. *)
Record SessionCreationFailedAction := mkSessionCreationFailedAction {
  SessionCreationFailed_error : ErrorInfo
}.

(** [SessionChatAddedAction]: types/channels-session/actions.ts:55-59. *)
Record SessionChatAddedAction := mkSessionChatAddedAction {
  SessionChatAdded_summary : ChatSummary
}.

(** [SessionChatRemovedAction]: types/channels-session/actions.ts:69-73. *)
Record SessionChatRemovedAction := mkSessionChatRemovedAction {
  SessionChatRemoved_chat : URI
}.

(** [Partial<ChatSummary>], the type of [SessionChatUpdatedAction.changes]: every
    property of [ChatSummary] (types/channels-chat/state.ts) made optional. *)
Record PartialChatSummary := mkPartialChatSummary {
  pcs_resource : option URI;
  pcs_title : option string;
  pcs_status : option SessionStatus;
  pcs_activity : option string;
  pcs_modifiedAt : option string;
  pcs_changes : option ChangesSummary;
  pcs_origin : option ChatOrigin;
  pcs_movable : option bool;
  pcs_interactivity : option ChatInteractivity;
  pcs_provider : option string;
  pcs_workingDirectories : option (list URI)
}.

(** [SessionChatUpdatedAction]: types/channels-session/actions.ts:91-102. *)
Record SessionChatUpdatedAction := mkSessionChatUpdatedAction {
  SessionChatUpdated_chat : URI;
  SessionChatUpdated_changes : PartialChatSummary
}.

(** [SessionDefaultChatChangedAction]: types/channels-session/actions.ts:110-114. *)
Record SessionDefaultChatChangedAction := mkSessionDefaultChatChangedAction {
  SessionDefaultChatChanged_defaultChat : option URI
}.

(** [SessionChatsReorderedAction]: types/channels-session/actions.ts:128-132. *)
Record SessionChatsReorderedAction := mkSessionChatsReorderedAction {
  SessionChatsReordered_chats : list URI
}.

(** [SessionTitleChangedAction]: types/channels-session/actions.ts:142-146. *)
Record SessionTitleChangedAction := mkSessionTitleChangedAction {
  SessionTitleChanged_title : string
}.

(** [SessionIsReadChangedAction]: types/channels-session/actions.ts:158-162. *)
Record SessionIsReadChangedAction := mkSessionIsReadChangedAction {
  SessionIsReadChanged_isRead : bool
}.

(** [SessionIsArchivedChangedAction]: types/channels-session/actions.ts:174-178. *)
Record SessionIsArchivedChangedAction := mkSessionIsArchivedChangedAction {
  SessionIsArchivedChanged_isArchived : bool
}.

(** [SessionActivityChangedAction]: types/channels-session/actions.ts:189-193. *)
Record SessionActivityChangedAction := mkSessionActivityChangedAction {
  SessionActivityChanged_activity : option string
}.

(** [SessionChangesetsChangedAction]: types/channels-session/actions.ts:210-214. *)
Record SessionChangesetsChangedAction := mkSessionChangesetsChangedAction {
  SessionChangesetsChanged_changesets : option (list Changeset)
}.

(** [SessionServerToolsChangedAction]: types/channels-session/actions.ts:224-228. *)
Record SessionServerToolsChangedAction := mkSessionServerToolsChangedAction {
  SessionServerToolsChanged_tools : list ToolDefinition
}.

(** [SessionActiveClientSetAction]: types/channels-session/actions.ts:247-251. *)
Record SessionActiveClientSetAction := mkSessionActiveClientSetAction {
  SessionActiveClientSet_activeClient : SessionActiveClient
}.

(** [SessionActiveClientRemovedAction]: types/channels-session/actions.ts:274-278. *)
Record SessionActiveClientRemovedAction := mkSessionActiveClientRemovedAction {
  SessionActiveClientRemoved_clientId : string
}.

(** [SessionWorkingDirectorySetAction]: types/channels-session/actions.ts:295-299. *)
Record SessionWorkingDirectorySetAction := mkSessionWorkingDirectorySetAction {
  SessionWorkingDirectorySet_directory : URI
}.

(** [SessionWorkingDirectoryRemovedAction]: types/channels-session/actions.ts:319-323. *)
Record SessionWorkingDirectoryRemovedAction := mkSessionWorkingDirectoryRemovedAction {
  SessionWorkingDirectoryRemoved_directory : URI
}.

(** [SessionWorkingDirectoryReplacedAction]: types/channels-session/actions.ts:348-354. *)
Record SessionWorkingDirectoryReplacedAction := mkSessionWorkingDirectoryReplacedAction {
  SessionWorkingDirectoryReplaced_directory : URI;
  SessionWorkingDirectoryReplaced_replacement : URI
}.

(** [SessionInputNeededSetAction]: types/channels-session/actions.ts:375-379. *)
Record SessionInputNeededSetAction := mkSessionInputNeededSetAction {
  SessionInputNeededSet_request : SessionInputRequest
}.

(** [SessionInputNeededRemovedAction]: types/channels-session/actions.ts:394-398. *)
Record SessionInputNeededRemovedAction := mkSessionInputNeededRemovedAction {
  SessionInputNeededRemoved_id : string
}.

(** [SessionCustomizationsChangedAction]: types/channels-session/actions.ts:411-415. *)
Record SessionCustomizationsChangedAction := mkSessionCustomizationsChangedAction {
  SessionCustomizationsChanged_customizations : list Customization
}.

(** [SessionCustomizationToggledAction]: types/channels-session/actions.ts:438-444. *)
Record SessionCustomizationToggledAction := mkSessionCustomizationToggledAction {
  SessionCustomizationToggled_id : string;
  SessionCustomizationToggled_enablement : list CustomizationEnablement
}.

(** [SessionCustomizationUpdatedAction]: types/channels-session/actions.ts:459-463. *)
Record SessionCustomizationUpdatedAction := mkSessionCustomizationUpdatedAction {
  SessionCustomizationUpdated_customization : Customization
}.

(** [SessionCustomizationRemovedAction]: types/channels-session/actions.ts:475-479. *)
Record SessionCustomizationRemovedAction := mkSessionCustomizationRemovedAction {
  SessionCustomizationRemoved_id : string
}.

(** [SessionMcpServerStateChangedAction]: types/channels-session/actions.ts:506-518. *)
Record SessionMcpServerStateChangedAction := mkSessionMcpServerStateChangedAction {
  SessionMcpServerStateChanged_id : string;
  SessionMcpServerStateChanged_state : McpServerState;
  SessionMcpServerStateChanged_channel : option URI
}.

(** [SessionMcpServerStartRequestedAction]: types/channels-session/actions.ts:538-542. *)
Record SessionMcpServerStartRequestedAction := mkSessionMcpServerStartRequestedAction {
  SessionMcpServerStartRequested_id : string
}.

(** [SessionMcpServerBackgroundRequestedAction]: types/channels-session/actions.ts:568-572. *)
Record SessionMcpServerBackgroundRequestedAction := mkSessionMcpServerBackgroundRequestedAction {
  SessionMcpServerBackgroundRequested_id : string
}.

(** [SessionMcpServerStopRequestedAction]: types/channels-session/actions.ts:596-600. *)
Record SessionMcpServerStopRequestedAction := mkSessionMcpServerStopRequestedAction {
  SessionMcpServerStopRequested_id : string
}.

(** [SessionConfigChangedAction]: types/channels-session/actions.ts:615-621. *)
Record SessionConfigChangedAction := mkSessionConfigChangedAction {
  SessionConfigChanged_config : Meta;
  SessionConfigChanged_replace : option bool
}.

(** [SessionMetaChangedAction]: types/channels-session/actions.ts:631-635. *)
Record SessionMetaChangedAction := mkSessionMetaChangedAction {
  SessionMetaChanged_meta : option Meta
}.

(** [SessionAction]: types/action-origin.generated.ts:141-172.  The last constructor is any
    action whose [type] this version does not know, given by its
    [JSON.stringify] text. *)
Inductive SessionAction :=
| SessionReady (a : SessionReadyAction)
| SessionCreationFailed (a : SessionCreationFailedAction)
| SessionChatAdded (a : SessionChatAddedAction)
| SessionChatRemoved (a : SessionChatRemovedAction)
| SessionChatUpdated (a : SessionChatUpdatedAction)
| SessionChatsReordered (a : SessionChatsReorderedAction)
| SessionDefaultChatChanged (a : SessionDefaultChatChangedAction)
| SessionTitleChanged (a : SessionTitleChangedAction)
| SessionServerToolsChanged (a : SessionServerToolsChangedAction)
| SessionActiveClientSet (a : SessionActiveClientSetAction)
| SessionActiveClientRemoved (a : SessionActiveClientRemovedAction)
| SessionWorkingDirectorySet (a : SessionWorkingDirectorySetAction)
| SessionWorkingDirectoryRemoved (a : SessionWorkingDirectoryRemovedAction)
| SessionWorkingDirectoryReplaced (a : SessionWorkingDirectoryReplacedAction)
| SessionInputNeededSet (a : SessionInputNeededSetAction)
| SessionInputNeededRemoved (a : SessionInputNeededRemovedAction)
| SessionCustomizationsChanged (a : SessionCustomizationsChangedAction)
| SessionCustomizationToggled (a : SessionCustomizationToggledAction)
| SessionCustomizationUpdated (a : SessionCustomizationUpdatedAction)
| SessionCustomizationRemoved (a : SessionCustomizationRemovedAction)
| SessionMcpServerStateChanged (a : SessionMcpServerStateChangedAction)
| SessionMcpServerStartRequested (a : SessionMcpServerStartRequestedAction)
| SessionMcpServerStopRequested (a : SessionMcpServerStopRequestedAction)
| SessionMcpServerBackgroundRequested (a : SessionMcpServerBackgroundRequestedAction)
| SessionIsReadChanged (a : SessionIsReadChangedAction)
| SessionIsArchivedChanged (a : SessionIsArchivedChangedAction)
| SessionActivityChanged (a : SessionActivityChangedAction)
| SessionChangesetsChanged (a : SessionChangesetsChangedAction)
| SessionConfigChanged (a : SessionConfigChangedAction)
| SessionMetaChanged (a : SessionMetaChangedAction)
| UnknownSessionAction (stringified : string).
