(* ===== verification/SessionReducer.v ===== *)
(** * The session reducer: types/channels-session/reducer.ts

    Definitions only: the helpers, then one function per [case] of
    [sessionReducer]. *)

From S2P Require Import Prelude ReducerHelpers JsNumber CommonState ChatState SessionState SessionActions.
Local Open Scope Z_scope.

(** ** The keys of the collections *)

Definition request_base (r : SessionInputRequest) : SessionInputRequestBase :=
  match r with
  | SessionInputRequest_ChatInput x => x.(sci_base)
  | SessionInputRequest_ToolConfirmation x => x.(stc_base)
  | SessionInputRequest_ToolClientExecution x => x.(stce_base)
  | SessionInputRequest_ToolAuthentication x => x.(sta_base)
  end.

Definition child_id (c : ChildCustomization) : string :=
  match c with
  | ChildCustomization_Agent x => x.(agc_child).(chb_base).(cb_id)
  | ChildCustomization_Skill x => x.(skc_child).(chb_base).(cb_id)
  | ChildCustomization_Prompt x => x.(prc_child).(chb_base).(cb_id)
  | ChildCustomization_Rule x => x.(ruc_child).(chb_base).(cb_id)
  | ChildCustomization_Hook x => x.(hkc_child).(chb_base).(cb_id)
  | ChildCustomization_McpServer x => x.(mcps_base).(cb_id)
  end.

Definition customization_id (c : Customization) : string :=
  match c with
  | Customization_Plugin x => x.(pc_container).(ccb_base).(cb_id)
  | Customization_Directory x => x.(dc_container).(ccb_base).(cb_id)
  | Customization_McpServer x => x.(mcps_base).(cb_id)
  end.

#[export] Instance keyed_chat : Keyed ChatSummary := csum_resource.
#[export] Instance keyed_client : Keyed SessionActiveClient := sac_clientId.
#[export] Instance keyed_request : Keyed SessionInputRequest := λ r, (request_base r).(sirb_id).
#[export] Instance keyed_skill : Keyed SkillCustomization := λ s, s.(skc_child).(chb_base).(cb_id).
#[export] Instance keyed_child : Keyed ChildCustomization := child_id.
#[export] Instance keyed_customization : Keyed Customization := customization_id.

(** ** Status helpers *)

Definition STATUS_ACTIVITY_MASK : Z := shl32 1 5 - 1.

Definition withStatusFlag (status flag : SessionStatus) (set : bool) : SessionStatus :=
  if set then or32 status flag else and32 status (not32 flag).

Definition awaitsUser (request : SessionInputRequest) : bool :=
  match request with SessionInputRequest_ToolClientExecution _ => false | _ => true end.

Definition withInputNeededStatus (status : SessionStatus) (inputNeeded : list SessionInputRequest) :
    SessionStatus :=
  if existsb awaitsUser inputNeeded
  then or32 (and32 status (not32 STATUS_ACTIVITY_MASK)) SessionStatus.InputNeeded
  else and32 status (not32 (and32 SessionStatus.InputNeeded (not32 SessionStatus.InProgress))).

(** ** Customizations *)

(** The children of a container; [None] for a bare MCP server, which is not one. *)
Definition container_children (c : Customization) : option (list ChildCustomization) :=
  match c with
  | Customization_Plugin x => x.(pc_container).(ccb_children)
  | Customization_Directory x => x.(dc_container).(ccb_children)
  | Customization_McpServer _ => None
  end.

(** [{ ...container, children }]. *)
Definition with_children (c : Customization) (children : list ChildCustomization) : Customization :=
  match c with
  | Customization_Plugin x =>
      Customization_Plugin
        (x <| pc_container := x.(pc_container) <| ccb_children := Some children |> |>)
  | Customization_Directory x =>
      Customization_Directory
        (x <| dc_container := x.(dc_container) <| ccb_children := Some children |> |>)
  | Customization_McpServer _ => c
  end.

(** A container with its children changed by [f]; [None] when there are none or
    [f] declines. *)
Definition update_children (f : list ChildCustomization → option (list ChildCustomization))
    (c : Customization) : option Customization :=
  with_children c <$> (container_children c ≫= f).

(** The [list.map] that changes the containers [f] accepts; [None] if it changed none. *)
Definition map_changed {A} (f : A → option A) (l : list A) : option (list A) :=
  if existsb (λ x, match f x with Some _ => true | None => false end) l
  then Some (map (λ x, f x ??! x) l) else None.

(** The child with the id, if it is an MCP server, replaced by [update] of it. *)
Definition update_mcp_child (id : string)
    (update : McpServerCustomization → McpServerCustomization) (children : list ChildCustomization) :
    option (list ChildCustomization) :=
  childIdx ← findIndex (has_key id) children;
  child ← children !! childIdx;
  match child with
  | ChildCustomization_McpServer x =>
      Some (<[childIdx := ChildCustomization_McpServer (update x)]> children)
  | _ => None
  end.

Definition with_customizations (state : SessionState) (l : option (list Customization)) :
    SessionState :=
  match l with
  | Some updated => state <| ss_customizations := Some updated |>
  | None => state
  end.

Definition updateMcpServerCustomization (state : SessionState) (id : string)
    (update : McpServerCustomization → McpServerCustomization) : SessionState :=
  match state.(ss_customizations) with
  | None => state
  | Some list =>
      match findIndex (has_key id) list with
      | Some topIdx =>
          match list !! topIdx with
          | Some (Customization_McpServer entry) =>
              with_customizations state
                (Some (<[topIdx := Customization_McpServer (update entry)]> list))
          | _ => state
          end
      | None =>
          with_customizations state (map_changed (update_children (update_mcp_child id update)) list)
      end
  end.

Definition enablement_enabled (e : CustomizationEnablement) : bool :=
  match e with
  | CustomizationEnablement_Global b => b
  | CustomizationEnablement_Workspace _ b => b
  | CustomizationEnablement_Session b => b
  end.

(** [enablement[0]?.enabled ?? true]. *)
Definition legacy_enabled (enablement : list CustomizationEnablement) : bool :=
  (enablement_enabled <$> head enablement) ??! true.

Definition set_child_enabled (enabled : bool) (c : ChildCustomizationBase) : ChildCustomizationBase :=
  c <| chb_enabled := Some enabled |>.

Definition set_skill_enabled (enabled : bool) (s : SkillCustomization) : SkillCustomization :=
  s <| skc_child := set_child_enabled enabled s.(skc_child) |>.

Definition set_mcp_enablement (enablement : list CustomizationEnablement)
    (x : McpServerCustomization) : McpServerCustomization :=
  x <| mcps_enablement := non_empty_list enablement |>.

Definition applyCustomizationEnablement (c : Customization)
    (enablement : list CustomizationEnablement) : Customization :=
  match c with
  | Customization_Plugin x =>
      Customization_Plugin (x <| pc_enablement := non_empty_list enablement |>)
  | Customization_McpServer x => Customization_McpServer (set_mcp_enablement enablement x)
  | Customization_Directory x =>
      Customization_Directory (x <| dc_enabled := legacy_enabled enablement |>)
  end.

Definition applyChildEnablement (c : ChildCustomization)
    (enablement : list CustomizationEnablement) : ChildCustomization :=
  let set := set_child_enabled (legacy_enabled enablement) in
  match c with
  | ChildCustomization_McpServer x => ChildCustomization_McpServer (set_mcp_enablement enablement x)
  | ChildCustomization_Agent x =>
      ChildCustomization_Agent (x <| agc_child := set x.(agc_child) |>)
  | ChildCustomization_Skill x =>
      ChildCustomization_Skill (x <| skc_child := set x.(skc_child) |>)
  | ChildCustomization_Prompt x =>
      ChildCustomization_Prompt (x <| prc_child := set x.(prc_child) |>)
  | ChildCustomization_Rule x =>
      ChildCustomization_Rule (x <| ruc_child := set x.(ruc_child) |>)
  | ChildCustomization_Hook x =>
      ChildCustomization_Hook (x <| hkc_child := set x.(hkc_child) |>)
  end.

Definition toggleMcpServerSkill (server : McpServerCustomization) (id : string)
    (enablement : list CustomizationEnablement) : option McpServerCustomization :=
  skills ← server.(mcps_children);
  skillIdx ← findIndex (has_key id) skills;
  skill ← skills !! skillIdx;
  Some (server <| mcps_children :=
    Some (<[skillIdx := set_skill_enabled (legacy_enabled enablement) skill]> skills) |>).

Definition toggle_child_skill (id : string) (enablement : list CustomizationEnablement)
    (child : ChildCustomization) : option ChildCustomization :=
  match child with
  | ChildCustomization_McpServer x =>
      ChildCustomization_McpServer <$> toggleMcpServerSkill x id enablement
  | _ => None
  end.

Definition toggle_children (id : string) (enablement : list CustomizationEnablement)
    (children : list ChildCustomization) : option (list ChildCustomization) :=
  match findIndex (has_key id) children with
  | Some childIdx =>
      (λ child, <[childIdx := applyChildEnablement child enablement]> children)
        <$> children !! childIdx
  | None => replaceFirst (toggle_child_skill id enablement) children
  end.

Definition toggleContainerChild (container : Customization) (id : string)
    (enablement : list CustomizationEnablement) : option Customization :=
  update_children (toggle_children id enablement) container.

Definition toggle_nested (id : string) (enablement : list CustomizationEnablement)
    (container : Customization) : option Customization :=
  match container with
  | Customization_McpServer x => Customization_McpServer <$> toggleMcpServerSkill x id enablement
  | _ => toggleContainerChild container id enablement
  end.

Definition toggle_customizations (id : string) (enablement : list CustomizationEnablement)
    (items : list Customization) : option (list Customization) :=
  match findIndex (has_key id) items with
  | Some topIdx =>
      (λ c, <[topIdx := applyCustomizationEnablement c enablement]> items) <$> items !! topIdx
  | None => replaceFirst (toggle_nested id enablement) items
  end.

Definition on_SessionCustomizationToggled (state : SessionState)
    (action : SessionCustomizationToggledAction) : SessionState :=
  with_customizations state (state.(ss_customizations) ≫=
    toggle_customizations action.(SessionCustomizationToggled_id)
      action.(SessionCustomizationToggled_enablement)).

Definition on_SessionCustomizationUpdated (state : SessionState)
    (action : SessionCustomizationUpdatedAction) : SessionState :=
  let customization := action.(SessionCustomizationUpdated_customization) in
  state <| ss_customizations :=
    Some (upsert (has_key (key_of customization)) customization
            (state.(ss_customizations) ??! [])) |>.

Definition remove_customization (id : string) (items : list Customization) :
    option (list Customization) :=
  match removeFirst (has_key id) items with
  | Some updated => Some updated
  | None => map_changed (update_children (removeFirst (has_key id))) items
  end.

Definition on_SessionCustomizationRemoved (state : SessionState)
    (action : SessionCustomizationRemovedAction) : SessionState :=
  with_customizations state
    (state.(ss_customizations) ≫= remove_customization action.(SessionCustomizationRemoved_id)).

(** ** MCP servers *)

Definition set_mcp_state (st : McpServerState) (channel : option URI)
    (entry : McpServerCustomization) : McpServerCustomization :=
  entry <| mcps_state := st |> <| mcps_channel := channel |>.

Definition on_SessionMcpServerStateChanged (state : SessionState)
    (action : SessionMcpServerStateChangedAction) : SessionState :=
  updateMcpServerCustomization state action.(SessionMcpServerStateChanged_id)
    (set_mcp_state action.(SessionMcpServerStateChanged_state)
       action.(SessionMcpServerStateChanged_channel)).

Definition on_SessionMcpServerStartRequested (state : SessionState)
    (action : SessionMcpServerStartRequestedAction) : SessionState :=
  updateMcpServerCustomization state action.(SessionMcpServerStartRequested_id)
    (set_mcp_state (McpServerState_Starting (mkMcpServerStartingState None)) None).

Definition background_mcp (entry : McpServerCustomization) : McpServerCustomization :=
  match entry.(mcps_state) with
  | McpServerState_Starting s =>
      if truthy s.(mss_blocking)
      then entry <| mcps_state := McpServerState_Starting (s <| mss_blocking := Some false |>) |>
      else entry
  | _ => entry
  end.

Definition on_SessionMcpServerBackgroundRequested (state : SessionState)
    (action : SessionMcpServerBackgroundRequestedAction) : SessionState :=
  updateMcpServerCustomization state action.(SessionMcpServerBackgroundRequested_id) background_mcp.

Definition on_SessionMcpServerStopRequested (state : SessionState)
    (action : SessionMcpServerStopRequestedAction) : SessionState :=
  updateMcpServerCustomization state action.(SessionMcpServerStopRequested_id)
    (set_mcp_state (McpServerState_Stopped mkMcpServerStoppedState) None).

(** ** Chats *)

Definition on_SessionChatAdded (state : SessionState) (action : SessionChatAddedAction) : SessionState :=
  let summary := action.(SessionChatAdded_summary) in
  state <| ss_chats := upsert (has_key (key_of summary)) summary state.(ss_chats) |>.

Definition on_SessionChatRemoved (state : SessionState) (action : SessionChatRemovedAction) :
    SessionState :=
  let chat := action.(SessionChatRemoved_chat) in
  match removeFirst (has_key chat) state.(ss_chats) with
  | None => state
  | Some updated =>
      let next := state <| ss_chats := updated |> in
      if bool_decide (state.(ss_defaultChat) = Some chat)
      then next <| ss_defaultChat := None |> else next
  end.

(** [{ ...list[idx], ...changes }] without [changes.resource] and [changes.provider]. *)
Definition merge_summary (s : ChatSummary) (changes : PartialChatSummary) : ChatSummary :=
  s <| csum_title := changes.(pcs_title) ??! s.(csum_title) |>
    <| csum_status := changes.(pcs_status) ??! s.(csum_status) |>
    <| csum_activity := changes.(pcs_activity) ?? s.(csum_activity) |>
    <| csum_modifiedAt := changes.(pcs_modifiedAt) ??! s.(csum_modifiedAt) |>
    <| csum_changes := changes.(pcs_changes) ?? s.(csum_changes) |>
    <| csum_origin := changes.(pcs_origin) ?? s.(csum_origin) |>
    <| csum_movable := changes.(pcs_movable) ?? s.(csum_movable) |>
    <| csum_interactivity := changes.(pcs_interactivity) ?? s.(csum_interactivity) |>
    <| csum_workingDirectories := changes.(pcs_workingDirectories) ?? s.(csum_workingDirectories) |>.

Definition on_SessionChatUpdated (state : SessionState) (action : SessionChatUpdatedAction) :
    SessionState :=
  match findIndex (has_key action.(SessionChatUpdated_chat)) state.(ss_chats) with
  | None => state
  | Some idx =>
      match state.(ss_chats) !! idx with
      | None => state
      | Some summary =>
          state <| ss_chats :=
            <[idx := merge_summary summary action.(SessionChatUpdated_changes)]> state.(ss_chats) |>
      end
  end.

(** [new Set(l).size]. *)
Definition set_size (l : list string) : nat := size (list_to_set l : gset string).

(** The list [chats] names, in its order; [None] where the case returns [state].
    The identifiers having been found distinct, [reordered] is the catalogue
    object by object exactly when its resources are the catalogue's, in order. *)
Definition reorder_chats (items : list ChatSummary) (chats : list URI) : option (list ChatSummary) :=
  if negb (length chats =? length items)%nat || negb (set_size chats =? length items)%nat then None
  else
    let summaries := mapBy key_of items in
    reordered ← mapM (λ resource, summaries !! resource) chats;
    if bool_decide (keys reordered = keys items) then None else Some reordered.

Definition on_SessionChatsReordered (state : SessionState) (action : SessionChatsReorderedAction) :
    SessionState :=
  match reorder_chats state.(ss_chats) action.(SessionChatsReordered_chats) with
  | None => state
  | Some reordered => state <| ss_chats := reordered |>
  end.

(** ** Configuration, active clients, working directories *)

Definition on_SessionConfigChanged (state : SessionState) (action : SessionConfigChangedAction) :
    SessionState :=
  match state.(ss_config) with
  | None => state
  | Some config =>
      state <| ss_config := Some (config <| scs_values :=
        if truthy action.(SessionConfigChanged_replace) then action.(SessionConfigChanged_config)
        else spread config.(scs_values) action.(SessionConfigChanged_config) |>) |>
  end.

Definition on_SessionActiveClientSet (state : SessionState) (action : SessionActiveClientSetAction) :
    SessionState :=
  let client := action.(SessionActiveClientSet_activeClient) in
  state <| ss_activeClients := upsert (has_key (key_of client)) client state.(ss_activeClients) |>.

Definition on_SessionActiveClientRemoved (state : SessionState)
    (action : SessionActiveClientRemovedAction) : SessionState :=
  match removeFirst (has_key action.(SessionActiveClientRemoved_clientId)) state.(ss_activeClients) with
  | None => state
  | Some updated => state <| ss_activeClients := updated |>
  end.

Definition on_SessionWorkingDirectorySet (state : SessionState)
    (action : SessionWorkingDirectorySetAction) : SessionState :=
  let items := state.(ss_workingDirectories) ??! [] in
  if includes items action.(SessionWorkingDirectorySet_directory) then state
  else state <| ss_workingDirectories :=
         Some (items ++ [action.(SessionWorkingDirectorySet_directory)]) |>.

Definition on_SessionWorkingDirectoryRemoved (state : SessionState)
    (action : SessionWorkingDirectoryRemovedAction) : SessionState :=
  match state.(ss_workingDirectories) with
  | None => state
  | Some items =>
      match removeFirst (has_key action.(SessionWorkingDirectoryRemoved_directory)) items with
      | None => state
      | Some updated => state <| ss_workingDirectories := Some updated |>
      end
  end.

(** [list.filter((x, index) => p index x)]. *)
Definition filter_index {A} (p : nat → A → bool) (l : list A) : list A :=
  map snd (List.filter (λ ix, p ix.1 ix.2) (imap pair l)).

Definition replace_directory (items : list URI) (directory replacement : URI) : option (list URI) :=
  idx ← findIndex (has_key directory) items;
  Some
    match findIndex (has_key replacement) items with
    | Some replacementIdx =>
        if (replacementIdx <? idx)%nat
        then filter_index (λ index _, negb (index =? idx)%nat) items
        else filter_index (λ index d, (index =? idx)%nat || negb (d =?s replacement))
               (imap (λ index d, if (index =? idx)%nat then replacement else d) items)
    | None =>
        filter_index (λ index d, (index =? idx)%nat || negb (d =?s replacement))
          (imap (λ index d, if (index =? idx)%nat then replacement else d) items)
    end.

Definition on_SessionWorkingDirectoryReplaced (state : SessionState)
    (action : SessionWorkingDirectoryReplacedAction) : SessionState :=
  match state.(ss_workingDirectories) ≫= (λ items,
          replace_directory items action.(SessionWorkingDirectoryReplaced_directory)
            action.(SessionWorkingDirectoryReplaced_replacement)) with
  | None => state
  | Some updated => state <| ss_workingDirectories := Some updated |>
  end.

(** ** Input needed *)

Definition on_SessionInputNeededSet (state : SessionState) (action : SessionInputNeededSetAction) :
    SessionState :=
  let request := action.(SessionInputNeededSet_request) in
  let inputNeeded :=
    upsert (has_key (key_of request)) request (state.(ss_inputNeeded) ??! []) in
  state <| ss_inputNeeded := Some inputNeeded |>
        <| ss_status := withInputNeededStatus state.(ss_status) inputNeeded |>.

Definition on_SessionInputNeededRemoved (state : SessionState)
    (action : SessionInputNeededRemovedAction) : SessionState :=
  match state.(ss_inputNeeded) ≫= removeFirst (has_key action.(SessionInputNeededRemoved_id)) with
  | None => state
  | Some remaining =>
      state <| ss_status := withInputNeededStatus state.(ss_status) remaining |>
            <| ss_inputNeeded := non_empty_list remaining |>
  end.

(** ** sessionReducer *)

Definition sessionReducer (state : SessionState) (action : SessionAction) : Logged SessionState :=
  match action with
  | SessionReady _ => mret (state <| ss_lifecycle := SessionLifecycle_Ready |>)
  | SessionCreationFailed a =>
      mret (state <| ss_lifecycle := SessionLifecycle_Failed |>
                  <| ss_creationError := Some a.(SessionCreationFailed_error) |>)
  | SessionChatAdded a => mret (on_SessionChatAdded state a)
  | SessionChatRemoved a => mret (on_SessionChatRemoved state a)
  | SessionChatUpdated a => mret (on_SessionChatUpdated state a)
  | SessionChatsReordered a => mret (on_SessionChatsReordered state a)
  | SessionDefaultChatChanged a =>
      mret (state <| ss_defaultChat := a.(SessionDefaultChatChanged_defaultChat) |>)
  | SessionTitleChanged a => mret (state <| ss_title := a.(SessionTitleChanged_title) |>)
  | SessionIsReadChanged a =>
      mret (state <| ss_status :=
        withStatusFlag state.(ss_status) SessionStatus.IsRead a.(SessionIsReadChanged_isRead) |>)
  | SessionIsArchivedChanged a =>
      mret (state <| ss_status :=
        withStatusFlag state.(ss_status) SessionStatus.IsArchived
          a.(SessionIsArchivedChanged_isArchived) |>)
  | SessionActivityChanged a => mret (state <| ss_activity := a.(SessionActivityChanged_activity) |>)
  | SessionChangesetsChanged a =>
      mret (state <| ss_changesets := a.(SessionChangesetsChanged_changesets) |>)
  | SessionConfigChanged a => mret (on_SessionConfigChanged state a)
  | SessionMetaChanged a => mret (state <| ss_meta := a.(SessionMetaChanged_meta) |>)
  | SessionServerToolsChanged a =>
      mret (state <| ss_serverTools := Some a.(SessionServerToolsChanged_tools) |>)
  | SessionActiveClientSet a => mret (on_SessionActiveClientSet state a)
  | SessionActiveClientRemoved a => mret (on_SessionActiveClientRemoved state a)
  | SessionWorkingDirectorySet a => mret (on_SessionWorkingDirectorySet state a)
  | SessionWorkingDirectoryRemoved a => mret (on_SessionWorkingDirectoryRemoved state a)
  | SessionWorkingDirectoryReplaced a => mret (on_SessionWorkingDirectoryReplaced state a)
  | SessionInputNeededSet a => mret (on_SessionInputNeededSet state a)
  | SessionInputNeededRemoved a => mret (on_SessionInputNeededRemoved state a)
  | SessionCustomizationsChanged a =>
      mret (state <| ss_customizations := Some a.(SessionCustomizationsChanged_customizations) |>)
  | SessionCustomizationToggled a => mret (on_SessionCustomizationToggled state a)
  | SessionCustomizationUpdated a => mret (on_SessionCustomizationUpdated state a)
  | SessionCustomizationRemoved a => mret (on_SessionCustomizationRemoved state a)
  | SessionMcpServerStateChanged a => mret (on_SessionMcpServerStateChanged state a)
  | SessionMcpServerStartRequested a => mret (on_SessionMcpServerStartRequested state a)
  | SessionMcpServerBackgroundRequested a => mret (on_SessionMcpServerBackgroundRequested state a)
  | SessionMcpServerStopRequested a => mret (on_SessionMcpServerStopRequested state a)
  | UnknownSessionAction stringified => _ ← softAssertNever stringified; mret state
  end.
