(* ===== verification/SessionLemmas.v ===== *)
(** * Lemmas on the session reducer

    The chat catalogue and its order, the working directories, the input queue
    and its status bit, and the shape of the customization tree. *)

From S2P Require Import Prelude KeyedList JsNumber CommonState ChatState SessionState SessionActions SessionReducer.
Local Open Scope Z_scope.

Definition session_step (s : SessionState) (a : SessionAction) (s' : SessionState) : Prop :=
  val (sessionReducer s a) = s'.

(** ** Reordering the catalogue *)

Lemma set_size_NoDup (l : list string) : set_size l = length l ↔ NoDup l.
Proof.
  unfold set_size. induction l as [|x l IH]; [split; [constructor|done]|].
  rewrite NoDup_cons, <- IH. simpl. assert (size (list_to_set l : gset string) ≤ length l)%nat as Hle.
  { clear. induction l as [|x l IH]; [done|]. simpl.
    pose proof (size_union_alt ({[x]} : gset string) (list_to_set l)) as Hu.
    rewrite size_singleton in Hu.
    pose proof (subseteq_size (list_to_set l ∖ {[x]} : gset string) (list_to_set l)). set_solver by lia. }
  destruct (decide (x ∈ l)) as [Hx|Hx].
  - assert (({[x]} ∪ list_to_set l : gset string) = list_to_set l) as -> by set_solver.
    split; [lia|by intros [? _]].
  - rewrite size_union, size_singleton by set_solver. naive_solver lia.
Qed.

Section Reorder.
Context (items : list ChatSummary) (Hnd : NoDup (keys items)).

Lemma catalogue_lookup id x : mapBy key_of items !! id = Some x ↔ x ∈ items ∧ key_of x = id.
Proof. rewrite mapBy_entries by done. by apply entries_of_Some. Qed.

Lemma catalogue_mapM chats r :
  mapM (λ resource, mapBy key_of items !! resource) chats = Some r ↔
  keys r = chats ∧ Forall (λ x, x ∈ items) r.
Proof.
  rewrite mapM_Some. split.
  - induction 1 as [|id x chats r Hx _ [IH1 IH2]]; [by split|].
    apply catalogue_lookup in Hx as [? <-]. rewrite keys_cons, IH1. auto.
  - intros [<- Hall]. induction Hall as [|x r Hx _ IH]; constructor; [|done].
    by apply catalogue_lookup.
Qed.

Lemma mapM_total chats :
  Forall (λ id, id ∈ keys items) chats →
  ∃ r, mapM (λ resource, mapBy key_of items !! resource) chats = Some r.
Proof.
  intros Hall. apply mapM_is_Some. eapply Forall_impl; [exact Hall|].
  intros id Hid. unfold keys in Hid. apply list_elem_of_fmap in Hid as (x & -> & Hx).
  exists x. by apply catalogue_lookup.
Qed.

(** The catalogue in the order [chats] asks for. *)
Definition reordered_as (chats : list URI) (l : list ChatSummary) : Prop := keys l = chats ∧ l ≡ₚ items.

Lemma same_keys_permutation chats r :
  keys r = chats → Forall (λ x, x ∈ items) r → chats ≡ₚ keys items → r ≡ₚ items.
Proof.
  intros Hk Hall Hp. subst chats. assert (NoDup (keys r)) as Hr by (by rewrite Hp).
  apply NoDup_Permutation; [by eapply NoDup_fmap_1|by eapply NoDup_fmap_1|].
  intros x. rewrite Forall_forall in Hall. split; [apply Hall|]. intros Hx.
  assert (key_of x ∈ keys r) as Hin by (rewrite Hp; apply list_elem_of_fmap; eauto).
  unfold keys in Hin. apply list_elem_of_fmap in Hin as (y & Hy & Hyr).
  assert (mapBy key_of items !! key_of x = Some x) as H1 by (by apply catalogue_lookup).
  assert (mapBy key_of items !! key_of x = Some y) as H2
    by (apply catalogue_lookup; split; [by apply Hall|done]).
  rewrite H1 in H2. by injection H2 as ->.
Qed.

Lemma reorder_accepts chats :
  chats ≡ₚ keys items → reordered_as chats (reorder_chats items chats ??! items).
Proof.
  intros Hp. unfold reorder_chats. assert (length chats = length items) as Hlen.
  { rewrite Hp. unfold keys. apply length_map. }
  assert (set_size chats = length items) as Hsz.
  { rewrite <- Hlen. apply set_size_NoDup. by rewrite Hp. }
  rewrite Hlen, Hsz, !Nat.eqb_refl. cbn [negb orb].
  destruct (mapM_total chats) as [r Hr]; [apply Forall_forall; intros id; by rewrite Hp|].
  rewrite Hr. cbn [mbind option_bind]. apply catalogue_mapM in Hr as [Hk Hall].
  case_bool_decide as E; simpl.
  - split; [congruence|done].
  - split; [done|]. by eapply same_keys_permutation.
Qed.

Lemma reorder_rejects chats : ¬ chats ≡ₚ keys items → reorder_chats items chats = None.
Proof.
  intros Hp. unfold reorder_chats.
  destruct (Nat.eqb_spec (length chats) (length items)) as [Hlen|]; [|done].
  destruct (Nat.eqb_spec (set_size chats) (length items)) as [Hsz|]; [|done]. cbn [negb orb].
  destruct (mapM _ chats) as [r|] eqn:Hr; [|done]. exfalso. apply Hp.
  apply catalogue_mapM in Hr as [Hk Hall]. apply submseteq_length_Permutation.
  - apply NoDup_submseteq; [apply set_size_NoDup; congruence|]. subst chats. intros id Hid.
    unfold keys in Hid. apply list_elem_of_fmap in Hid as (x & -> & Hx).
    apply list_elem_of_fmap. exists x. split; [done|]. rewrite Forall_forall in Hall. by apply Hall.
  - unfold keys. change (map key_of items) with (key_of <$> items). rewrite length_fmap. lia.
Qed.

End Reorder.

(** ** Replacing a working directory *)

(** [filter_index] with the index counted from [n]. *)
Fixpoint filter_from {A} (n : nat) (p : nat → A → bool) (l : list A) : list A :=
  match l with
  | [] => []
  | x :: l => if p n x then x :: filter_from (S n) p l else filter_from (S n) p l
  end.

Lemma filter_from_spec {A} (p : nat → A → bool) l n :
  map snd (List.filter (λ ix, p ix.1 ix.2) (imap (λ i x, (n + i, x)%nat) l)) = filter_from n p l.
Proof.
  revert n. induction l as [|x l IH]; intros n; [done|]. simpl. rewrite Nat.add_0_r.
  rewrite <- (IH (S n)).
  assert (imap ((λ i y, (n + i, y)%nat) ∘ S) l = imap (λ i y, (S n + i, y)%nat) l) as ->
    by (apply imap_ext; intros; simpl; f_equal; lia).
  by destruct (p n x).
Qed.

Lemma filter_index_from {A} (p : nat → A → bool) l : filter_index p l = filter_from 0 p l.
Proof. apply (filter_from_spec p l 0). Qed.

Lemma filter_from_app {A} (p : nat → A → bool) l1 l2 n :
  filter_from n p (l1 ++ l2) = filter_from n p l1 ++ filter_from (n + length l1) p l2.
Proof.
  revert n. induction l1 as [|x l1 IH]; intros n; simpl; [by rewrite Nat.add_0_r|].
  rewrite IH, Nat.add_succ_comm. by destruct (p n x).
Qed.

Lemma filter_from_ext {A} (p : nat → A → bool) (q : A → bool) l n :
  (∀ i x, (n <= i < n + length l)%nat → p i x = q x) → filter_from n p l = List.filter q l.
Proof.
  revert n. induction l as [|x l IH]; intros n Hpq; [done|]. simpl in *.
  rewrite Hpq by lia. rewrite (IH (S n)) by (intros; apply Hpq; lia). done.
Qed.

Lemma filter_js_all {A} (q : A → bool) l : Forall (λ x, q x = true) l → List.filter q l = l.
Proof. induction 1 as [|x l Hx _ IH]; [done|]. simpl. by rewrite Hx, IH. Qed.

Lemma imap_same {A} (f : nat → A → A) l : (∀ i x, l !! i = Some x → f i x = x) → imap f l = l.
Proof.
  revert f. induction l as [|x l IH]; intros f Hf; [done|]. simpl.
  rewrite (Hf 0%nat x eq_refl). f_equal. apply IH. intros i y Hi. by apply (Hf (S i)).
Qed.

Lemma imap_replace {A} (l1 l2 : list A) x y n :
  length l1 = n → imap (λ i d, if (i =? n)%nat then y else d) (l1 ++ x :: l2) = l1 ++ y :: l2.
Proof.
  intros <-. rewrite imap_app. f_equal.
  - apply imap_same. intros i d Hi%lookup_lt_Some. by rewrite (proj2 (Nat.eqb_neq _ _)) by lia.
  - simpl. rewrite Nat.add_0_r, Nat.eqb_refl. f_equal. apply imap_same.
    intros i d _. simpl. by rewrite (proj2 (Nat.eqb_neq _ _)) by lia.
Qed.

(** What replacing [d] by [r] does to the list: [d] is dropped if [r] is already
    in front of it, otherwise [r] takes its place and is dropped behind it. *)
Lemma replace_directory_split l1 l2 (d r : URI) :
  d ∉ l1 →
  replace_directory (l1 ++ d :: l2) d r =
  Some (if decide (r ∈ l1) then l1 ++ l2 else l1 ++ r :: List.filter (λ x, negb (x =?s r)) l2).
Proof.
  intros Hd. unfold replace_directory.
  assert (findIndex (has_key d) (l1 ++ d :: l2) = Some (length l1)) as Hi.
  { apply findIndex_Some. exists l1, d, l2. split_and!; try done; [by apply has_key_true|].
    apply Forall_has_key_false. unfold keys. by rewrite map_id. }
  rewrite Hi. cbn [mbind option_bind]. f_equal.
  set (keep := filter_index _ (imap _ _)).
  assert (r ∉ l1 → keep = l1 ++ r :: List.filter (λ x, negb (x =?s r)) l2) as Hkeep.
  { intros Hr. unfold keep. rewrite (imap_replace l1 l2 d r) by done.
    rewrite filter_index_from, filter_from_app. simpl. rewrite Nat.eqb_refl. simpl. f_equal.
    - rewrite (filter_from_ext _ (λ x, negb (x =?s r))).
      + apply filter_js_all, Forall_forall. intros x Hx.
        apply negb_true_iff, str_eqb_false. congruence.
      + intros i x Hi'. by rewrite (proj2 (Nat.eqb_neq _ _)) by lia.
    - f_equal. apply filter_from_ext. intros i x Hi'. by rewrite (proj2 (Nat.eqb_neq _ _)) by lia. }
  destruct (findIndex (has_key r) (l1 ++ d :: l2)) as [j|] eqn:Ej.
  - apply findIndex_Some in Ej as (k1 & x & k2 & Hl & Hj & Hx & Hk). apply has_key_true in Hx.
    apply Forall_has_key_false in Hk. unfold keys in Hk. rewrite map_id in Hk.
    unfold key_of, keyed_string in Hx. subst x.
    destruct (Nat.ltb_spec j (length l1)) as [Hlt|Hge].
    + assert (r ∈ l1) as Hr.
      { apply list_elem_of_lookup. exists j. rewrite <- (lookup_app_l l1 (d :: l2)) by done.
        rewrite Hl, <- Hj. by apply list_lookup_middle. }
      rewrite decide_True by done. rewrite filter_index_from, filter_from_app. simpl.
      rewrite Nat.eqb_refl. simpl. f_equal.
      * rewrite (filter_from_ext _ (λ _, true)); [apply filter_js_all; by apply Forall_true|].
        intros i x Hi'. by rewrite (proj2 (Nat.eqb_neq _ _)) by lia.
      * rewrite (filter_from_ext _ (λ _, true)); [apply filter_js_all; by apply Forall_true|].
        intros i x Hi'. by rewrite (proj2 (Nat.eqb_neq _ _)) by lia.
    + assert (r ∉ l1) as Hr.
      { intros Hr. apply Hk. apply (f_equal (take (length l1))) in Hl.
        rewrite take_app_length, take_app_le in Hl by lia. rewrite Hl in Hr.
        apply elem_of_take in Hr as (? & Hin & _). by apply list_elem_of_lookup_2 in Hin. }
      rewrite decide_False by done. by apply Hkeep.
  - apply findIndex_None, Forall_has_key_false in Ej. unfold keys in Ej. rewrite map_id in Ej.
    rewrite decide_False by set_solver. apply Hkeep. set_solver.
Qed.

Lemma replace_directory_absent l (d r : URI) : d ∉ l → replace_directory l d r = None.
Proof.
  intros Hd. unfold replace_directory. apply bind_None. left.
  apply findIndex_None, Forall_has_key_false. unfold keys. by rewrite map_id.
Qed.

Lemma split_first (d : string) l : d ∈ l → ∃ l1 l2, l = l1 ++ d :: l2 ∧ d ∉ l1.
Proof. apply list_elem_of_split_l. Qed.

Lemma NoDup_replace l (d r : URI) l' : NoDup l → replace_directory l d r = Some l' → NoDup l'.
Proof.
  intros Hnd Hr. destruct (decide (d ∈ l)) as [Hd|Hd]; [|by rewrite replace_directory_absent in Hr].
  destruct (split_first d l Hd) as (l1 & l2 & -> & Hd1).
  rewrite replace_directory_split in Hr by done. injection Hr as <-.
  apply NoDup_app in Hnd as (H1 & H12 & [Hd2 H2]%NoDup_cons).
  case_decide as Hr1; apply NoDup_app; split_and!; try done.
  - intros x Hx. specialize (H12 x Hx). set_solver.
  - intros x Hx. rewrite not_elem_of_cons, elem_of_filter_js. specialize (H12 x Hx). set_solver.
  - apply NoDup_cons. split.
    + rewrite elem_of_filter_js, negb_true_iff, str_eqb_false. naive_solver.
    + eapply sublist_NoDup; [exact H2|apply sublist_filter_js].
Qed.

(** ** Invariants of the keyed collections *)

Definition session_keyed (s : SessionState) : Prop :=
  NoDup (keys s.(ss_chats)) ∧ NoDup (keys s.(ss_activeClients)) ∧
  NoDup (s.(ss_workingDirectories) ??! []) ∧ NoDup (keys (s.(ss_inputNeeded) ??! [])).

Lemma keyed_upsert {A} `{Keyed A} (x : A) l :
  NoDup (keys l) → NoDup (keys (upsert (has_key (key_of x)) x l)).
Proof. apply NoDup_keys_upsert. Qed.

Lemma NoDup_snoc (l : list string) x : x ∉ l → NoDup l → NoDup (l ++ [x]).
Proof.
  intros Hx Hl. apply NoDup_app. split_and!; [done| |apply NoDup_singleton]. set_solver.
Qed.

Lemma NoDup_removeFirst p (l l' : list string) : NoDup l → removeFirst p l = Some l' → NoDup l'.
Proof.
  pose proof (NoDup_keys_removeFirst p l l') as Hn. unfold keys in Hn. by rewrite !map_id in Hn.
Qed.

Lemma keyed_chats s : session_keyed s →
  (∀ a, session_keyed (on_SessionChatAdded s a)) ∧ (∀ a, session_keyed (on_SessionChatRemoved s a)) ∧
  (∀ a, session_keyed (on_SessionChatUpdated s a)) ∧ (∀ a, session_keyed (on_SessionChatsReordered s a)).
Proof.
  intros (Hc & Ha & Hw & Hi). split_and!; intros a.
  - split_and!; try done. by apply keyed_upsert.
  - unfold on_SessionChatRemoved. destruct (removeFirst _ _) as [l|] eqn:E; [|done].
    assert (NoDup (keys l)) by (by eapply NoDup_keys_removeFirst).
    case_bool_decide; by split_and!.
  - unfold on_SessionChatUpdated. destruct (findIndex _ _) as [i|]; [|done].
    destruct (ss_chats s !! i) as [x|] eqn:Ex; [|done]. split_and!; try done. simpl.
    by rewrite (keys_insert_same _ i _ x Ex).
  - unfold on_SessionChatsReordered. destruct (reorder_chats _ _) as [l|] eqn:E; [|done].
    split_and!; try done. simpl. set (chats := SessionChatsReordered_chats a) in *.
    destruct (decide (chats ≡ₚ keys (ss_chats s))) as [Hp|Hp].
    + pose proof (reorder_accepts _ Hc chats Hp) as [Hk _]. rewrite E in Hk. simpl in Hk.
      by rewrite Hk, Hp.
    + by rewrite reorder_rejects in E.
Qed.

Lemma keyed_clients s : session_keyed s →
  (∀ a, session_keyed (on_SessionActiveClientSet s a)) ∧
  (∀ a, session_keyed (on_SessionActiveClientRemoved s a)).
Proof.
  intros (Hc & Ha & Hw & Hi). split; intros a.
  - split_and!; try done. by apply keyed_upsert.
  - unfold on_SessionActiveClientRemoved. destruct (removeFirst _ _) as [l|] eqn:E; [|done].
    split_and!; try done. by eapply NoDup_keys_removeFirst.
Qed.

Lemma keyed_directories s : session_keyed s →
  (∀ a, session_keyed (on_SessionWorkingDirectorySet s a)) ∧
  (∀ a, session_keyed (on_SessionWorkingDirectoryRemoved s a)) ∧
  (∀ a, session_keyed (on_SessionWorkingDirectoryReplaced s a)).
Proof.
  intros Hs. pose proof Hs as (Hc & Ha & Hw & Hi). split_and!; intros a.
  - unfold on_SessionWorkingDirectorySet. destruct (includes _ _) eqn:E; [done|].
    split_and!; try done. simpl. apply NoDup_snoc; [by apply includes_false|done].
  - unfold on_SessionWorkingDirectoryRemoved. destruct (ss_workingDirectories s) as [l|] eqn:El; [|done].
    destruct (removeFirst _ _) as [l'|] eqn:E; [|done]. split_and!; try done. simpl in *.
    exact (NoDup_removeFirst _ _ _ Hw E).
  - unfold on_SessionWorkingDirectoryReplaced.
    destruct (ss_workingDirectories s) as [l|] eqn:El; simpl; [|done].
    destruct (replace_directory _ _ _) as [l'|] eqn:E; [|done]. split_and!; try done.
    exact (NoDup_replace _ _ _ _ Hw E).
Qed.

Lemma keyed_input s : session_keyed s →
  (∀ a, session_keyed (on_SessionInputNeededSet s a)) ∧
  (∀ a, session_keyed (on_SessionInputNeededRemoved s a)).
Proof.
  intros Hs. pose proof Hs as (Hc & Ha & Hw & Hi). split; intros a.
  - split_and!; try done. by apply keyed_upsert.
  - unfold on_SessionInputNeededRemoved. destruct (ss_inputNeeded s) as [l|]; [|done]. simpl.
    destruct (removeFirst _ _) as [l'|] eqn:E; [|done]. split_and!; try done. simpl.
    rewrite non_empty_list_default. by eapply NoDup_keys_removeFirst.
Qed.

(** The actions on customizations change nothing else. *)
Lemma with_customizations_frame s l :
  with_customizations s l = s <| ss_customizations := l ?? s.(ss_customizations) |>.
Proof. destruct l; [done|]. by destruct s. Qed.

Lemma updateMcp_frame s id f :
  ∃ l, updateMcpServerCustomization s id f = s <| ss_customizations := l |>.
Proof.
  assert (∃ l, s = s <| ss_customizations := l |>) as Hs by (exists (ss_customizations s); by destruct s).
  unfold updateMcpServerCustomization. destruct (ss_customizations s) as [l|]; [|done].
  destruct (findIndex _ _) as [i|].
  - destruct (l !! i) as [[?|?|?]|]; try done. by eexists.
  - rewrite with_customizations_frame. by eexists.
Qed.

(** ** The input queue and the status *)

#[local] Arguments withInputNeededStatus : simpl never.
#[local] Arguments Z.testbit : simpl never.

(** The requests only the user can answer: all but the tool executions a client runs. *)
Definition needs_user (r : SessionInputRequest) : bool :=
  match r with
  | SessionInputRequest_ChatInput _ | SessionInputRequest_ToolConfirmation _
  | SessionInputRequest_ToolAuthentication _ => true
  | SessionInputRequest_ToolClientExecution _ => false
  end.

Definition awaiting (s : SessionState) : bool := existsb needs_user (s.(ss_inputNeeded) ??! []).

Lemma awaitsUser_spec l : existsb awaitsUser l = existsb needs_user l.
Proof. induction l as [|[] l IH]; simpl; congruence. Qed.

(** Bit 4 is set exactly when an entry of the queue awaits the user, and then
    bit 3 (in progress) is set too. *)
Definition input_coherent (s : SessionState) : Prop :=
  Z.testbit s.(ss_status) 4 = awaiting s ∧ (awaiting s = true → Z.testbit s.(ss_status) 3 = true).

Lemma testbit_flag_low status flag n set i :
  flag = 2 ^ n → 5 <= n < 31 → 0 <= i < 5 →
  Z.testbit (withStatusFlag status flag set) i = Z.testbit status i.
Proof.
  intros -> Hn Hi. unfold withStatusFlag.
  destruct set; autorewrite with bits32; rewrite Z.pow2_bits_false by lia; simpl;
    by rewrite ?orb_false_r, ?andb_true_r.
Qed.

(** [withInputNeededStatus], bit by bit. *)
Lemma testbit_inputNeeded status l i :
  0 <= i < 32 →
  Z.testbit (withInputNeededStatus status l) i =
  if existsb needs_user l
  then (if decide (i < 5) then Z.testbit SessionStatus.InputNeeded i else Z.testbit status i)
  else (if decide (i = 4) then false else Z.testbit status i).
Proof.
  intros Hi. unfold withInputNeededStatus. rewrite awaitsUser_spec.
  change (and32 SessionStatus.InputNeeded (not32 SessionStatus.InProgress)) with (2 ^ 4).
  change STATUS_ACTIVITY_MASK with (Z.ones 5).
  destruct (existsb needs_user l); autorewrite with bits32.
  - case_decide.
    + rewrite Z.ones_spec_low by lia. by rewrite andb_false_r.
    + rewrite Z.ones_spec_high by lia. change SessionStatus.InputNeeded with (24 mod 2 ^ 5).
      by rewrite Z.mod_pow2_bits_high, andb_true_r, orb_false_r by lia.
  - rewrite Z.pow2_bits_eqb by lia. case_decide; destruct (Z.eqb_spec 4 i); try lia;
      by rewrite ?andb_false_r, ?andb_true_r.
Qed.

Lemma input_same s s' :
  ss_inputNeeded s' = ss_inputNeeded s →
  (∀ i, 0 <= i < 5 → Z.testbit (ss_status s') i = Z.testbit (ss_status s) i) →
  input_coherent s → input_coherent s'.
Proof. unfold input_coherent, awaiting. intros -> Hb. by rewrite !Hb by lia. Qed.

Lemma input_set s a : input_coherent (on_SessionInputNeededSet s a).
Proof.
  unfold input_coherent, awaiting. simpl. rewrite !testbit_inputNeeded by lia.
  destruct (existsb _ _); by split.
Qed.

Lemma input_removed s a : input_coherent s → input_coherent (on_SessionInputNeededRemoved s a).
Proof.
  unfold on_SessionInputNeededRemoved. destruct (_ ≫= _) as [l|]; [|done]. intros _.
  unfold input_coherent, awaiting. simpl. rewrite non_empty_list_default, !testbit_inputNeeded by lia.
  destruct (existsb _ _); by split.
Qed.

(** ** The shape of the customization tree *)

Definition mcp_shape (x : McpServerCustomization) : string * list string :=
  (x.(mcps_base).(cb_id), keys (x.(mcps_children) ??! [])).

Definition child_shape (c : ChildCustomization) : string * list string :=
  match c with ChildCustomization_McpServer x => mcp_shape x | _ => (child_id c, []) end.

(** The identifiers of a customization, its children and their skills, in order. *)
Definition shape (c : Customization) : string * list (string * list string) :=
  match c with
  | Customization_McpServer x => (customization_id c, [mcp_shape x])
  | _ => (customization_id c, map child_shape (container_children c ??! []))
  end.

Definition tree_shape (s : SessionState) : list (string * list (string * list string)) :=
  map shape (s.(ss_customizations) ??! []).

Section MapSame.
Context {A B : Type} (g : A → B).

Lemma map_insert_same l i x y : l !! i = Some x → g y = g x → map g (<[i := y]> l) = map g l.
Proof.
  intros Hi Hg. change (map g ?k) with (g <$> k). rewrite list_fmap_insert, Hg.
  apply list_insert_id. by rewrite list_lookup_fmap, Hi.
Qed.

Lemma map_replaceFirst_same f l l' :
  (∀ x y, f x = Some y → g y = g x) → replaceFirst f l = Some l' → map g l' = map g l.
Proof.
  intros Hf. revert l'. induction l as [|x l IH]; intros l'; simpl; [done|].
  destruct (f x) as [y|] eqn:E.
  - intros [= <-]. simpl. by rewrite (Hf x y).
  - destruct (replaceFirst f l) as [k|]; simpl; [|done]. intros [= <-]. simpl. by rewrite (IH k).
Qed.

Lemma map_changed_same f l l' :
  (∀ x y, f x = Some y → g y = g x) → map_changed f l = Some l' → map g l' = map g l.
Proof.
  intros Hf. unfold map_changed. destruct (existsb _ l); [|done]. intros [= <-].
  rewrite map_map. apply map_ext. intros x. destruct (f x) as [y|] eqn:E; simpl; [by apply Hf|done].
Qed.
End MapSame.

Lemma shape_update_children f c c' :
  (∀ l l', f l = Some l' → map child_shape l' = map child_shape l) →
  update_children f c = Some c' → shape c' = shape c.
Proof.
  intros Hf. unfold update_children. destruct (container_children c) as [l|] eqn:El; [|done]. simpl.
  destruct (f l) as [l'|] eqn:Ef; [|done]. intros [= <-].
  destruct c; simpl in *; try done; by rewrite El, (Hf _ _ Ef).
Qed.

(** Updates of an MCP server that keep its id and its skills. *)
Definition keeps_shape (f : McpServerCustomization → McpServerCustomization) : Prop :=
  ∀ x, mcp_shape (f x) = mcp_shape x.

Lemma shape_update_mcp_child id f l l' :
  keeps_shape f → update_mcp_child id f l = Some l' → map child_shape l' = map child_shape l.
Proof.
  intros Hf. unfold update_mcp_child. intros (i & _ & (c & Hc & Hl)%bind_Some)%bind_Some.
  destruct c; try done. injection Hl as <-. eapply map_insert_same; [done|]. apply Hf.
Qed.

Lemma tree_updateMcp s id f :
  keeps_shape f → tree_shape (updateMcpServerCustomization s id f) = tree_shape s.
Proof.
  intros Hf. unfold updateMcpServerCustomization.
  destruct (ss_customizations s) as [l|] eqn:El; [|done].
  destruct (findIndex _ _) as [i|].
  - destruct (l !! i) as [[?|?|x]|] eqn:Ei; try done. simpl. unfold tree_shape. simpl. rewrite El. simpl.
    eapply map_insert_same; [done|]. simpl. specialize (Hf x). unfold mcp_shape in *. simplify_eq.
    congruence.
  - destruct (map_changed _ l) as [l'|] eqn:Em; [|done]. simpl. unfold tree_shape. rewrite El. simpl.
    eapply map_changed_same; [|done]. intros c c'. apply shape_update_children.
    intros k k'. by apply shape_update_mcp_child.
Qed.

Lemma shape_skill server id e server' :
  toggleMcpServerSkill server id e = Some server' → mcp_shape server' = mcp_shape server.
Proof.
  unfold toggleMcpServerSkill.
  intros (l & Hl & (i & _ & (sk & Hsk & [= <-])%bind_Some)%bind_Some)%bind_Some.
  unfold mcp_shape. simpl. rewrite Hl. simpl. f_equal. by apply (keys_insert_same _ i _ sk).
Qed.

Lemma shape_child_enablement c e : child_shape (applyChildEnablement c e) = child_shape c.
Proof. by destruct c. Qed.

Lemma shape_toggle_children id e l l' :
  toggle_children id e l = Some l' → map child_shape l' = map child_shape l.
Proof.
  unfold toggle_children. destruct (findIndex _ l) as [i|].
  - destruct (l !! i) as [c|] eqn:Ei; [|done]. intros [= <-].
    eapply map_insert_same; [done|]. apply shape_child_enablement.
  - apply map_replaceFirst_same. intros c c'. destruct c; try done. simpl.
    destruct (toggleMcpServerSkill _ _ _) as [x'|] eqn:Ex; [|done]. intros [= <-].
    by eapply shape_skill.
Qed.

Lemma shape_toggle_nested id e c c' : toggle_nested id e c = Some c' → shape c' = shape c.
Proof.
  destruct c as [x|x|x]; simpl; try (apply shape_update_children, shape_toggle_children).
  destruct (toggleMcpServerSkill x id e) as [x'|] eqn:Ex; [|done]. intros [= <-].
  apply shape_skill in Ex. simpl. rewrite Ex. unfold mcp_shape in Ex. simplify_eq. congruence.
Qed.

Lemma shape_toggle id e l l' :
  toggle_customizations id e l = Some l' → map shape l' = map shape l.
Proof.
  unfold toggle_customizations. destruct (findIndex _ l) as [i|].
  - destruct (l !! i) as [c|] eqn:Ei; [|done]. intros [= <-].
    eapply map_insert_same; [done|]. by destruct c.
  - apply map_replaceFirst_same. intros c c'. apply shape_toggle_nested.
Qed.

Lemma tree_toggled s a : tree_shape (on_SessionCustomizationToggled s a) = tree_shape s.
Proof.
  unfold on_SessionCustomizationToggled. rewrite with_customizations_frame. unfold tree_shape. simpl.
  destruct (ss_customizations s) as [l|]; [|done]. simpl.
  destruct (toggle_customizations _ _ l) as [l'|] eqn:E; [|done]. by eapply shape_toggle.
Qed.

Lemma keeps_mcp_state st ch : keeps_shape (set_mcp_state st ch).
Proof. done. Qed.

Lemma keeps_background : keeps_shape background_mcp.
Proof. intros x. unfold background_mcp. destruct (mcps_state x); try done. by destruct (truthy _). Qed.

(** ** Separation: the actions on customizations change nothing else *)

Definition edits_customizations (a : SessionAction) : bool :=
  match a with
  | SessionCustomizationsChanged _ | SessionCustomizationToggled _ | SessionCustomizationUpdated _
  | SessionCustomizationRemoved _ | SessionMcpServerStateChanged _
  | SessionMcpServerStartRequested _ | SessionMcpServerStopRequested _
  | SessionMcpServerBackgroundRequested _ => true
  | _ => false
  end.

Lemma customization_step s a s' :
  session_step s a s' → edits_customizations a = true → ∃ l, s' = s <| ss_customizations := l |>.
Proof.
  intros <-. destruct a; intros E; try discriminate E; try (by eexists).
  - exists ((ss_customizations s ≫= toggle_customizations (SessionCustomizationToggled_id a)
      (SessionCustomizationToggled_enablement a)) ?? ss_customizations s).
    apply with_customizations_frame.
  - eexists. apply with_customizations_frame.
  - apply updateMcp_frame.
  - apply updateMcp_frame.
  - apply updateMcp_frame.
  - apply updateMcp_frame.
Qed.
