(* ===== verification/SessionProperties.v ===== *)
(** * What the session reducer guarantees *)

From S2P Require Import Prelude KeyedList JsNumber CommonState ChatState SessionState SessionActions SessionReducer SessionLemmas.
Local Open Scope Z_scope.

(** ** A concrete session for the instances *)

Module SampleSession.
Definition chat (resource : string) : ChatSummary :=
    mkChatSummary resource "Chat" SessionStatus.Idle None "2025-03-01T10:00:00.000Z" None None None None
      (Some "copilot") None.
Definition with_chats (chats : list ChatSummary) (default : option URI) : SessionState :=
    mkSessionState "copilot" "Session" SessionStatus.InProgress None None None None None
      SessionLifecycle_Ready None None [] chats default None None None None None.
Definition request (id : string) : SessionInputRequest :=
    SessionInputRequest_ChatInput (mkSessionChatInputRequest (mkSessionInputRequestBase id "chat:/1")
      (mkChatInputRequest id None None None None)).
Definition server (id : string) : McpServerCustomization :=
    mkMcpServerCustomization (mkCustomizationBase id ("mcp:/" +:+ id) id None None None) None
      (McpServerState_Ready mkMcpServerReadyState) None None None.
End SampleSession.

Ltac solve_NoDup :=
  apply NoDup_ListNoDup; repeat constructor; simpl; intuition discriminate.

(** ** The collections *)

(** C26: Chats stay keyed by resource, active clients by client id and input
    requests by id, and no working directory occurs twice: every session action
    preserves this. *)
Theorem session_collections_keyed s a s' : session_step s a s' → session_keyed s → session_keyed s'.
Proof.
  intros Hs Hk. destruct (edits_customizations a) eqn:E.
  { by destruct (customization_step s a s' Hs E) as [l ->]. }
  unfold session_step in Hs. destruct a; try discriminate E; subst s'; try exact Hk;
    try (by apply keyed_chats); try (by apply keyed_clients); try (by apply keyed_directories);
    try (by apply keyed_input).
  simpl. unfold on_SessionConfigChanged. by destruct (ss_config s).
Qed.

Lemma session_collections_keyed_witness :
  session_keyed (SampleSession.with_chats (map SampleSession.chat ["chat:/1"; "chat:/2"]) None).
Proof.
  refine (session_collections_keyed (SampleSession.with_chats (map SampleSession.chat ["chat:/1"]) None)
    (SessionChatAdded (mkSessionChatAddedAction (SampleSession.chat "chat:/2"))) _ eq_refl _).
  split_and!; solve_NoDup.
Defined.

(** C24: The chat catalogue is an ordered map from resource to summary: adding a
    chat inserts it (in place when its resource is known, at the end otherwise);
    removing one deletes exactly it, and forgets the default chat exactly when it
    was the removed one; removing an unknown chat changes nothing. *)
Theorem chat_catalogue_ordered_map s a s' :
  NoDup (keys (ss_chats s)) → session_step s a s' →
  match a with
  | SessionChatAdded x =>
      ordered_map (ss_chats s') = om_insert x.(SessionChatAdded_summary) (ordered_map (ss_chats s)) ∧
      ss_defaultChat s' = ss_defaultChat s
  | SessionChatRemoved x =>
      let chat := x.(SessionChatRemoved_chat) in
      if decide (chat ∈ keys (ss_chats s))
      then ordered_map (ss_chats s') = om_delete chat (ordered_map (ss_chats s)) ∧
           ss_defaultChat s' = (d ← ss_defaultChat s; if decide (d = chat) then None else Some d)
      else s' = s
  | _ => True
  end.
Proof.
  unfold session_step. intros Hnd <-. destruct a; try done; simpl.
  - split; [by apply ordered_map_upsert|done].
  - unfold on_SessionChatRemoved. destruct (removeFirst _ _) as [l|] eqn:E.
    + destruct (ordered_map_removeFirst _ _ _ Hnd E) as [Hin Ho]. rewrite decide_True by done.
      case_bool_decide as Ed; simpl; (split; [done|]).
      * rewrite Ed. simpl. by rewrite decide_True.
      * destruct (ss_defaultChat s) as [d|]; [|done]. simpl. rewrite decide_False; [done|congruence].
    + rewrite decide_False by (by apply removeFirst_key_None). done.
Qed.

Lemma chat_catalogue_ordered_map_witness :
  let s := SampleSession.with_chats (map SampleSession.chat ["chat:/1"; "chat:/2"]) (Some "chat:/1") in
  let s' := SampleSession.with_chats (map SampleSession.chat ["chat:/2"]) None in
  ordered_map (ss_chats s') = om_delete "chat:/1" (ordered_map (ss_chats s)).
Proof.
  intros s s'. refine (proj1 (chat_catalogue_ordered_map s
    (SessionChatRemoved (mkSessionChatRemovedAction "chat:/1")) s' _ eq_refl)). solve_NoDup.
Defined.

(** C25: Reordering is all or nothing: a list that is a permutation of the
    catalogue's resources puts the catalogue in that order, with every summary
    unchanged; any other list (a chat missing, unknown or repeated) is ignored. *)
Theorem chats_reordered_exact s chats s' :
  NoDup (keys (ss_chats s)) →
  session_step s (SessionChatsReordered (mkSessionChatsReorderedAction chats)) s' →
  (chats ≡ₚ keys (ss_chats s) →
   keys (ss_chats s') = chats ∧ ss_chats s' ≡ₚ ss_chats s) ∧
  (¬ chats ≡ₚ keys (ss_chats s) → s' = s).
Proof.
  unfold session_step. intros Hnd <-. simpl. unfold on_SessionChatsReordered. simpl. split; intros Hp.
  - pose proof (reorder_accepts _ Hnd chats Hp) as [Hk Hl].
    by destruct (reorder_chats (ss_chats s) chats).
  - by rewrite reorder_rejects.
Qed.

Lemma chats_reordered_exact_witness :
  let s := SampleSession.with_chats (map SampleSession.chat ["a"; "b"; "c"]) None in
  let s' := SampleSession.with_chats (map SampleSession.chat ["c"; "a"; "b"]) None in
  keys (ss_chats s') = ["c"; "a"; "b"] ∧ ss_chats s' ≡ₚ ss_chats s.
Proof.
  intros s s'. refine (proj1 (chats_reordered_exact s ["c"; "a"; "b"] s' _ eq_refl) _); [solve_NoDup|].
  change (keys (ss_chats s)) with ["a"; "b"; "c"]. apply (Permutation_app_comm ["c"] ["a"; "b"]).
Defined.

(** C28: Updating a chat of the catalogue changes at most the first summary with
    that resource, and never its resource or its provider. *)
Theorem chat_update_local s chat changes s' :
  session_step s (SessionChatUpdated (mkSessionChatUpdatedAction chat changes)) s' →
  keys (ss_chats s') = keys (ss_chats s) ∧
  map csum_provider (ss_chats s') = map csum_provider (ss_chats s) ∧
  s' = s <| ss_chats := ss_chats s' |> ∧
  ∀ i x, ss_chats s !! i = Some x → (csum_resource x ≠ chat ∨ chat ∈ keys (take i (ss_chats s))) →
    ss_chats s' !! i = Some x.
Proof.
  unfold session_step. intros <-. simpl. unfold on_SessionChatUpdated. simpl.
  destruct (findIndex _ _) as [j|] eqn:Ej; [|repeat split; [by destruct s|done]].
  apply findIndex_Some in Ej as (l1 & y & l2 & Hl & Hj & Hy & Hl1). apply has_key_true in Hy.
  assert (ss_chats s !! j = Some y) as Hsj by (rewrite Hl; by apply list_lookup_middle).
  rewrite Hsj. split_and!.
  - by apply (keys_insert_same _ j _ y).
  - by apply (map_insert_same csum_provider _ j y).
  - done.
  - intros i x Hi Hx. simpl. destruct (decide (i = j)) as [->|]; [|by rewrite list_lookup_insert_ne].
    exfalso. rewrite Hsj in Hi. injection Hi as <-. destruct Hx as [Hx|Hx]; [done|].
    apply Forall_has_key_false in Hl1. rewrite Hl, <- Hj, take_app_length in Hx. done.
Qed.

Definition retitle (title : string) : PartialChatSummary :=
  mkPartialChatSummary (Some "chat:/other") (Some title) None None None None None None None
    (Some "other") None.

Lemma chat_update_local_witness :
  let s := SampleSession.with_chats (map SampleSession.chat ["a"; "b"]) None in
  let s' := SampleSession.with_chats
    [SampleSession.chat "a"; merge_summary (SampleSession.chat "b") (retitle "New")] None in
  keys (ss_chats s') = keys (ss_chats s) ∧ map csum_provider (ss_chats s') = map csum_provider (ss_chats s).
Proof.
  intros s s'. destruct (chat_update_local s "b" (retitle "New") s' eq_refl) as (H1 & H2 & _).
  exact (conj H1 H2).
Defined.

(** C27: Replacing a working directory keeps its place and the order of all
    others, and leaves the replacement in the list once: it takes the place of
    the first occurrence of the directory and is dropped behind it, unless it
    already stands in front, where it then stays while the directory is dropped.
    An absent directory or list: no change. *)
Theorem working_directory_replaced s (d r : URI) s' :
  session_step s
    (SessionWorkingDirectoryReplaced (mkSessionWorkingDirectoryReplacedAction d r)) s' →
  (∀ l, ss_workingDirectories s = Some l → d ∈ l →
     ∃ before after, l = before ++ d :: after ∧ d ∉ before ∧
       ss_workingDirectories s' =
         Some (if decide (r ∈ before) then before ++ after
               else before ++ r :: List.filter (λ x, negb (x =?s r)) after)) ∧
  ((∀ l, ss_workingDirectories s = Some l → d ∉ l) → s' = s).
Proof.
  unfold session_step. intros <-. simpl. unfold on_SessionWorkingDirectoryReplaced. simpl. split.
  - intros l Hl Hd. destruct (split_first d l Hd) as (l1 & l2 & -> & Hd1). rewrite Hl. simpl.
    rewrite replace_directory_split by done. by exists l1, l2.
  - intros Hd. destruct (ss_workingDirectories s) as [l|]; [|done]. simpl.
    by rewrite replace_directory_absent by auto.
Qed.

Definition in_directories (l : list URI) : SessionState :=
  (SampleSession.with_chats [] None) <| ss_workingDirectories := Some l |>.

Lemma working_directory_replaced_witness :
  ∃ before after, ["/a"; "/b"; "/c"] = before ++ "/b" :: after ∧ "/b" ∉ before ∧
    Some ["/a"; "/c"] =
      Some (if decide ("/c" ∈ before) then before ++ after
            else before ++ "/c" :: List.filter (λ x, negb (x =?s "/c")) after).
Proof.
  refine (proj1 (working_directory_replaced (in_directories ["/a"; "/b"; "/c"]) "/b" "/c"
    (in_directories ["/a"; "/c"]) eq_refl) _ eq_refl _). set_solver.
Defined.

(** ** Input needed *)

(** C10: The session shows "input needed" (bit 4 of its status) exactly while an
    entry of its input queue awaits the user, work delegated to a client not
    counting, and is then also "in progress"; every action preserves this. *)
Theorem input_needed_coherent s a s' : session_step s a s' → input_coherent s → input_coherent s'.
Proof.
  intros Hs Hc. destruct (edits_customizations a) eqn:E.
  { by destruct (customization_step s a s' Hs E) as [l ->]. }
  unfold session_step in Hs. destruct a; try discriminate E; subst s'; try exact Hc.
  - simpl. unfold on_SessionChatRemoved. destruct (removeFirst _ _); [|done]. by case_bool_decide.
  - simpl. unfold on_SessionChatUpdated. destruct (findIndex _ _); [|done]. by destruct (_ !! _).
  - simpl. unfold on_SessionChatsReordered. by destruct (reorder_chats _ _).
  - simpl. unfold on_SessionActiveClientRemoved. by destruct (removeFirst _ _).
  - simpl. unfold on_SessionWorkingDirectorySet. by destruct (includes _ _).
  - simpl. unfold on_SessionWorkingDirectoryRemoved. destruct (ss_workingDirectories s); [|done].
    by destruct (removeFirst _ _).
  - simpl. unfold on_SessionWorkingDirectoryReplaced. by destruct (_ ≫= _).
  - apply input_set.
  - by apply input_removed.
  - apply (input_same s); [done| |done]. intros i Hi. by apply (testbit_flag_low _ _ 5).
  - apply (input_same s); [done| |done]. intros i Hi. by apply (testbit_flag_low _ _ 6).
  - simpl. unfold on_SessionConfigChanged. by destruct (ss_config s).
Qed.

Lemma input_needed_coherent_witness :
  let s := SampleSession.with_chats [] None in
  let ask := SessionInputNeededSet (mkSessionInputNeededSetAction (SampleSession.request "r-1")) in
  let done := SessionInputNeededRemoved (mkSessionInputNeededRemovedAction "r-1") in
  let s1 := val (sessionReducer s ask) in
  ss_status s1 = 24 ∧ ss_status (val (sessionReducer s1 done)) = 8 ∧ input_coherent s1.
Proof.
  intros s ask done s1. split; [reflexivity|]. split; [reflexivity|].
  refine (input_needed_coherent s ask s1 eq_refl _). by split.
Defined.

(** ** Customizations *)

(** The actions that address an existing customization without replacing it. *)
Definition adjusts_customization (a : SessionAction) : bool :=
  match a with
  | SessionCustomizationToggled _ | SessionMcpServerStateChanged _
  | SessionMcpServerStartRequested _ | SessionMcpServerStopRequested _
  | SessionMcpServerBackgroundRequested _ => true
  | _ => false
  end.

(** C15: Toggling a customization and driving an MCP server (state reports, start,
    stop and background requests) leave the customization tree in place: the
    identifiers of customizations, children and skills keep their positions, and
    nothing of the session outside the customizations changes. *)
Theorem customization_tree_stable s a s' :
  session_step s a s' → adjusts_customization a = true →
  tree_shape s' = tree_shape s ∧ ∃ l, s' = s <| ss_customizations := l |>.
Proof.
  intros Hs Ha. split; [|by apply (customization_step s a); [|by destruct a]].
  unfold session_step in Hs. destruct a; try discriminate Ha; subst s'.
  - apply tree_toggled.
  - apply tree_updateMcp, keeps_mcp_state.
  - apply tree_updateMcp, keeps_mcp_state.
  - apply tree_updateMcp, keeps_mcp_state.
  - apply tree_updateMcp, keeps_background.
Qed.

Lemma customization_tree_stable_witness :
  let s := (SampleSession.with_chats [] None) <| ss_customizations :=
    Some [Customization_McpServer (SampleSession.server "s1"); Customization_McpServer (SampleSession.server "s2")] |> in
  let a := SessionMcpServerStopRequested (mkSessionMcpServerStopRequestedAction "s2") in
  let s' := val (sessionReducer s a) in
  tree_shape s' = [("s1", [("s1", [])]); ("s2", [("s2", [])])] ∧ s' ≠ s.
Proof.
  intros s a s'. split; [|discriminate].
  exact (proj1 (customization_tree_stable s a s' eq_refl eq_refl)).
Defined.
