(* ===== verification/Root.v ===== *)
(** * The root channel: types/channels-root/ *)

From S2P Require Import Prelude ReducerHelpers JsNumber CommonState Annotations Changeset Canvas ChatState SessionState Terminal.
Local Open Scope Z_scope.

(** [PolicyState]: types/channels-root/state.ts:25-29. *)
Inductive PolicyState :=
| PolicyState_Enabled
| PolicyState_Disabled
| PolicyState_Unconfigured.
#[export] Instance PolicyState_eq_dec : EqDecision PolicyState.
Proof. solve_decision. Defined.

(** [MultipleChatsCapability]: types/channels-root/state.ts:136-157. *)
Record MultipleChatsCapability := mkMultipleChatsCapability {
  MultipleChatsCapability_fork : option bool;
  MultipleChatsCapability_sideChat : option bool
}.

(** [MultipleWorkingDirectoriesCapability]: types/channels-root/state.ts:164-196. *)
Record MultipleWorkingDirectoriesCapability := mkMultipleWorkingDirectoriesCapability {
  MultipleWorkingDirectoriesCapability_immutablePrimary : option bool;
  MultipleWorkingDirectoriesCapability_primaryReplacement : option bool
}.

(** [AgentCapabilities]: types/channels-root/state.ts:108-129. *)
Record AgentCapabilities := mkAgentCapabilities {
  AgentCapabilities_multipleChats : option MultipleChatsCapability;
  AgentCapabilities_multipleWorkingDirectories : option MultipleWorkingDirectoriesCapability
}.

(** [SessionModelInfo]: types/channels-root/state.ts:201-241. *)
Record SessionModelInfo := mkSessionModelInfo {
  SessionModelInfo_id : string;
  SessionModelInfo_provider : string;
  SessionModelInfo_name : string;
  SessionModelInfo_maxContextWindow : option Z;
  SessionModelInfo_maxOutputTokens : option Z;
  SessionModelInfo_maxPromptTokens : option Z;
  SessionModelInfo_supportsVision : option bool;
  SessionModelInfo_policyState : option PolicyState;
  SessionModelInfo_configSchema : option ConfigSchema;
  SessionModelInfo_meta : option Meta;
  SessionModelInfo_vendor : option string
}.

(** [AgentInfo]: types/channels-root/state.ts:56-97. *)
Record AgentInfo := mkAgentInfo {
  AgentInfo_provider : string;
  AgentInfo_displayName : string;
  AgentInfo_description : string;
  AgentInfo_models : list SessionModelInfo;
  AgentInfo_protectedResources : option (list ProtectedResourceMetadata);
  AgentInfo_customizations : option (list Customization);
  AgentInfo_capabilities : option AgentCapabilities
}.

(** [RootConfigState]: types/channels-root/state.ts:271-276. *)
Record RootConfigState := mkRootConfigState {
  rcs_schema : ConfigSchema;
  rcs_values : Meta
}.
#[export] Instance eta_RootConfigState : Eta RootConfigState :=
  λ r, mkRootConfigState r.(rcs_schema) r.(rcs_values).

(** [RootState]: types/channels-root/state.ts:36-51. *)
Record RootState := mkRootState {
  rs_agents : list AgentInfo;
  rs_activeSessions : option Z;
  rs_terminals : option (list TerminalInfo);
  rs_config : option RootConfigState;
  rs_meta : option Meta
}.
#[export] Instance eta_RootState : Eta RootState :=
  λ r, mkRootState r.(rs_agents) r.(rs_activeSessions) r.(rs_terminals) r.(rs_config) r.(rs_meta).

(** [RootAgentsChangedAction]: types/channels-root/actions.ts:19-23. *)
Record RootAgentsChangedAction := mkRootAgentsChangedAction {
  RootAgentsChanged_agents : list AgentInfo
}.

(** [RootActiveSessionsChangedAction]: types/channels-root/actions.ts:31-35. *)
Record RootActiveSessionsChangedAction := mkRootActiveSessionsChangedAction {
  RootActiveSessionsChanged_activeSessions : Z
}.

(** [RootTerminalsChangedAction]: types/channels-root/actions.ts:46-50. *)
Record RootTerminalsChangedAction := mkRootTerminalsChangedAction {
  RootTerminalsChanged_terminals : list TerminalInfo
}.

(** [RootConfigChangedAction]: types/channels-root/actions.ts:62-68. *)
Record RootConfigChangedAction := mkRootConfigChangedAction {
  RootConfigChanged_config : Meta;
  RootConfigChanged_replace : option bool
}.

(** [RootAction]: types/action-origin.generated.ts:121-126.  The last constructor is any
    action whose [type] this version does not know, given by its
    [JSON.stringify] text. *)
Inductive RootAction :=
| RootAgentsChanged (a : RootAgentsChangedAction)
| RootActiveSessionsChanged (a : RootActiveSessionsChangedAction)
| RootTerminalsChanged (a : RootTerminalsChangedAction)
| RootConfigChanged (a : RootConfigChangedAction)
| UnknownRootAction (stringified : string).

(** ** The reducer: types/channels-root/reducer.ts *)

Definition on_RootConfigChanged (state : RootState) (action : RootConfigChangedAction) : RootState :=
  match state.(rs_config) with
  | None => state
  | Some config =>
      state <| rs_config := Some (config <| rcs_values :=
        if truthy action.(RootConfigChanged_replace) then action.(RootConfigChanged_config)
        else spread config.(rcs_values) action.(RootConfigChanged_config) |>) |>
  end.

Definition rootReducer (state : RootState) (action : RootAction) : Logged RootState :=
  match action with
  | RootAgentsChanged a => mret (state <| rs_agents := a.(RootAgentsChanged_agents) |>)
  | RootActiveSessionsChanged a =>
      mret (state <| rs_activeSessions := Some a.(RootActiveSessionsChanged_activeSessions) |>)
  | RootTerminalsChanged a =>
      mret (state <| rs_terminals := Some a.(RootTerminalsChanged_terminals) |>)
  | RootConfigChanged a => mret (on_RootConfigChanged state a)
  | UnknownRootAction stringified => _ ← softAssertNever stringified; mret state
  end.
