(* ===== verification/Automation.v ===== *)
(** * The automation channels: types/channels-automation/ and types/channels-automation-run/ *)

From S2P Require Import Prelude ReducerHelpers JsNumber CommonState Annotations Changeset Canvas ChatState SessionState Terminal Root.
Local Open Scope Z_scope.

(** [AutomationOperation]: types/channels-automation/state.ts:49-56. *)
Inductive AutomationOperation :=
| AutomationOperation_Update
| AutomationOperation_Remove
| AutomationOperation_Run.
#[export] Instance AutomationOperation_eq_dec : EqDecision AutomationOperation.
Proof. solve_decision. Defined.

(** [AutomationSchedule]: types/channels-automation/state.ts:88-96. *)
Record AutomationSchedule := mkAutomationSchedule {
  AutomationSchedule_expression : string;
  AutomationSchedule_timeZone : string
}.

(** [AutomationMisfirePolicy]: types/channels-automation/state.ts:105-113. *)
Inductive AutomationMisfirePolicy :=
| AutomationMisfirePolicy_Skip
| AutomationMisfirePolicy_RunOnce.
#[export] Instance AutomationMisfirePolicy_eq_dec : EqDecision AutomationMisfirePolicy.
Proof. solve_decision. Defined.

(** [AutomationScheduleTrigger]: types/channels-automation/state.ts:133-148. *)
Record AutomationScheduleTrigger := mkAutomationScheduleTrigger {
  AutomationScheduleTrigger_id : string;
  AutomationScheduleTrigger_schedule : AutomationSchedule;
  AutomationScheduleTrigger_misfirePolicy : option AutomationMisfirePolicy
}.

(** [AutomationTriggerEventDefinition]: types/channels-automation/state.ts:255-262. *)
Record AutomationTriggerEventDefinition := mkAutomationTriggerEventDefinition {
  AutomationTriggerEventDefinition_id : string;
  AutomationTriggerEventDefinition_title : string;
  AutomationTriggerEventDefinition_description : option string
}.

(** [AutomationEventTrigger]: types/channels-automation/state.ts:161-187. *)
Record AutomationEventTrigger := mkAutomationEventTrigger {
  AutomationEventTrigger_id : string;
  AutomationEventTrigger_type : string;
  AutomationEventTrigger_title : string;
  AutomationEventTrigger_description : option string;
  AutomationEventTrigger_events : list AutomationTriggerEventDefinition;
  AutomationEventTrigger_config : option Meta
}.

(** [AutomationTrigger]: types/channels-automation/state.ts:197-199. *)
Inductive AutomationTrigger :=
| AutomationTrigger_Schedule (x : AutomationScheduleTrigger)
| AutomationTrigger_Event (x : AutomationEventTrigger).

(** [AutomationAfterRunsCondition]: types/channels-automation/state.ts:219-227. *)
Record AutomationAfterRunsCondition := mkAutomationAfterRunsCondition {
  AutomationAfterRunsCondition_max : Z
}.

(** [AutomationAfterDateCondition]: types/channels-automation/state.ts:234-238. *)
Record AutomationAfterDateCondition := mkAutomationAfterDateCondition {
  AutomationAfterDateCondition_date : string
}.

(** [AutomationDisableCondition]: types/channels-automation/state.ts:246-248. *)
Inductive AutomationDisableCondition :=
| AutomationDisableCondition_AfterRuns (x : AutomationAfterRunsCondition)
| AutomationDisableCondition_AfterDate (x : AutomationAfterDateCondition).

(** [AutomationTriggerDefinition]: types/channels-automation/state.ts:274-285. *)
Record AutomationTriggerDefinition := mkAutomationTriggerDefinition {
  AutomationTriggerDefinition_type : string;
  AutomationTriggerDefinition_title : string;
  AutomationTriggerDefinition_description : option string;
  AutomationTriggerDefinition_events : list AutomationTriggerEventDefinition;
  AutomationTriggerDefinition_configSchema : option ConfigSchema
}.

(** [AutomationSessionTemplate]: types/channels-automation/state.ts:295-344. *)
Record AutomationSessionTemplate := mkAutomationSessionTemplate {
  AutomationSessionTemplate_provider : option string;
  AutomationSessionTemplate_model : option ModelSelection;
  AutomationSessionTemplate_agent : option AgentSelection;
  AutomationSessionTemplate_workingDirectories : option (list URI);
  AutomationSessionTemplate_config : option Meta;
  AutomationSessionTemplate_customizations : option (list ClientPluginCustomization)
}.

(** [AutomationDefinition]: types/channels-automation/state.ts:356-396. *)
Record AutomationDefinition := mkAutomationDefinition {
  AutomationDefinition_title : string;
  AutomationDefinition_message : Message;
  AutomationDefinition_session : AutomationSessionTemplate;
  AutomationDefinition_enabled : bool;
  AutomationDefinition_triggers : list AutomationTrigger;
  AutomationDefinition_disableConditions : option (list AutomationDisableCondition);
  AutomationDefinition_meta : option Meta
}.

(** [AutomationManualRunOrigin]: types/channels-automation-run/state.ts:60-62. *)
Record AutomationManualRunOrigin := mkAutomationManualRunOrigin { }.

(** [AutomationTriggeredRunOrigin]: types/channels-automation-run/state.ts:69-91. *)
Record AutomationTriggeredRunOrigin := mkAutomationTriggeredRunOrigin {
  AutomationTriggeredRunOrigin_triggerId : string;
  AutomationTriggeredRunOrigin_scheduledFor : option string;
  AutomationTriggeredRunOrigin_catchUp : option bool;
  AutomationTriggeredRunOrigin_event : option Meta
}.

(** [AutomationRunOrigin]: types/channels-automation-run/state.ts:98-100. *)
Inductive AutomationRunOrigin :=
| AutomationRunOrigin_Manual (x : AutomationManualRunOrigin)
| AutomationRunOrigin_Trigger (x : AutomationTriggeredRunOrigin).

(** [AutomationPendingRunLifecycle]: types/channels-automation-run/state.ts:107-111. *)
Record AutomationPendingRunLifecycle := mkAutomationPendingRunLifecycle {
  AutomationPendingRunLifecycle_createdAt : string
}.

(** [AutomationRunningRunLifecycle]: types/channels-automation-run/state.ts:122-128. *)
Record AutomationRunningRunLifecycle := mkAutomationRunningRunLifecycle {
  AutomationRunningRunLifecycle_createdAt : string;
  AutomationRunningRunLifecycle_startedAt : string
}.

(** [AutomationCompletedRunLifecycle]: types/channels-automation-run/state.ts:135-145. *)
Record AutomationCompletedRunLifecycle := mkAutomationCompletedRunLifecycle {
  AutomationCompletedRunLifecycle_createdAt : string;
  AutomationCompletedRunLifecycle_startedAt : string;
  AutomationCompletedRunLifecycle_completedAt : string;
  AutomationCompletedRunLifecycle_usage : option UsageInfo
}.

(** [AutomationFailedRunLifecycle]: types/channels-automation-run/state.ts:155-165. *)
Record AutomationFailedRunLifecycle := mkAutomationFailedRunLifecycle {
  AutomationFailedRunLifecycle_createdAt : string;
  AutomationFailedRunLifecycle_startedAt : option string;
  AutomationFailedRunLifecycle_completedAt : string;
  AutomationFailedRunLifecycle_error : ErrorInfo
}.

(** [AutomationCancelledRunLifecycle]: types/channels-automation-run/state.ts:175-183. *)
Record AutomationCancelledRunLifecycle := mkAutomationCancelledRunLifecycle {
  AutomationCancelledRunLifecycle_createdAt : string;
  AutomationCancelledRunLifecycle_startedAt : option string;
  AutomationCancelledRunLifecycle_completedAt : string
}.

(** [AutomationRunLifecycle]: types/channels-automation-run/state.ts:190-195. *)
Inductive AutomationRunLifecycle :=
| AutomationRunLifecycle_Pending (x : AutomationPendingRunLifecycle)
| AutomationRunLifecycle_Running (x : AutomationRunningRunLifecycle)
| AutomationRunLifecycle_Completed (x : AutomationCompletedRunLifecycle)
| AutomationRunLifecycle_Failed (x : AutomationFailedRunLifecycle)
| AutomationRunLifecycle_Cancelled (x : AutomationCancelledRunLifecycle).

(** [AutomationRunSummary]: types/channels-automation-run/state.ts:205-220. *)
Record AutomationRunSummary := mkAutomationRunSummary {
  AutomationRunSummary_resource : URI;
  AutomationRunSummary_automation : URI;
  AutomationRunSummary_origin : AutomationRunOrigin;
  AutomationRunSummary_lifecycle : AutomationRunLifecycle;
  AutomationRunSummary_primarySession : option URI;
  AutomationRunSummary_sessionCount : Z;
  AutomationRunSummary_meta : option Meta
}.

(** [AutomationEntry]: types/channels-automation/state.ts:407-460. *)
Record AutomationEntry := mkAutomationEntry {
  aue_resource : URI;
  aue_definition : AutomationDefinition;
  aue_nextRunAt : option string;
  aue_runCount : option Z;
  aue_runs : list AutomationRunSummary;
  aue_runsNextCursor : option string;
  aue_operations : list AutomationOperation;
  aue_customizations : option (list PluginCustomization);
  aue_createdAt : string;
  aue_modifiedAt : string;
  aue_meta : option Meta
}.

(** [AutomationState]: types/channels-automation/state.ts:473-478. *)
Record AutomationState := mkAutomationState {
  aus_entries : list AutomationEntry;
  aus_meta : option Meta
}.
#[export] Instance eta_AutomationState : Eta AutomationState :=
  λ r, mkAutomationState r.(aus_entries) r.(aus_meta).

(** [AutomationRunState]: types/channels-automation-run/state.ts:232-251. *)
Record AutomationRunState := mkAutomationRunState {
  ars_resource : URI;
  ars_automation : URI;
  ars_origin : AutomationRunOrigin;
  ars_lifecycle : AutomationRunLifecycle;
  ars_sessions : list URI;
  ars_primarySession : option URI;
  ars_meta : option Meta
}.
#[export] Instance eta_AutomationRunState : Eta AutomationRunState :=
  λ r, mkAutomationRunState 
    r.(ars_resource) r.(ars_automation) r.(ars_origin) r.(ars_lifecycle) r.(ars_sessions)
    r.(ars_primarySession) r.(ars_meta).

(** [AutomationDefinitionPatch]: types/channels-automation/actions.ts:29-59. *)
Record AutomationDefinitionPatch := mkAutomationDefinitionPatch {
  AutomationDefinitionPatch_title : option string;
  AutomationDefinitionPatch_message : option Message;
  AutomationDefinitionPatch_session : option AutomationSessionTemplate;
  AutomationDefinitionPatch_enabled : option bool;
  AutomationDefinitionPatch_triggers : option (list AutomationTrigger);
  AutomationDefinitionPatch_disableConditions : option (list AutomationDisableCondition);
  AutomationDefinitionPatch_meta : option Meta
}.

(** [AutomationCreateRequestedAction]: types/channels-automation/actions.ts:81-87. *)
Record AutomationCreateRequestedAction := mkAutomationCreateRequestedAction {
  AutomationCreateRequested_resource : URI;
  AutomationCreateRequested_definition : AutomationDefinition
}.

(** [AutomationUpdateRequestedAction]: types/channels-automation/actions.ts:108-114. *)
Record AutomationUpdateRequestedAction := mkAutomationUpdateRequestedAction {
  AutomationUpdateRequested_resource : URI;
  AutomationUpdateRequested_changes : AutomationDefinitionPatch
}.

(** [AutomationSetAction]: types/channels-automation/actions.ts:126-130. *)
Record AutomationSetAction := mkAutomationSetAction {
  AutomationSet_automation : AutomationEntry
}.

(** [AutomationRemovedAction]: types/channels-automation/actions.ts:146-150. *)
Record AutomationRemovedAction := mkAutomationRemovedAction {
  AutomationRemoved_resource : URI
}.

(** [AutomationRunLifecycleChangedAction]: types/channels-automation-run/actions.ts:23-27. *)
Record AutomationRunLifecycleChangedAction := mkAutomationRunLifecycleChangedAction {
  AutomationRunLifecycleChanged_lifecycle : AutomationRunLifecycle
}.

(** [AutomationRunSessionSetAction]: types/channels-automation-run/actions.ts:37-41. *)
Record AutomationRunSessionSetAction := mkAutomationRunSessionSetAction {
  AutomationRunSessionSet_session : URI
}.

(** [AutomationRunSessionRemovedAction]: types/channels-automation-run/actions.ts:52-56. *)
Record AutomationRunSessionRemovedAction := mkAutomationRunSessionRemovedAction {
  AutomationRunSessionRemoved_session : URI
}.

(** [AutomationRunPrimarySessionChangedAction]: types/channels-automation-run/actions.ts:64-68. *)
Record AutomationRunPrimarySessionChangedAction := mkAutomationRunPrimarySessionChangedAction {
  AutomationRunPrimarySessionChanged_primarySession : option URI
}.

(** [AutomationRunCancelRequestedAction]: types/channels-automation-run/actions.ts:87-89. *)
Record AutomationRunCancelRequestedAction := mkAutomationRunCancelRequestedAction { }.

(** [AutomationAction]: types/action-origin.generated.ts:418-423.  The last constructor is any
    action whose [type] this version does not know, given by its
    [JSON.stringify] text. *)
Inductive AutomationAction :=
| AutomationCreateRequested (a : AutomationCreateRequestedAction)
| AutomationUpdateRequested (a : AutomationUpdateRequestedAction)
| AutomationSet (a : AutomationSetAction)
| AutomationRemoved (a : AutomationRemovedAction)
| UnknownAutomationAction (stringified : string).
(** [AutomationRunAction]: types/action-origin.generated.ts:438-444.  The last constructor is any
    action whose [type] this version does not know, given by its
    [JSON.stringify] text. *)
Inductive AutomationRunAction :=
| AutomationRunLifecycleChanged (a : AutomationRunLifecycleChangedAction)
| AutomationRunSessionSet (a : AutomationRunSessionSetAction)
| AutomationRunSessionRemoved (a : AutomationRunSessionRemovedAction)
| AutomationRunPrimarySessionChanged (a : AutomationRunPrimarySessionChangedAction)
| AutomationRunCancelRequested (a : AutomationRunCancelRequestedAction)
| UnknownAutomationRunAction (stringified : string).

(** ** The catalogue reducer: types/channels-automation/reducer.ts *)

#[export] Instance keyed_automation : Keyed AutomationEntry := aue_resource.

Definition on_AutomationSet (state : AutomationState) (action : AutomationSetAction) :
    AutomationState :=
  let automation := action.(AutomationSet_automation) in
  state <| aus_entries := upsert (has_key (key_of automation)) automation state.(aus_entries) |>.

Definition on_AutomationRemoved (state : AutomationState) (action : AutomationRemovedAction) :
    AutomationState :=
  match removeFirst (has_key action.(AutomationRemoved_resource)) state.(aus_entries) with
  | None => state
  | Some entries => state <| aus_entries := entries |>
  end.

Definition automationReducer (state : AutomationState) (action : AutomationAction) :
    Logged AutomationState :=
  match action with
  | AutomationCreateRequested _ => mret state
  | AutomationUpdateRequested _ => mret state
  | AutomationSet a => mret (on_AutomationSet state a)
  | AutomationRemoved a => mret (on_AutomationRemoved state a)
  | UnknownAutomationAction stringified => _ ← softAssertNever stringified; mret state
  end.

(** ** The run reducer: types/channels-automation-run/reducer.ts *)

Definition on_AutomationRunSessionSet (state : AutomationRunState)
    (action : AutomationRunSessionSetAction) : AutomationRunState :=
  let session := action.(AutomationRunSessionSet_session) in
  if includes state.(ars_sessions) session then state
  else state <| ars_sessions := state.(ars_sessions) ++ [session] |>.

Definition on_AutomationRunSessionRemoved (state : AutomationRunState)
    (action : AutomationRunSessionRemovedAction) : AutomationRunState :=
  let session := action.(AutomationRunSessionRemoved_session) in
  match removeFirst (has_key session) state.(ars_sessions) with
  | None => state
  | Some sessions =>
      let next := state <| ars_sessions := sessions |> in
      if bool_decide (state.(ars_primarySession) = Some session)
      then next <| ars_primarySession := None |> else next
  end.

Definition automationRunReducer (state : AutomationRunState) (action : AutomationRunAction) :
    Logged AutomationRunState :=
  match action with
  | AutomationRunLifecycleChanged a =>
      mret (state <| ars_lifecycle := a.(AutomationRunLifecycleChanged_lifecycle) |>)
  | AutomationRunSessionSet a => mret (on_AutomationRunSessionSet state a)
  | AutomationRunSessionRemoved a => mret (on_AutomationRunSessionRemoved state a)
  | AutomationRunPrimarySessionChanged a =>
      mret (state <| ars_primarySession := a.(AutomationRunPrimarySessionChanged_primarySession) |>)
  | AutomationRunCancelRequested _ => mret state
  | UnknownAutomationRunAction stringified => _ ← softAssertNever stringified; mret state
  end.
