(* ===== verification/ChannelProperties.v ===== *)
(** * What the reducers of the smaller channels guarantee

    Changesets, annotations, terminals, automations, and the configuration merge
    the root, session and chat channels share. *)

From S2P Require Import Prelude KeyedList JsNumber JsDate CommonState Changeset Annotations Terminal ChatState ChatActions ChatReducer SessionState SessionActions SessionReducer Root Automation.
Local Open Scope Z_scope.

Ltac distinct_keys := apply NoDup_ListNoDup; repeat constructor; simpl; intuition discriminate.

(** ** Changesets *)

Definition operation_ok (op : ChangesetOperation) : Prop :=
  op.(cho_status) ≠ ChangesetOperationStatus_Error → op.(cho_error) = None.

Definition operations_ok (ops : option (list ChangesetOperation)) : Prop :=
  Forall operation_ok (ops ??! []).

(** No error is shown on anything that is not in error. *)
Definition no_stale_error (s : ChangesetState) : Prop :=
  (s.(chs_status) ≠ ChangesetStatus_Error → s.(chs_error) = None) ∧ operations_ok s.(chs_operations).

(** The operations an action brings in. *)
Definition incoming_operations (a : ChangesetAction) : option (list ChangesetOperation) :=
  match a with
  | ChangesetContentChanged x => x.(ChangesetContentChanged_operations)
  | ChangesetOperationsChanged x => x.(ChangesetOperationsChanged_operations)
  | _ => None
  end.

(** C30: A changeset, and each of its operations, carries an error only while its
    status is error; every action preserves this as long as the operations it
    brings in are well-formed. *)
Theorem changeset_no_stale_error s a :
  operations_ok (incoming_operations a) → no_stale_error s → no_stale_error (val (changesetReducer s a)).
Proof.
  intros Hin [He Ho]. destruct a as [x|x|x|x|x|x|x|x|x]; simpl in *.
  - unfold on_ChangesetStatusChanged. destruct (ChangesetStatusChanged_status x); by split.
  - by split.
  - unfold on_ChangesetFileRemoved. by destruct (removeFirst _ _); split.
  - unfold on_ChangesetFilesReviewChanged. by destruct (existsb _ _); split.
  - unfold on_ChangesetContentChanged. by destruct (ChangesetContentChanged_operations x); split.
  - by split.
  - unfold on_ChangesetOperationStatusChanged. destruct (chs_operations s) as [ops|] eqn:Eo; [|by split; rewrite ?Eo].
    destruct (findIndex _ ops) as [i|]; [|by split; rewrite ?Eo].
    destruct (ops !! i) as [op|]; [|by split; rewrite ?Eo]. split; [done|].
    apply Forall_insert; [done|]. unfold operation_ok, set_operation_status.
    by destruct (ChangesetOperationStatusChanged_status x).
  - by destruct (chs_files s); split.
  - by split.
Qed.

Definition sample_operation (st : ChangesetOperationStatus) (e : option ErrorInfo) : ChangesetOperation :=
  mkChangesetOperation "op" "Apply" None [] None None None st e.
Definition sample_changeset (ops : list ChangesetOperation) : ChangesetState :=
  mkChangesetState ChangesetStatus_Ready None [] (Some ops).

Lemma changeset_no_stale_error_witness :
  no_stale_error (sample_changeset [sample_operation ChangesetOperationStatus_Running None]).
Proof.
  refine (changeset_no_stale_error
    (sample_changeset [sample_operation ChangesetOperationStatus_Error (Some (mkErrorInfo "e" "m" None None))])
    (ChangesetOperationStatusChanged
      (mkChangesetOperationStatusChangedAction "op" ChangesetOperationStatus_Running None)) _ _).
  - apply Forall_nil_2.
  - split; [done|]. apply Forall_singleton. by intros [].
Defined.

(** The files of a changeset after a review batch. *)
Definition reviewed_file (ids : list string) (reviewed : bool) (f : ChangesetFile) : ChangesetFile :=
  if decide (f.(chf_id) ∈ ids) then f <| chf_reviewed := Some reviewed |> else f.

Lemma review_file_snd ids r f : (review_file ids r f).2 = reviewed_file ids r f.
Proof.
  unfold review_file, reviewed_file. destruct (includes ids (chf_id f)) eqn:E.
  - apply includes_spec in E. rewrite decide_True by done. simpl.
    case_bool_decide as Er; [|done]. simpl. destruct f; simpl in *; by subst.
  - apply includes_false in E. by rewrite decide_False.
Qed.

Lemma review_file_fst ids r f : (review_file ids r f).1 = false → reviewed_file ids r f = f.
Proof.
  rewrite <- review_file_snd. unfold review_file. by destruct (_ || _).
Qed.

(** C29: The files of a changeset are an ordered map from id to file: a file that
    is set replaces its entry in place or comes last, a removed one is deleted,
    unknown removals change nothing; a review batch sets the flag of exactly the
    files it names.  Nothing but the files changes. *)
Theorem changeset_files_ordered_map s a :
  NoDup (keys (chs_files s)) →
  let s' := val (changesetReducer s a) in
  match a with
  | ChangesetFileSet x =>
      s' = s <| chs_files := chs_files s' |> ∧
      ordered_map (chs_files s') = om_insert x.(ChangesetFileSet_file) (ordered_map (chs_files s))
  | ChangesetFileRemoved x =>
      let id := x.(ChangesetFileRemoved_fileId) in
      s' = s <| chs_files := chs_files s' |> ∧
      (id ∈ keys (chs_files s) →
         ordered_map (chs_files s') = om_delete id (ordered_map (chs_files s))) ∧
      (id ∉ keys (chs_files s) → s' = s)
  | ChangesetFilesReviewChanged x =>
      s' = s <| chs_files := map (reviewed_file x.(ChangesetFilesReviewChanged_files)
                 x.(ChangesetFilesReviewChanged_reviewed)) (chs_files s) |>
  | _ => True
  end.
Proof.
  intros Hnd. destruct a as [x|x|x|x|x|x|x|x|x]; try done; simpl.
  - split; [done|]. by apply ordered_map_upsert.
  - unfold on_ChangesetFileRemoved. destruct (removeFirst _ _) as [l|] eqn:E; simpl.
    + destruct (ordered_map_removeFirst _ _ _ Hnd E) as [Hin Ho]. by split_and!.
    + apply removeFirst_key_None in E. split_and!; try done. by destruct s.
  - unfold on_ChangesetFilesReviewChanged. rewrite map_map.
    rewrite (map_ext (λ f, (review_file _ _ f).2) _ (review_file_snd _ _)).
    destruct (existsb _ _) eqn:E; [done|].
    rewrite (map_ext_in _ id); [rewrite map_id; by destruct s|].
    intros f Hf. apply review_file_fst. match goal with |- ?b.1 = false => destruct b.1 eqn:Ef; [|done] end.
    exfalso. apply not_true_iff_false in E. apply E, existsb_exists.
    eexists. split; [by apply in_map|done].
Qed.

Definition sample_file (id : string) : ChangesetFile := mkChangesetFile id (mkFileEdit None None None) None None None None.

Lemma changeset_files_ordered_map_witness :
  let files := map sample_file ["a"; "b"] in
  let s := mkChangesetState ChangesetStatus_Ready None files None in
  val (changesetReducer s (ChangesetFilesReviewChanged (mkChangesetFilesReviewChangedAction ["b"; "z"] true))) =
  s <| chs_files := map (reviewed_file ["b"; "z"] true) files |>.
Proof.
  intros files s. refine (changeset_files_ordered_map s
    (ChangesetFilesReviewChanged (mkChangesetFilesReviewChangedAction ["b"; "z"] true)) _). distinct_keys.
Defined.

(** ** Annotations *)

(** The entries of the annotation with the id. *)
Definition annotation_at (s : AnnotationsState) (id : string) : option Annotation :=
  entries_of s.(ans_annotations) !! id.

Definition annotations_keyed (s : AnnotationsState) : Prop :=
  NoDup (keys s.(ans_annotations)) ∧
  Forall (λ x, NoDup (keys x.(ann_entries))) s.(ans_annotations).

(** Replacing an annotation by one with the same id is an upsert. *)
Lemma update_annotation_spec s id f :
  annotations_keyed s → (∀ x y, f x = Some y → key_of y = key_of x) →
  ordered_map (ans_annotations (update_annotation s id f)) =
  match annotation_at s id ≫= f with
  | Some y => om_insert y (ordered_map (ans_annotations s))
  | None => ordered_map (ans_annotations s)
  end.
Proof.
  intros [Hnd _] Hf. unfold update_annotation, annotation_at.
  destruct (findIndex (has_key id) (ans_annotations s)) as [i|] eqn:Ei.
  - destruct (findIndex_lookup _ _ _ Ei) as (x & Hx & Hid). apply has_key_true in Hid.
    assert (entries_of (ans_annotations s) !! id = Some x) as ->
      by (apply entries_of_Some; [done|]; split; [by eapply list_elem_of_lookup_2|done]).
    rewrite Hx. simpl. destruct (f x) as [y|] eqn:Ef; [|done]. simpl.
    rewrite <- ordered_map_upsert by done. unfold upsert. by rewrite (Hf x y Ef), Hid, Ei.
  - apply findIndex_None, Forall_has_key_false, entries_of_None in Ei. by rewrite Ei.
Qed.

(** The entry list of an annotation after an action on its entries. *)
Definition entries_after (a : AnnotationsAction) (l : list AnnotationEntry) : OrderedMap AnnotationEntry :=
  match a with
  | AnnotationsEntrySet x => om_insert x.(AnnotationsEntrySet_entry) (ordered_map l)
  | AnnotationsEntryRemoved x =>
      let id := x.(AnnotationsEntryRemoved_entryId) in
      if decide (id ∈ keys l) then om_delete id (ordered_map l) else ordered_map l
  | _ => ordered_map l
  end.

(** C31: Annotations are an ordered map from id to annotation, and so are the
    entries of each: setting inserts, removing deletes; updating an annotation or
    one of its entries replaces that annotation alone and keeps its id; actions
    whose target is unknown are no-ops. *)
Theorem annotations_ordered_map s a :
  annotations_keyed s →
  let m := ordered_map (ans_annotations s) in
  let m' := ordered_map (ans_annotations (val (annotationsReducer s a))) in
  match a with
  | AnnotationsSet x => m' = om_insert x.(AnnotationsSet_annotation) m
  | AnnotationsUpdated x =>
      m' = match annotation_at s x.(AnnotationsUpdated_annotationId) with
           | Some y => om_insert (apply_update x y) m
           | None => m
           end
  | AnnotationsRemoved x =>
      let id := x.(AnnotationsRemoved_annotationId) in
      m' = if decide (id ∈ om_order m) then om_delete id m else m
  | AnnotationsEntrySet {| AnnotationsEntrySet_annotationId := id |}
  | AnnotationsEntryRemoved {| AnnotationsEntryRemoved_annotationId := id |} =>
      match annotation_at s id with
      | None => m' = m
      | Some y => ∃ l, ordered_map l = entries_after a y.(ann_entries) ∧
                       (m' = om_insert (y <| ann_entries := l |>) m ∨ (l = y.(ann_entries) ∧ m' = m))
      end
  | UnknownAnnotationsAction _ => m' = m
  end.
Proof.
  intros Hok. pose proof Hok as [Hnd Hent].
  assert (∀ id y, annotation_at s id = Some y → NoDup (keys (ann_entries y))) as Hy.
  { intros id y Hat. unfold annotation_at in Hat. rewrite entries_of_Some in Hat by done.
    rewrite Forall_forall in Hent. by apply Hent, Hat. }
  destruct a as [x|x|x|[id e]|[id eid]|x]; simpl.
  - by apply ordered_map_upsert.
  - unfold on_AnnotationsUpdated. rewrite update_annotation_spec; [|done|by intros ? ? [= <-]].
    destruct (annotation_at s _); [done|done].
  - unfold on_AnnotationsRemoved. destruct (removeFirst _ _) as [l|] eqn:E; simpl.
    + destruct (ordered_map_removeFirst _ _ _ Hnd E) as [Hin ->]. by rewrite decide_True.
    + apply removeFirst_key_None in E. by rewrite decide_False.
  - unfold on_AnnotationsEntrySet. rewrite update_annotation_spec; [|done|by intros ? ? [= <-]].
    simpl. destruct (annotation_at s id) as [y|] eqn:Ea; [|done]. simpl.
    eexists. split; [|by left]. apply ordered_map_upsert. eauto.
  - unfold on_AnnotationsEntryRemoved.
    rewrite update_annotation_spec; [|done|by intros ? ? (? & _ & ->)%fmap_Some]. simpl.
    destruct (annotation_at s id) as [y|] eqn:Ea; [|done]. simpl.
    destruct (removeFirst (has_key eid) (ann_entries y)) as [l|] eqn:E; simpl.
    + exists l. split; [|by left].
      destruct (ordered_map_removeFirst _ _ _ (Hy _ _ Ea) E) as [Hin Ho]. by rewrite decide_True.
    + exists (ann_entries y). apply removeFirst_key_None in E. rewrite decide_False by done.
      split; [done|by right].
  - done.
Qed.

Definition sample_annotation (id : string) (entries : list AnnotationEntry) : Annotation :=
  mkAnnotation id (mkAnnotationOrigin "session:/1" None None) "file:///a" None false entries None.
Definition sample_entry (id text : string) : AnnotationEntry := mkAnnotationEntry id (PlainString text) None.

Lemma annotations_ordered_map_witness :
  let s := mkAnnotationsState [sample_annotation "a" [sample_entry "1" "x"]; sample_annotation "b" []] in
  let s' := mkAnnotationsState [sample_annotation "b" []] in
  ordered_map (ans_annotations s') = om_delete "a" (ordered_map (ans_annotations s)).
Proof.
  intros s s'. refine (annotations_ordered_map s (AnnotationsRemoved (mkAnnotationsRemovedAction "a")) _).
  split; [distinct_keys|]. repeat (apply Forall_cons; split); try apply Forall_nil_2; distinct_keys.
Defined.

(** ** Terminals *)

(** The text of the terminal: what its parts show, in order. *)
Definition part_text (p : TerminalContentPart) : string :=
  match p with
  | TerminalContentPart_unclassified u => u.(tup_value)
  | TerminalContentPart_command c => c.(tcmd_output)
  end.
Definition transcript (content : list TerminalContentPart) : string :=
  foldr (λ p acc, part_text p +:+ acc) "" content.

Lemma append_nil_r (a : string) : a +:+ "" = a.
Proof. induction a as [|x a IH]; [done|]. by rewrite string_app_cons, IH. Qed.

Lemma transcript_app l k : transcript (l ++ k) = transcript l +:+ transcript k.
Proof. induction l as [|p l IH]; [done|]. simpl. by rewrite IH, append_assoc. Qed.

(** [append_data] on a non-empty list, by the fate of its last part. *)
Lemma append_data_snoc l p d :
  append_data (l ++ [p]) d =
  match append_output p d with
  | Some p' => l ++ [p']
  | None => l ++ [p; TerminalContentPart_unclassified (mkTerminalUnclassifiedPart d)]
  end.
Proof.
  unfold append_data. rewrite last_snoc. simpl. destruct (append_output p d) as [p'|].
  - rewrite length_app, Nat.add_sub. simpl. by rewrite insert_app_r_alt, Nat.sub_diag by lia.
  - by rewrite <- app_assoc.
Qed.

Lemma append_output_text p d p' : append_output p d = Some p' → part_text p' = part_text p +:+ d.
Proof. destruct p as [u|c]; simpl; [|destruct (tcmd_isComplete c)]; by intros [= <-]. Qed.

Lemma append_output_twice p d e p' :
  append_output p d = Some p' → append_output p' e = append_output p (d +:+ e).
Proof.
  destruct p as [u|c]; simpl; [|destruct (tcmd_isComplete c) eqn:Ec]; intros [= <-]; simpl;
    by rewrite ?Ec, append_assoc.
Qed.

(** C33: Terminal output is a faithful transcript: a chunk of data appends exactly
    its text to what the terminal shows, touching nothing but the content, and
    cutting the data differently makes no difference to the state. *)
Theorem terminal_output_faithful s d e :
  let data x := TerminalData (mkTerminalDataAction x) in
  let s1 := val (terminalReducer s (data d)) in
  transcript (ts_content s1) = transcript (ts_content s) +:+ d ∧
  s1 = s <| ts_content := ts_content s1 |> ∧
  val (terminalReducer s1 (data e)) = val (terminalReducer s (data (d +:+ e))).
Proof.
  simpl. destruct (ts_content s) as [|p l _] using rev_ind.
  - simpl. by rewrite append_nil_r.
  - rewrite !append_data_snoc. destruct (append_output p d) as [p'|] eqn:E.
    + rewrite append_data_snoc, (append_output_twice _ _ _ _ E).
      split; [|split; [done|]].
      * rewrite !transcript_app. simpl. by rewrite !append_nil_r, (append_output_text _ _ _ E), append_assoc.
      * assert (is_Some (append_output p (d +:+ e))) as [q ->]; [|done].
        destruct p as [u|c]; simpl in *; [by eexists|]. destruct (tcmd_isComplete c); [done|by eexists].
    + assert (append_output p (d +:+ e) = None) as ->
        by (destruct p as [u|c]; simpl in *; [done|]; by destruct (tcmd_isComplete c)).
      split; [|split; [done|]].
      * rewrite !transcript_app. simpl. by rewrite !append_nil_r, append_assoc.
      * simpl. do 2 f_equal. change (l ++ [p; ?q]) with (l ++ [p] ++ [q]).
        rewrite !app_assoc, append_data_snoc. done.
Qed.

(** ** Automations *)

(** C32: The automation catalogue is an ordered map from resource to automation:
    requests leave it alone, reports insert, removals delete. *)
Theorem automations_ordered_map s a :
  NoDup (keys (aus_entries s)) →
  let m := ordered_map (aus_entries s) in
  let s' := val (automationReducer s a) in
  NoDup (keys (aus_entries s')) ∧ aus_meta s' = aus_meta s ∧
  ordered_map (aus_entries s') =
    match a with
    | AutomationSet x => om_insert x.(AutomationSet_automation) m
    | AutomationRemoved x =>
        if decide (x.(AutomationRemoved_resource) ∈ om_order m)
        then om_delete x.(AutomationRemoved_resource) m else m
    | _ => m
    end.
Proof.
  intros Hnd. destruct a as [x|x|x|x|x]; try done; simpl.
  - split_and!; [|done|by apply ordered_map_upsert]. by apply NoDup_keys_upsert.
  - unfold on_AutomationRemoved. destruct (removeFirst _ _) as [l|] eqn:E.
    + destruct (ordered_map_removeFirst _ _ _ Hnd E) as [Hin Ho]. rewrite decide_True by done.
      split_and!; [by eapply NoDup_keys_removeFirst|done|done].
    + apply removeFirst_key_None in E. by rewrite decide_False.
Qed.

(** Automations that differ in their resource and title. *)
Definition sample_automation (resource : URI) (title : string) : AutomationEntry :=
  mkAutomationEntry resource
    (mkAutomationDefinition title (mkMessage "Run" (mkMessageOrigin MessageKind_User) None None None None)
       (mkAutomationSessionTemplate (Some "copilot") None None None None None) true [] None None)
    None None [] None [] None "2025-03-01T10:00:00.000Z" "2025-03-01T10:00:00.000Z" None.

(** A catalogue of two automations: one is added, one replaced, one removed. *)
Lemma automations_ordered_map_witness :
  let one := sample_automation "automation:/1" "Daily" in
  let two := sample_automation "automation:/2" "Weekly" in
  let three := sample_automation "automation:/3" "Monthly" in
  let two' := sample_automation "automation:/2" "Yearly" in
  let s := mkAutomationState [one; two] None in
  let set x := AutomationSet (mkAutomationSetAction x) in
  ordered_map [one; two; three] = om_insert three (ordered_map [one; two]) ∧
  ordered_map [one; two'] = om_insert two' (ordered_map [one; two]) ∧
  ordered_map [two] = om_delete "automation:/1" (ordered_map [one; two]) ∧
  NoDup (keys (aus_entries (val (automationReducer s (set three))))).
Proof.
  intros one two three two' s set.
  assert (Hs : NoDup (keys (aus_entries s))) by distinct_keys.
  split; [|split; [|split]].
  - exact (proj2 (proj2 (automations_ordered_map s (set three) Hs))).
  - exact (proj2 (proj2 (automations_ordered_map s (set two') Hs))).
  - exact (proj2 (proj2 (automations_ordered_map s
      (AutomationRemoved (mkAutomationRemovedAction "automation:/1")) Hs))).
  - exact (proj1 (automations_ordered_map s (set three) Hs)).
Defined.

(** ** Configuration *)

(** [new] is [old] updated by a configuration change. *)
Definition config_merged (values : Meta) (replace : option bool) (old new : Meta) : Prop :=
  ∀ k, new !! k = match values !! k with
                  | Some v => Some v
                  | None => if truthy replace then None else old !! k
                  end.

Lemma config_merged_spread values replace old :
  config_merged values replace old (if truthy replace then values else spread old values).
Proof.
  intros k. destruct (truthy replace); [by destruct (values !! k)|].
  unfold spread. rewrite lookup_union. by destruct (values !! k), (old !! k).
Qed.

(** C39: A configuration change merges key by key: a key it gives gets the new
    value; another key keeps its value, or loses it when the change replaces the
    configuration.  The root and a session that have a configuration keep its
    schema and everything else; without one they ignore the change.  A chat always
    has a configuration afterwards: one that had none gets the values that are
    given, and no schema. *)
Theorem config_change_merges `{Platform} values replace :
  (∀ s, let s' := val (rootReducer s (RootConfigChanged (mkRootConfigChangedAction values replace))) in
     match rs_config s with
     | None => s' = s
     | Some config => ∃ new, config_merged values replace (rcs_values config) new ∧
         s' = s <| rs_config := Some (mkRootConfigState (rcs_schema config) new) |>
     end) ∧
  (∀ s, let s' := val (sessionReducer s (SessionConfigChanged (mkSessionConfigChangedAction values replace))) in
     match ss_config s with
     | None => s' = s
     | Some config => ∃ new, config_merged values replace (scs_values config) new ∧
         s' = s <| ss_config := Some (mkSessionConfigState (scs_schema config) new) |>
     end) ∧
  (∀ s, let s' := val (chatReducer s (ChatConfigChanged (mkChatConfigChangedAction values replace))) in
     match cs_config s with
     | None => s' = Ok (s <| cs_config := Some (mkChatConfigState None values) |>)
     | Some config => ∃ new, config_merged values replace (ccs_values config) new ∧
         s' = Ok (s <| cs_config := Some (mkChatConfigState (ccs_schema config) new) |>)
     end).
Proof.
  pose proof (config_merged_spread values replace) as Hm. split_and!; intros s; simpl.
  - unfold on_RootConfigChanged. destruct (rs_config s); eauto.
  - unfold on_SessionConfigChanged. destruct (ss_config s); eauto.
  - unfold on_ChatConfigChanged. destruct (cs_config s); simpl; eauto.
Qed.
