(* ===== verification/AsyncQueue.v ===== *)
(** * The broadcast queue of the TypeScript client

    [clients/typescript/src/client/async-queue.ts]: one publisher, many readers,
    one shared bounded buffer with an absolute position per reader.

    A cursor object is shared by the queue's [Set] and by the iterator that
    [reader()] returned, and outlives its removal from the set; it is therefore
    an address into a store [heap], and [cursors] is the set, in insertion order.
    [next()] returns a promise, named by the caller; an operation returns the
    promises it resolves, in order, as [Settled] records.  Positions are integers
    far below 2^53, so [Z] is exact. *)

From S2P Require Import Prelude KeyedList.

Local Open Scope Z_scope.

Section Queue.
Context {V : Type}.

Definition PromiseId := nat.
Definition CursorId := nat.

Inductive IteratorResult := Value (v : V) | Done.

(** [resolve(result)] called on the promise of a [next] or [return] of a reader. *)
Record Settled := { by_reader : CursorId; promise : PromiseId; result : IteratorResult }.

Record Cursor := {
  position : Z;
  waiter : option PromiseId;
  detached : bool
}.

Record AsyncBroadcastQueue := {
  buffer : list V;
  base : Z;
  heap : list Cursor;
  cursors : list CursorId;
  closed : bool;
  bufferLimit : Z
}.

#[export] Instance eta_Cursor : Eta Cursor := λ r,
  Build_Cursor (position r) (waiter r) (detached r).
#[export] Instance eta_Queue : Eta AsyncBroadcastQueue := λ r,
  Build_AsyncBroadcastQueue (buffer r) (base r) (heap r) (cursors r) (closed r) (bufferLimit r).

(** ** Operations *)

Definition new_queue (limit : Z) : AsyncBroadcastQueue :=
  {| buffer := []; base := 0; heap := []; cursors := []; closed := false; bufferLimit := limit |}.

Definition isClosed (q : AsyncBroadcastQueue) : bool := closed q.
Definition hasReaders (q : AsyncBroadcastQueue) : bool := (0 <? length (cursors q))%nat.

Definition buffer_length (q : AsyncBroadcastQueue) : Z := Z.of_nat (length (buffer q)).

(** [for (const cursor of this.cursors) body(cursor)], where the body updates the
    cursor and may resolve promises. *)
Fixpoint for_cursors (body : Cursor → Cursor * list (PromiseId * IteratorResult))
    (ids : list CursorId) (h : list Cursor) : list Cursor * list Settled :=
  match ids with
  | [] => (h, [])
  | i :: ids =>
      match h !! i with
      | None => for_cursors body ids h
      | Some c =>
          let '(c', out) := body c in
          let '(h', outs) := for_cursors body ids (<[i := c']> h) in
          (h', map (λ o, {| by_reader := i; promise := o.1; result := o.2 |}) out ++ outs)
      end
  end.

(** The least position of the attached cursors; [None] stands for [Infinity]. *)
Definition min_position (q : AsyncBroadcastQueue) : option Z :=
  foldl (λ m i, match heap q !! i with
                | None => m
                | Some c => match m with
                            | Some z => Some (if position c <? z then position c else z)
                            | None => Some (position c)
                            end
                end) None (cursors q).

Definition trim (q : AsyncBroadcastQueue) : AsyncBroadcastQueue :=
  if (length (cursors q) =? 0)%nat then
    if 0 <? buffer_length q
    then (q <| buffer := [] |>) <| base := base q + buffer_length q |>
    else q
  else
    match min_position q with
    | None => q
    | Some m =>
        let k := m - base q in
        if 0 <? k
        then (q <| buffer := drop (Z.to_nat k) (buffer q) |>) <| base := base q + k |>
        else q
    end.

(** [if (cursor.position < this.base) cursor.position = this.base]. *)
Definition fast_forward (b : Z) (c : Cursor) : Cursor * list (PromiseId * IteratorResult) :=
  (if position c <? b then c <| position := b |> else c, []).

(** The part of [publish] that enforces the limit. *)
Definition enforce_limit (q : AsyncBroadcastQueue) : AsyncBroadcastQueue :=
  if bufferLimit q <? buffer_length q then
    let k := buffer_length q - bufferLimit q in
    let b := base q + k in
    ((q <| buffer := drop (Z.to_nat k) (buffer q) |>) <| base := b |>)
      <| heap := (for_cursors (fast_forward b) (cursors q) (heap q)).1 |>
  else q.

(** The body of the loop of [publish] that wakes the parked readers. *)
Definition wake (q : AsyncBroadcastQueue) (c : Cursor) : Cursor * list (PromiseId * IteratorResult) :=
  let lastPos := base q + buffer_length q - 1 in
  match waiter c with
  | Some p =>
      if position c <=? lastPos then
        match buffer q !! Z.to_nat (position c - base q) with
        | Some item => ((c <| position := position c + 1 |>) <| waiter := None |>, [(p, Value item)])
        | None => (c, [])
        end
      else (c, [])
  | None => (c, [])
  end.

Definition publish (value : V) (q : AsyncBroadcastQueue) : AsyncBroadcastQueue * list Settled :=
  if closed q then (q, [])
  else
    let q1 := enforce_limit (q <| buffer := buffer q ++ [value] |>) in
    let '(h, outs) := for_cursors (wake q1) (cursors q1) (heap q1) in
    (trim (q1 <| heap := h |>), outs).

(** The body of the loop of [close]. *)
Definition wake_done (q : AsyncBroadcastQueue) (c : Cursor) : Cursor * list (PromiseId * IteratorResult) :=
  match waiter c with
  | Some p =>
      if buffer_length q <=? position c - base q
      then (c <| waiter := None |>, [(p, Done)])
      else (c, [])
  | None => (c, [])
  end.

Definition close (q : AsyncBroadcastQueue) : AsyncBroadcastQueue * list Settled :=
  if closed q then (q, [])
  else
    let q1 := q <| closed := true |> in
    let '(h, outs) := for_cursors (wake_done q1) (cursors q1) (heap q1) in
    (q1 <| heap := h |>, outs).

(** [reader()]: the new cursor is the next address of the store. *)
Definition reader (q : AsyncBroadcastQueue) : AsyncBroadcastQueue :=
  let c := {| position := base q + buffer_length q; waiter := None; detached := closed q |} in
  let q1 := q <| heap := heap q ++ [c] |> in
  if negb (closed q) then q1 <| cursors := cursors q ++ [length (heap q)] |> else q1.

Definition set_cursor (i : CursorId) (c : Cursor) (q : AsyncBroadcastQueue) : AsyncBroadcastQueue :=
  q <| heap := <[i := c]> (heap q) |>.

Definition detach (i : CursorId) (q : AsyncBroadcastQueue) : AsyncBroadcastQueue :=
  match heap q !! i with
  | Some c =>
      if negb (detached c) then
        trim ((set_cursor i (c <| detached := true |>) q)
                <| cursors := List.filter (λ j, negb (j =? i)%nat) (cursors q) |>)
      else q
  | None => q
  end.

(** [next()] of the iterator of cursor [i]; [p] is the promise it returns. *)
Definition next (i : CursorId) (p : PromiseId) (q : AsyncBroadcastQueue) :
    AsyncBroadcastQueue * list Settled :=
  let done r := [{| by_reader := i; promise := p; result := r |}] in
  match heap q !! i with
  | None => (q, [])
  | Some c =>
      if detached c then (q, done Done)
      else
        let idx := position c - base q in
        if (0 <=? idx) && (idx <? buffer_length q) then
          match buffer q !! Z.to_nat idx with
          | Some item => (trim (set_cursor i (c <| position := position c + 1 |>) q), done (Value item))
          | None => (q, [])
          end
        else if closed q then (q, done Done)
        else (set_cursor i (c <| waiter := Some p |>) q, [])
  end.

Definition return_ (i : CursorId) (p : PromiseId) (q : AsyncBroadcastQueue) :
    AsyncBroadcastQueue * list Settled :=
  match heap q !! i with
  | None => (q, [])
  | Some _ => (detach i q, [{| by_reader := i; promise := p; result := Done |}])
  end.

(** ** Runs: any interleaving of the operations *)

Inductive Op :=
| Publish (v : V)
| Close
| Reader
| Next (i : CursorId) (p : PromiseId)
| Return_ (i : CursorId) (p : PromiseId).

Definition step (op : Op) (q : AsyncBroadcastQueue) : AsyncBroadcastQueue * list Settled :=
  match op with
  | Publish v => publish v q
  | Close => close q
  | Reader => (reader q, [])
  | Next i p => next i p q
  | Return_ i p => return_ i p q
  end.

Fixpoint run (ops : list Op) (q : AsyncBroadcastQueue) : AsyncBroadcastQueue * list Settled :=
  match ops with
  | [] => (q, [])
  | op :: ops =>
      let '(q1, out) := step op q in
      let '(q2, outs) := run ops q1 in
      (q2, out ++ outs)
  end.

(** ** The specification: every reader has a FIFO of its own *)

Inductive View := Detached | Attached (pending : list V) (parked : option PromiseId).

(** The last [n] elements. *)
Definition last_n (n : Z) (l : list V) : list V := drop (length l - Z.to_nat n) l.

Definition fifo_step (limit : Z) (is_closed : bool) (me : CursorId) (op : Op) (v : View) :
    View * list (PromiseId * IteratorResult) :=
  match op, v with
  | Publish x, Attached l w =>
      if is_closed then (v, [])
      else match w, last_n limit (l ++ [x]) with
           | Some p, y :: rest => (Attached rest None, [(p, Value y)])
           | _, l' => (Attached l' w, [])
           end
  | Close, Attached [] (Some p) => if is_closed then (v, []) else (Attached [] None, [(p, Done)])
  | Next i p, _ =>
      if (i =? me)%nat then
        match v with
        | Detached => (v, [(p, Done)])
        | Attached (x :: l) w => (Attached l w, [(p, Value x)])
        | Attached [] w => if is_closed then (v, [(p, Done)]) else (Attached [] (Some p), [])
        end
      else (v, [])
  | Return_ i p, _ => if (i =? me)%nat then (Detached, [(p, Done)]) else (v, [])
  | _, _ => (v, [])
  end.

(** The FIFO a cursor stands for, and the outcomes of one reader. *)
Definition view_of (q : AsyncBroadcastQueue) (c : Cursor) : View :=
  if detached c then Detached
  else Attached (drop (Z.to_nat (position c - base q)) (buffer q)) (waiter c).
Definition view (i : CursorId) (q : AsyncBroadcastQueue) : option View := view_of q <$> heap q !! i.

Definition outcomes (i : CursorId) (outs : list Settled) : list (PromiseId * IteratorResult) :=
  omap (λ s, if (by_reader s =? i)%nat then Some (promise s, result s) else None) outs.

End Queue.

Arguments IteratorResult : clear implicits.
Arguments Settled : clear implicits.
Arguments AsyncBroadcastQueue : clear implicits.
Arguments Op : clear implicits.
Arguments View : clear implicits.
