(* ===== verification/QueueProperties.v ===== *)
(** * What the broadcast queue guarantees

    The shared buffer of AsyncQueue refines one bounded FIFO per reader
    ([fifo_step]), for every interleaving of the operations; the delivery
    guarantees are then consequences of the specification alone. *)

From S2P Require Import Prelude KeyedList AsyncQueue.

Local Open Scope Z_scope.

Section Invariant.
Context {V : Type}.
Implicit Types (q : AsyncBroadcastQueue V) (c : Cursor) (i j : CursorId).

(** The set holds exactly the cursors that are not detached. *)
Definition indexes (ids : list CursorId) (h : list Cursor) : Prop :=
  NoDup ids ∧ ∀ i, i ∈ ids ↔ ∃ c, h !! i = Some c ∧ detached c = false.

(** The invariant of the class, the tightness of the buffer apart. *)
Record loose q : Prop := {
  wf_limit : 1 ≤ bufferLimit q;
  wf_len : buffer_length q ≤ bufferLimit q;
  wf_indexes : indexes (cursors q) (heap q);
  wf_pos : ∀ i c, heap q !! i = Some c → detached c = false →
           base q ≤ position c ≤ base q + buffer_length q;
  wf_parked : ∀ i c p, heap q !! i = Some c → detached c = false → waiter c = Some p →
              closed q = false ∧ position c = base q + buffer_length q
}.

(** A value is retained only while some attached reader still has to read it. *)
Definition tight q : Prop :=
  buffer q ≠ [] → ∃ i c, heap q !! i = Some c ∧ detached c = false ∧ position c = base q.

Definition wf q : Prop := loose q ∧ tight q.

(** ** The loop over the cursors acts on each of them once *)

Lemma outcomes_app i (a b : list (Settled V)) : outcomes i (a ++ b) = outcomes i a ++ outcomes i b.
Proof. apply omap_app. Qed.

Lemma outcomes_cons i s (l : list (Settled V)) :
  outcomes i (s :: l) = (if (by_reader s =? i)%nat then [(promise s, result s)] else []) ++ outcomes i l.
Proof. unfold outcomes. simpl. by destruct (by_reader s =? i)%nat. Qed.

Lemma outcomes_own i (out : list (PromiseId * IteratorResult V)) :
  outcomes i (map (λ o, {| by_reader := i; promise := o.1; result := o.2 |}) out) = out.
Proof.
  induction out as [|[p r] out IH]; [done|]. cbn [map]. rewrite outcomes_cons, IH. simpl.
  by rewrite Nat.eqb_refl.
Qed.

Lemma outcomes_other i j (out : list (PromiseId * IteratorResult V)) :
  i ≠ j → outcomes i (map (λ o, {| by_reader := j; promise := o.1; result := o.2 |}) out) = [].
Proof.
  intros Hij. induction out as [|o out IH]; [done|]. cbn [map]. rewrite outcomes_cons, IH. simpl.
  by rewrite (proj2 (Nat.eqb_neq j i)) by congruence.
Qed.

Section Loop.
Context (body : Cursor → Cursor * list (PromiseId * IteratorResult V)).

Lemma for_cursors_out ids h i :
  i ∉ ids → (for_cursors body ids h).1 !! i = h !! i ∧ outcomes i (for_cursors body ids h).2 = [].
Proof.
  revert h. induction ids as [|j ids IH]; intros h Hi; [done|]. simpl.
  apply not_elem_of_cons in Hi as [Hij Hi]. destruct (h !! j) as [c|]; [|auto].
  destruct (body c) as [c' out]. specialize (IH (<[j:=c']> h) Hi).
  destruct (for_cursors body ids _) as [h' outs]. simpl in *. destruct IH as [Hh Ho].
  rewrite Hh, list_lookup_insert_ne by congruence. split; [done|].
  by rewrite outcomes_app, outcomes_other, Ho.
Qed.

Lemma for_cursors_in ids h i c :
  NoDup ids → i ∈ ids → h !! i = Some c →
  (for_cursors body ids h).1 !! i = Some (body c).1 ∧
  outcomes i (for_cursors body ids h).2 = (body c).2.
Proof.
  revert h. induction ids as [|j ids IH]; intros h [Hj Hnd]%NoDup_cons Hi Hc || intros h _ Hi;
    [by apply not_elem_of_nil in Hi|]. simpl.
  destruct (decide (i = j)) as [<-|Hij].
  - rewrite Hc. destruct (body c) as [c' out].
    pose proof (for_cursors_out ids (<[i:=c']> h) i Hj) as [Hh Ho].
    destruct (for_cursors body ids _) as [h' outs]. simpl in *.
    rewrite Hh, list_lookup_insert_eq by (by eapply lookup_lt_Some).
    by rewrite outcomes_app, outcomes_own, Ho, app_nil_r.
  - apply elem_of_cons in Hi as [?|Hi]; [done|]. destruct (h !! j) as [d|]; [|auto].
    destruct (body d) as [d' out].
    assert (Hc' : <[j:=d']> h !! i = Some c) by (by rewrite list_lookup_insert_ne by congruence).
    specialize (IH _ Hnd Hi Hc'). destruct (for_cursors body ids _) as [h' outs]. simpl in *.
    destruct IH as [-> Ho]. by rewrite outcomes_app, outcomes_other, Ho by done.
Qed.
End Loop.

(** The loop over the attached cursors. *)
Lemma for_attached ids h (body : Cursor → Cursor * list (PromiseId * IteratorResult V)) i :
  indexes ids h →
  (for_cursors body ids h).1 !! i = (λ c, if detached c then c else (body c).1) <$> h !! i ∧
  outcomes i (for_cursors body ids h).2 =
    match h !! i with Some c => if detached c then [] else (body c).2 | None => [] end.
Proof.
  intros [Hnd Hat]. destruct (decide (i ∈ ids)) as [Hi|Hi].
  - destruct (proj1 (Hat i) Hi) as (c & Hc & Hd).
    destruct (for_cursors_in body _ h i c Hnd Hi Hc) as [-> ->].
    rewrite Hc. simpl. by rewrite Hd.
  - destruct (for_cursors_out body _ h i Hi) as [-> ->].
    destruct (h !! i) as [c|] eqn:Hc; [|done]. simpl.
    destruct (detached c) eqn:Hd; [done|]. destruct Hi. apply Hat. eauto.
Qed.

Lemma for_live ids h (body : Cursor → Cursor * list (PromiseId * IteratorResult V)) i c :
  indexes ids h → h !! i = Some c → detached c = false →
  (for_cursors body ids h).1 !! i = Some (body c).1 ∧
  outcomes i (for_cursors body ids h).2 = (body c).2.
Proof.
  intros Hi Hc Hd. destruct (for_attached ids h body i Hi) as [-> ->]. rewrite Hc. simpl.
  by rewrite Hd.
Qed.

Lemma for_dead ids h (body : Cursor → Cursor * list (PromiseId * IteratorResult V)) i c :
  indexes ids h → h !! i = Some c → detached c = true →
  (for_cursors body ids h).1 !! i = Some c ∧ outcomes i (for_cursors body ids h).2 = [].
Proof.
  intros Hi Hc Hd. destruct (for_attached ids h body i Hi) as [-> ->]. rewrite Hc. simpl.
  by rewrite Hd.
Qed.

Lemma indexes_heap ids h h' :
  (∀ i, detached <$> h' !! i = detached <$> h !! i) → indexes ids h → indexes ids h'.
Proof.
  intros Hh [Hnd Hat]. split; [done|]. intros i. rewrite Hat. specialize (Hh i).
  destruct (h !! i) as [c|], (h' !! i) as [c'|]; simplify_eq/=; naive_solver congruence.
Qed.

(** ** [trim] *)

Lemma min_fold q ids z :
  ∃ m, foldl (λ m i, match heap q !! i with
                | None => m
                | Some c => match m with
                            | Some z => Some (if position c <? z then position c else z)
                            | None => Some (position c)
                            end
                end) (Some z) ids = Some m ∧ m ≤ z ∧
       (∀ i c, i ∈ ids → heap q !! i = Some c → m ≤ position c) ∧
       (m = z ∨ ∃ i c, i ∈ ids ∧ heap q !! i = Some c ∧ m = position c).
Proof.
  revert z. induction ids as [|j ids IH]; intros z; simpl.
  - exists z. repeat split; [lia| |by left]. by intros i c ?%not_elem_of_nil.
  - destruct (heap q !! j) as [d|] eqn:Hj.
    + destruct (IH (if position d <? z then position d else z)) as (m & -> & Hm & Hall & Hex).
      exists m. split; [done|]. destruct (Z.ltb_spec (position d) z) as [Hd|Hd].
      * repeat split; [lia| |].
        -- intros i c [->|Hi]%elem_of_cons Hc; [simplify_eq; lia|eauto].
        -- right. destruct Hex as [->|(i & c & ? & ? & ->)]; [exists j, d | exists i, c]; set_solver.
      * repeat split; [lia| |].
        -- intros i c [->|Hi]%elem_of_cons Hc; [simplify_eq; lia|eauto].
        -- destruct Hex as [->|(i & c & ? & ? & ->)]; [by left|right; exists i, c; set_solver].
    + destruct (IH z) as (m & -> & Hm & Hall & Hex). exists m. repeat split; [done| |].
      * intros i c [->|Hi]%elem_of_cons Hc; [congruence|eauto].
      * destruct Hex as [->|(i & c & ? & ? & ->)]; [by left|right; exists i, c; set_solver].
Qed.

Lemma min_position_spec q :
  loose q → cursors q ≠ [] →
  ∃ m, min_position q = Some m ∧
       (∃ i c, heap q !! i = Some c ∧ detached c = false ∧ position c = m) ∧
       (∀ i c, heap q !! i = Some c → detached c = false → m ≤ position c).
Proof.
  intros H Hne. destruct (wf_indexes q H) as [_ Hat]. unfold min_position.
  destruct (cursors q) as [|j ids] eqn:Eq; [done|]. simpl.
  destruct (proj1 (Hat j)) as (d & Hd & Hdet); [set_solver|]. rewrite Hd.
  destruct (min_fold q ids (position d)) as (m & -> & Hm & Hall & Hex).
  exists m. split; [done|]. split.
  - destruct Hex as [->|(i & c & Hi & Hc & ->)]; [eauto|].
    destruct (proj1 (Hat i)) as (c' & Hc' & ?); [set_solver|]. simplify_eq. eauto.
  - intros i c Hc Hdc. assert (Hi : i ∈ j :: ids) by (apply Hat; eauto).
    apply elem_of_cons in Hi as [->|Hi]; [by simplify_eq|eauto].
Qed.

Lemma trim_frame q :
  heap (trim q) = heap q ∧ cursors (trim q) = cursors q ∧ closed (trim q) = closed q ∧
  bufferLimit (trim q) = bufferLimit q.
Proof.
  unfold trim. destruct (length (cursors q) =? 0)%nat.
  - by destruct (0 <? buffer_length q).
  - destruct (min_position q) as [m|]; [|done]. by destruct (0 <? m - base q).
Qed.

(** Dropping [k] entries every attached reader has consumed. *)
Lemma drop_consumed q k :
  loose q → 0 ≤ k ≤ buffer_length q →
  (∀ i c, heap q !! i = Some c → detached c = false → base q + k ≤ position c) →
  let q' := (q <| buffer := drop (Z.to_nat k) (buffer q) |>) <| base := base q + k |> in
  loose q' ∧ ∀ i, view i q' = view i q.
Proof.
  intros [Hlim Hlen Hidx Hpos Hpark] Hk Hmin. unfold buffer_length in *. simpl. split.
  - assert (Hl : Z.of_nat (length (drop (Z.to_nat k) (buffer q))) = Z.of_nat (length (buffer q)) - k)
      by (rewrite length_drop; lia).
    split; unfold buffer_length; simpl; try done; rewrite ?Hl; [lia| |].
    + intros i c Hc Hd. specialize (Hpos i c Hc Hd). specialize (Hmin i c Hc Hd). lia.
    + intros i c p Hc Hd Hp. destruct (Hpark i c p Hc Hd Hp). split; [done|lia].
  - intros i. unfold view, view_of. simpl. destruct (heap q !! i) as [c|] eqn:Hc; [|done]. simpl.
    destruct (detached c) eqn:Hd; [done|]. specialize (Hmin i c Hc Hd).
    rewrite drop_drop. do 3 f_equal. lia.
Qed.

Lemma trim_spec q : loose q → wf (trim q) ∧ ∀ i, view i (trim q) = view i q.
Proof.
  intros H. unfold trim. destruct (Nat.eqb_spec (length (cursors q)) 0) as [Hc|Hc].
  - assert (Hno : ∀ i c, heap q !! i = Some c → detached c = false → False).
    { intros i c Hi Hd. assert (Hin : i ∈ cursors q) by (apply (proj2 (wf_indexes q H)); eauto).
      apply nil_length_inv in Hc. rewrite Hc in Hin. by apply not_elem_of_nil in Hin. }
    destruct (Z.ltb_spec 0 (buffer_length q)) as [Hb|Hb].
    + destruct (drop_consumed q (buffer_length q) H) as [Hl Hv]; [lia|by intros; exfalso; eauto|].
      assert (E : drop (Z.to_nat (buffer_length q)) (buffer q) = [])
        by (unfold buffer_length; by rewrite Nat2Z.id, drop_all).
      rewrite E in Hl, Hv. split; [|done]. split; [done|]. intros Hne. by destruct Hne.
    + split; [|done]. split; [done|]. intros Hne. unfold buffer_length in Hb. by destruct (buffer q).
  - destruct (min_position_spec q H) as (m & -> & (j & d & Hj & Hdj & Hm) & Hall).
    { by intros E; rewrite E in Hc. }
    pose proof (wf_pos q H j d Hj Hdj).
    destruct (Z.ltb_spec 0 (m - base q)) as [Hk|Hk].
    + destruct (drop_consumed q (m - base q) H) as [Hl Hv]; [lia|intros i c Hc' Hd'; specialize (Hall i c Hc' Hd'); lia|].
      split; [|done]. split; [done|]. intros _. exists j, d. simpl. repeat split; [done..|lia].
    + split; [|done]. split; [done|]. intros _. exists j, d. repeat split; [done..|lia].
Qed.

(** ** [publish] *)

Lemma last_n_push (l : list V) (k n : nat) x :
  (k ≤ length l)%nat →
  drop (max k (length l + 1 - n)) (l ++ [x]) = last_n (Z.of_nat n) (drop k l ++ [x]).
Proof.
  intros Hk. unfold last_n. rewrite Nat2Z.id, length_app, length_drop. simpl.
  rewrite <- (drop_app_le l [x] k), drop_drop by done. f_equal. lia.
Qed.

(** The state between the two loops of [publish]. *)
Record pushed q x q1 : Prop := {
  pu_cursors : cursors q1 = cursors q;
  pu_closed : closed q1 = closed q;
  pu_limit : bufferLimit q1 = bufferLimit q;
  pu_base : base q1 = base q + Z.max 0 (buffer_length q + 1 - bufferLimit q);
  pu_buffer : buffer q1 = drop (Z.to_nat (base q1 - base q)) (buffer q ++ [x]);
  pu_heap i : heap q1 !! i =
    (λ c, if detached c then c else c <| position := Z.max (position c) (base q1) |>) <$> heap q !! i
}.

Lemma enforce_limit_spec q x : loose q → pushed q x (enforce_limit (q <| buffer := buffer q ++ [x] |>)).
Proof.
  intros [Hlim Hlen Hidx Hpos _]. unfold enforce_limit, buffer_length in *. simpl.
  rewrite length_app. simpl.
  destruct (Z.ltb_spec (bufferLimit q) (Z.of_nat (length (buffer q) + 1))) as [Hb|Hb];
    split; simpl; unfold buffer_length; try done.
  - lia.
  - f_equal. lia.
  - intros i. destruct (for_attached _ _ (fast_forward (V := V)
      (base q + (Z.of_nat (length (buffer q) + 1) - bufferLimit q))) i Hidx) as [-> _].
    destruct (heap q !! i) as [[z w []]|]; [done| |done]. unfold fast_forward. simpl. f_equal.
    destruct (Z.ltb_spec z (base q + (Z.of_nat (length (buffer q) + 1) - bufferLimit q)));
      simpl; f_equal; lia.
  - lia.
  - by rewrite Z.sub_diag.
  - intros i. destruct (heap q !! i) as [c|] eqn:Hc; [|done]. simpl. f_equal.
    destruct (detached c) eqn:Hd; [done|]. specialize (Hpos i c Hc Hd).
    destruct c; simpl in *. f_equal; [lia|done].
Qed.

Section Pushed.
Context q x q1 (H : loose q) (P : pushed q x q1).

Lemma pushed_length :
  base q1 + buffer_length q1 = base q + buffer_length q + 1 ∧ buffer_length q1 ≤ bufferLimit q.
Proof.
  destruct P as [_ _ _ Hb Hbuf _], H as [Hlim Hlen _ _ _]. unfold buffer_length in *.
  rewrite Hbuf, length_drop, length_app. simpl. lia.
Qed.

Lemma pushed_indexes : indexes (cursors q1) (heap q1).
Proof.
  rewrite (pu_cursors _ _ _ P). apply (indexes_heap _ (heap q)); [|apply H]. intros i.
  rewrite (pu_heap _ _ _ P). destruct (heap q !! i) as [c|]; [|done]. simpl.
  by destruct (detached c) eqn:E; simpl; rewrite ?E.
Qed.

Lemma pushed_pos i c :
  heap q !! i = Some c → detached c = false →
  let z := Z.max (position c) (base q1) in
  base q1 ≤ z ≤ base q1 + buffer_length q1 ∧
  drop (Z.to_nat (z - base q1)) (buffer q1) =
    last_n (bufferLimit q) (drop (Z.to_nat (position c - base q)) (buffer q) ++ [x]).
Proof.
  intros Hc Hd z. pose proof pushed_length as [Hend Hl]. pose proof (wf_pos q H i c Hc Hd) as Hp.
  destruct P as [_ _ _ Hb Hbuf _], H as [Hlim Hlen _ _ _]. unfold buffer_length in *. subst z.
  split; [lia|]. rewrite Hbuf, drop_drop.
  rewrite <- (Z2Nat.id (bufferLimit q)) by lia.
  rewrite <- last_n_push by lia. f_equal. lia.
Qed.

(** What the second loop does to an attached cursor. *)
Lemma wake_spec c :
  base q1 ≤ position c ≤ base q1 + buffer_length q1 →
  wake q1 c =
    match waiter c, drop (Z.to_nat (position c - base q1)) (buffer q1) with
    | Some p, y :: _ => ((c <| position := position c + 1 |>) <| waiter := None |>, [(p, Value y)])
    | _, _ => (c, [])
    end.
Proof.
  intros Hp. unfold wake, buffer_length in *. destruct (waiter c) as [w|]; [|done].
  set (k := Z.to_nat (position c - base q1)).
  destruct (buffer q1 !! k) as [y|] eqn:E.
  - rewrite (drop_S _ y k E). apply lookup_lt_Some in E. case_match; [done|lia].
  - apply lookup_ge_None in E. rewrite drop_ge by done. case_match; done.
Qed.
End Pushed.

Definition closes (op : Op V) (b : bool) : bool := match op with Close => true | _ => b end.

(** One operation from a well-formed queue: the invariant is kept, and every
    reader's FIFO and outcomes are those of the specification. *)
Definition refines (op : Op V) q (r : AsyncBroadcastQueue V * list (Settled V)) : Prop :=
  wf r.1 ∧ (bufferLimit r.1 = bufferLimit q ∧ closed r.1 = closes op (closed q)) ∧
  (∀ i v, view i q = Some v →
     view i r.1 = Some (fifo_step (bufferLimit q) (closed q) i op v).1 ∧
     outcomes i r.2 = (fifo_step (bufferLimit q) (closed q) i op v).2) ∧
  (∀ i, view i q = None → outcomes i r.2 = []).

Lemma view_Some i q v : view i q = Some v ↔ ∃ c, heap q !! i = Some c ∧ view_of q c = v.
Proof. unfold view. rewrite fmap_Some. naive_solver. Qed.
Lemma view_None i q : view i q = None ↔ heap q !! i = None.
Proof. unfold view. by rewrite fmap_None. Qed.

Lemma wake_detached q c : detached (wake q c).1 = detached c.
Proof. unfold wake. by repeat case_match. Qed.

(** The state after the second loop of [publish], before [trim]. *)
Section Woken.
Context q x q1 (H : loose q) (P : pushed q x q1).
Let h := (for_cursors (wake q1) (cursors q1) (heap q1)).1.
Let outs := (for_cursors (wake q1) (cursors q1) (heap q1)).2.
Let moved c := c <| position := Z.max (position c) (base q1) |>.
Let fifo c := last_n (bufferLimit q) (drop (Z.to_nat (position c - base q)) (buffer q) ++ [x]).

Lemma pushed_heap_live i c :
  heap q !! i = Some c → detached c = false → heap q1 !! i = Some (moved c).
Proof.
  intros Hc Hd. rewrite (pu_heap _ _ _ P), Hc. unfold moved. simpl. by rewrite Hd.
Qed.

Lemma woken_detached i c :
  heap q !! i = Some c → detached c = true → h !! i = Some c ∧ outcomes i outs = [].
Proof.
  intros Hc Hd. apply for_dead; [by apply (pushed_indexes q x q1 H P)| |done].
  rewrite (pu_heap _ _ _ P), Hc. simpl. by rewrite Hd.
Qed.

Lemma woken_absent i : heap q !! i = None → h !! i = None ∧ outcomes i outs = [].
Proof.
  intros Hc. destruct (for_attached _ _ (wake q1) i (pushed_indexes q x q1 H P)) as [Hh Ho].
  rewrite (pu_heap _ _ _ P), Hc in Hh, Ho. exact (conj Hh Ho).
Qed.

Lemma woken_attached i c :
  heap q !! i = Some c → detached c = false →
  h !! i = Some (wake q1 (moved c)).1 ∧ outcomes i outs = (wake q1 (moved c)).2 ∧
  base q1 ≤ position (moved c) ≤ base q1 + buffer_length q1 ∧
  drop (Z.to_nat (position (moved c) - base q1)) (buffer q1) = fifo c ∧
  wake q1 (moved c) =
    match waiter c, fifo c with
    | Some p, y :: _ => (((moved c) <| position := position (moved c) + 1 |>) <| waiter := None |>, [(p, Value y)])
    | _, _ => (moved c, [])
    end.
Proof.
  intros Hc Hd.
  destruct (for_live _ _ (wake q1) i (moved c) (pushed_indexes q x q1 H P)
    (pushed_heap_live i c Hc Hd) Hd) as [Hh Ho].
  destruct (pushed_pos q x q1 H P i c Hc Hd) as [Hz Hl].
  do 4 (split; [done|]). unfold fifo. rewrite <- Hl.
  exact (wake_spec q1 (moved c) Hz).
Qed.

Lemma woken_inv i c :
  h !! i = Some c → detached c = false →
  ∃ c0, heap q !! i = Some c0 ∧ detached c0 = false ∧ c = (wake q1 (moved c0)).1.
Proof.
  intros Hc Hd. destruct (heap q !! i) as [c0|] eqn:E.
  - destruct (detached c0) eqn:Ed; [destruct (woken_detached i c0 E Ed); congruence|].
    destruct (woken_attached i c0 E Ed) as (Hh & _). rewrite Hh in Hc. simplify_eq. eauto.
  - destruct (woken_absent i E). congruence.
Qed.

Lemma woken_loose : closed q = false → loose (q1 <| heap := h |>).
Proof.
  intros Hcl. pose proof (pushed_length q x q1 H P) as [Hend Hlen]. destruct H as [Hlim _ _ _ _].
  assert (Hw : ∀ i c, h !! i = Some c → detached c = false →
    base q1 ≤ position c ≤ base q1 + buffer_length q1 ∧
    (waiter c ≠ None → position c = base q1 + buffer_length q1)).
  { intros i c Hc Hd. destruct (woken_inv i c Hc Hd) as (c0 & Hc0 & Hd0 & ->).
    destruct (woken_attached i c0 Hc0 Hd0) as (_ & _ & Hp & Hdrop & ->).
    destruct (fifo c0) as [|y l] eqn:Ef.
    - apply (f_equal length) in Hdrop. rewrite length_drop in Hdrop.
      unfold buffer_length, moved in *. simpl in Hp, Hdrop. destruct (waiter c0); simpl; (split; [lia|]); intros _; lia.
    - apply (f_equal length) in Hdrop. rewrite length_drop in Hdrop.
      unfold buffer_length, moved in *. simpl in Hp, Hdrop. destruct (waiter c0) eqn:Ew; simpl; (split; [lia|]); rewrite ?Ew; done. }
  split; simpl.
  - by rewrite (pu_limit _ _ _ P).
  - by rewrite (pu_limit _ _ _ P).
  - apply (indexes_heap _ (heap q1)); [|apply (pushed_indexes q x q1 H P)]. intros i. unfold h.
    destruct (for_attached _ _ (wake q1) i (pushed_indexes q x q1 H P)) as [-> _].
    destruct (heap q1 !! i) as [c|]; [|done]. simpl. f_equal.
    destruct (detached c) eqn:E; [done|]. by rewrite wake_detached.
  - intros i c Hc Hd. by apply (Hw i c).
  - intros i c p Hc Hd Hp. rewrite (pu_closed _ _ _ P). split; [done|]. apply (Hw i c Hc Hd).
    by rewrite Hp.
Qed.
End Woken.

Lemma publish_refines q x : wf q → refines (Publish x) q (publish x q).
Proof.
  intros [H Ht]. unfold publish. destruct (closed q) eqn:Ecl.
  { split; [by split|]. split; [by simpl; rewrite Ecl|]. split; [|done]. intros i v Hv. rewrite Ecl. by destruct v. }
  pose proof (enforce_limit_spec q x H) as P. set (q1 := enforce_limit _) in *.
  pose proof (woken_loose q x q1 H P Ecl) as Hl.
  pose proof (woken_detached q x q1 H P) as Hwd. pose proof (woken_absent q x q1 H P) as Hwn.
  pose proof (woken_attached q x q1 H P) as Hwa. pose proof (pu_limit _ _ _ P) as Hlim.
  destruct (for_cursors (wake q1) _ _) as [h outs] eqn:Eh. cbn [fst snd] in *.
  destruct (trim_spec _ Hl) as [Hwf Hv]. destruct (trim_frame (q1 <| heap := h |>)) as (_ & _ & Hcl & Hf).
  split; [done|].
  split; [exact (conj (eq_trans Hf Hlim) (eq_trans Hcl (pu_closed _ _ _ P)))|]. split.
  - intros i v (c & Hc & <-)%view_Some. cbn [fst snd]. rewrite Hv, Ecl. unfold view_of at 1 2.
    destruct (detached c) eqn:Ed.
    + destruct (Hwd i c Hc Ed) as [Hh ->]. split; [|done]. apply view_Some.
      exists c. split; [done|]. unfold view_of. by rewrite Ed.
    + destruct (Hwa i c Hc Ed) as (Hh & -> & Hp & Hdrop & Hwk). rewrite Hwk in *. simpl.
      unfold view. simpl. rewrite Hh. simpl.
      destruct (waiter c) as [p|] eqn:Ew; [destruct (last_n _ _) as [|y rest] eqn:El|]; simpl;
        unfold view_of; simpl in *; rewrite Ed, ?Ew, ?Hdrop; try done.
      split; [|done]. do 2 f_equal. change rest with (drop 1 (y :: rest)).
      rewrite <- Hdrop, drop_drop. f_equal. lia.
  - intros i Hi%view_None. by destruct (Hwn i Hi).
Qed.

(** ** The other operations *)

(** Updating the cursor of one reader: [f] keeps it attached. *)
Lemma set_cursor_loose q i c c' :
  loose q → heap q !! i = Some c → detached c' = detached c →
  (detached c = false → base q ≤ position c' ≤ base q + buffer_length q ∧
     (waiter c' ≠ None → closed q = false ∧ position c' = base q + buffer_length q)) →
  loose (set_cursor i c' q).
Proof.
  intros [Hlim Hlen Hidx Hpos Hpark] Hc Hd Hc'.
  assert (Hi : (i < length (heap q))%nat) by (by eapply lookup_lt_Some).
  split; unfold buffer_length in *; simpl; try done.
  - apply (indexes_heap _ (heap q)); [|done]. intros j.
    destruct (decide (i = j)) as [<-|?]; [|by rewrite list_lookup_insert_ne].
    rewrite list_lookup_insert_eq, Hc by done. simpl. by rewrite Hd.
  - intros j d. destruct (decide (i = j)) as [<-|?]; [|rewrite list_lookup_insert_ne by done; eauto].
    rewrite list_lookup_insert_eq by done. intros [= <-] Hdd. apply Hc'. congruence.
  - intros j d p. destruct (decide (i = j)) as [<-|?]; [|rewrite list_lookup_insert_ne by done; eauto].
    rewrite list_lookup_insert_eq by done. intros [= <-] Hdd Hp. apply Hc'; [congruence|by rewrite Hp].
Qed.

Lemma view_set_cursor q i j c :
  (i < length (heap q))%nat →
  view j (set_cursor i c q) = if decide (i = j) then Some (view_of q c) else view j q.
Proof.
  intros Hi. unfold view. simpl. case_decide as Hij.
  - subst. by rewrite list_lookup_insert_eq by done.
  - by rewrite list_lookup_insert_ne by done.
Qed.

Lemma outcomes_one i j p (r : IteratorResult V) :
  outcomes j [{| by_reader := i; promise := p; result := r |}] = if (i =? j)%nat then [(p, r)] else [].
Proof. rewrite outcomes_cons. simpl. by case_match. Qed.

(** An operation of the iterator of cursor [i] leaves the other readers alone. *)
Lemma own_step_refines (op : Op V) q r i c p v' out :
  heap q !! i = Some c → op = Next i p ∨ op = Return_ i p → wf r.1 →
  bufferLimit r.1 = bufferLimit q ∧ closed r.1 = closed q →
  (∀ j, view j r.1 = if decide (i = j) then Some v' else view j q) →
  r.2 = map (λ o, {| by_reader := i; promise := o.1; result := o.2 |}) out →
  fifo_step (bufferLimit q) (closed q) i op (view_of q c) = (v', out) →
  refines op q r.
Proof.
  intros Hc Hop Hwf [Hlim Hcl] Hv Hout Hfifo.
  assert (Hother : ∀ j v, i ≠ j → fifo_step (bufferLimit q) (closed q) j op v = (v, [])).
  { intros j v Hij. apply Nat.eqb_neq in Hij. destruct Hop as [-> | ->]; simpl; by rewrite Hij. }
  split; [done|]. split; [by destruct Hop as [-> | ->]|]. rewrite Hout. split.
  - intros j v Hj. rewrite Hv. case_decide as Hij.
    + subst j. apply view_Some in Hj as (d & Hd & <-). simplify_eq.
      by rewrite Hfifo, outcomes_own.
    + by rewrite Hother, outcomes_other by done.
  - intros j Hj%view_None. apply outcomes_other. congruence.
Qed.

Lemma next_refines q i p : wf q → refines (Next i p) q (next i p q).
Proof.
  intros [H Ht]. unfold next. destruct (heap q !! i) as [c|] eqn:Hc.
  2: { split; [by split|]. split; [done|]. split; [|done]. intros j v (d & Hd & <-)%view_Some.
       simpl. destruct (Nat.eqb_spec i j) as [<-|?]; [congruence|]. split; [|done].
       apply view_Some. eauto. }
  assert (Hi : (i < length (heap q))%nat) by (by eapply lookup_lt_Some).
  assert (Hself : ∀ j, view j q = if decide (i = j) then Some (view_of q c) else view j q).
  { intros j. case_decide; [|done]. subst. apply view_Some. eauto. }
  destruct (detached c) eqn:Hd.
  { apply (own_step_refines _ _ _ i c p (view_of q c) [(p, Done)]); auto; [by split|].
    simpl. by rewrite Nat.eqb_refl; unfold view_of; rewrite Hd. }
  pose proof (wf_pos q H i c Hc Hd) as Hpos. pose proof (wf_parked q H i c) as Hpark.
  assert (Hview : view_of q c = Attached (drop (Z.to_nat (position c - base q)) (buffer q)) (waiter c))
    by (unfold view_of; by rewrite Hd).
  destruct (Z.leb_spec 0 (position c - base q)) as [_|?]; [|lia]. simpl.
  destruct (Z.ltb_spec (position c - base q) (buffer_length q)) as [Hlt|Hge].
  - destruct (buffer q !! Z.to_nat (position c - base q)) as [y|] eqn:Ey.
    2: { apply lookup_ge_None in Ey. unfold buffer_length in Hlt. lia. }
    destruct (trim_spec (set_cursor i (c <| position := position c + 1 |>) q)) as [Hwf Hv].
    { apply (set_cursor_loose q i c); [done..|]. intros _. split; [simpl; lia|]. simpl.
      destruct (waiter c) as [w|]; [|done]. destruct (Hpark w); [done..|lia]. }
    destruct (trim_frame (set_cursor i (c <| position := position c + 1 |>) q)) as (_ & _ & Hcl & Hf).
    eapply (own_step_refines _ _ _ i c p _ [(p, Value y)]); auto; simpl.
    + intros j. rewrite Hv. by apply view_set_cursor.
    + rewrite Nat.eqb_refl, Hview, (drop_S _ y _ Ey). unfold view_of. simpl. rewrite Hd.
      do 3 f_equal. lia.
  - assert (Hend : drop (Z.to_nat (position c - base q)) (buffer q) = [])
      by (apply drop_ge; unfold buffer_length in *; lia).
    rewrite Hend in Hview. destruct (closed q) eqn:Ecl.
    + apply (own_step_refines _ _ _ i c p (view_of q c) [(p, Done)]); auto; [by split|].
      simpl. by rewrite Nat.eqb_refl, Hview, Ecl.
    + assert (Hl : loose (set_cursor i (c <| waiter := Some p |>) q)).
      { apply (set_cursor_loose q i c); [done..|]. intros _. simpl. split; [done|]. split; [done|lia]. }
      eapply (own_step_refines _ _ _ i c p _ []); auto; simpl.
      * split; [done|]. intros Hb. destruct (Ht Hb) as (j & d & Hj & Hdj & Hbj).
        exists j, d. simpl. rewrite list_lookup_insert_ne; [done|]. intros <-. simplify_eq.
        unfold buffer_length in *. simpl in *. destruct (buffer q); [by destruct Hb|]. simpl in *. lia.
      * intros j. by apply view_set_cursor.
      * rewrite Nat.eqb_refl, Hview, Ecl. unfold view_of. simpl. by rewrite Hd, Hend.
Qed.

Lemma return_refines q i p : wf q → refines (Return_ i p) q (return_ i p q).
Proof.
  intros [H Ht]. unfold return_, detach. destruct (heap q !! i) as [c|] eqn:Hc.
  2: { split; [by split|]. split; [done|]. split; [|done]. intros j v (d & Hd & <-)%view_Some.
       simpl. destruct (Nat.eqb_spec i j) as [<-|?]; [congruence|]. split; [|done].
       apply view_Some. eauto. }
  assert (Hi : (i < length (heap q))%nat) by (by eapply lookup_lt_Some).
  assert (Hfifo : ∀ v, fifo_step (V := V) (bufferLimit q) (closed q) i (Return_ i p) v =
                       (Detached, [(p, Done)])) by (intros v; simpl; by rewrite Nat.eqb_refl).
  destruct (detached c) eqn:Hd; simpl.
  { apply (own_step_refines _ _ _ i c p Detached [(p, Done)]); auto; [by split|]. intros j.
    case_decide; [|done]. subst. apply view_Some. exists c. split; [done|]. unfold view_of. by rewrite Hd. }
  match goal with |- context [trim ?x] => set (q1 := x) end.
  assert (Hl : loose q1).
  { destruct H as [Hlim Hlen [Hnd Hat] Hpos Hpark]. subst q1. split; simpl; try done.
    - split; [by apply NoDup_ListNoDup, List.NoDup_filter, NoDup_ListNoDup|]. intros j.
      rewrite elem_of_filter_js, negb_true_iff, Nat.eqb_neq. destruct (decide (i = j)) as [<-|Hij].
      + rewrite list_lookup_insert_eq by done. split; [by intros [_ []]|]. by intros (d & [= <-] & ?).
      + rewrite list_lookup_insert_ne, Hat by done. naive_solver.
    - intros j d Hj Hdj. destruct (decide (i = j)) as [<-|Hij];
        [rewrite list_lookup_insert_eq in Hj by done; by simplify_eq/=|].
      rewrite list_lookup_insert_ne in Hj by done. by apply (Hpos j d).
    - intros j d w Hj Hdj. destruct (decide (i = j)) as [<-|Hij];
        [rewrite list_lookup_insert_eq in Hj by done; by simplify_eq/=|].
      rewrite list_lookup_insert_ne in Hj by done. by apply (Hpark j d w). }
  destruct (trim_spec q1 Hl) as [Hwf Hv]. destruct (trim_frame q1) as (_ & _ & Hcl & Hf).
  apply (own_step_refines _ _ _ i c p Detached [(p, Done)]); auto. simpl. intros j. rewrite Hv.
  unfold view. simpl. case_decide as Hij.
  - subst j. by rewrite list_lookup_insert_eq by done.
  - by rewrite list_lookup_insert_ne by done.
Qed.
Lemma wake_done_spec q c :
  closed q = false → base q ≤ position c ≤ base q + buffer_length q →
  (waiter c ≠ None → position c = base q + buffer_length q) →
  (wake_done (q <| closed := true |>) c).1 = c <| waiter := None |> ∧
  (wake_done (q <| closed := true |>) c).2 = match waiter c with Some p => [(p, Done)] | None => [] end.
Proof.
  intros Hcl Hp Hw. unfold wake_done, buffer_length in *. simpl. destruct (waiter c) as [p|] eqn:E.
  - destruct (Z.leb_spec (Z.of_nat (length (buffer q))) (position c - base q)); [done|].
    assert (position c = base q + Z.of_nat (length (buffer q))) by (by apply Hw). lia.
  - split; [|done]. simpl. rewrite <- E. by destruct c.
Qed.

Lemma close_refines q : wf q → refines Close q (close q).
Proof.
  intros [H Ht]. unfold close. destruct (closed q) eqn:Ecl.
  { split; [by split|]. split; [by simpl|]. split; [|done]. intros i v Hv. simpl. rewrite Ecl.
    by repeat case_match. }
  assert (Hloop := λ i, for_attached (cursors q) (heap q) (wake_done (q <| closed := true |>)) i (wf_indexes q H)).
  change (cursors (q <| closed := true |>)) with (cursors q).
  change (heap (q <| closed := true |>)) with (heap q).
  destruct (for_cursors _ (cursors q) (heap q)) as [h outs] eqn:Eh. cbn [fst snd] in Hloop.
  assert (Hlive : ∀ i c, heap q !! i = Some c → detached c = false →
    h !! i = Some (c <| waiter := None |>) ∧
    outcomes i outs = match waiter c with Some p => [(p, Done)] | None => [] end).
  { intros i c Hc Hd. destruct (for_live _ _ (wake_done (q <| closed := true |>)) i c
      (wf_indexes q H) Hc Hd) as [Hh Ho]. rewrite Eh in Hh, Ho. simpl in Hh, Ho.
    destruct (wake_done_spec q c Ecl) as [E1 E2]; [by apply (wf_pos q H i)| |].
    { intros Hw. destruct (waiter c) as [w|] eqn:Ew; [|done]. by apply (wf_parked q H i c w). }
    simpl in E1, E2. rewrite Hh, Ho, E1, E2. by split. }
  assert (Hdead : ∀ i c, heap q !! i = Some c → detached c = true → h !! i = Some c ∧ outcomes i outs = []).
  { intros i c Hc Hd. destruct (Hloop i) as [-> ->]. rewrite Hc. simpl. by rewrite Hd. }
  assert (Hinv : ∀ i c, h !! i = Some c → detached c = false →
    ∃ c0, heap q !! i = Some c0 ∧ detached c0 = false ∧ c = c0 <| waiter := None |>).
  { intros i c Hc Hd. destruct (heap q !! i) as [c0|] eqn:E.
    - destruct (detached c0) eqn:Ed; [destruct (Hdead i c0 E Ed); congruence|].
      destruct (Hlive i c0 E Ed) as [Hh _]. exists c0. repeat split; congruence.
    - destruct (Hloop i) as [Hh _]. rewrite E, Hc in Hh. done. }
  split; [split|split; [done|split]]; simpl.
  - split; simpl; [apply H|apply H| | |].
    + apply (indexes_heap _ (heap q)); [|apply H]. intros i. destruct (heap q !! i) as [c|] eqn:E.
      * destruct (detached c) eqn:Ed; [by destruct (Hdead i c E Ed) as [-> _]|].
        destruct (Hlive i c E Ed) as [-> _]. done.
      * destruct (Hloop i) as [-> _]. by rewrite E.
    + intros i c Hc Hd. destruct (Hinv i c Hc Hd) as (c0 & Hc0 & Hd0 & ->). by apply (wf_pos q H i c0).
    + intros i c p Hc Hd. destruct (Hinv i c Hc Hd) as (c0 & Hc0 & Hd0 & ->). done.
  - intros Hb. destruct (Ht Hb) as (i & c & Hc & Hd & Hp). exists i, (c <| waiter := None |>).
    by destruct (Hlive i c Hc Hd).
  - intros i v (c & Hc & <-)%view_Some. unfold view_of at 1 2. unfold view. simpl.
    destruct (detached c) eqn:Ed.
    + destruct (Hdead i c Hc Ed) as [-> ->]. simpl. unfold view_of. by rewrite Ed.
    + destruct (Hlive i c Hc Ed) as [-> ->]. simpl. unfold view_of. simpl. rewrite Ed.
      destruct (waiter c) as [p|] eqn:Ew.
      * destruct (wf_parked q H i c p Hc Ed Ew) as [_ Hend].
        rewrite drop_ge by (unfold buffer_length in *; lia). by rewrite Ecl.
      * by destruct (drop _ _).
  - intros i Hi%view_None. destruct (Hloop i) as [_ ->]. by rewrite Hi.
Qed.

Lemma reader_refines q : wf q → refines Reader q (reader q, []).
Proof.
  intros [H Ht]. unfold refines, reader. cbn [fst snd].
  set (c := Build_Cursor _ _ _).
  assert (Hold : ∀ i d, heap q !! i = Some d → (heap q ++ [c]) !! i = Some d).
  { intros i d Hd. rewrite lookup_app_l; [done|by eapply lookup_lt_Some]. }
  assert (Hinv : ∀ i d, (heap q ++ [c]) !! i = Some d → heap q !! i = Some d ∨ i = length (heap q) ∧ d = c).
  { intros i d [Hd|[Hi Hd]]%lookup_app_Some; [by left|right].
    apply list_lookup_singleton_Some in Hd as [? <-]. split; [lia|]. done. }
  set (q' := if negb (closed q) then _ else _).
  assert (Hf : buffer q' = buffer q ∧ base q' = base q ∧ heap q' = heap q ++ [c] ∧ closed q' = closed q ∧
               bufferLimit q' = bufferLimit q ∧
               cursors q' = if closed q then cursors q else cursors q ++ [length (heap q)]).
  { unfold q'; destruct (closed q) eqn:E; simpl; repeat split; done. }
  destruct Hf as (Eb & Ebase & Eh & Ecl & El & Ec).
  split; [split|split; [done|split; [|done]]].
  - destruct H as [Hlim Hlen [Hnd Hat] Hpos Hpark].
    split; unfold buffer_length; rewrite ?Eb, ?Ebase, ?Eh, ?Ecl, ?El, ?Ec; try done.
    + split.
      * destruct (closed q); [done|]. apply NoDup_app. split; [done|]. split; [|apply NoDup_singleton].
        intros i Hi ->%list_elem_of_singleton. apply Hat in Hi as (d & Hd & _).
        apply lookup_lt_Some in Hd. lia.
      * intros i. destruct (closed q) eqn:E.
        -- rewrite Hat. split; intros (d & Hd & ?); [by eauto|].
           destruct (Hinv i d Hd) as [?|[_ ->]]; [by eauto|done].
        -- rewrite elem_of_app, list_elem_of_singleton, Hat. split.
           ++ intros [(d & Hd & ?)| ->]; [by eauto|]. exists c.
              by rewrite lookup_app_r, Nat.sub_diag by lia.
           ++ intros (d & Hd & ?). destruct (Hinv i d Hd) as [?|[-> _]]; eauto.
    + intros i d Hd Hdet. destruct (Hinv i d Hd) as [?|[_ ->]]; [by eapply Hpos|].
      subst c. simpl. unfold buffer_length. lia.
    + intros i d p Hd Hdet Hp. destruct (Hinv i d Hd) as [?|[_ ->]]; [by eapply Hpark|done].
  - intros Hb. rewrite Eb in Hb. destruct (Ht Hb) as (i & d & Hd & ? & ?). exists i, d.
    rewrite Eh, Ebase. auto.
  - intros i v (d & Hd & <-)%view_Some.
    assert (Hs : fifo_step (bufferLimit q) (closed q) i Reader (view_of q d) = (view_of q d, []))
      by (by destruct (view_of q d) as [|[|? ?] [?|]]).
    rewrite Hs. split; [|done].
    apply view_Some. exists d. rewrite Eh. split; [by apply Hold|]. unfold view_of. by rewrite Eb, Ebase.
Qed.

Lemma step_refines op q : wf q → refines op q (step op q).
Proof.
  intros H. destruct op; simpl.
  - by apply publish_refines.
  - by apply close_refines.
  - by apply reader_refines.
  - by apply next_refines.
  - by apply return_refines.
Qed.

Lemma new_queue_wf limit : 1 ≤ limit → wf (new_queue limit : AsyncBroadcastQueue V).
Proof.
  intros H. split; [|intros Hb; by destruct Hb]. split; simpl; try done.
  - unfold buffer_length. simpl. lia.
  - split; [apply NoDup_nil_2|]. intros i. split; [by intros ?%not_elem_of_nil|]. by intros (? & ? & _).
Qed.
(** ** Runs *)

Lemma run_cons op ops q :
  run (op :: ops) q = ((run ops (step op q).1).1, (step op q).2 ++ (run ops (step op q).1).2).
Proof. simpl. destruct (step op q) as [q1 o]. simpl. by destruct (run ops q1). Qed.

Lemma run_wf ops q : wf q → wf (run ops q).1 ∧ bufferLimit (run ops q).1 = bufferLimit q.
Proof.
  revert q. induction ops as [|op ops IH]; intros q H; [done|]. rewrite run_cons. cbn [fst].
  destruct (step_refines op q H) as (H' & [Hl _] & _). rewrite <- Hl. by apply IH.
Qed.

(** The values a reader got, in order; those it still has to read; those
    published while the queue was open. *)
Definition received i (outs : list (Settled V)) : list V :=
  omap (λ o, match o.2 with Value v => Some v | Done => None end) (outcomes i outs).
Definition pending i q : list V :=
  match view i q with Some (Attached l _) => l | _ => [] end.
Fixpoint published (ops : list (Op V)) : list V :=
  match ops with
  | Publish v :: ops => v :: published ops
  | Close :: _ => []
  | _ :: ops => published ops
  | [] => []
  end.

(** [return()] is never called on the iterator of [i]. *)
Fixpoint never_returns i (ops : list (Op V)) : bool :=
  match ops with
  | Return_ j _ :: ops => negb (j =? i)%nat && never_returns i ops
  | _ :: ops => never_returns i ops
  | [] => true
  end.

(** Whenever a value is published the reader has room for it. *)
Fixpoint keeps_up i (ops : list (Op V)) q : bool :=
  match ops with
  | [] => true
  | op :: ops =>
      match op with
      | Publish _ => Z.of_nat (length (pending i q)) <? bufferLimit q
      | _ => true
      end && keeps_up i ops (step op q).1
  end.

Lemma received_app i (a b : list (Settled V)) : received i (a ++ b) = received i a ++ received i b.
Proof. unfold received. by rewrite outcomes_app, omap_app. Qed.

Lemma published_cons op ops :
  published (op :: ops) = match op with Publish v => [v] | _ => [] end ++
                          if closes op false then [] else published ops.
Proof. by destruct op. Qed.

Lemma last_n_all n (l : list V) : Z.of_nat (length l) ≤ n → last_n n l = l.
Proof. intros H. unfold last_n. replace (length l - Z.to_nat n)%nat with 0%nat by lia. done. Qed.

(** One step of the specification delivers the front of the FIFO, and a
    publication loses values only from a full one. *)
Lemma fifo_step_delivers limit b me op l w :
  1 ≤ limit → never_returns me [op] = true →
  let r := fifo_step limit b me op (Attached l w) in
  let got := omap (λ o : PromiseId * IteratorResult V, match o.2 with Value v => Some v | Done => None end) r.2 in
  let sent := if b then [] else match op with Publish v => [v] | _ => [] end in
  ∃ l' w', r.1 = Attached l' w' ∧ got ++ l' `sublist_of` l ++ sent ∧
    (match op with Publish _ => Z.of_nat (length l) < limit | _ => True end → got ++ l' = l ++ sent).
Proof.
  intros Hlim Hret. destruct op as [x| | |i p|i p]; simpl.
  - destruct b; simpl; [exists l, w; by rewrite app_nil_r|].
    assert (Hsub : last_n limit (l ++ [x]) `sublist_of` l ++ [x]) by apply sublist_drop.
    assert (Hall : Z.of_nat (length l) < limit → last_n limit (l ++ [x]) = l ++ [x])
      by (intros ?; apply last_n_all; rewrite length_app; simpl; lia).
    destruct w as [p|]; [destruct (last_n limit (l ++ [x])) as [|y rest]|]; simpl; eauto 6.
  - exists l. destruct l as [|y l], w as [p|], b; simpl; rewrite ?app_nil_r; eauto.
  - exists l, w. destruct b; simpl; by rewrite ?app_nil_r; destruct l, w.
  - simpl in Hret. destruct (i =? me)%nat.
    + destruct l as [|y l], b; simpl; rewrite ?app_nil_r; eauto.
    + exists l, w. destruct b; simpl; by rewrite ?app_nil_r.
  - simpl in Hret. destruct (i =? me)%nat; [done|]. exists l, w. destruct b; simpl; by rewrite ?app_nil_r.
Qed.

Lemma delivery ops q i l w :
  wf q → view i q = Some (Attached l w) → never_returns i ops = true →
  let sent := if closed q then [] else published ops in
  let r := run ops q in
  received i r.2 ++ pending i r.1 `sublist_of` l ++ sent ∧
  (keeps_up i ops q = true → received i r.2 ++ pending i r.1 = l ++ sent).
Proof.
  revert q l w. induction ops as [|op ops IH]; intros q l w H Hv Hret sent r.
  { subst sent r. simpl. unfold pending. rewrite Hv. destruct (closed q); simpl; by rewrite app_nil_r. }
  subst r. rewrite run_cons. cbn [fst snd].
  destruct (step_refines op q H) as (H1 & [Hl Hcl] & Href & _).
  destruct (Href i _ Hv) as [Hv1 Ho].
  assert (Hret' : never_returns i [op] = true ∧ never_returns i ops = true).
  { simpl in Hret. destruct op; simpl; try done. rewrite andb_true_r. by apply andb_true_iff. }
  destruct Hret' as [Hop Hops].
  destruct (fifo_step_delivers (bufferLimit q) (closed q) i op l w (wf_limit q (proj1 H)) Hop)
    as (l' & w' & Er & Hsub & Heq).
  rewrite Er in Hv1. destruct (IH _ _ _ H1 Hv1 Hops) as [IHsub IHeq].
  rewrite received_app. unfold received at 1 3. rewrite Ho. rewrite Hcl in IHsub, IHeq.
  set (got := omap _ _) in *. rewrite <- !app_assoc.
  assert (Hsent : sent = (if closed q then [] else match op with Publish v => [v] | _ => [] end) ++
                         if closes op (closed q) then [] else published ops).
  { subst sent. destruct (closed q); [by destruct op|]. apply published_cons. }
  rewrite Hsent, (app_assoc l). split.
  - etrans; [|apply sublist_app; [exact Hsub|reflexivity]]. rewrite <- app_assoc.
    by apply sublist_app.
  - intros [Hk Hks]%andb_true_iff. rewrite IHeq, app_assoc by done. f_equal. apply Heq. destruct op; try done. unfold pending in Hk. rewrite Hv in Hk.
    by apply Z.ltb_lt in Hk.
Qed.
Lemma reader_view q :
  view (length (heap q)) (reader q) = Some (if closed q then Detached else Attached [] None).
Proof.
  unfold view, reader. destruct (closed q) eqn:E; simpl;
    rewrite lookup_app_r, Nat.sub_diag by lia; simpl; unfold view_of; simpl; rewrite ?E; [done|].
  do 2 f_equal. apply drop_ge. unfold buffer_length. lia.
Qed.

(** *** Parked promises *)









(** ** Properties *)

(** C7: the shared buffer implements one bounded FIFO per reader.  In every
    state that any interleaving of publish, close, reader, next and return
    reaches from a new queue, each operation acts on every reader exactly as on
    a FIFO of its own: publish appends to it (dropping its oldest value when it
    holds [bufferLimit]) or answers the parked [next] with its first value, close
    answers a parked [next] with [done], next takes its first value, answers
    [done] after close or parks, return is terminal; a reader starts with an
    empty FIFO, and after [close] with a terminated one. *)
Theorem queue_refines_fifos (limit : Z) (ops : list (Op V)) (H : 1 ≤ limit) :
  let q := (run ops (new_queue limit)).1 in
  (∀ op i v, view i q = Some v →
     view i (step op q).1 = Some (fifo_step limit (closed q) i op v).1 ∧
     outcomes i (step op q).2 = (fifo_step limit (closed q) i op v).2) ∧
  view (length (heap q)) (step Reader q).1 = Some (if closed q then Detached else Attached [] None).
Proof.
  intros q. destruct (run_wf ops _ (new_queue_wf limit H)) as [Hwf Hl]. fold q in Hwf, Hl.
  change (bufferLimit q = limit) in Hl. split; [|apply reader_view]. intros op i v Hv. destruct (step_refines op q Hwf) as (_ & _ & Hr & _).
  rewrite <- Hl. by apply Hr.
Qed.

(** C8: a reader that never calls [return] receives values in publication
    order, none twice: what it has received followed by what it can still read
    is a subsequence of what was published while the queue was open, since it
    was created; and it is all of it when the reader has room for every value
    at the moment it is published. *)
Theorem broadcast_in_order (limit : Z) (before ops : list (Op V)) :
  let q := (run before (new_queue limit)).1 in
  let i := length (heap q) in
  let q1 := (step Reader q).1 in
  let r := run ops q1 in
  1 ≤ limit → closed q = false → never_returns i ops = true →
  received i r.2 ++ pending i r.1 `sublist_of` published ops ∧
  (keeps_up i ops q1 = true → received i r.2 ++ pending i r.1 = published ops).
Proof.
  intros q i q1 r Hlim Hcl Hret. destruct (run_wf before _ (new_queue_wf limit Hlim)) as [Hwf _].
  fold q in Hwf. destruct (step_refines Reader q Hwf) as (Hwf1 & [_ Hcl1] & _).
  pose proof (reader_view q) as Hv. rewrite Hcl in Hv.
  destruct (delivery ops q1 i [] None Hwf1 Hv Hret) as [Hs He]. fold q1 in Hcl1.
  rewrite Hcl1 in Hs, He. simpl in Hs, He. rewrite Hcl in Hs, He. by split.
Qed.

End Invariant.

(** ** Witnesses *)

Definition demo_ops : list (Op Z) := [Reader; Publish 10; Next 0%nat 0%nat; Next 0%nat 1%nat].

Lemma queue_refines_fifos_witness :
  view 0%nat (run (demo_ops ++ [Publish 20]) (new_queue 2)).1 = Some (Attached [] None) ∧
  outcomes 0%nat (step (Publish 20) (run demo_ops (new_queue 2)).1).2 = [(1%nat, Value 20)].
Proof.
  split; [by vm_compute|].
  exact (proj2 (proj1 (queue_refines_fifos 2 demo_ops ltac:(lia)) (Publish 20) 0%nat
    (Attached [] (Some 1%nat)) eq_refl)).
Defined.

Lemma broadcast_in_order_witness :
  let q1 := (step Reader (run demo_ops (new_queue 2)).1).1 in
  let ops := [Next 1%nat 2%nat; Publish 20; Publish 30; Next 1%nat 3%nat; Publish 40; Next 0%nat 4%nat; Close] in
  let r := run ops q1 in
  received 1%nat r.2 = [20; 30] ∧ received 1%nat r.2 ++ pending 1%nat r.1 = [20; 30; 40].
Proof.
  intros q1 ops r. split; [by vm_compute|].
  exact (proj2 (broadcast_in_order 2 demo_ops ops ltac:(lia) eq_refl eq_refl) eq_refl).
Defined.


(** ** Observations *)

(** [return()] called while a [next()] is parked: the promise of that [next] is
    settled neither by [return], nor by later publications, nor by [close]. *)
Lemma return_abandons_parked_next :
  outcomes 0%nat (run [Reader; Next 0%nat 0%nat; Return_ 0%nat 1%nat; Publish 7; Close] (new_queue 4)).2 =
  [(1%nat, Done)].
Proof. by vm_compute. Qed.

(** Two [next()] calls in a row on a drained iterator: only the second one is
    ever answered. *)
Lemma second_next_displaces_first :
  outcomes 0%nat (run [Reader; Next 0%nat 0%nat; Next 0%nat 1%nat; Publish 7; Publish 8; Close] (new_queue 4)).2 =
  [(1%nat, Value 7)].
Proof. by vm_compute. Qed.

(** An unclamped limit of zero: every publication is dropped. *)
Lemma zero_limit_drops_everything :
  outcomes 0%nat (run [Reader; Next 0%nat 0%nat; Publish 7; Publish 8] (new_queue 0)).2 = [].
Proof. by vm_compute. Qed.
