(* ===== verification/StateMirror.v ===== *)
(** * The client-side state mirrors

    [clients/typescript/src/client/state-mirror.ts] (one host) and
    [clients/typescript/src/client/hosts/state-mirror.ts] (several hosts): stores
    of channel states that route snapshots and action envelopes, by the URI of
    the channel, to the reducers of the other files.

    A [Map] is a finite map: the code never depends on the iteration order of
    these maps.  A cast such as [action as SessionAction] is the identity at run
    time; a reducer that gets an action of another channel takes its default
    branch, so the cast sends it to the unknown-action constructor, whose text is
    the action's [JSON.stringify], a parameter.  A snapshot whose state is not of
    the type its resource announces is stored as it is by the code; such a store
    is outside the model, and [applySnapshot] has no result there. *)

From S2P Require Import Prelude KeyedList ReducerHelpers CommonState.
From S2P Require Import Terminal Changeset Annotations Canvas ResourceWatch.
From S2P Require Import ChatState ChatActions SessionState SessionActions SessionReducer Root Automation.
From Stdlib Require Import Ascii.
From stdpp Require Import pretty.

Abbreviation HostId := string.

(** ** Envelopes, events and snapshots *)

(** The union of all actions, by channel; each channel's own unknown-action
    constructor stands for the actions of later protocol versions. *)
Inductive StateAction :=
| ActionRoot (a : RootAction)
| ActionSession (a : SessionAction)
| ActionChat (a : ChatAction)
| ActionTerminal (a : TerminalAction)
| ActionChangeset (a : ChangesetAction)
| ActionAnnotations (a : AnnotationsAction)
| ActionCanvas (a : CanvasAction)
| ActionResourceWatch (a : ResourceWatchAction)
| ActionAutomation (a : AutomationAction)
| ActionAutomationRun (a : AutomationRunAction).

Record ActionOrigin := { ao_clientId : string; ao_clientSeq : Z }.

Record ActionEnvelope := {
  ae_channel : URI;
  ae_action : StateAction;
  ae_serverSeq : Z;
  ae_origin : option ActionOrigin;
  ae_rejectionReason : option string
}.

(** The payloads of the other notifications are not read by the mirrors. *)
Inductive SubscriptionEvent :=
| EventAction (params : ActionEnvelope)
| EventSessionAdded (params : json)
| EventSessionRemoved (params : json)
| EventSessionSummaryChanged (params : json)
| EventAuthRequired (params : json).

Record HostSubscriptionEvent := {
  hse_hostId : HostId;
  hse_channel : URI;
  hse_event : SubscriptionEvent
}.

(** [Snapshot['state']]; an [EmptyState], or a kind of state this version does
    not know, is [OtherSnapshot]. *)
Inductive SnapshotState :=
| RootSnapshot (s : RootState)
| SessionSnapshot (s : SessionState)
| ChatSnapshot (s : ChatState)
| TerminalSnapshot (s : TerminalState)
| ChangesetSnapshot (s : ChangesetState)
| AnnotationsSnapshot (s : AnnotationsState)
| CanvasSnapshot (s : CanvasState)
| ResourceWatchSnapshot (s : ResourceWatchState)
| AutomationSnapshot (s : AutomationState)
| AutomationRunSnapshot (s : AutomationRunState)
| OtherSnapshot (s : json).

Record Snapshot := {
  sn_resource : URI;
  sn_state : SnapshotState;
  sn_fromSeq : Z
}.

(** ** Strings *)

(** [s.startsWith(p)]. *)
Fixpoint startsWith (s p : string) {struct p} : bool :=
  match p, s with
  | EmptyString, _ => true
  | String c p, String d s => bool_decide (c = d) && startsWith s p
  | _, _ => false
  end.

(** [`${hostId.length}\x00${hostId}`]; a string is a sequence of code units and
    [pretty] prints a length in decimal. *)
Definition hostedResourceKeyPrefix (hostId : HostId) : string :=
  pretty (String.length hostId) +:+ String "000"%char hostId.

Definition hostedResourceKey (hostId : HostId) (uri : URI) : string :=
  pretty (String.length hostId) +:+ String "000"%char (hostId +:+ uri).

Definition ROOT_RESOURCE_URI : URI := "ahp-root://".
Definition AUTOMATIONS_URI : URI := "ahp-automations://".
Definition INITIAL_ROOT : RootState := mkRootState [] None None None None.
Definition INITIAL_AUTOMATION_CATALOG : AutomationState := mkAutomationState [] None.

(** ** Casts *)

Section Mirrors.
Context (stringify : StateAction → string).

Definition as_RootAction (a : StateAction) : RootAction :=
  match a with ActionRoot x => x | _ => UnknownRootAction (stringify a) end.
Definition as_SessionAction (a : StateAction) : SessionAction :=
  match a with ActionSession x => x | _ => UnknownSessionAction (stringify a) end.
Definition as_TerminalAction (a : StateAction) : TerminalAction :=
  match a with ActionTerminal x => x | _ => UnknownTerminalAction (stringify a) end.
Definition as_ChangesetAction (a : StateAction) : ChangesetAction :=
  match a with ActionChangeset x => x | _ => UnknownChangesetAction (stringify a) end.
Definition as_AutomationAction (a : StateAction) : AutomationAction :=
  match a with ActionAutomation x => x | _ => UnknownAutomationAction (stringify a) end.
Definition as_AutomationRunAction (a : StateAction) : AutomationRunAction :=
  match a with ActionAutomationRun x => x | _ => UnknownAutomationRunAction (stringify a) end.

Definition as_RootState (s : SnapshotState) : option RootState :=
  match s with RootSnapshot x => Some x | _ => None end.
Definition as_SessionState (s : SnapshotState) : option SessionState :=
  match s with SessionSnapshot x => Some x | _ => None end.
Definition as_TerminalState (s : SnapshotState) : option TerminalState :=
  match s with TerminalSnapshot x => Some x | _ => None end.
Definition as_ChangesetState (s : SnapshotState) : option ChangesetState :=
  match s with ChangesetSnapshot x => Some x | _ => None end.
Definition as_AutomationState (s : SnapshotState) : option AutomationState :=
  match s with AutomationSnapshot x => Some x | _ => None end.
Definition as_AutomationRunState (s : SnapshotState) : option AutomationRunState :=
  match s with AutomationRunSnapshot x => Some x | _ => None end.

(** The type guard [isCanvasState]: of the known kinds of state only a canvas
    has an [instanceId], an [extensionId] and a [canvasId]. *)
Definition isCanvasState (s : SnapshotState) : option CanvasState :=
  match s with
  | CanvasSnapshot x => Some x
  | OtherSnapshot (JObject fields) =>
      let field k := snd <$> find_js (λ kv, kv.1 =?s k) fields in
      let text k := match field k with Some (JString v) => Some v | _ => None end in
      let optional_text k := match field k with
                             | None => Some None
                             | Some (JString v) => Some (Some v)
                             | Some _ => None
                             end in
      instanceId ← text "instanceId"; extensionId ← text "extensionId"; canvasId ← text "canvasId";
      extensionName ← optional_text "extensionName"; title ← optional_text "title";
      status ← optional_text "status"; url ← optional_text "url";
      Some (mkCanvasState instanceId extensionId extensionName canvasId title status url)
  | _ => None
  end.

(** [map.set(key, reducer(current, action))] unless there is no [current]. *)
Definition reduce_at {S A} (reducer : S → A → Logged S) (key : string) (action : A)
    (m : gmap string S) : Logged (gmap string S) :=
  match m !! key with
  | None => mret m
  | Some current => s ← reducer current action; mret (<[key := s]> m)
  end.

(** ** One host: [AhpStateMirror] *)

Record AhpStateMirror := {
  rootState : RootState;
  sessions : gmap URI SessionState;
  canvases : gmap URI CanvasState;
  terminals : gmap URI TerminalState;
  changesets : gmap URI ChangesetState;
  automationCatalogState : AutomationState;
  automations : gmap URI AutomationEntry;
  automationRuns : gmap URI AutomationRunState
}.
#[export] Instance eta_AhpStateMirror : Eta AhpStateMirror := λ r,
  Build_AhpStateMirror (rootState r) (sessions r) (canvases r) (terminals r) (changesets r)
    (automationCatalogState r) (automations r) (automationRuns r).

Definition new_AhpStateMirror : AhpStateMirror :=
  Build_AhpStateMirror INITIAL_ROOT ∅ ∅ ∅ ∅ INITIAL_AUTOMATION_CATALOG ∅ ∅.

Definition index_entries (key : URI → string) (entries : list AutomationEntry)
    (m : gmap string AutomationEntry) : gmap string AutomationEntry :=
  foldl (λ m e, <[key (aue_resource e) := e]> m) m entries.

Definition single_setAutomationCatalog (state : AutomationState) (m : AhpStateMirror) : AhpStateMirror :=
  (m <| automationCatalogState := state |>) <| automations := index_entries id (aus_entries state) ∅ |>.

(** [None]: a state that is not of the type the resource announces, which the code
    stores unchecked; the model stops there. *)
Definition single_applySnapshot (snapshot : Snapshot) (m : AhpStateMirror) :
    option (JsResult AhpStateMirror) :=
  let resource := sn_resource snapshot in
  let state := sn_state snapshot in
  if resource =?s ROOT_RESOURCE_URI then s ← as_RootState state; Some (Ok (m <| rootState := s |>))
  else if startsWith resource "ahp-session:" then
    s ← as_SessionState state; Some (Ok (m <| sessions := <[resource := s]> (sessions m) |>))
  else if startsWith resource "ahp-canvas:" then
    match isCanvasState state with
    | None => Some (Throw (PlainError "Invalid canvas snapshot state"))
    | Some s => Some (Ok (m <| canvases := <[resource := s]> (canvases m) |>))
    end
  else if startsWith resource "ahp-terminal:" then
    s ← as_TerminalState state; Some (Ok (m <| terminals := <[resource := s]> (terminals m) |>))
  else if startsWith resource "ahp-changeset:" then
    s ← as_ChangesetState state; Some (Ok (m <| changesets := <[resource := s]> (changesets m) |>))
  else if resource =?s AUTOMATIONS_URI then
    s ← as_AutomationState state; Some (Ok (single_setAutomationCatalog s m))
  else if startsWith resource "ahp-automation-run:" then
    s ← as_AutomationRunState state; Some (Ok (m <| automationRuns := <[resource := s]> (automationRuns m) |>))
  else Some (Ok m).

Definition single_apply (envelope : ActionEnvelope) (m : AhpStateMirror) : Logged AhpStateMirror :=
  let channel := ae_channel envelope in
  let action := ae_action envelope in
  if channel =?s ROOT_RESOURCE_URI then
    s ← rootReducer (rootState m) (as_RootAction action); mret (m <| rootState := s |>)
  else if startsWith channel "ahp-session:" then
    x ← reduce_at sessionReducer channel (as_SessionAction action) (sessions m);
    mret (m <| sessions := x |>)
  else if startsWith channel "ahp-canvas:" then
    match action with
    | ActionCanvas (CanvasStateChanged a) =>
        x ← reduce_at canvasReducer channel (CanvasStateChanged a) (canvases m);
        mret (m <| canvases := x |>)
    | _ => mret m
    end
  else if startsWith channel "ahp-terminal:" then
    x ← reduce_at terminalReducer channel (as_TerminalAction action) (terminals m);
    mret (m <| terminals := x |>)
  else if startsWith channel "ahp-changeset:" then
    x ← reduce_at changesetReducer channel (as_ChangesetAction action) (changesets m);
    mret (m <| changesets := x |>)
  else if channel =?s AUTOMATIONS_URI then
    s ← automationReducer (automationCatalogState m) (as_AutomationAction action);
    mret (single_setAutomationCatalog s m)
  else if startsWith channel "ahp-automation-run:" then
    x ← reduce_at automationRunReducer channel (as_AutomationRunAction action) (automationRuns m);
    mret (m <| automationRuns := x |>)
  else mret m.

(** ** Several hosts: [MultiHostStateMirror] *)

Record MultiHostStateMirror := {
  rootStatesMap : gmap HostId RootState;
  sessionsMap : gmap string SessionState;
  canvasesMap : gmap string CanvasState;
  terminalsMap : gmap string TerminalState;
  changesetsMap : gmap string ChangesetState;
  automationCatalogsMap : gmap HostId AutomationState;
  automationsMap : gmap string AutomationEntry;
  automationRunsMap : gmap string AutomationRunState
}.
#[export] Instance eta_MultiHostStateMirror : Eta MultiHostStateMirror := λ r,
  Build_MultiHostStateMirror (rootStatesMap r) (sessionsMap r) (canvasesMap r) (terminalsMap r)
    (changesetsMap r) (automationCatalogsMap r) (automationsMap r) (automationRunsMap r).

Definition new_MultiHostStateMirror : MultiHostStateMirror :=
  Build_MultiHostStateMirror ∅ ∅ ∅ ∅ ∅ ∅ ∅ ∅.

Definition getRoot (hostId : HostId) (m : MultiHostStateMirror) := rootStatesMap m !! hostId.
Definition getSession (hostId : HostId) (uri : URI) (m : MultiHostStateMirror) :=
  sessionsMap m !! hostedResourceKey hostId uri.
Definition getCanvas (hostId : HostId) (uri : URI) (m : MultiHostStateMirror) :=
  canvasesMap m !! hostedResourceKey hostId uri.
Definition getTerminal (hostId : HostId) (uri : URI) (m : MultiHostStateMirror) :=
  terminalsMap m !! hostedResourceKey hostId uri.
Definition getChangeset (hostId : HostId) (uri : URI) (m : MultiHostStateMirror) :=
  changesetsMap m !! hostedResourceKey hostId uri.
Definition getAutomation (hostId : HostId) (uri : URI) (m : MultiHostStateMirror) :=
  automationsMap m !! hostedResourceKey hostId uri.

(** [for (const key of map.keys()) if (key.startsWith(prefix)) map.delete(key)]. *)
Definition drop_prefix {S} (prefix : string) (m : gmap string S) : gmap string S :=
  filter (λ kv, startsWith kv.1 prefix = false) m.

Definition setAutomationCatalog (hostId : HostId) (state : AutomationState) (m : MultiHostStateMirror) :
    MultiHostStateMirror :=
  (m <| automationCatalogsMap := <[hostId := state]> (automationCatalogsMap m) |>)
    <| automationsMap := index_entries (hostedResourceKey hostId) (aus_entries state)
                           (drop_prefix (hostedResourceKeyPrefix hostId) (automationsMap m)) |>.

(** As [single_applySnapshot], [None] for a state of another type than announced. *)
Definition applySnapshot (hostId : HostId) (snapshot : Snapshot) (m : MultiHostStateMirror) :
    option (JsResult MultiHostStateMirror) :=
  let resource := sn_resource snapshot in
  let state := sn_state snapshot in
  let key := hostedResourceKey hostId resource in
  if resource =?s ROOT_RESOURCE_URI then
    s ← as_RootState state; Some (Ok (m <| rootStatesMap := <[hostId := s]> (rootStatesMap m) |>))
  else if startsWith resource "ahp-session:" then
    s ← as_SessionState state; Some (Ok (m <| sessionsMap := <[key := s]> (sessionsMap m) |>))
  else if startsWith resource "ahp-canvas:" then
    match isCanvasState state with
    | None => Some (Throw (PlainError "Invalid canvas snapshot state"))
    | Some s => Some (Ok (m <| canvasesMap := <[key := s]> (canvasesMap m) |>))
    end
  else if startsWith resource "ahp-terminal:" then
    s ← as_TerminalState state; Some (Ok (m <| terminalsMap := <[key := s]> (terminalsMap m) |>))
  else if startsWith resource "ahp-changeset:" then
    s ← as_ChangesetState state; Some (Ok (m <| changesetsMap := <[key := s]> (changesetsMap m) |>))
  else if resource =?s AUTOMATIONS_URI then
    s ← as_AutomationState state; Some (Ok (setAutomationCatalog hostId s m))
  else if startsWith resource "ahp-automation-run:" then
    s ← as_AutomationRunState state;
    Some (Ok (m <| automationRunsMap := <[key := s]> (automationRunsMap m) |>))
  else Some (Ok m).

Definition applyEnvelope (hostId : HostId) (envelope : ActionEnvelope) (m : MultiHostStateMirror) :
    Logged MultiHostStateMirror :=
  let channel := ae_channel envelope in
  let action := ae_action envelope in
  let key := hostedResourceKey hostId channel in
  if channel =?s ROOT_RESOURCE_URI then
    let root := (rootStatesMap m !! hostId) ??! INITIAL_ROOT in
    s ← rootReducer root (as_RootAction action);
    mret (m <| rootStatesMap := <[hostId := s]> (rootStatesMap m) |>)
  else if startsWith channel "ahp-session:" then
    x ← reduce_at sessionReducer key (as_SessionAction action) (sessionsMap m);
    mret (m <| sessionsMap := x |>)
  else if startsWith channel "ahp-canvas:" then
    match action with
    | ActionCanvas (CanvasStateChanged a) =>
        x ← reduce_at canvasReducer key (CanvasStateChanged a) (canvasesMap m);
        mret (m <| canvasesMap := x |>)
    | _ => mret m
    end
  else if startsWith channel "ahp-terminal:" then
    x ← reduce_at terminalReducer key (as_TerminalAction action) (terminalsMap m);
    mret (m <| terminalsMap := x |>)
  else if startsWith channel "ahp-changeset:" then
    x ← reduce_at changesetReducer key (as_ChangesetAction action) (changesetsMap m);
    mret (m <| changesetsMap := x |>)
  else if channel =?s AUTOMATIONS_URI then
    match automationCatalogsMap m !! hostId with
    | None => mret m
    | Some current =>
        s ← automationReducer current (as_AutomationAction action);
        mret (setAutomationCatalog hostId s m)
    end
  else if startsWith channel "ahp-automation-run:" then
    x ← reduce_at automationRunReducer key (as_AutomationRunAction action) (automationRunsMap m);
    mret (m <| automationRunsMap := x |>)
  else mret m.

Definition applyEvent (event : HostSubscriptionEvent) (m : MultiHostStateMirror) :
    Logged MultiHostStateMirror :=
  match hse_event event with
  | EventAction params => applyEnvelope (hse_hostId event) params m
  | _ => mret m
  end.

Definition resetHost (hostId : HostId) (m : MultiHostStateMirror) : MultiHostStateMirror :=
  let prefix := hostedResourceKeyPrefix hostId in
  Build_MultiHostStateMirror
    (delete hostId (rootStatesMap m))
    (drop_prefix prefix (sessionsMap m))
    (drop_prefix prefix (canvasesMap m))
    (drop_prefix prefix (terminalsMap m))
    (drop_prefix prefix (changesetsMap m))
    (delete hostId (automationCatalogsMap m))
    (drop_prefix prefix (automationsMap m))
    (drop_prefix prefix (automationRunsMap m)).

Definition reset (m : MultiHostStateMirror) : MultiHostStateMirror := new_MultiHostStateMirror.

End Mirrors.
