(* ===== verification/MirrorProperties.v ===== *)
(** * What the state mirrors guarantee

    The compound keys of [MultiHostStateMirror] are unambiguous, so the
    multi-host mirror simulates one [AhpStateMirror] per host, and its index of
    automations always reflects the hosts' catalogues. *)

From S2P Require Import Prelude KeyedList CommonState ChatState SessionState Terminal Changeset Root Automation Canvas StateMirror.
From stdpp Require Import pretty.
From Stdlib Require Import Ascii.

(** ** The compound key *)

Fixpoint nul_free (s : string) : Prop :=
  match s with EmptyString => True | String c s => c ≠ "000"%char ∧ nul_free s end.

Lemma pretty_N_go_nul_free x s : nul_free s → nul_free (pretty_N_go x s).
Proof.
  revert s. induction (N.lt_wf_0 x) as [x _ IH]; intros s Hs.
  destruct (decide (x = 0)%N) as [->|Hx]; [by rewrite pretty_N_go_0|].
  rewrite pretty_N_go_step by lia. apply IH; [apply N.div_lt; lia|]. split; [|done].
  unfold pretty_N_char. by repeat case_match.
Qed.

Lemma pretty_nat_nul_free (n : nat) : nul_free (pretty n).
Proof.
  unfold pretty, pretty_nat, pretty, pretty_N. case_decide; [done|].
  by apply pretty_N_go_nul_free.
Qed.

Lemma split_at_nul a b x y :
  nul_free a → nul_free b → a +:+ String "000" x = b +:+ String "000" y → a = b ∧ x = y.
Proof.
  revert b. induction a as [|c a IH]; intros [|d b] Ha Hb E; simpl in *; simplify_eq/=; try done.
  - by destruct Hb.
  - by destruct Ha.
  - destruct (IH b) as [-> ->]; naive_solver.
Qed.

Lemma app_inj_length a b x y :
  String.length a = String.length b → a +:+ x = b +:+ y → a = b ∧ x = y.
Proof.
  revert b. induction a as [|c a IH]; intros [|d b] Hl E; simpl in *; simplify_eq/=; try done.
  destruct (IH b) as [-> ->]; naive_solver.
Qed.

Lemma startsWith_spec s p : startsWith s p = true ↔ ∃ t, s = p +:+ t.
Proof.
  revert s. induction p as [|c p IH]; intros s; simpl.
  - split; [by exists s|done].
  - destruct s as [|d s]; simpl; [by split; [|intros [t [=]]]|].
    rewrite andb_true_iff, bool_decide_eq_true, IH. split.
    + intros [-> [t ->]]. by exists t.
    + intros [t [= -> ->]]. eauto.
Qed.

Lemma key_prefix h u : hostedResourceKey h u = hostedResourceKeyPrefix h +:+ u.
Proof.
  unfold hostedResourceKey, hostedResourceKeyPrefix. by rewrite append_assoc.
Qed.

Lemma prefix_app_inj h h' t t' :
  hostedResourceKeyPrefix h +:+ t = hostedResourceKeyPrefix h' +:+ t' → h = h' ∧ t = t'.
Proof.
  unfold hostedResourceKeyPrefix. rewrite !append_assoc. simpl.
  intros [Hlen Happ]%split_at_nul; [|apply pretty_nat_nul_free..].
  by apply app_inj_length in Happ; [|apply (inj pretty)].
Qed.

#[export] Instance key_inj : Inj2 (=) (=) (=) hostedResourceKey.
Proof. intros h u h' u'. rewrite !key_prefix. apply prefix_app_inj. Qed.

Lemma key_startsWith h h' u :
  startsWith (hostedResourceKey h' u) (hostedResourceKeyPrefix h) = bool_decide (h = h').
Proof.
  apply Bool.eq_true_iff_eq. rewrite startsWith_spec, bool_decide_eq_true, key_prefix. split.
  - intros [t Ht]. by apply prefix_app_inj in Ht as [-> _].
  - intros ->. by exists u.
Qed.

(** ** A hosted map and the map of one host *)

Section Agree.
Context {S : Type}.
Implicit Types (mm : gmap string S) (am : gmap URI S).

Definition agree (h : HostId) mm am : Prop := ∀ u, mm !! hostedResourceKey h u = am !! u.

Lemma agree_empty h : agree h ∅ ∅.
Proof. intros u. by rewrite !lookup_empty. Qed.

Lemma agree_insert h mm am u s :
  agree h mm am → agree h (<[hostedResourceKey h u := s]> mm) (<[u := s]> am).
Proof.
  intros H v. destruct (decide (u = v)) as [<-|Huv]; [by rewrite !lookup_insert_eq|].
  rewrite !lookup_insert_ne; [done|done|]. by intros [_ ?]%(inj2 hostedResourceKey).
Qed.

Lemma agree_insert_other h h' mm am u s :
  h ≠ h' → agree h mm am → agree h (<[hostedResourceKey h' u := s]> mm) am.
Proof.
  intros Hh H v. rewrite lookup_insert_ne; [done|]. by intros [-> _]%(inj2 hostedResourceKey).
Qed.

Lemma agree_reduce {A} h mm am (reducer : S → A → Logged S) u a :
  agree h mm am →
  agree h (reduce_at reducer (hostedResourceKey h u) a mm).1 (reduce_at reducer u a am).1.
Proof.
  intros H. unfold reduce_at. rewrite (H u). destruct (am !! u); [|done]. simpl.
  by apply agree_insert.
Qed.

Lemma agree_reduce_other {A} h h' mm am (reducer : S → A → Logged S) u a :
  h ≠ h' → agree h mm am → agree h (reduce_at reducer (hostedResourceKey h' u) a mm).1 am.
Proof.
  intros Hh H. unfold reduce_at. destruct (mm !! _); [|done]. simpl. by apply agree_insert_other.
Qed.

Lemma drop_prefix_lookup h h' (mm : gmap string S) u :
  drop_prefix (hostedResourceKeyPrefix h) mm !! hostedResourceKey h' u =
  if decide (h = h') then None else mm !! hostedResourceKey h' u.
Proof.
  unfold drop_prefix. rewrite map_lookup_filter. case_decide as Hh.
  - subst. destruct (mm !! _); [|done]. simpl. rewrite option_guard_False; [done|]. simpl.
    by rewrite key_startsWith, bool_decide_eq_true_2.
  - destruct (mm !! _); [|done]. simpl. rewrite option_guard_True; [done|]. simpl.
    by rewrite key_startsWith, bool_decide_eq_false_2.
Qed.

Lemma agree_drop h mm : agree h (drop_prefix (hostedResourceKeyPrefix h) mm) ∅.
Proof. intros u. by rewrite drop_prefix_lookup, decide_True, lookup_empty. Qed.

Lemma agree_drop_other h h' mm am :
  h ≠ h' → agree h mm am → agree h (drop_prefix (hostedResourceKeyPrefix h') mm) am.
Proof. intros Hh H u. rewrite drop_prefix_lookup, decide_False; [apply H|congruence]. Qed.
End Agree.

Lemma index_entries_app key l e m :
  index_entries key (l ++ [e]) m = <[key (aue_resource e) := e]> (index_entries key l m).
Proof. unfold index_entries. by rewrite foldl_app. Qed.

Lemma agree_index h mm am l :
  agree h mm am → agree h (index_entries (hostedResourceKey h) l mm) (index_entries id l am).
Proof.
  intros H. induction l as [|e l IH] using rev_ind; [done|]. rewrite !index_entries_app.
  by apply agree_insert.
Qed.

Lemma agree_index_other h h' mm am l :
  h ≠ h' → agree h mm am → agree h (index_entries (hostedResourceKey h') l mm) am.
Proof.
  intros Hh H. induction l as [|e l IH] using rev_ind; [done|]. rewrite index_entries_app.
  by apply agree_insert_other.
Qed.

Create HintDb mirror.
#[export] Hint Resolve agree_empty agree_insert agree_insert_other agree_reduce agree_reduce_other
  agree_drop agree_drop_other agree_index agree_index_other : mirror.

(** ** Inputs and runs *)

Inductive Input :=
| Event (channel : URI) (event : SubscriptionEvent)
| Snap (snapshot : Snapshot)
| Reset.

Section Runs.
Context (stringify : StateAction → string).

(** An exception leaves the mirror as it is. *)
Definition caught {M} (m : M) (r : JsResult M) : M := match r with Ok m' => m' | Throw _ => m end.

Definition multi_step (m : MultiHostStateMirror) (inp : HostId * Input) : option MultiHostStateMirror :=
  match inp.2 with
  | Event channel event => Some (val (applyEvent stringify (Build_HostSubscriptionEvent inp.1 channel event) m))
  | Snap s => caught m <$> applySnapshot inp.1 s m
  | Reset => Some (resetHost inp.1 m)
  end.

Definition single_step (m : AhpStateMirror) (inp : Input) : option AhpStateMirror :=
  match inp with
  | Event _ (EventAction e) => Some (val (single_apply stringify e m))
  | Event _ _ => Some m
  | Snap s => caught m <$> single_applySnapshot s m
  | Reset => Some new_AhpStateMirror
  end.

Definition run_mirror {M I} (step : M → I → option M) : list I → M → option M :=
  fix run ins m := match ins with [] => Some m | i :: ins => m ← step m i; run ins m end.

Definition inputs_of (h : HostId) (ins : list (HostId * Input)) : list Input :=
  map snd (List.filter (λ i, i.1 =?s h) ins).

(** No automation action arrives before a snapshot of the catalogue. *)
Fixpoint catalog_seeded (seeded : bool) (ins : list Input) : bool :=
  match ins with
  | [] => true
  | Event _ (EventAction e) :: ins =>
      implb (ae_channel e =?s AUTOMATIONS_URI) seeded && catalog_seeded seeded ins
  | Event _ _ :: ins => catalog_seeded seeded ins
  | Snap s :: ins => catalog_seeded (seeded || (sn_resource s =?s AUTOMATIONS_URI)) ins
  | Reset :: ins => catalog_seeded false ins
  end.

(** The part of a multi-host mirror that belongs to host [h] is the mirror [a]. *)
Record mirrors (h : HostId) (seeded : bool) (m : MultiHostStateMirror) (a : AhpStateMirror) : Prop := {
  mir_root : ((rootStatesMap m !! h) ??! INITIAL_ROOT) = rootState a;
  mir_sessions : agree h (sessionsMap m) (sessions a);
  mir_canvases : agree h (canvasesMap m) (canvases a);
  mir_terminals : agree h (terminalsMap m) (terminals a);
  mir_changesets : agree h (changesetsMap m) (changesets a);
  mir_catalog : ((automationCatalogsMap m !! h) ??! INITIAL_AUTOMATION_CATALOG) = automationCatalogState a;
  mir_seeded : seeded = true → is_Some (automationCatalogsMap m !! h);
  mir_automations : agree h (automationsMap m) (automations a);
  mir_runs : agree h (automationRunsMap m) (automationRuns a)
}.

Lemma mirrors_new h : mirrors h false new_MultiHostStateMirror new_AhpStateMirror.
Proof. split; simpl; rewrite ?lookup_empty; auto with mirror; done. Qed.

(** The channels are tried in the same order on both sides. *)
Ltac by_route :=
  repeat match goal with
  | |- context [if ?b then _ else _] => destruct b eqn:?
  end.

(** The fields of [mirrors] that an update of another field leaves alone. *)
Ltac by_fields H :=
  destruct H; split; simpl; rewrite ?lookup_insert_eq, ?lookup_insert_ne, ?lookup_delete_eq,
    ?lookup_delete_ne by done; eauto with mirror.

Lemma envelope_own h seeded m a e :
  mirrors h seeded m a → implb (ae_channel e =?s AUTOMATIONS_URI) seeded = true →
  mirrors h seeded (applyEnvelope stringify h e m).1 (single_apply stringify e a).1.
Proof.
  intros H Hs. unfold applyEnvelope, single_apply. by_route; simpl; try by by_fields H.
  - by_fields H. by rewrite mir_root0.
  - destruct (ae_action e) as [| | | | | |[]| | |]; by_fields H.
  - destruct seeded; [|by simpl in Hs]. destruct (mir_seeded _ _ _ _ H eq_refl) as [c Hc].
    rewrite Hc. pose proof (mir_catalog _ _ _ _ H) as Hcat. rewrite Hc in Hcat. simpl in Hcat.
    rewrite <- Hcat. simpl. by_fields H.
Qed.

Lemma envelope_other h h' seeded m a e :
  h ≠ h' → mirrors h seeded m a → mirrors h seeded (applyEnvelope stringify h' e m).1 a.
Proof.
  intros Hh H. unfold applyEnvelope. by_route; simpl; try by by_fields H.
  - destruct (ae_action e) as [| | | | | |[]| | |]; by_fields H.
  - destruct (automationCatalogsMap m !! h'); simpl; by_fields H.
Qed.

Lemma snapshot_own h seeded m a s m' :
  mirrors h seeded m a → caught m <$> applySnapshot h s m = Some m' →
  ∃ a', caught a <$> single_applySnapshot s a = Some a' ∧
        mirrors h (seeded || (sn_resource s =?s AUTOMATIONS_URI)) m' a'.
Proof.
  intros H. unfold applySnapshot, single_applySnapshot.
  destruct (sn_resource s =?s AUTOMATIONS_URI) eqn:E.
  { apply str_eqb_true in E. rewrite E. simpl. destruct (as_AutomationState _) as [c|]; [|done].
    simpl. intros [= <-]. eexists. split; [done|]. by_fields H. }
  rewrite orb_false_r. by_route; simpl; try by (intros [= <-]; eauto).
  - destruct (as_RootState _); simpl; [|done]. intros [= <-]. eexists. split; [done|]. by_fields H.
  - destruct (as_SessionState _); simpl; [|done]. intros [= <-]. eexists. split; [done|]. by_fields H.
  - destruct (isCanvasState _); simpl; intros [= <-]; eexists; (split; [done|]); by_fields H.
  - destruct (as_TerminalState _); simpl; [|done]. intros [= <-]. eexists. split; [done|]. by_fields H.
  - destruct (as_ChangesetState _); simpl; [|done]. intros [= <-]. eexists. split; [done|]. by_fields H.
  - destruct (as_AutomationRunState _); simpl; [|done]. intros [= <-]. eexists. split; [done|]. by_fields H.
Qed.

Lemma snapshot_other h h' seeded m a s m' :
  h ≠ h' → mirrors h seeded m a → caught m <$> applySnapshot h' s m = Some m' → mirrors h seeded m' a.
Proof.
  intros Hh H. unfold applySnapshot. by_route; simpl; try by (intros [= <-]).
  - destruct (as_RootState _); simpl; [|done]. intros [= <-]. by_fields H.
  - destruct (as_SessionState _); simpl; [|done]. intros [= <-]. by_fields H.
  - destruct (isCanvasState _); simpl; intros [= <-]; by_fields H.
  - destruct (as_TerminalState _); simpl; [|done]. intros [= <-]. by_fields H.
  - destruct (as_ChangesetState _); simpl; [|done]. intros [= <-]. by_fields H.
  - destruct (as_AutomationState _); simpl; [|done]. intros [= <-]. by_fields H.
  - destruct (as_AutomationRunState _); simpl; [|done]. intros [= <-]. by_fields H.
Qed.

Lemma reset_own h seeded m a :
  mirrors h seeded m a → mirrors h false (resetHost h m) new_AhpStateMirror.
Proof. intros H. by_fields H. done. Qed.

Lemma reset_other h h' seeded m a :
  h ≠ h' → mirrors h seeded m a → mirrors h seeded (resetHost h' m) a.
Proof. intros Hh H. by_fields H. Qed.

(** The inputs of [h] drive its mirror; those of the other hosts do not touch it. *)
Lemma mirrors_run h ins m m' seeded a :
  mirrors h seeded m a → run_mirror multi_step ins m = Some m' →
  catalog_seeded seeded (inputs_of h ins) = true →
  ∃ a' seeded', run_mirror single_step (inputs_of h ins) a = Some a' ∧ mirrors h seeded' m' a'.
Proof.
  revert m seeded a. induction ins as [|[h' inp] ins IH]; intros m seeded a H Hrun Hseed.
  { simpl in *. simplify_eq. eauto. }
  simpl in Hrun. apply bind_Some in Hrun as (m1 & Hstep & Hrun).
  unfold multi_step in Hstep. unfold inputs_of in *. simpl in *. case_str h' h; simpl in *.
  - subst h'. destruct inp as [ch ev|s|].
    + destruct ev as [e| | | |]; try (simplify_eq/=; eapply IH; eassumption).
      apply andb_true_iff in Hseed as [Hs Hseed]. simplify_eq/=.
      eapply IH; [by apply envelope_own|eassumption|eassumption].
    + simpl in *. destruct (snapshot_own _ _ _ _ _ _ H Hstep) as (a1 & -> & H1). simpl.
      by eapply IH.
    + simplify_eq/=. eapply IH; [by eapply reset_own|eassumption|eassumption].
  - destruct inp as [ch ev|s|].
    + destruct ev as [e| | | |]; simplify_eq/=; try (eapply IH; eassumption).
      eapply IH; [by apply envelope_other|exact Hrun|eassumption].
    + simpl in *. eapply IH; [by eapply snapshot_other|eassumption|eassumption].
    + simplify_eq/=. eapply IH; [by eapply reset_other|eassumption|eassumption].
Qed.

(** ** The index of the automations *)

(** The last entry of a catalogue for a resource. *)
Definition catalogued (u : URI) (c : AutomationState) : option AutomationEntry :=
  find_js (λ e, aue_resource e =?s u) (rev (aus_entries c)).

Definition index_coherent (m : MultiHostStateMirror) : Prop :=
  ∀ h u, getAutomation h u m = automationCatalogsMap m !! h ≫= catalogued u.

Lemma index_entries_lookup h h' u l mm :
  index_entries (hostedResourceKey h) l mm !! hostedResourceKey h' u =
  match (if decide (h = h') then find_js (λ e, aue_resource e =?s u) (rev l) else None) with
  | Some e => Some e
  | None => mm !! hostedResourceKey h' u
  end.
Proof.
  induction l as [|e l IH] using rev_ind; [by case_decide|].
  rewrite index_entries_app, rev_unit. simpl. case_decide as Hh.
  - subst h'. case_str (aue_resource e) u.
    + subst u. by rewrite lookup_insert_eq.
    + rewrite lookup_insert_ne; [done|]. by intros [_ ?]%(inj2 hostedResourceKey).
  - rewrite lookup_insert_ne; [done|]. by intros [? _]%(inj2 hostedResourceKey).
Qed.

Lemma set_catalog_coherent h c m : index_coherent m → index_coherent (setAutomationCatalog h c m).
Proof.
  intros H h' u. unfold getAutomation, setAutomationCatalog. simpl.
  rewrite index_entries_lookup, drop_prefix_lookup. destruct (decide (h = h')) as [<-|Hh].
  - rewrite lookup_insert_eq. simpl. unfold catalogued. by destruct (find_js _ _).
  - rewrite lookup_insert_ne by done. apply H.
Qed.

Lemma reset_coherent h m : index_coherent m → index_coherent (resetHost h m).
Proof.
  intros H h' u. unfold getAutomation. simpl. rewrite drop_prefix_lookup. case_decide as Hh.
  - subst. by rewrite lookup_delete_eq.
  - rewrite lookup_delete_ne by done. apply H.
Qed.

Lemma step_index_coherent m inp m' : index_coherent m → multi_step m inp = Some m' → index_coherent m'.
Proof.
  intros H. unfold multi_step. destruct inp as [h [ch [e| | | |]|s|]]; simpl;
    try by intros [= <-].
  - intros [= <-]. unfold val, applyEvent, applyEnvelope. simpl. by_route; try exact H.
    + destruct (ae_action e) as [| | | | | |[]| | |]; exact H.
    + destruct (automationCatalogsMap m !! h); [|exact H]. by apply set_catalog_coherent.
  - unfold applySnapshot. by_route; try (destruct (isCanvasState _); intros [= <-]; exact H);
      try (match goal with |- context [?f (sn_state s)] => destruct (f (sn_state s)) end;
           intros; simplify_eq/=; first [exact H | by apply set_catalog_coherent]).
    intros [= <-]. exact H.
  - intros [= <-]. by apply reset_coherent.
Qed.

(** ** Properties *)

(** C38: the compound key is unambiguous.  Two pairs of a host and a URI have the
    same key only if they are equal, whatever characters the two strings
    contain, and the prefix test of [resetHost] and [setAutomationCatalog]
    accepts a key exactly when it is a key of that host. *)
Theorem hosted_key_unambiguous (h h' : HostId) (u u' : URI) :
  (hostedResourceKey h u = hostedResourceKey h' u' ↔ h = h' ∧ u = u') ∧
  startsWith (hostedResourceKey h' u) (hostedResourceKeyPrefix h) = bool_decide (h = h').
Proof.
  split; [|apply key_startsWith]. split; [apply (inj2 hostedResourceKey)|by intros [-> ->]].
Qed.

(** C9: the multi-host mirror simulates one single-host mirror per host.  Start
    with an empty mirror and apply any interleaving of events, snapshots and
    resets of any hosts; what the mirror then holds for host [h] is what an
    [AhpStateMirror] holds that was fed the inputs of [h] alone, a reset
    starting it afresh: no host's input reaches another host's state.  The
    snapshots are those whose state is of the type their resource announces
    ([Hrun]: the code stores the others unchecked, which is not modelled).  The one
    difference of the two classes is excluded by the hypothesis [Hseed]: before any
    snapshot of the catalogue an automation action is dropped by the multi-host
    mirror and applied to an empty catalogue by the other. *)
Theorem hosted_mirror_simulates (h : HostId) (ins : list (HostId * Input)) (m : MultiHostStateMirror)
    (Hrun : run_mirror multi_step ins new_MultiHostStateMirror = Some m)
    (Hseed : catalog_seeded false (inputs_of h ins) = true) :
  ∃ a, run_mirror single_step (inputs_of h ins) new_AhpStateMirror = Some a ∧
    ((getRoot h m) ??! INITIAL_ROOT) = rootState a ∧
    (∀ u, getSession h u m = sessions a !! u) ∧
    (∀ u, getCanvas h u m = canvases a !! u) ∧
    (∀ u, getTerminal h u m = terminals a !! u) ∧
    (∀ u, getChangeset h u m = changesets a !! u) ∧
    ((automationCatalogsMap m !! h) ??! INITIAL_AUTOMATION_CATALOG) = automationCatalogState a ∧
    (∀ u, getAutomation h u m = automations a !! u) ∧
    (∀ u, automationRunsMap m !! hostedResourceKey h u = automationRuns a !! u).
Proof.
  destruct (mirrors_run h ins _ _ _ _ (mirrors_new h) Hrun Hseed) as (a & sd & Ha & []).
  exists a. auto 10.
Qed.

(** C37: the automation index reflects the catalogues.  After any inputs whose
    snapshots hold a state of the type their resource announces ([Hrun]: the code
    stores the others unchecked, which is not modelled), the mirror finds an automation of host [h] by its resource exactly when the
    current catalogue of [h] has an entry with that resource, and returns the
    last such entry; nothing of an earlier catalogue is left. *)
Theorem automation_index_reflects_catalog (ins : list (HostId * Input)) (m : MultiHostStateMirror)
    (Hrun : run_mirror multi_step ins new_MultiHostStateMirror = Some m) (h : HostId) (u : URI) :
  getAutomation h u m = automationCatalogsMap m !! h ≫= catalogued u.
Proof.
  assert (H : index_coherent new_MultiHostStateMirror)
    by (intros h' u'; unfold getAutomation; simpl; by rewrite !lookup_empty).
  revert Hrun H. generalize new_MultiHostStateMirror. induction ins as [|inp ins IH]; intros m0; simpl.
  - intros [= ->]. by intros H.
  - intros (m1 & Hs & Hr)%bind_Some H. by eapply IH, step_index_coherent.
Qed.

End Runs.

(** ** Witnesses *)

Definition demo_entry : AutomationEntry :=
  mkAutomationEntry "automation:/1"
    (mkAutomationDefinition "Nightly"
       (mkMessage "Run the tests" (mkMessageOrigin MessageKind_User) None None None None)
       (mkAutomationSessionTemplate None None None None None None) true [] None None)
    None None [] None [] None "2026-01-01T00:00:00Z" "2026-01-01T00:00:00Z" None.

Definition demo_canvas : CanvasState := mkCanvasState "i" "e" None "c" None None None.

Definition demo_inputs : list (HostId * Input) :=
  [("a", Snap (Build_Snapshot AUTOMATIONS_URI (AutomationSnapshot (mkAutomationState [] None)) 1));
   ("a", Snap (Build_Snapshot "ahp-canvas:/1" (CanvasSnapshot demo_canvas) 1));
   ("b", Snap (Build_Snapshot "ahp-canvas:/1" (CanvasSnapshot demo_canvas) 1));
   ("a", Event AUTOMATIONS_URI (EventAction
           (Build_ActionEnvelope AUTOMATIONS_URI
              (ActionAutomation (AutomationSet (mkAutomationSetAction demo_entry))) 2 None None)));
   ("b", Reset)].

Definition no_text (_ : StateAction) : string := "{}".

(** The mirror after [demo_inputs]. *)
Definition demo_mirror : MultiHostStateMirror :=
  default new_MultiHostStateMirror (run_mirror (multi_step no_text) demo_inputs new_MultiHostStateMirror).

Lemma hosted_mirror_simulates_witness :
  getCanvas "a" "ahp-canvas:/1" demo_mirror = Some demo_canvas ∧
  getCanvas "b" "ahp-canvas:/1" demo_mirror = None ∧
  ∃ a, run_mirror (single_step no_text) (inputs_of "a" demo_inputs) new_AhpStateMirror = Some a ∧
       ((getRoot "a" demo_mirror) ??! INITIAL_ROOT) = rootState a.
Proof.
  split; [by vm_compute|]. split; [by vm_compute|].
  destruct (hosted_mirror_simulates no_text "a" demo_inputs demo_mirror
    ltac:(by vm_compute) ltac:(by vm_compute)) as (a & Ha & Hr & _).
  by exists a.
Defined.

Lemma automation_index_reflects_catalog_witness :
  getAutomation "a" "automation:/1" demo_mirror = Some demo_entry.
Proof.
  rewrite (automation_index_reflects_catalog no_text demo_inputs demo_mirror ltac:(by vm_compute)).
  by vm_compute.
Defined.
