(* ===== verification/Client.v ===== *)
(** * The JSON-RPC client

    [clients/typescript/src/client/client.ts], class [AhpClient]: requests with
    timeouts, notifications, the receive loop, the fan-out of events and the
    teardown.

    The client is a state machine.  An [Input] is a call of one of its methods or
    something its environment does: a frame arrives, a send fails, a timer fires,
    a server-request handler settles, a consumer reads a stream.  [client_step]
    runs the code up to the next [await] and returns the [Effect]s in order.  A
    request's promise is named by its id.  The queues are objects shared by the
    client and the iterators it hands out; those of the subscriptions are kept in
    a store, [c_queues], and named by their addresses. *)

From S2P Require Import Prelude KeyedList CommonState StateMirror AsyncQueue JsNumber.
From Stdlib Require Import Ascii.

Local Open Scope Z_scope.

(** ** Messages and frames *)

(** A request id is any JSON value on the wire; the client's own are integers. *)
Inductive RpcId := IdNumber (n : Z) | IdOther (j : json).

Inductive ClientError :=
| RpcError (code : Z) (message : string) (data : option json)
| RpcTimeoutError (method : string) (timeoutMs : Z)
| TransportError (kind message : string)
| ClientClosedError.

(** [Some payload] or, when the [error] member is [null], [None]. *)
Record RpcErrorPayload := { ep_code : Z; ep_message : string; ep_data : option json }.

(** A notification by its method; [None] when [params] is absent or [null]. *)
Inductive Notification :=
| NotifyAction (params : option ActionEnvelope)
| NotifySessionAdded (params : option (URI * json))
| NotifySessionRemoved (params : option (URI * json))
| NotifySessionSummaryChanged (params : option (URI * json))
| NotifyAuthRequired (params : option (URI * json))
| NotifyOther (method : string).

(** An inbound message by the members it has, in the order [dispatchInbound]
    tests for them. *)
Inductive ProtocolMessage :=
| SuccessResponse (id : RpcId) (result : json)
| ErrorResponse (id : RpcId) (error : option RpcErrorPayload)
| ServerRequest (id : RpcId) (method : string) (params : json)
| ServerNotification (n : Notification)
| OtherMessage.

(** What [JSON.parse] can return: an object, or a value on which the operator
    [in] throws (a number, a string, a boolean, [null]). *)
Inductive Parsed := ParsedObject (m : ProtocolMessage) | ParsedPrimitive.

Inductive TransportFrame :=
| FrameParsed (message : ProtocolMessage)
| FrameText (text : string)
| FrameBinary (data : list Byte.byte).

Inductive RecvResult := RecvFrame (f : TransportFrame) | RecvNull | RecvError (e : ClientError).

Inductive OutMessage :=
| OutRequest (id : Z) (method : string) (params : json)
| OutNotification (method : string) (params : json)
| OutDispatch (channel : URI) (clientSeq : Z) (action : StateAction)
| OutResult (id : RpcId) (result : json)
| OutError (id : RpcId) (error : RpcErrorPayload).

Record ClientEvent := { ce_channel : URI; ce_event : SubscriptionEvent }.

Inductive ClosedReason := ReasonShutdown | ReasonTransport (error : ClientError).
Inductive ConnectionState := Idle | Connected | Closing | Closed (reason : ClosedReason).

(** ** State *)

Record PendingRequest := { pr_method : string; pr_timer : bool }.

(** Where the receive loop is: not started, awaiting [recv()], or returned. *)
Inductive ReceiveLoop := LoopNotStarted | LoopReceiving | LoopEnded.

Abbreviation QueueId := nat.

Record AhpClient := {
  c_requestTimeoutMs : Z;
  c_subscriptionBuffer : Z;
  c_pending : list (Z * PendingRequest);
  c_timers : list Z;
  c_subscriptions : list (URI * QueueId);
  c_queues : list (AsyncBroadcastQueue SubscriptionEvent);
  c_allEvents : AsyncBroadcastQueue ClientEvent;
  c_stateQueue : AsyncBroadcastQueue ConnectionState;
  c_nextRequestId : Z;
  c_nextClientSeq : Z;
  c_state : ConnectionState;
  c_receiveLoop : ReceiveLoop;
  c_hasHandler : bool
}.
#[export] Instance eta_AhpClient : Eta AhpClient := λ r,
  Build_AhpClient (c_requestTimeoutMs r) (c_subscriptionBuffer r) (c_pending r) (c_timers r)
    (c_subscriptions r) (c_queues r) (c_allEvents r) (c_stateQueue r) (c_nextRequestId r)
    (c_nextClientSeq r) (c_state r) (c_receiveLoop r) (c_hasHandler r).

Record AhpClientConfig := { cfg_requestTimeoutMs : option Z; cfg_subscriptionBuffer : option Z }.

Definition DEFAULT_REQUEST_TIMEOUT_MS : Z := 30000.
Definition DEFAULT_SUBSCRIPTION_BUFFER : Z := 4096.

Definition new_client (config : AhpClientConfig) : AhpClient :=
  let timeout := cfg_requestTimeoutMs config ??! DEFAULT_REQUEST_TIMEOUT_MS in
  let buffer := cfg_subscriptionBuffer config ??! DEFAULT_SUBSCRIPTION_BUFFER in
  {| c_requestTimeoutMs := if 0 <? timeout then timeout else 0;
     c_subscriptionBuffer := if 1 <=? buffer then buffer else 1;
     c_pending := []; c_timers := []; c_subscriptions := []; c_queues := [];
     c_allEvents := new_queue 4096; c_stateQueue := new_queue 4096;
     c_nextRequestId := 1; c_nextClientSeq := 1; c_state := Idle;
     c_receiveLoop := LoopNotStarted; c_hasHandler := false |}.

(** ** Effects *)

Inductive Effect :=
| Sent (m : OutMessage)                          (** [transport.send(m)] is called *)
| Resolved (id : Z) (value : json)               (** a request's promise resolves *)
| Rejected (id : Z) (error : ClientError)        (** a request's promise rejects *)
| Threw (e : ClientError)                        (** the call throws *)
| Dispatched (given : bool) (clientSeq : Z)      (** [dispatch] returns its handle *)
| Attached_ (uri : URI) (q : QueueId) (r : CursorId) (** a [Subscription] is handed out *)
| OnQueue (q : QueueId) (op : Op SubscriptionEvent) (out : list (Settled SubscriptionEvent))
| OnEvents (op : Op ClientEvent) (out : list (Settled ClientEvent))
| OnStates (op : Op ConnectionState) (out : list (Settled ConnectionState))
| HandlerCalled (id : RpcId) (method : string) (params : json)
| Warned (message : string)                      (** [console.warn] *)
| TransportClosed.                               (** [transport.close()] is called *)

(** A step of the code: the new state and the effects. *)
Definition Step := AhpClient → AhpClient * list Effect.
Definition seq (a b : Step) : Step := λ c,
  let '(c1, e1) := a c in let '(c2, e2) := b c1 in (c2, e1 ++ e2).
Infix ";;;" := seq (at level 62, right associativity).
Definition skip : Step := λ c, (c, []).
Definition effect (e : Effect) : Step := λ c, (c, [e]).
Definition update (f : AhpClient → AhpClient) : Step := λ c, (f c, []).

(** ** Queues *)

Definition on_queue (k : QueueId) (op : Op SubscriptionEvent) : Step := λ c,
  match c_queues c !! k with
  | None => (c, [])
  | Some q => let '(q', out) := step op q in
              (c <| c_queues := <[k := q']> (c_queues c) |>, [OnQueue k op out])
  end.

Definition on_events (op : Op ClientEvent) : Step := λ c,
  let '(q', out) := step op (c_allEvents c) in (c <| c_allEvents := q' |>, [OnEvents op out]).

Definition on_states (op : Op ConnectionState) : Step := λ c,
  let '(q', out) := step op (c_stateQueue c) in (c <| c_stateQueue := q' |>, [OnStates op out]).

Definition lookup_subscription (uri : URI) (c : AhpClient) : option QueueId :=
  snd <$> find_js (λ kv, kv.1 =?s uri) (c_subscriptions c).

(** ** State changes *)

Definition isClosed (c : AhpClient) : bool :=
  match c_state c with Closing | Closed _ => true | _ => false end.

(** [assertOpen()] followed by the rest of the method. *)
Definition assertOpen (rest : Step) : Step := λ c,
  if isClosed c then (c, [Threw ClientClosedError]) else rest c.

Definition setState (next : ConnectionState) : Step :=
  update (λ c, c <| c_state := next |>) ;;; on_states (Publish next).

Fixpoint close_all (ks : list QueueId) : Step :=
  match ks with
  | [] => skip
  | k :: ks => on_queue k Close ;;; close_all ks
  end.

(** [clearTimeout(pending.timer)] *)
Definition clear_timer (id : Z) (c : AhpClient) : AhpClient :=
  c <| c_timers := List.filter (λ j, negb (j =? id)) (c_timers c) |>.

Fixpoint reject_all (failure : ClientError) (l : list (Z * PendingRequest)) : Step :=
  match l with
  | [] => skip
  | (id, p) :: l =>
      update (λ c, if pr_timer p then clear_timer id c else c) ;;;
      effect (Rejected id failure) ;;;
      update (λ c, c <| c_pending := List.filter (λ kv, negb (kv.1 =? id)) (c_pending c) |>) ;;;
      reject_all failure l
  end.

Definition failure_of (reason : ClosedReason) : ClientError :=
  match reason with ReasonShutdown => ClientClosedError | ReasonTransport error => error end.

Definition tearDown (reason : ClosedReason) : Step := λ c,
  match c_state c with
  | Closed _ => (c, [])
  | _ =>
      (setState (Closed reason) ;;;
       (λ c, reject_all (failure_of reason) (c_pending c) c) ;;;
       (λ c, close_all (map snd (c_subscriptions c)) c) ;;;
       update (λ c, c <| c_subscriptions := [] |>) ;;;
       on_events Close ;;;
       on_states Close) c
  end.

(** [this.pending.delete(id)]: the entry it removed, if any. *)
Definition take_pending (id : Z) (c : AhpClient) : option (PendingRequest * AhpClient) :=
  match find_js (λ kv, kv.1 =? id) (c_pending c) with
  | None => None
  | Some kv => Some (kv.2, c <| c_pending := List.filter (λ kv, negb (kv.1 =? id)) (c_pending c) |>)
  end.

(** Remove a request, clear its timer and run [k]; nothing when it is unknown. *)
Definition settle (id : Z) (outcome : Effect) : Step := λ c,
  match take_pending id c with
  | None => (c, [])
  | Some (p, c') => (if pr_timer p then clear_timer id c' else c', [outcome])
  end.

(** ** Methods *)

Definition connect : Step := λ c,
  match c_receiveLoop c with
  | LoopNotStarted =>
      (setState Connected ;;; update (λ c, c <| c_receiveLoop := LoopReceiving |>)) c
  | _ => (c, [])
  end.

Definition shutdown : Step := λ c,
  if isClosed c then (c, [])
  else (setState Closing ;;; tearDown ReasonShutdown ;;; effect TransportClosed) c.

(** [request(method, params)] up to the [await] of the transport. *)
Definition request (method : string) (params : json) : Step := assertOpen (λ c,
  let id := c_nextRequestId c in
  let timed := 0 <? c_requestTimeoutMs c in
  (((c <| c_nextRequestId := id + 1 |>)
     <| c_pending := c_pending c ++ [(id, {| pr_method := method; pr_timer := timed |})] |>)
     <| c_timers := if timed then c_timers c ++ [id] else c_timers c |>,
   [Sent (OutRequest id method params)])).

(** The callback of the timer of request [id]. *)
Definition timer_fires (id : Z) : Step := λ c,
  if existsb (Z.eqb id) (c_timers c) then
    let c1 := clear_timer id c in
    match take_pending id c1 with
    | None => (c1, [])
    | Some (p, c2) => (c2, [Rejected id (RpcTimeoutError (pr_method p) (c_requestTimeoutMs c))])
    end
  else (c, []).

(** [transport.send] throws or rejects with [te]: the [catch] of [sendMessage],
    then that of its caller; [Some id] when the caller is request [id]. *)
Definition send_fails (caller : option Z) (te : ClientError) : Step :=
  tearDown (ReasonTransport te) ;;;
  match caller with Some id => settle id (Rejected id te) | None => skip end.

Definition notify (method : string) (params : json) : Step :=
  assertOpen (effect (Sent (OutNotification method params))).

Definition attachSubscription (uri : URI) : Step := assertOpen (λ c,
  let '(k, c1) := match lookup_subscription uri c with
                  | Some k => (k, c)
                  | None =>
                      let k := length (c_queues c) in
                      (k, (c <| c_queues := c_queues c ++ [new_queue (c_subscriptionBuffer c)] |>)
                             <| c_subscriptions := c_subscriptions c ++ [(uri, k)] |>)
                  end in
  let r := match c_queues c1 !! k with Some q => length (heap q) | None => 0%nat end in
  (on_queue k Reader ;;; effect (Attached_ uri k r)) c1).

(** [subscribe(uri)]: attach first, then the request; its [catch] closes the
    subscription. *)
Definition subscribe (uri : URI) (params : json) : Step := assertOpen (
  attachSubscription uri ;;; request "subscribe" params).
Definition subscribe_rejected (k : QueueId) (r : CursorId) (p : PromiseId) : Step :=
  on_queue k (Return_ r p).

Definition unsubscribe (uri : URI) : Step := λ c,
  if isClosed c then (c, [])
  else
    ((match lookup_subscription uri c with
      | Some k =>
          update (λ c, c <| c_subscriptions := List.filter (λ kv, negb (kv.1 =?s uri)) (c_subscriptions c) |>) ;;;
          on_queue k Close
      | None => skip
      end) ;;; notify "unsubscribe" (JObject [("channel", JString uri)])) c.

(** The sequence numbers are integer-valued JavaScript numbers: [seq + 1] rounds. *)
Definition dispatch (channel : URI) (action : StateAction) (clientSeq : option Z) : Step := assertOpen (λ c,
  let seq := clientSeq ??! c_nextClientSeq c in
  let next := match clientSeq with
              | Some _ => if c_nextClientSeq c <? js_add seq 1 then js_add seq 1 else c_nextClientSeq c
              | None => js_add seq 1
              end in
  (c <| c_nextClientSeq := next |>,
   [Sent (OutDispatch channel seq action); Dispatched (if clientSeq then true else false) seq])).

(** ** Inbound *)

Definition fanOut (channel : URI) (event : SubscriptionEvent) : Step :=
  (λ c, match lookup_subscription channel c with
        | Some k => on_queue k (Publish event) c
        | None => (c, [])
        end) ;;;
  on_events (Publish {| ce_channel := channel; ce_event := event |}).

(** The event of a notification; [Throw] when reading [params.channel] throws. *)
Definition event_of (n : Notification) : JsResult (option (URI * SubscriptionEvent)) :=
  let undefined := Throw (TypeError "Cannot read properties of undefined (reading 'channel')") in
  let tagged (p : option (URI * json)) (k : json → SubscriptionEvent) :=
    match p with Some (ch, j) => Ok (Some (ch, k j)) | None => undefined end in
  match n with
  | NotifyAction (Some env) => Ok (Some (ae_channel env, EventAction env))
  | NotifyAction None => undefined
  | NotifySessionAdded p => tagged p EventSessionAdded
  | NotifySessionRemoved p => tagged p EventSessionRemoved
  | NotifySessionSummaryChanged p => tagged p EventSessionSummaryChanged
  | NotifyAuthRequired p => tagged p EventAuthRequired
  | NotifyOther _ => Ok None
  end.

Definition dquote : string := String "034"%char EmptyString.

(** JSON-RPC error codes: types/common/errors.ts. *)
Definition MethodNotFound : Z := -32601.
Definition InternalError : Z := -32603.

Definition handleServerRequest (id : RpcId) (method : string) (params : json) : Step := λ c,
  if c_hasHandler c then (c, [HandlerCalled id method params])
  else (c, [Sent (OutError id {| ep_code := MethodNotFound;
              ep_message := "no handler for server method " +:+ dquote +:+ method +:+ dquote; ep_data := None |})]).

(** The promise of the installed handler settles. *)
Inductive HandlerOutcome :=
| HandlerResult (result : json)
| HandlerRpcError (error : RpcErrorPayload)
| HandlerOtherError (message : string).

Definition handler_settles (id : RpcId) (outcome : HandlerOutcome) : Step :=
  effect (Sent match outcome with
               | HandlerResult result => OutResult id result
               | HandlerRpcError error => OutError id error
               | HandlerOtherError message =>
                   OutError id {| ep_code := InternalError; ep_message := message; ep_data := None |}
               end).

(** [dispatchInbound(message)]; [Some] exception when it throws. *)
Definition dispatchInbound (message : ProtocolMessage) (c : AhpClient) :
    AhpClient * list Effect * option string :=
  match message with
  | SuccessResponse (IdNumber id) result => (settle id (Resolved id result) c, None)
  | ErrorResponse (IdNumber id) (Some e) =>
      (settle id (Rejected id (RpcError (ep_code e) (ep_message e) (ep_data e))) c, None)
  | ErrorResponse (IdNumber id) None =>
      (* the entry is deleted and its timer cleared before [failure.error.code] throws *)
      match take_pending id c with
      | None => (c, [], None)
      | Some (p, c') => (if pr_timer p then clear_timer id c' else c', [],
                         Some "Cannot read properties of null (reading 'code')")
      end
  | SuccessResponse (IdOther _) _ | ErrorResponse (IdOther _) _ => (c, [], None)
  | ServerRequest id method params => (handleServerRequest id method params c, None)
  | ServerNotification n =>
      match event_of n with
      | Ok (Some (channel, event)) => (fanOut channel event c, None)
      | Ok None => (c, [], None)
      | Throw (TypeError m) | Throw (RangeError m) | Throw (PlainError m) => (c, [], Some m)
      end
  | OtherMessage => (c, [], None)
  end.

Section Frames.
(** [JSON.parse] and [TextDecoder.decode]; [inr] is the message of a syntax error. *)
Context (json_parse : string → Parsed + string) (utf8_decode : list Byte.byte → string).

Definition decode (f : TransportFrame) : Parsed + string :=
  match f with
  | FrameParsed m => inl (ParsedObject m)
  | FrameText t => json_parse t
  | FrameBinary d => json_parse (utf8_decode d)
  end.

Definition handleFrame (f : TransportFrame) (c : AhpClient) : AhpClient * list Effect * option string :=
  match decode f with
  | inr m => (c, [Warned ("AhpClient: malformed inbound frame: invalid JSON: " +:+ m)], None)
  | inl (ParsedObject message) => dispatchInbound message c
  | inl ParsedPrimitive => (c, [], Some "Cannot use 'in' operator to search for 'id'")
  end.

(** One turn of the loop of [driveTransport], from the settling of [recv()]. *)
Definition end_loop : Step := update (λ c, c <| c_receiveLoop := LoopEnded |>).
Definition next_turn : Step := λ c,
  match c_state c with Connected => (c, []) | _ => end_loop c end.

Definition loop_throws (message : string) : Step :=
  tearDown (ReasonTransport (TransportError "io" ("transport recv failed: " +:+ message))) ;;; end_loop.

Definition recv_settles (r : RecvResult) : Step := λ c,
  match c_receiveLoop c with
  | LoopReceiving =>
      match r with
      | RecvNull => (tearDown (ReasonTransport (TransportError "closed" "transport closed")) ;;; end_loop) c
      | RecvError te => (tearDown (ReasonTransport te) ;;; end_loop) c
      | RecvFrame f =>
          let '(c1, e1, thrown) := handleFrame f c in
          let '(c2, e2) := match thrown with None => next_turn c1 | Some m => loop_throws m c1 end in
          (c2, e1 ++ e2)
      end
  | _ => (c, [])
  end.

(** ** The machine *)

Inductive Input :=
| Connect
| Shutdown
| SetHandler (installed : bool)
| Request (method : string) (params : json)
| Notify (method : string) (params : json)
| AttachSubscription (uri : URI)
| Subscribe (uri : URI) (params : json)
| SubscribeRejected (k : QueueId) (r : CursorId) (p : PromiseId)
| Unsubscribe (uri : URI)
| Dispatch (channel : URI) (action : StateAction) (clientSeq : option Z)
| RecvSettles (r : RecvResult)
| SendFails (caller : option Z) (error : ClientError)
| TimerFires (id : Z)
| HandlerSettles (id : RpcId) (outcome : HandlerOutcome)
| NextOf (k : QueueId) (r : CursorId) (p : PromiseId)
| ReturnOf (k : QueueId) (r : CursorId) (p : PromiseId)
| OfEvents (op : Op ClientEvent)
| OfStates (op : Op ConnectionState).

(** A consumer may only create readers and read them. *)
Definition reads {V} (op : Op V) : bool :=
  match op with Publish _ | Close => false | _ => true end.

Definition client_step (i : Input) : Step :=
  match i with
  | Connect => connect
  | Shutdown => shutdown
  | SetHandler b => update (λ c, c <| c_hasHandler := b |>)
  | Request m p => request m p
  | Notify m p => notify m p
  | AttachSubscription uri => attachSubscription uri
  | Subscribe uri p => subscribe uri p
  | SubscribeRejected k r p => subscribe_rejected k r p
  | Unsubscribe uri => unsubscribe uri
  | Dispatch ch a s => dispatch ch a s
  | RecvSettles r => recv_settles r
  | SendFails caller te => send_fails caller te
  | TimerFires id => timer_fires id
  | HandlerSettles id o => handler_settles id o
  | NextOf k r p => on_queue k (Next r p)
  | ReturnOf k r p => on_queue k (Return_ r p)
  | OfEvents op => if reads op then on_events op else skip
  | OfStates op => if reads op then on_states op else skip
  end.

Fixpoint run_client (ins : list Input) : Step :=
  match ins with
  | [] => skip
  | i :: ins => client_step i ;;; run_client ins
  end.
End Frames.
