(* ===== verification/ClientLemmas.v ===== *)
(** * Lemmas on the client: requests, numbers, routing

    Frames for steps that leave a part of the state alone; the account of the
    requests; the numbering of the dispatched actions; which events are published
    on which subscription's queue, and for how long a subscription lasts. *)

From S2P Require Import Prelude KeyedList CommonState StateMirror AsyncQueue QueueProperties JsNumber Client.

Local Open Scope Z_scope.

(** ** Steps that leave a part of the state alone *)

Definition keeps {A} (f : AhpClient → A) (s : Step) : Prop := ∀ c, f (s c).1 = f c.
Definition silent (p : Effect → bool) (s : Step) : Prop := ∀ c, Forall (λ e, p e = false) (s c).2.

Lemma keeps_seq {A} (f : AhpClient → A) a b : keeps f a → keeps f b → keeps f (a ;;; b).
Proof.
  intros Ha Hb c. unfold seq. specialize (Ha c). destruct (a c) as [c1 e1]. specialize (Hb c1).
  destruct (b c1) as [c2 e2]. simpl in *. congruence.
Qed.

Lemma silent_seq p a b : silent p a → silent p b → silent p (a ;;; b).
Proof.
  intros Ha Hb c. unfold seq. specialize (Ha c). destruct (a c) as [c1 e1]. specialize (Hb c1).
  destruct (b c1) as [c2 e2]. simpl in *. by apply Forall_app.
Qed.

Lemma seq_run a b c : (a ;;; b) c = ((b (a c).1).1, (a c).2 ++ (b (a c).1).2).
Proof. unfold seq. destruct (a c) as [c1 e1]. simpl. by destruct (b c1). Qed.

(** A step that keeps the part [f] of the state and has none of the effects [p]. *)
Definition frame {A} (f : AhpClient → A) (p : Effect → bool) (s : Step) : Prop := keeps f s ∧ silent p s.

Create HintDb frame.

Section Frame.
Context {A} (f : AhpClient → A) (p : Effect → bool).

Lemma frame_seq a b : frame f p a → frame f p b → frame f p (a ;;; b).
Proof. intros [] []. split; [by apply keeps_seq|by apply silent_seq]. Qed.
Lemma frame_skip : frame f p skip.
Proof. split; intros c; [done|constructor]. Qed.
Lemma frame_effect e : p e = false → frame f p (effect e).
Proof. intros H. split; intros c; [done|]. by apply Forall_singleton. Qed.
Lemma frame_update g : (∀ c, f (g c) = f c) → frame f p (update g).
Proof. intros H. split; [exact H|]. intros c. constructor. Qed.
(** It is enough that the step agrees at each state with some such step. *)
Lemma frame_by s : (∀ c, ∃ s', frame f p s' ∧ s c = s' c) → frame f p s.
Proof. intros H. split; intros c; destruct (H c) as (s' & [Hk Hs] & ->); [apply Hk|apply Hs]. Qed.
Lemma frame_case {B} (g : AhpClient → B) (s : B → Step) :
  (∀ b, frame f p (s b)) → frame f p (λ c, s (g c) c).
Proof. intros H. apply frame_by. intros c. by exists (s (g c)). Qed.
Lemma frame_on_events op :
  (∀ c q, f (c <| c_allEvents := q |>) = f c) → (∀ o out, p (OnEvents o out) = false) → frame f p (on_events op).
Proof.
  intros Hf Hp. split; intros c; unfold on_events; destruct (step op _); [apply Hf|].
  by apply Forall_singleton.
Qed.
Lemma frame_on_states op :
  (∀ c q, f (c <| c_stateQueue := q |>) = f c) → (∀ o out, p (OnStates o out) = false) → frame f p (on_states op).
Proof.
  intros Hf Hp. split; intros c; unfold on_states; destruct (step op _); [apply Hf|].
  by apply Forall_singleton.
Qed.
Lemma frame_on_queue k op :
  (∀ c qs, f (c <| c_queues := qs |>) = f c) → (∀ k o out, p (OnQueue k o out) = false) →
  frame f p (on_queue k op).
Proof.
  intros Hf Hp. split; intros c; unfold on_queue; destruct (c_queues c !! k) as [q|]; try done;
    destruct (step op q); [apply Hf|]. by apply Forall_singleton.
Qed.
Lemma frame_assertOpen s : p (Threw ClientClosedError) = false → frame f p s → frame f p (assertOpen s).
Proof.
  intros Hp H. apply frame_by. intros c. unfold assertOpen.
  destruct (isClosed c); [exists (effect (Threw ClientClosedError)) | exists s];
    (split; [done || by apply frame_effect|done]).
Qed.
End Frame.

Lemma frame_weaken {A B} (f : AhpClient → A) (g : AhpClient → B) p p' s :
  (∀ c c', f c = f c' → g c = g c') → (∀ e, p e = false → p' e = false) → frame f p s → frame g p' s.
Proof.
  intros Hf Hp [Hk Hs]. split; intros c; [apply Hf, Hk|]. eapply Forall_impl; [apply Hs|]. simpl. auto.
Qed.

#[export] Hint Resolve frame_seq frame_skip frame_effect frame_update frame_on_events frame_on_states
  frame_on_queue frame_assertOpen : frame.

(** What the request table and the numbering depend on. *)
Record Core := {
  k_pending : list (Z * PendingRequest); k_timers : list Z; k_timeout : Z; k_next : Z;
  k_seq : Z; k_state : ConnectionState
}.
Definition core (c : AhpClient) : Core :=
  Build_Core (c_pending c) (c_timers c) (c_requestTimeoutMs c) (c_nextRequestId c)
    (c_nextClientSeq c) (c_state c).

(** The effects the properties on requests and on sequence numbers are about. *)
Definition is_core_effect (e : Effect) : bool :=
  match e with
  | Resolved _ _ | Rejected _ _ | Dispatched _ _ => true
  | Sent (OutRequest _ _ _) | Sent (OutDispatch _ _ _) => true
  | _ => false
  end.

Abbreviation inert := (frame core is_core_effect).

Lemma inert_close_all ks : inert (close_all ks).
Proof. induction ks; simpl; auto with frame. Qed.
#[export] Hint Resolve inert_close_all : frame.

Lemma inert_close_subscribed : inert (λ c, close_all (map snd (c_subscriptions c)) c).
Proof.
  apply frame_by. intros c. exists (close_all (map snd (c_subscriptions c))). auto with frame.
Qed.

Lemma inert_fanOut channel event : inert (fanOut channel event).
Proof.
  apply frame_seq; [|auto with frame]. apply frame_by. intros c.
  destruct (lookup_subscription channel c) as [k|];
    [exists (on_queue k (Publish event)) | exists skip]; auto with frame.
Qed.

#[export] Hint Resolve inert_fanOut : frame.

Lemma inert_attach uri : inert (attachSubscription uri).
Proof.
  apply frame_assertOpen; [done|]. apply frame_by. intros c.
  assert (H : ∀ k r, inert (on_queue k Reader ;;; effect (Attached_ uri k r))) by auto with frame.
  destruct (lookup_subscription uri c) as [k|]; [by eexists; split; [apply H|]|].
  exists (update (λ c0, (c0 <| c_queues := c_queues c0 ++ [new_queue (c_subscriptionBuffer c0)] |>)
            <| c_subscriptions := c_subscriptions c0 ++ [(uri, length (c_queues c0))] |>) ;;;
          on_queue (length (c_queues c)) Reader ;;;
          effect (Attached_ uri (length (c_queues c)) 0%nat)).
  split; [auto with frame|]. rewrite (seq_run (update _)). unfold update. cbn [fst snd app].
  cbn -[seq]. rewrite lookup_app_r, Nat.sub_diag by done. cbn -[seq]. apply surjective_pairing.
Qed.

Lemma inert_notify method params : inert (notify method params).
Proof. unfold notify. auto with frame. Qed.
#[export] Hint Resolve inert_attach inert_notify : frame.

Lemma inert_unsubscribe uri : inert (unsubscribe uri).
Proof.
  apply frame_by. intros c. unfold unsubscribe. destruct (isClosed c); [exists skip; auto with frame|].
  eexists. split; [|reflexivity]. apply frame_seq; [|auto with frame].
  destruct (lookup_subscription uri c); auto with frame.
Qed.
#[export] Hint Resolve inert_unsubscribe : frame.

(** ** The account of the requests *)

Definition settled (log : list Effect) : list Z :=
  flat_map (λ e, match e with Resolved id _ | Rejected id _ => [id] | _ => [] end) log.
Definition issued (log : list Effect) : list Z :=
  flat_map (λ e, match e with Sent (OutRequest id _ _) => [id] | _ => [] end) log.
Definition waiting (c : AhpClient) : list Z := map fst (c_pending c).

Record accounted (c : AhpClient) (log : list Effect) : Prop := {
  acc_perm : waiting c ++ settled log ≡ₚ issued log;
  acc_issued : issued log = seqZ 1 (c_nextRequestId c - 1);
  acc_next : 1 ≤ c_nextRequestId c;
  acc_timers : c_timers c = if 0 <? c_requestTimeoutMs c then waiting c else [];
  acc_timed : Forall (λ kv, pr_timer kv.2 = (0 <? c_requestTimeoutMs c)) (c_pending c)
}.

(** At the end of every step a closed client has no request left. *)
Definition at_rest (c : AhpClient) : Prop :=
  c_state c ≠ Closing ∧ (isClosed c = true → c_pending c = []).

(** [s] keeps the account, whatever happened before. *)
Definition audited (s : Step) : Prop := ∀ c log, accounted c log → accounted (s c).1 (log ++ (s c).2).

Lemma settled_app a b : settled (a ++ b) = settled a ++ settled b.
Proof. apply flat_map_app. Qed.
Lemma issued_app a b : issued (a ++ b) = issued a ++ issued b.
Proof. apply flat_map_app. Qed.

Lemma silent_core log :
  Forall (λ e, is_core_effect e = false) log → settled log = [] ∧ issued log = [].
Proof.
  induction 1 as [|e log He _ [IH1 IH2]]; [done|]. simpl. rewrite IH1, IH2. destruct e as [[]| | | | | | | | | | |]; done.
Qed.

Lemma accounted_core c c' log log' :
  core c' = core c → Forall (λ e, is_core_effect e = false) log' →
  accounted c log → accounted c' (log ++ log').
Proof.
  unfold core. intros [= Hp Ht Hto Hn _ _] Hs [H1 H2 H3 H4 H5].
  destruct (silent_core _ Hs) as [Es Ei].
  split; unfold waiting in *; rewrite ?settled_app, ?issued_app, ?Es, ?Ei, ?app_nil_r, ?Hp, ?Hn, ?Ht, ?Hto;
    done.
Qed.

Lemma inert_audited s : inert s → audited s.
Proof. intros [Hk Hs] c log. apply accounted_core; [apply Hk|apply Hs]. Qed.

Lemma audited_seq a b : audited a → audited b → audited (a ;;; b).
Proof.
  intros Ha Hb c log H. rewrite seq_run. cbn [fst snd]. rewrite app_assoc. by apply Hb, Ha.
Qed.

Lemma waiting_NoDup c log : accounted c log → NoDup (waiting c).
Proof.
  intros H. assert (Hd : NoDup (waiting c ++ settled log))
    by (rewrite (acc_perm _ _ H), (acc_issued _ _ H); apply NoDup_seqZ).
  by apply NoDup_app in Hd as [? _].
Qed.

Lemma filter_keys id (l : list (Z * PendingRequest)) :
  map fst (List.filter (λ kv, negb (kv.1 =? id)) l) = List.filter (λ j, negb (j =? id)) (map fst l).
Proof. induction l as [|[k p] l IH]; simpl; [done|]. destruct (k =? id); simpl; by rewrite IH. Qed.

Lemma filter_out_perm id (l : list Z) :
  NoDup l → id ∈ l → l ≡ₚ id :: List.filter (λ j, negb (j =? id)) l.
Proof.
  induction 1 as [|k l Hk Hnd IH]; [by intros ?%not_elem_of_nil|]. simpl.
  destruct (Z.eqb_spec k id) as [->|Hne]; simpl.
  - intros _. constructor. clear IH. induction l as [|x l IH]; [done|]. simpl.
    apply not_elem_of_cons in Hk as [Hx Hk]. apply NoDup_cons in Hnd as [_ Hnd].
    destruct (Z.eqb_spec x id); [congruence|]. simpl. constructor. by apply IH.
  - intros [?|Hin]%elem_of_cons; [congruence|]. rewrite <- Permutation_swap. constructor. by apply IH.
Qed.

Lemma find_js_Some {A} (p : A → bool) l x : find_js p l = Some x → x ∈ l ∧ p x = true.
Proof.
  induction l as [|y l IH]; [done|]. simpl. destruct (p y) eqn:E.
  - intros [= ->]. split; [left|done].
  - intros [? ?]%IH. split; [by right|done].
Qed.

(** Taking one request out of the table and settling it keeps the account. *)
Lemma settle_one c log id p e :
  accounted c log → (id, p) ∈ c_pending c → settled [e] = [id] → issued [e] = [] →
  let c' := c <| c_pending := List.filter (λ kv, negb (kv.1 =? id)) (c_pending c) |> in
  accounted (if pr_timer p then clear_timer id c' else c') (log ++ [e]).
Proof.
  intros H Hin Es Ei c'. pose proof (waiting_NoDup _ _ H) as Hnd. destruct H as [H1 H2 H3 H4 H5].
  assert (Hid : id ∈ waiting c) by (apply list_elem_of_fmap; by exists (id, p)).
  assert (Hw : waiting c' = List.filter (λ j, negb (j =? id)) (waiting c)) by apply filter_keys.
  assert (Ht : pr_timer p = (0 <? c_requestTimeoutMs c)).
  { rewrite Forall_forall in H5. by apply (H5 (id, p)). }
  assert (Hf : Forall (λ kv, pr_timer kv.2 = (0 <? c_requestTimeoutMs c)) (c_pending c')).
  { rewrite Forall_forall in *. intros kv Hkv. apply H5. by apply elem_of_filter_js in Hkv as [? _]. }
  assert (Hp : waiting c' ++ settled (log ++ [e]) ≡ₚ issued (log ++ [e])).
  { rewrite settled_app, issued_app, Es, Ei, app_nil_r, Hw, <- H1, app_assoc.
    rewrite (filter_out_perm id (waiting c)) at 2 by done. simpl.
    by rewrite <- Permutation_cons_append. }
  rewrite Ht. destruct (0 <? c_requestTimeoutMs c) eqn:E; split; try done; simpl; rewrite ?E;
    rewrite ?issued_app, ?Ei, ?app_nil_r; try done; by rewrite H4; try rewrite <- Hw.
Qed.

Lemma take_pending_Some id c p c' :
  take_pending id c = Some (p, c') →
  (id, p) ∈ c_pending c ∧
  c' = c <| c_pending := List.filter (λ kv, negb (kv.1 =? id)) (c_pending c) |>.
Proof.
  unfold take_pending. destruct (find_js _ _) as [[k p']|] eqn:E; [|done]. intros [= -> <-].
  apply find_js_Some in E as [Hin Hk]. simpl in Hk. apply Z.eqb_eq in Hk as ->. done.
Qed.

Lemma audited_settle id e : settled [e] = [id] → issued [e] = [] → audited (settle id e).
Proof.
  intros Es Ei c log H. unfold settle. destruct (take_pending id c) as [[p c']|] eqn:E.
  - apply take_pending_Some in E as [Hin ->]. by apply settle_one.
  - by rewrite app_nil_r.
Qed.

Lemma audited_state (s : AhpClient → Step) : (∀ c, audited (s c)) → audited (λ c, s c c).
Proof. intros H c log. apply (H c). Qed.

Lemma filter_head id p (l : list (Z * PendingRequest)) :
  NoDup (map fst ((id, p) :: l)) → List.filter (λ kv, negb (kv.1 =? id)) ((id, p) :: l) = l.
Proof.
  simpl. rewrite Z.eqb_refl. simpl. intros [Hid _]%NoDup_cons.
  induction l as [|[k q] l IH]; [done|]. simpl in *. apply not_elem_of_cons in Hid as [? Hid].
  rewrite (proj2 (Z.eqb_neq k id)) by done. simpl. by rewrite IH.
Qed.

(** The loop of [tearDown] rejects every pending request. *)
Lemma reject_all_spec failure l c log :
  c_pending c = l → accounted c log →
  let r := reject_all failure l c in
  accounted r.1 (log ++ r.2) ∧ c_pending r.1 = [] ∧ c_state r.1 = c_state c.
Proof.
  revert c log. induction l as [|[id p] l IH]; intros c log Hl H; simpl.
  { by rewrite app_nil_r. }
  pose proof (waiting_NoDup _ _ H) as Hnd. unfold waiting in Hnd. rewrite Hl in Hnd.
  pose proof (settle_one c log id p (Rejected id failure) H
    ltac:(rewrite Hl; left) eq_refl eq_refl) as H1. cbv zeta in H1. rewrite Hl in H1. rewrite filter_head in H1 by done.
  set (c1 := if pr_timer p then clear_timer id c else c).
  assert (E : (if pr_timer p then clear_timer id (c <| c_pending := l |>) else c <| c_pending := l |>) =
              c1 <| c_pending := List.filter (λ kv, negb (kv.1 =? id)) (c_pending c1) |>).
  { unfold c1, clear_timer. destruct (pr_timer p); simpl; rewrite Hl, filter_head by done; done. }
  rewrite E in H1. rewrite !seq_run. unfold update, effect. cbn [fst snd].
  fold c1. set (c2 := c1 <| c_pending := _ |>) in *.
  assert (Hc2 : c_pending c2 = l).
  { unfold c2, c1, clear_timer. destruct (pr_timer p); simpl; by rewrite Hl, filter_head by done. }
  destruct (IH c2 _ Hc2 H1) as (H2 & H3 & H4).
  split; [|split].
  - by rewrite <- app_assoc in H2.
  - done.
  - etrans; [exact H4|]. unfold c2, c1, clear_timer. by destruct (pr_timer p).
Qed.

Lemma setState_core next c :
  c_pending (setState next c).1 = c_pending c ∧ c_state (setState next c).1 = next ∧
  c_receiveLoop (setState next c).1 = c_receiveLoop c.
Proof. unfold setState. rewrite seq_run. simpl. unfold on_states. by destruct (step _ _). Qed.

Lemma audited_setState next : audited (setState next).
Proof.
  intros c log H. unfold setState. rewrite seq_run. cbn [fst snd]. rewrite app_assoc.
  apply inert_audited; [auto with frame|]. unfold update. simpl. rewrite app_nil_r.
  destruct H. by split.
Qed.

Lemma inert_pending s c : inert s → c_pending (s c).1 = c_pending c ∧ c_state (s c).1 = c_state c.
Proof. intros [Hk _]. specialize (Hk c). unfold core in Hk. by injection Hk. Qed.

Lemma tearDown_spec reason c log :
  accounted c log →
  accounted (tearDown reason c).1 (log ++ (tearDown reason c).2) ∧
  ((∃ r, c_state c = Closed r ∧ tearDown reason c = (c, [])) ∨
   c_state (tearDown reason c).1 = Closed reason ∧ c_pending (tearDown reason c).1 = []).
Proof.
  intros H. unfold tearDown. destruct (c_state c) eqn:Es.
  4: { rewrite app_nil_r. split; [done|]. left. eauto. }
  all: set (rest := (λ c0, close_all (map snd (c_subscriptions c0)) c0) ;;;
                    update (λ c0, c0 <| c_subscriptions := [] |>) ;;; on_events Close ;;; on_states Close).
  all: assert (Hrest : inert rest) by
    (apply frame_seq; [apply inert_close_subscribed|auto with frame]).
  all: rewrite !(seq_run (setState _)), (seq_run (λ c0, reject_all _ (c_pending c0) c0)); cbn [fst snd].
  all: destruct (setState_core (Closed reason) c) as (Hp & Hst & _).
  all: pose proof (audited_setState (Closed reason) c log H) as H1.
  all: destruct (reject_all_spec (failure_of reason) _ _ _ eq_refl H1) as (H2 & H3 & H4).
  all: pose proof (inert_audited _ Hrest _ _ H2) as H5.
  all: destruct (inert_pending _ (reject_all (failure_of reason) (c_pending (setState (Closed reason) c).1)
         (setState (Closed reason) c).1).1 Hrest) as [H6 H7].
  all: split; [by rewrite <- !app_assoc in H5|right; split; congruence].
Qed.

(** ** Every step keeps the account and leaves the client at rest *)

Definition sound (s : Step) : Prop := ∀ c log,
  accounted c log → at_rest c → accounted (s c).1 (log ++ (s c).2) ∧ at_rest (s c).1.

Create HintDb sound.

Lemma sound_seq a b : sound a → sound b → sound (a ;;; b).
Proof.
  intros Ha Hb c log H Hr. rewrite seq_run. cbn [fst snd]. rewrite app_assoc.
  destruct (Ha c log H Hr) as [H1 Hr1]. by apply Hb.
Qed.

Lemma sound_by s : (∀ c, ∃ s', sound s' ∧ s c = s' c) → sound s.
Proof. intros H c log. destruct (H c) as (s' & Hs & ->). apply Hs. Qed.

Lemma sound_inert s : inert s → sound s.
Proof.
  intros H c log Ha [Hc Hp]. split; [by apply inert_audited|].
  destruct (inert_pending s c H) as [Ep Es]. unfold at_rest, isClosed. by rewrite Ep, Es.
Qed.

Lemma sound_settle id e : settled [e] = [id] → issued [e] = [] → sound (settle id e).
Proof.
  intros Es Ei c log H [Hc Hp]. split; [by apply audited_settle|]. unfold settle.
  destruct (take_pending id c) as [[p c']|] eqn:E; [|done]. apply take_pending_Some in E as [_ ->].
  split; [by destruct (pr_timer p)|]. intros Hcl.
  assert (Hcl' : isClosed c = true) by (by destruct (pr_timer p)).
  destruct (pr_timer p); simpl; by rewrite (Hp Hcl').
Qed.

Lemma sound_tearDown reason : sound (tearDown reason).
Proof.
  intros c log H Hr. destruct (tearDown_spec reason c log H) as [H1 [(r & Hs & E)|[Hs Hp]]];
    (split; [done|]).
  - by rewrite E.
  - split; [by rewrite Hs|done].
Qed.
#[export] Hint Resolve sound_seq sound_inert sound_settle sound_tearDown : sound.

Lemma sound_connect : sound connect.
Proof.
  intros c log H Hr. unfold connect. destruct (c_receiveLoop c); try (by rewrite app_nil_r).
  rewrite seq_run. cbn [fst snd]. rewrite app_assoc. split.
  - apply (inert_audited (update (λ c, c <| c_receiveLoop := LoopReceiving |>)));
      [auto with frame|by apply audited_setState].
  - destruct (setState_core Connected c) as (Hp & Hs & _). unfold update.
    split; unfold isClosed; simpl; by rewrite Hs.
Qed.

Lemma sound_shutdown : sound shutdown.
Proof.
  intros c log H Hr. unfold shutdown. destruct (isClosed c); [by rewrite app_nil_r|].
  rewrite !seq_run. cbn [fst snd]. rewrite !app_assoc.
  pose proof (audited_setState Closing c log H) as H1.
  destruct (setState_core Closing c) as (_ & Hs & _).
  destruct (tearDown_spec ReasonShutdown _ _ H1) as [H2 [(r & Hs' & _)|[Hs' Hp]]]; [congruence|].
  split.
  - apply (inert_audited (effect TransportClosed)); [auto with frame|done].
  - split; unfold effect; cbn [fst]; [by rewrite Hs'|by intros _].
Qed.

Lemma sound_request method params : sound (request method params).
Proof.
  intros c log H Hr. pose proof Hr as [Hst Hp]. unfold request, assertOpen. destruct (isClosed c) eqn:Ecl.
  { apply (sound_inert (effect (Threw ClientClosedError))); [auto with frame|done|exact Hr]. }
  destruct H as [H1 H2 H3 H4 H5]. cbn [fst snd]. set (c' := _ <| c_timers := _ |>).
  assert (Hi : issued (log ++ [Sent (OutRequest (c_nextRequestId c) method params)]) =
               issued log ++ [c_nextRequestId c]) by (rewrite issued_app; reflexivity).
  assert (Hs : settled (log ++ [Sent (OutRequest (c_nextRequestId c) method params)]) = settled log)
    by (by rewrite settled_app, app_nil_r).
  assert (Hw : waiting c' = waiting c ++ [c_nextRequestId c]) by (unfold waiting; simpl; by rewrite map_app).
  split; [|split; [exact Hst|intros Hcl; unfold isClosed in *; simpl in Hcl; congruence]]. split.
  - rewrite Hi, Hs, Hw, <- H1, <- !app_assoc. apply Permutation_app_head. apply Permutation_app_comm.
  - rewrite Hi, H2. simpl. replace (c_nextRequestId c + 1 - 1) with (c_nextRequestId c - 1 + 1) by lia.
    rewrite seqZ_app by lia. f_equal. replace (1 + (c_nextRequestId c - 1)) with (c_nextRequestId c) by lia.
    done.
  - simpl. lia.
  - rewrite Hw. simpl. rewrite H4. by destruct (0 <? c_requestTimeoutMs c).
  - simpl. apply Forall_app. split; [done|]. by apply Forall_singleton.
Qed.

Lemma sound_timer id : sound (timer_fires id).
Proof.
  intros c log H [Hst Hp]. unfold timer_fires.
  destruct (existsb (Z.eqb id) (c_timers c)) eqn:Ex; [|by rewrite app_nil_r].
  assert (Htime : (0 <? c_requestTimeoutMs c) = true ∧ id ∈ waiting c).
  { apply existsb_exists in Ex as (j & Hj & ->%Z.eqb_eq). rewrite (acc_timers _ _ H) in Hj.
    destruct (0 <? c_requestTimeoutMs c); [|done]. split; [done|]. by apply list_elem_of_In. }
  destruct Htime as [Ht Hin]. destruct (take_pending id (clear_timer id c)) as [[p c']|] eqn:E.
  - apply take_pending_Some in E as [Hin' ->]. simpl in Hin'. cbn [fst snd].
    pose proof (settle_one c log id p (Rejected id (RpcTimeoutError (pr_method p) (c_requestTimeoutMs c)))
      H Hin' eq_refl eq_refl) as H1. cbv zeta in H1.
    assert (Hpt : pr_timer p = true).
    { destruct H as [_ _ _ _ H5]. rewrite Forall_forall in H5. rewrite <- Ht. by apply (H5 (id, p)). }
    rewrite Hpt in H1. split; [done|]. split; [done|]. unfold isClosed in *. simpl. intros Hcl.
    by rewrite (Hp Hcl).
  - exfalso. apply list_elem_of_fmap in Hin as ([k p] & -> & Hin). unfold take_pending in E. simpl in E.
    destruct (find_js _ _) eqn:Ef; [done|]. clear -Hin Ef. induction (c_pending c) as [|kv l IH];
      [by apply not_elem_of_nil in Hin|]. simpl in Ef. destruct (kv.1 =? k) eqn:Ek; [done|].
    apply elem_of_cons in Hin as [<-|Hin]; [by rewrite Z.eqb_refl in Ek|auto].
Qed.

Lemma sound_dispatch channel action s : sound (dispatch channel action s).
Proof.
  intros c log H Hr. pose proof Hr as [Hst Hp]. unfold dispatch, assertOpen. destruct (isClosed c) eqn:Ecl.
  { apply (sound_inert (effect (Threw ClientClosedError))); [auto with frame|done|exact Hr]. }
  cbn [fst snd]. split; [|exact Hr]. destruct H as [H1 H2 H3 H4 H5].
  split; rewrite ?settled_app, ?issued_app; simpl; rewrite ?app_nil_r; done.
Qed.
#[export] Hint Resolve sound_connect sound_shutdown sound_request sound_timer sound_dispatch : sound.

Lemma sound_subscribe uri params : sound (subscribe uri params).
Proof.
  apply sound_by. intros c. unfold subscribe, assertOpen. destruct (isClosed c).
  - exists (effect (Threw ClientClosedError)). auto with sound frame.
  - eexists. split; [|reflexivity]. auto with sound frame.
Qed.

Lemma sound_send_fails caller te : sound (send_fails caller te).
Proof. unfold send_fails. apply sound_seq; [auto with sound|]. destruct caller; auto with sound frame. Qed.
#[export] Hint Resolve sound_subscribe sound_send_fails : sound.

(** ** The receive loop *)

(** An error response whose [error] member is [null] is not among the inputs. *)
Definition no_null_error (m : ProtocolMessage) : bool :=
  match m with ErrorResponse (IdNumber _) None => false | _ => true end.

Lemma inert_server_request id method params : inert (handleServerRequest id method params).
Proof.
  apply frame_by. intros c. unfold handleServerRequest. destruct (c_hasHandler c).
  - exists (effect (HandlerCalled id method params)). auto with frame.
  - eexists (effect _). split; [|reflexivity]. by apply frame_effect.
Qed.

Lemma sound_dispatchInbound m :
  no_null_error m = true → sound (λ c, (dispatchInbound m c).1).
Proof.
  intros Hm. apply sound_by. intros c. destruct m as [[id|j] result|[id|j] [e|]|id method params|n|];
    try done; simpl.
  - exists (settle id (Resolved id result)). auto with sound.
  - exists skip. auto with sound frame.
  - eexists (settle id _). split; [|reflexivity]. by apply sound_settle.
  - exists skip. auto with sound frame.
  - exists skip. auto with sound frame.
  - exists (handleServerRequest id method params). split; [|done]. apply sound_inert, inert_server_request.
  - destruct (event_of n) as [[[ch e]|]|[| |]].
    + exists (fanOut ch e). auto with sound frame.
    + exists skip. auto with sound frame.
    + exists skip. auto with sound frame.
    + exists skip. auto with sound frame.
    + exists skip. auto with sound frame.
  - exists skip. auto with sound frame.
Qed.

Section Machine.
Context (json_parse : string → Parsed + string) (utf8_decode : list Byte.byte → string).

Definition tolerated (i : Input) : bool :=
  match i with
  | RecvSettles (RecvFrame f) =>
      match decode json_parse utf8_decode f with
      | inl (ParsedObject m) => no_null_error m
      | _ => true
      end
  | _ => true
  end.

Lemma inert_end_loop : inert end_loop.
Proof. unfold end_loop. auto with frame. Qed.
#[local] Hint Resolve inert_end_loop : frame.

Lemma sound_loop_throws m : sound (loop_throws m).
Proof. unfold loop_throws. auto with sound frame. Qed.

Lemma inert_next_turn : inert next_turn.
Proof.
  apply frame_by. intros c. unfold next_turn.
  destruct (c_state c); [exists end_loop|exists skip|exists end_loop|exists end_loop]; auto with frame.
Qed.

Lemma sound_handleFrame f :
  tolerated (RecvSettles (RecvFrame f)) = true →
  sound (λ c, (handleFrame json_parse utf8_decode f c).1).
Proof.
  intros H. simpl in H. apply sound_by. intros c. unfold handleFrame.
  destruct (decode _ _ f) as [[m|]|msg].
  - exists (λ c, (dispatchInbound m c).1). split; [by apply sound_dispatchInbound|done].
  - exists skip. auto with sound frame.
  - eexists (effect _). split; [|reflexivity]. by apply sound_inert, frame_effect.
Qed.

Lemma sound_recv r : tolerated (RecvSettles r) = true → sound (recv_settles json_parse utf8_decode r).
Proof.
  intros Ht. apply sound_by. intros c. unfold recv_settles.
  destruct (c_receiveLoop c); try (exists skip; by auto with sound frame).
  destruct r as [f| |te].
  - pose proof (sound_handleFrame f Ht) as Hf.
    destruct (handleFrame json_parse utf8_decode f c) as [[c1 e1] thrown] eqn:E.
    exists ((λ c, (handleFrame json_parse utf8_decode f c).1) ;;;
            match thrown with None => next_turn | Some m => loop_throws m end). split.
    + apply sound_seq; [done|]. destruct thrown; [apply sound_loop_throws|apply sound_inert, inert_next_turn].
    + unfold seq. rewrite E. cbn [fst]. by destruct thrown.
  - eexists. split; [|reflexivity]. auto with sound frame.
  - eexists. split; [|reflexivity]. auto with sound frame.
Qed.

Lemma sound_step i : tolerated i = true → sound (client_step json_parse utf8_decode i).
Proof.
  intros Ht. destruct i; cbn [client_step]; try by auto with sound frame.
  - by apply sound_inert, frame_on_queue.
  - by apply sound_recv.
  - apply sound_inert. destruct outcome; by apply frame_effect.
  - destruct (reads op); auto with sound frame.
  - destruct (reads op); auto with sound frame.
Qed.

Lemma sound_run ins : forallb tolerated ins = true → sound (run_client json_parse utf8_decode ins).
Proof.
  induction ins as [|i ins IH]; simpl; [auto with sound frame|].
  intros [Hi Hins]%andb_true_iff. apply sound_seq; [by apply sound_step|auto].
Qed.

Lemma new_client_rest cfg : accounted (new_client cfg) [] ∧ at_rest (new_client cfg).
Proof.
  split; [|done]. split; try done. simpl. by destruct (0 <? _).
Qed.

End Machine.

(** ** Sequence numbers *)

Definition dispatched (log : list Effect) : list (bool * Z) :=
  flat_map (λ e, match e with Dispatched given n => [(given, n)] | _ => [] end) log.
Definition on_wire (log : list Effect) : list Z :=
  flat_map (λ e, match e with Sent (OutDispatch _ n _) => [n] | _ => [] end) log.
Definition is_dispatched (e : Effect) : bool :=
  match e with Dispatched _ _ | Sent (OutDispatch _ _ _) => true | _ => false end.

(** A step that assigns no sequence number. *)
Abbreviation unnumbered := (frame c_nextClientSeq is_dispatched).

Lemma unnumbered_inert s : inert s → unnumbered s.
Proof.
  apply frame_weaken; [by intros c c' [=]|]. by intros [[]| | | | | | | | | | |].
Qed.
#[export] Hint Resolve unnumbered_inert : frame.

Lemma unnumbered_settle id e : is_dispatched e = false → unnumbered (settle id e).
Proof.
  intros He. apply frame_by. intros c. unfold settle.
  destruct (take_pending id c) as [[p c']|] eqn:E; [|exists skip; auto with frame].
  apply take_pending_Some in E as [_ ->].
  exists (update (λ c, let c' := c <| c_pending := List.filter (λ kv, negb (kv.1 =? id)) (c_pending c) |> in
                       if pr_timer p then clear_timer id c' else c') ;;; effect e).
  split; [|done]. apply frame_seq; [|auto with frame].
  apply frame_update. intros c0. by destruct (pr_timer p).
Qed.

Lemma unnumbered_reject_all failure l : unnumbered (reject_all failure l).
Proof.
  induction l as [|[id p] l IH]; simpl; [auto with frame|].
  repeat apply frame_seq; auto with frame.
  apply frame_update. intros c. by destruct (pr_timer p).
Qed.

Lemma unnumbered_setState next : unnumbered (setState next).
Proof. unfold setState. auto with frame. Qed.
#[export] Hint Resolve unnumbered_settle unnumbered_setState : frame.

Lemma unnumbered_reject_pending failure : unnumbered (λ c, reject_all failure (c_pending c) c).
Proof.
  apply frame_by. intros c. exists (reject_all failure (c_pending c)).
  split; [apply unnumbered_reject_all|done].
Qed.

Lemma unnumbered_tearDown reason : unnumbered (tearDown reason).
Proof.
  apply frame_by. intros c. unfold tearDown.
  destruct (c_state c); [| | |exists skip; auto with frame];
    (eexists; split; [|reflexivity]);
    auto 10 using unnumbered_reject_pending, inert_close_subscribed with frame.
Qed.
#[export] Hint Resolve unnumbered_tearDown : frame.

Section Numbering.
Context (json_parse : string → Parsed + string) (utf8_decode : list Byte.byte → string).

Lemma unnumbered_dispatchInbound m : unnumbered (λ c, (dispatchInbound m c).1).
Proof.
  apply frame_by. intros c. destruct m as [[id|j] result|[id|j] [e|]|id method params|n|]; simpl;
    try (exists skip; by auto with frame).
  - exists (settle id (Resolved id result)). auto with frame.
  - eexists (settle id _). split; [|reflexivity]. by apply unnumbered_settle.
  - destruct (take_pending id c) as [[p c']|] eqn:E; [|exists skip; auto with frame].
    apply take_pending_Some in E as [_ ->].
    exists (update (λ c, let c' := c <| c_pending := List.filter (λ kv, negb (kv.1 =? id)) (c_pending c) |> in
                         if pr_timer p then clear_timer id c' else c')).
    split; [|done]. apply frame_update. intros c0. by destruct (pr_timer p).
  - exists (handleServerRequest id method params). split; [|done].
    apply unnumbered_inert, inert_server_request.
  - destruct (event_of n) as [[[ch e]|]|[| |]]; try (exists skip; by auto with frame).
    exists (fanOut ch e). auto with frame.
Qed.

Lemma unnumbered_recv r : unnumbered (recv_settles json_parse utf8_decode r).
Proof.
  apply frame_by. intros c. unfold recv_settles.
  destruct (c_receiveLoop c); try (exists skip; by auto with frame).
  assert (Hend : unnumbered end_loop) by (apply unnumbered_inert, inert_end_loop).
  destruct r as [f| |te]; [|eexists; split; [|reflexivity]; auto with frame..].
  assert (Hf : unnumbered (λ c, (handleFrame json_parse utf8_decode f c).1)).
  { apply frame_by. intros c0. unfold handleFrame. destruct (decode _ _ f) as [[m|]|msg].
    - eexists. split; [apply (unnumbered_dispatchInbound m)|done].
    - exists skip. auto with frame.
    - eexists (effect _). split; [|reflexivity]. auto with frame. }
  destruct (handleFrame json_parse utf8_decode f c) as [[c1 e1] thrown] eqn:E.
  exists ((λ c, (handleFrame json_parse utf8_decode f c).1) ;;;
          match thrown with None => next_turn | Some m => loop_throws m end). split.
  - apply frame_seq; [done|]. destruct thrown; [unfold loop_throws; auto with frame|].
    apply unnumbered_inert, inert_next_turn.
  - unfold seq. rewrite E. cbn [fst]. by destruct thrown.
Qed.

Lemma unnumbered_request method params : unnumbered (request method params).
Proof.
  split; intros c; unfold request, assertOpen; destruct (isClosed c); try done;
    cbn [snd]; by apply Forall_singleton.
Qed.

Lemma unnumbered_timer id : unnumbered (timer_fires id).
Proof.
  split; intros c; unfold timer_fires; (destruct (existsb _ _); [|done || constructor]);
    (destruct (take_pending id (clear_timer id c)) as [[p c']|] eqn:E; [|done || constructor]).
  - by apply take_pending_Some in E as [_ ->].
  - cbn [snd]. by apply Forall_singleton.
Qed.
#[local] Hint Resolve unnumbered_recv unnumbered_request unnumbered_timer : frame.

(** [dispatch] is the only input that assigns a number. *)
Lemma unnumbered_step i :
  (∀ ch a s, i ≠ Dispatch ch a s) → unnumbered (client_step json_parse utf8_decode i).
Proof.
  intros Hi. destruct i; cbn [client_step]; try by auto with frame.
  - apply frame_by. intros c. unfold connect.
    destruct (c_receiveLoop c); [|exists skip; auto with frame..].
    eexists. split; [|reflexivity]. auto with frame.
  - apply frame_by. intros c. unfold shutdown.
    destruct (isClosed c); [exists skip; auto with frame|].
    eexists. split; [|reflexivity]. auto with frame.
  - apply frame_by. intros c. unfold subscribe, assertOpen.
    destruct (isClosed c); [exists (effect (Threw ClientClosedError)); auto with frame|].
    eexists. split; [|reflexivity]. auto with frame.
  - by apply unnumbered_inert, frame_on_queue.
  - by destruct (Hi channel action clientSeq).
  - unfold send_fails. destruct caller; auto with frame.
  - destruct outcome; by apply frame_effect.
  - destruct (reads op); auto with frame.
  - destruct (reads op); auto with frame.
Qed.

(** An assigned number is greater than every earlier one, as long as these are
    safe integers. *)
Definition safe_numbers (l : list (bool * Z)) : Prop := Forall (λ d, d.2 ≤ MAX_SAFE_INTEGER) l.
Definition fresh_numbers (l : list (bool * Z)) : Prop :=
  ∀ l1 n l2, l = l1 ++ (false, n) :: l2 → safe_numbers l1 → Forall (λ d, d.2 < n) l1.

Record numbered (c : AhpClient) (log : list Effect) : Prop := {
  nb_next : safe_numbers (dispatched log) →
    1 ≤ c_nextClientSeq c ∧ Forall (λ d, d.2 < c_nextClientSeq c) (dispatched log);
  nb_fresh : fresh_numbers (dispatched log);
  nb_wire : on_wire log = map snd (dispatched log)
}.

Lemma silent_numbers log :
  Forall (λ e, is_dispatched e = false) log → dispatched log = [] ∧ on_wire log = [].
Proof.
  induction 1 as [|e log He _ [IH1 IH2]]; [done|]. simpl. rewrite IH1, IH2.
  by destruct e as [[]| | | | | | | | | | |].
Qed.

Lemma dispatched_app a b : dispatched (a ++ b) = dispatched a ++ dispatched b.
Proof. apply flat_map_app. Qed.
Lemma on_wire_app a b : on_wire (a ++ b) = on_wire a ++ on_wire b.
Proof. apply flat_map_app. Qed.

Lemma fresh_snoc l g n :
  fresh_numbers l → (g = false → safe_numbers l → Forall (λ d, d.2 < n) l) → fresh_numbers (l ++ [(g, n)]).
Proof.
  intros Hl Hn l1 m l2. destruct l2 as [|d l2 _] using rev_ind.
  - intros [-> [= -> ->]]%app_inj_tail. by apply Hn.
  - rewrite app_comm_cons, app_assoc. intros [-> _]%app_inj_tail. by eapply Hl.
Qed.

(** The counter after [dispatch] is above what it was and above the number. *)
Lemma next_above next n s :
  1 ≤ next → (s ??! next) ≤ MAX_SAFE_INTEGER → n = s ??! next →
  let next' := match s with
               | Some _ => if next <? js_add n 1 then js_add n 1 else next
               | None => js_add n 1
               end in
  next ≤ next' ∧ n < next'.
Proof.
  unfold MAX_SAFE_INTEGER. intros Hnext Hsafe ->. destruct s as [m|]; simpl in *.
  - destruct (Z.le_gt_cases 0 m).
    + rewrite js_add_exact by lia. destruct (Z.ltb_spec next (m + 1)); lia.
    + destruct (Z.ltb_spec next (js_add m 1)); lia.
  - rewrite js_add_exact by lia. lia.
Qed.

Lemma numbered_step i c log :
  numbered c log → let r := client_step json_parse utf8_decode i c in numbered r.1 (log ++ r.2).
Proof.
  intros [H1 H2 H3] r.
  assert (Hother : (∀ ch a s, i ≠ Dispatch ch a s) → numbered r.1 (log ++ r.2)).
  { intros Hi. destruct (unnumbered_step i Hi) as [Hk Hs]. destruct (silent_numbers _ (Hs c)) as [E1 E2].
    subst r. split; rewrite ?dispatched_app, ?on_wire_app, ?E1, ?E2, ?app_nil_r, ?(Hk c); done. }
  destruct i as [| | | | | | | | |ch a s| | | | | | | |]; try by apply Hother.
  subst r. cbn [client_step]. unfold dispatch, assertOpen. destruct (isClosed c).
  { split; rewrite ?dispatched_app, ?on_wire_app; cbn [dispatched on_wire flat_map fst snd]; by rewrite ?app_nil_r. }
  split; rewrite ?dispatched_app, ?on_wire_app; simpl.
  - intros [Hold Hn]%Forall_app. pose proof (proj1 (Forall_singleton _ _) Hn) as Hn1. cbn [snd] in Hn1.
    destruct (H1 Hold) as [Hpos Hlt].
    destruct (next_above (c_nextClientSeq c) _ s Hpos Hn1 eq_refl) as [Hge Hgt].
    split; [lia|]. apply Forall_app. split; [|by apply Forall_singleton].
    eapply Forall_impl; [exact Hlt|]. simpl. intros d Hd. lia.
  - apply fresh_snoc; [done|]. destruct s; [done|]. intros _ Hsafe. by destruct (H1 Hsafe).
  - by rewrite H3, map_app.
Qed.

Lemma numbered_run ins c log :
  numbered c log → let r := run_client json_parse utf8_decode ins c in numbered r.1 (log ++ r.2).
Proof.
  revert c log. induction ins as [|i ins IH]; intros c log H; simpl; [by rewrite app_nil_r|].
  rewrite seq_run. cbn [fst snd]. rewrite app_assoc. by apply IH, numbered_step.
Qed.
End Numbering.

(** ** The routing of events *)

(** What the routing depends on, and the effects on the subscriptions' queues. *)
Definition routing (c : AhpClient) := (c_subscriptions c, c_queues c, c_subscriptionBuffer c).
Definition is_on_queue (e : Effect) : bool := match e with OnQueue _ _ _ => true | _ => false end.
Abbreviation dry := (frame routing is_on_queue).

Definition ops_on (k : QueueId) (log : list Effect) : list (Op SubscriptionEvent) :=
  flat_map (λ e, match e with OnQueue j op _ => if (j =? k)%nat then [op] else [] | _ => [] end) log.
Definition outs_on (k : QueueId) (log : list Effect) : list (Settled SubscriptionEvent) :=
  flat_map (λ e, match e with OnQueue j _ out => if (j =? k)%nat then out else [] | _ => [] end) log.

Lemma ops_on_app k a b : ops_on k (a ++ b) = ops_on k a ++ ops_on k b.
Proof. apply flat_map_app. Qed.
Lemma outs_on_app k a b : outs_on k (a ++ b) = outs_on k a ++ outs_on k b.
Proof. apply flat_map_app. Qed.

Lemma silent_queue k log :
  Forall (λ e, is_on_queue e = false) log → ops_on k log = [] ∧ outs_on k log = [].
Proof.
  induction 1 as [|e log He _ [IH1 IH2]]; [done|]. simpl. rewrite IH1, IH2. by destruct e.
Qed.

Lemma run_app {V} (a b : list (Op V)) q :
  run (a ++ b) q = ((run b (run a q).1).1, (run a q).2 ++ (run b (run a q).1).2).
Proof.
  revert q. induction a as [|op a IH]; intros q; [simpl; by destruct (run b q)|].
  cbn [app]. rewrite !run_cons. cbn [fst snd]. rewrite IH. cbn [fst snd]. by rewrite app_assoc.
Qed.

(** Queue [k] evolves by exactly the operations logged for it. *)
Definition replays (k : QueueId) (s : Step) : Prop := ∀ c q, c_queues c !! k = Some q →
  c_queues (s c).1 !! k = Some (run (ops_on k (s c).2) q).1 ∧
  outs_on k (s c).2 = (run (ops_on k (s c).2) q).2.

Lemma replays_seq k a b : replays k a → replays k b → replays k (a ;;; b).
Proof.
  intros Ha Hb c q Hq. rewrite seq_run. cbn [fst snd]. rewrite ops_on_app, outs_on_app, run_app.
  cbn [fst snd]. destruct (Ha c q Hq) as [Hq1 ->]. by destruct (Hb _ _ Hq1) as [-> ->].
Qed.

Lemma replays_by k s : (∀ c, ∃ s', replays k s' ∧ s c = s' c) → replays k s.
Proof. intros H c q. destruct (H c) as (s' & Hs & ->). apply Hs. Qed.

Lemma replays_dry k s : dry s → replays k s.
Proof.
  intros [Hk Hs] c q Hq. destruct (silent_queue k _ (Hs c)) as [-> ->]. simpl.
  specialize (Hk c). unfold routing in Hk. injection Hk as _ -> _. done.
Qed.

Lemma replays_on_queue k j op : replays k (on_queue j op).
Proof.
  intros c q Hq. unfold on_queue. destruct (c_queues c !! j) as [q'|] eqn:Ej; [|done].
  pose proof (run_cons op [] q') as Hrun. destruct (step op q') as [q1 out] eqn:Es. simpl in Hrun.
  simpl. destruct (Nat.eqb_spec j k) as [->|Hne].
  - rewrite Hq in Ej. injection Ej as <-. rewrite list_lookup_insert_eq by (by eapply lookup_lt_Some).
    cbn [app]. rewrite run_cons, Es. simpl. by rewrite !app_nil_r.
  - by rewrite list_lookup_insert_ne.
Qed.
Create HintDb replays.
#[export] Hint Resolve replays_seq replays_dry replays_on_queue : replays.

Lemma replays_close_all k ks : replays k (close_all ks).
Proof. induction ks; simpl; auto with replays frame. Qed.
#[export] Hint Resolve replays_close_all : replays.

Lemma dry_reject_all failure l : dry (reject_all failure l).
Proof.
  induction l as [|[id p] l IH]; simpl; [auto with frame|]. repeat apply frame_seq; auto with frame.
  apply frame_update. intros c. by destruct (pr_timer p).
Qed.

Lemma dry_reject_pending failure : dry (λ c, reject_all failure (c_pending c) c).
Proof. apply (frame_case _ _ c_pending). intros l. apply dry_reject_all. Qed.

Lemma dry_setState next : dry (setState next).
Proof. unfold setState. auto with frame. Qed.
#[export] Hint Resolve dry_reject_pending dry_setState : frame.

Lemma dry_settle id e : is_on_queue e = false → dry (settle id e).
Proof.
  intros He. apply frame_by. intros c. unfold settle.
  destruct (take_pending id c) as [[p c']|] eqn:E; [|exists skip; auto with frame].
  apply take_pending_Some in E as [_ ->].
  exists (update (λ c, let c' := c <| c_pending := List.filter (λ kv, negb (kv.1 =? id)) (c_pending c) |> in
                       if pr_timer p then clear_timer id c' else c') ;;; effect e).
  split; [|done]. apply frame_seq; [|auto with frame]. apply frame_update. intros c0. by destruct (pr_timer p).
Qed.
#[export] Hint Resolve dry_settle : frame.

Lemma replays_tearDown k reason : replays k (tearDown reason).
Proof.
  apply replays_by. intros c. unfold tearDown.
  assert (H : replays k (λ c, close_all (map snd (c_subscriptions c)) c)).
  { apply replays_by. intros c0. exists (close_all (map snd (c_subscriptions c0))). auto with replays. }
  assert (Hclear : replays k (update (λ c, c <| c_subscriptions := [] |>))).
  { intros c0 q Hq. done. }
  destruct (c_state c); [| | |exists skip; auto with replays frame];
    (eexists; split; [|reflexivity]); auto 10 with replays frame.
Qed.
#[export] Hint Resolve replays_tearDown : replays.

(** ** Which events are published on a subscription's queue *)

Definition is_close {V} (op : Op V) : bool := match op with Close => true | _ => false end.

Lemma published_app {V} (a b : list (Op V)) :
  published (a ++ b) = published a ++ (if existsb is_close a then [] else published b).
Proof.
  induction a as [|op a IH]; [done|]. destruct op; simpl; rewrite ?IH; done.
Qed.

Lemma published_reads {V} (a : list (Op V)) :
  Forall (λ op, reads op = true) a → published a = [] ∧ existsb is_close a = false.
Proof. induction 1 as [|op a Hop _ [IH1 IH2]]; [done|]. by destruct op. Qed.

Definition subscribed (c : AhpClient) : list QueueId := map snd (c_subscriptions c).

Record subs_ok (c : AhpClient) : Prop := {
  so_uris : NoDup (map fst (c_subscriptions c));
  so_queues : NoDup (subscribed c);
  so_stored : Forall (λ k, (k < length (c_queues c))%nat) (subscribed c)
}.

Section Tracks.
Context (uri : URI) (k : QueueId).

(** [s] publishes on queue [k] exactly [ev] while [k] is the queue of [uri], and
    the queue is closed when it stops being that; nothing is published on it, and
    it is never subscribed again, when it is no subscription's queue. *)
Definition tracks (ev : AhpClient → list SubscriptionEvent) (s : Step) : Prop := ∀ c, subs_ok c →
  let c' := (s c).1 in
  let ops := ops_on k (s c).2 in
  subs_ok c' ∧ ((k < length (c_queues c))%nat →
  (k < length (c_queues c'))%nat ∧
  (lookup_subscription uri c = Some k → published ops = ev c ∧
     ((lookup_subscription uri c' = Some k ∧ (existsb is_close ops = false)) ∨
      ((k ∉ subscribed c') ∧ (existsb is_close ops = true)))) ∧
  (k ∉ subscribed c → published ops = [] ∧ k ∉ subscribed c')).

Definition none (c : AhpClient) : list SubscriptionEvent := [].

Lemma tracks_seq ev a b : tracks ev a → tracks none b → tracks ev (a ;;; b).
Proof.
  intros Ha Hb c Hs. rewrite seq_run. cbn [fst snd]. rewrite ops_on_app, published_app.
  destruct (Ha c Hs) as (Hs1 & H1). destruct (Hb _ Hs1) as (Hs2 & H2).
  split; [done|]. intros Hk. destruct (H1 Hk) as (Hk1 & Hin & Hout). destruct (H2 Hk1) as (Hk2 & Hin2 & Hout2).
  split; [done|]. split.
  - intros Hl. destruct (Hin Hl) as [-> [[Hl1 Hc]|[Hn1 Hc]]]; rewrite existsb_app, Hc; simpl.
    + destruct (Hin2 Hl1) as [-> Hcase]. rewrite app_nil_r. done.
    + rewrite app_nil_r. destruct (Hout2 Hn1) as [_ Hn2]. split; [done|]. by right.
  - intros Hn. destruct (Hout Hn) as [-> Hn1]. destruct (Hout2 Hn1) as [-> Hn2].
    by destruct (existsb _ _).
Qed.

Lemma tracks_by ev s : (∀ c, ∃ ev' s', tracks ev' s' ∧ s c = s' c ∧ ev c = ev' c) → tracks ev s.
Proof. intros H c. destruct (H c) as (ev' & s' & Hs & -> & ->). apply Hs. Qed.

(** The steps that change neither the subscriptions nor the number of queues. *)
Lemma tracks_calm s :
  (∀ c, c_subscriptions (s c).1 = c_subscriptions c ∧
        length (c_queues (s c).1) = length (c_queues c) ∧
        Forall (λ op, reads op = true) (ops_on k (s c).2)) →
  tracks none s.
Proof.
  intros H c [H1 H2 H3]. destruct (H c) as (Es & El & Hr). destruct (published_reads _ Hr) as [Hp Hc].
  unfold lookup_subscription, subscribed. rewrite Es. cbv zeta. split; [|intros Hk; split; [by rewrite El|]].
  - split; unfold subscribed in *; by rewrite ?Es, ?El.
  - rewrite Hp, Hc. split; [|done]. intros Hl. split; [done|]. by left.
Qed.

Lemma tracks_dry s : dry s → tracks none s.
Proof.
  intros [Hf Hs]. apply tracks_calm. intros c. destruct (silent_queue k _ (Hs c)) as [-> _].
  specialize (Hf c). unfold routing in Hf. injection Hf as -> -> _. done.
Qed.

Lemma tracks_read j op : reads op = true → tracks none (on_queue j op).
Proof.
  intros Hop. apply tracks_calm. intros c. unfold on_queue. destruct (c_queues c !! j) as [q|]; [|done].
  destruct (step op q) as [q' out]. simpl. rewrite length_insert. split; [done|]. split; [done|].
  destruct (j =? k)%nat; by repeat constructor.
Qed.

Lemma lookup_subscription_in c u j : lookup_subscription u c = Some j → (u, j) ∈ c_subscriptions c.
Proof.
  unfold lookup_subscription. intros ([u' j'] & Hf & [= ->])%fmap_Some.
  apply find_js_Some in Hf as [Hin Hu]. simpl in Hu. apply str_eqb_true in Hu as ->. done.
Qed.

(** A queue belongs to one URI. *)
Lemma subscription_inj c u j :
  subs_ok c → lookup_subscription uri c = Some k → lookup_subscription u c = Some j → j = k ↔ u = uri.
Proof.
  intros [_ H2 _] Hk Hj. split; [intros ->|intros ->; congruence].
  apply lookup_subscription_in in Hk, Hj. unfold subscribed in H2.
  apply list_elem_of_lookup in Hk as [a Ha]. apply list_elem_of_lookup in Hj as [b Hb].
  assert (a = b); [|congruence]. eapply (NoDup_lookup _ _ _ k H2).
  - by rewrite list_lookup_fmap, Ha.
  - by rewrite list_lookup_fmap, Hb.
Qed.

Lemma lookup_subscribed c u j : lookup_subscription u c = Some j → j ∈ subscribed c.
Proof. intros H%lookup_subscription_in. apply list_elem_of_fmap. by exists (u, j). Qed.

Lemma tracks_fanOut channel event :
  tracks (λ c, if channel =?s uri then [event] else []) (fanOut channel event).
Proof.
  unfold fanOut. apply tracks_seq; [|apply tracks_dry; auto with frame].
  intros c Hs. cbv beta zeta. destruct (lookup_subscription channel c) as [j|] eqn:Ej.
  - assert (Hj : (j < length (c_queues c))%nat).
    { destruct Hs as [_ _ H3]. rewrite Forall_forall in H3. eapply H3, lookup_subscribed, Ej. }
    apply lookup_lt_is_Some in Hj as [q Hq]. unfold on_queue. rewrite Hq.
    destruct (step (Publish event) q) as [q' out]. simpl. rewrite length_insert, app_nil_r.
    split; [destruct Hs as [? ? ?]; split; simpl; by rewrite ?length_insert|]. intros Hk.
    split; [done|]. split.
    + intros Hl. pose proof (subscription_inj c channel j Hs Hl Ej) as Hiff.
      case_str channel uri; [rewrite (proj2 Hiff E), Nat.eqb_refl|]; simpl.
      * split; [done|]. by left.
      * rewrite (proj2 (Nat.eqb_neq j k)) by (rewrite Hiff; done). split; [done|]. by left.
    + intros Hn. assert (j ≠ k) by (intros ->; by apply Hn, (lookup_subscribed c channel)).
      by rewrite (proj2 (Nat.eqb_neq j k)).
  - split; [done|]. intros Hk. split; [done|]. split; [|done]. intros Hl. case_str channel uri; [congruence|].
    split; [done|]. by left.
Qed.

(** Closing queues and forgetting them. *)
Lemma close_all_spec ks c :
  Forall (λ j, (j < length (c_queues c))%nat) ks →
  c_subscriptions (close_all ks c).1 = c_subscriptions c ∧
  length (c_queues (close_all ks c).1) = length (c_queues c) ∧
  published (ops_on k (close_all ks c).2) = [] ∧
  existsb is_close (ops_on k (close_all ks c).2) = bool_decide (k ∈ ks).
Proof.
  revert c. induction ks as [|j ks IH]; intros c Hks; [done|]. apply Forall_cons in Hks as [Hj Hks].
  simpl. rewrite seq_run. cbn [fst snd]. apply lookup_lt_is_Some in Hj as [q Hq].
  unfold on_queue. rewrite Hq. destruct (step Close q) as [q' out]. cbn [fst snd].
  destruct (IH (c <| c_queues := <[j := q']> (c_queues c) |>)) as (H1 & H2 & H3 & H4).
  { simpl. by rewrite length_insert. }
  split; [by rewrite H1|]. split; [rewrite H2; simpl; by rewrite length_insert|].
  rewrite ops_on_app, published_app, existsb_app, H3, H4. simpl.
  destruct (Nat.eqb_spec j k) as [->|Hne]; simpl.
  - split; [done|]. symmetry. apply bool_decide_eq_true. left.
  - split; [done|]. apply bool_decide_ext. rewrite elem_of_cons. naive_solver.
Qed.

Lemma tracks_tearDown reason : tracks none (tearDown reason).
Proof.
  assert (Hclose : tracks none ((λ c, close_all (map snd (c_subscriptions c)) c) ;;;
                                update (λ c, c <| c_subscriptions := [] |>))).
  { intros c [H1 H2 H3]. rewrite seq_run. unfold update. cbn [fst snd]. rewrite app_nil_r.
    destruct (close_all_spec (subscribed c) c H3) as (E1 & E2 & E3 & E4). unfold subscribed in *.
    rewrite E3, E4. split; [split; simpl; constructor|]. intros Hk. split; [simpl; by rewrite E2|].
    split; [|by split; [|apply not_elem_of_nil]]. intros Hl. split; [done|]. right.
    split; [apply not_elem_of_nil|]. apply bool_decide_eq_true. by eapply lookup_subscribed. }
  apply tracks_by. intros c. unfold tearDown.
  destruct (c_state c); [| | |exists none, skip; auto using tracks_dry with frame];
    (exists none; eexists ((setState (Closed reason) ;;;
                       (λ c, reject_all (failure_of reason) (c_pending c) c)) ;;;
                      ((λ c, close_all (map snd (c_subscriptions c)) c) ;;;
                       update (λ c, c <| c_subscriptions := [] |>)) ;;; on_events Close ;;; on_states Close);
     split; [|split; [rewrite !seq_run; cbn [fst snd]; rewrite !app_assoc; reflexivity|done]]);
    apply tracks_seq; auto using tracks_dry with frame;
    apply tracks_seq; auto using tracks_dry with frame.
Qed.

(** *** [attachSubscription] and [unsubscribe] *)

Definition ensure (u : URI) : Step := λ c,
  match lookup_subscription u c with
  | Some _ => (c, [])
  | None => ((c <| c_queues := c_queues c ++ [new_queue (c_subscriptionBuffer c)] |>)
               <| c_subscriptions := c_subscriptions c ++ [(u, length (c_queues c))] |>, [])
  end.

Lemma lookup_subscription_None u c : lookup_subscription u c = None → u ∉ map fst (c_subscriptions c).
Proof.
  unfold lookup_subscription. induction (c_subscriptions c) as [|[v j] l IH]; [by intros _ ?%not_elem_of_nil|].
  simpl. case_str v u; [done|]. intros H. rewrite elem_of_cons. intros [->|Hin]; [done|]. by apply IH.
Qed.

Lemma find_js_app {A} (p : A → bool) a b :
  find_js p (a ++ b) = match find_js p a with Some x => Some x | None => find_js p b end.
Proof. induction a as [|x a IH]; [done|]. simpl. by destruct (p x). Qed.

Lemma tracks_ensure u : tracks none (ensure u).
Proof.
  intros c Hs. unfold ensure. cbv beta zeta. destruct (lookup_subscription u c) as [j|] eqn:Ej.
  { split; [done|]. intros Hk. split; [done|]. split; [|done]. intros Hl. split; [done|]. by left. }
  pose proof (lookup_subscription_None u c Ej) as Hu. destruct Hs as [H1 H2 H3]. cbn [fst snd].
  rewrite Forall_forall in H3. split; [|intros Hk; split; [simpl; rewrite length_app; lia|split]].
  - split; unfold subscribed in *; simpl; rewrite map_app.
    + apply NoDup_app. split; [done|]. split; [|apply NoDup_singleton]. simpl.
      intros v Hv ->%list_elem_of_singleton. done.
    + apply NoDup_app. split; [done|]. split; [|apply NoDup_singleton]. simpl.
      intros j Hj ->%list_elem_of_singleton. specialize (H3 _ Hj). lia.
    + rewrite length_app. apply Forall_app. split.
      * apply Forall_forall. intros j Hj. specialize (H3 _ Hj). lia.
      * apply Forall_singleton. simpl. lia.
  - intros Hl. split; [done|]. left. split; [|done]. unfold lookup_subscription in *. simpl.
    rewrite find_js_app. by destruct (find_js (λ kv, kv.1 =?s uri) (c_subscriptions c)).
  - intros Hn. split; [done|]. unfold subscribed in *. simpl. rewrite map_app, elem_of_app. simpl.
    rewrite list_elem_of_singleton. intros [?|?]; [done|lia].
Qed.

Lemma tracks_attach u : tracks none (attachSubscription u).
Proof.
  apply tracks_by. intros c. unfold attachSubscription, assertOpen.
  destruct (isClosed c); [exists none, (effect (Threw ClientClosedError)); auto using tracks_dry with frame|].
  set (j := match lookup_subscription u c with Some j => j | None => length (c_queues c) end).
  set (r := match c_queues (ensure u c).1 !! j with Some q => length (heap q) | None => 0%nat end).
  exists none, (ensure u ;;; on_queue j Reader ;;; effect (Attached_ u j r)). split; [|split; [|done]].
  - apply tracks_seq; [apply tracks_ensure|]. apply tracks_seq; [by apply tracks_read|].
    auto using tracks_dry with frame.
  - rewrite (seq_run (ensure u)). unfold j, r, ensure.
    destruct (lookup_subscription u c) as [j'|]; cbn [fst snd app]; apply surjective_pairing.
Qed.

Definition forget (u : URI) : Step := λ c,
  match lookup_subscription u c with
  | Some j =>
      (update (λ c, c <| c_subscriptions := List.filter (λ kv, negb (kv.1 =?s u)) (c_subscriptions c) |>) ;;;
       on_queue j Close) c
  | None => skip c
  end.

Lemma NoDup_map_filter {A B} (f : A → B) (p : A → bool) l :
  NoDup (map f l) → NoDup (map f (List.filter p l)).
Proof.
  induction l as [|x l IH]; [done|]. simpl. intros [Hx Hl]%NoDup_cons.
  destruct (p x); [|by apply IH]. simpl. apply NoDup_cons. split; [|by apply IH].
  intros Hin. apply Hx. apply list_elem_of_fmap in Hin as (y & -> & Hy).
  apply elem_of_filter_js in Hy as [Hy _]. by apply list_elem_of_fmap_2.
Qed.

Lemma find_js_filter_ne (u v : URI) (l : list (URI * QueueId)) :
  u ≠ v → find_js (λ kv, kv.1 =?s v) (List.filter (λ kv, negb (kv.1 =?s u)) l) = find_js (λ kv, kv.1 =?s v) l.
Proof.
  intros Huv. induction l as [|[w j] l IH]; [done|]. simpl. case_str w u; simpl.
  - subst w. by rewrite (proj2 (str_eqb_false u v)).
  - destruct (w =?s v); [done|]. exact IH.
Qed.

Lemma find_js_filter_eq (u : URI) (l : list (URI * QueueId)) :
  find_js (λ kv, kv.1 =?s u) (List.filter (λ kv, negb (kv.1 =?s u)) l) = None.
Proof.
  induction l as [|[w j] l IH]; [done|]. simpl. destruct (w =?s u) eqn:E; simpl; [exact IH|]. by rewrite E.
Qed.

Lemma filtered_subscribed c u j i :
  subs_ok c → lookup_subscription u c = Some j →
  i ∈ map snd (List.filter (λ kv, negb (kv.1 =?s u)) (c_subscriptions c)) → i ∈ subscribed c ∧ i ≠ j.
Proof.
  intros [_ H2 _] Hj%lookup_subscription_in ([v i'] & -> & Hkv)%list_elem_of_fmap.
  apply elem_of_filter_js in Hkv as [Hkv Hv]. simpl in *. apply negb_true_iff, str_eqb_false in Hv.
  split; [apply list_elem_of_fmap; by exists (v, i')|]. intros ->. apply Hv. unfold subscribed in H2.
  apply list_elem_of_lookup in Hkv as [a Ha]. apply list_elem_of_lookup in Hj as [b Hb].
  assert (a = b); [|congruence]. apply (NoDup_lookup _ _ _ j H2).
  - by rewrite list_lookup_fmap, Ha.
  - by rewrite list_lookup_fmap, Hb.
Qed.

Lemma tracks_forget u : tracks none (forget u).
Proof.
  intros c Hs. unfold forget. cbv beta zeta. destruct (lookup_subscription u c) as [j|] eqn:Ej.
  2: { split; [done|]. intros Hk. split; [done|]. split; [|done]. intros Hl. split; [done|]. by left. }
  assert (Hj : (j < length (c_queues c))%nat).
  { destruct Hs as [_ _ H3]. rewrite Forall_forall in H3. eapply H3, lookup_subscribed, Ej. }
  apply lookup_lt_is_Some in Hj as [q Hq]. rewrite seq_run. unfold update, on_queue. simpl. rewrite Hq.
  destruct (close q) as [q' out]. simpl. rewrite length_insert, app_nil_r.
  match goal with |- subs_ok ?x ∧ _ => set (c' := x) end.
  assert (Hsub : ∀ i, i ∈ subscribed c' → i ∈ subscribed c ∧ i ≠ j)
    by (intros i; apply (filtered_subscribed c u j i Hs Ej)).
  split; [|intros Hk; split; [done|split]].
  - destruct Hs as [H1 H2 H3]. split; [by apply NoDup_map_filter|by apply NoDup_map_filter|].
    rewrite Forall_forall in *. intros i Hi. simpl. rewrite length_insert. by apply H3; apply Hsub.
  - intros Hl. pose proof (subscription_inj c u j Hs Hl Ej) as Hiff.
    destruct (decide (u = uri)) as [->|Hne].
    + rewrite (proj2 Hiff eq_refl), Nat.eqb_refl. simpl. split; [done|]. right. split; [|done].
      intros Hin. apply Hsub in Hin as [_ Hne]. apply Hne. symmetry. by apply Hiff.
    + rewrite (proj2 (Nat.eqb_neq j k)) by (rewrite Hiff; done). simpl. split; [done|]. left.
      split; [|done]. unfold lookup_subscription in *. unfold c'. simpl.
      by rewrite find_js_filter_ne by done.
  - intros Hn. assert (j ≠ k) by (intros ->; by apply Hn, (lookup_subscribed c u)).
    rewrite (proj2 (Nat.eqb_neq j k)) by done. split; [done|]. intros Hin. apply Hn. by apply Hsub.
Qed.

Lemma tracks_unsubscribe u : tracks none (unsubscribe u).
Proof.
  apply tracks_by. intros c. exists none. unfold unsubscribe.
  destruct (isClosed c); [exists skip; auto using tracks_dry with frame|].
  exists (forget u ;;; notify "unsubscribe" (JObject [("channel", JString u)])). split; [|split; [|done]].
  - apply tracks_seq; [apply tracks_forget|]. apply tracks_dry. unfold notify. auto with frame.
  - unfold seq, forget. by destruct (lookup_subscription u c).
Qed.
(** *** The three facts together *)

Definition queues_wf (c : AhpClient) : Prop := 1 ≤ c_subscriptionBuffer c ∧ Forall wf (c_queues c).

(** The queues are well-formed and those of the subscriptions are open. *)
Definition stored_wf (c : AhpClient) : Prop :=
  queues_wf c ∧ ∀ j q, j ∈ subscribed c → c_queues c !! j = Some q → closed q = false.

Definition routed (ev : AhpClient → list SubscriptionEvent) (s : Step) : Prop :=
  tracks ev s ∧ replays k s ∧ ∀ c, subs_ok c → stored_wf c → stored_wf (s c).1.

Lemma routed_seq ev a b : routed ev a → routed none b → routed ev (a ;;; b).
Proof.
  intros (Ta & Ra & Wa) (Tb & Rb & Wb). split; [by apply tracks_seq|]. split; [by apply replays_seq|].
  intros c Hs Hc. rewrite seq_run. cbn [fst]. apply Wb; [by apply Ta|by apply Wa].
Qed.

Lemma routed_by ev s : (∀ c, ∃ ev' s', routed ev' s' ∧ s c = s' c ∧ ev c = ev' c) → routed ev s.
Proof.
  intros H. split; [|split].
  - apply tracks_by. intros c. destruct (H c) as (ev' & s' & (? & _ & _) & ? & ?). by exists ev', s'.
  - apply replays_by. intros c. destruct (H c) as (ev' & s' & (_ & ? & _) & ? & ?). by exists s'.
  - intros c. destruct (H c) as (ev' & s' & (_ & _ & Hw) & -> & _). apply Hw.
Qed.

Lemma stored_dry s c : dry s → stored_wf c → stored_wf (s c).1.
Proof.
  intros [Hk _]. unfold stored_wf, queues_wf, subscribed. specialize (Hk c). unfold routing in Hk.
  by injection Hk as -> -> ->.
Qed.

Lemma routed_dry s : dry s → routed none s.
Proof.
  intros Hs. split; [by apply tracks_dry|]. split; [by apply replays_dry|]. intros c _.
  by apply stored_dry.
Qed.

Lemma on_queue_wf j op c : queues_wf c → queues_wf (on_queue j op c).1.
Proof.
  intros [Hb Hq]. unfold on_queue. destruct (c_queues c !! j) as [q|] eqn:Ej; [|done].
  pose proof (step_refines op q) as Hr. destruct (step op q) as [q' out]. split; [done|]. simpl.
  apply Forall_insert; [done|]. apply Hr. by eapply Forall_lookup_1.
Qed.

Lemma on_queue_stored j op c :
  op ≠ Close → stored_wf c → stored_wf (on_queue j op c).1.
Proof.
  intros Hop [Hw Ho]. split; [by apply on_queue_wf|]. unfold on_queue. destruct Hw as [_ Hw].
  destruct (c_queues c !! j) as [q|] eqn:Ej; [|done].
  pose proof (step_refines op q (Forall_lookup_1 _ _ _ _ Hw Ej)) as (_ & [_ Hcl] & _).
  destruct (step op q) as [q' out]. simpl in *. intros i q0 Hi.
  destruct (decide (j = i)) as [<-|Hne]; [|rewrite list_lookup_insert_ne by done; by apply Ho].
  rewrite list_lookup_insert_eq by (by eapply lookup_lt_Some). intros [= <-].
  rewrite Hcl. specialize (Ho j q Hi Ej). by destruct op.
Qed.

Lemma routed_read j op : reads op = true → routed none (on_queue j op).
Proof.
  intros H. split; [by apply tracks_read|]. split; [apply replays_on_queue|].
  intros c _. apply on_queue_stored. by intros ->.
Qed.

Lemma routed_fanOut channel event :
  routed (λ c, if channel =?s uri then [event] else []) (fanOut channel event).
Proof.
  split; [apply tracks_fanOut|]. split.
  - unfold fanOut. apply replays_seq; [|auto with replays frame]. apply replays_by. intros c.
    destruct (lookup_subscription channel c) as [j|];
      [exists (on_queue j (Publish event))|exists skip]; auto with replays frame.
  - intros c Hs Hc. unfold fanOut. rewrite seq_run. cbn [fst].
    apply (stored_dry (on_events (Publish {| ce_channel := channel; ce_event := event |})));
      [auto with frame|].
    destruct (lookup_subscription channel c); [by apply on_queue_stored|done].
Qed.

Lemma close_all_wf ks c : queues_wf c → queues_wf (close_all ks c).1.
Proof.
  revert c. induction ks as [|j ks IH]; intros c Hc; [done|]. simpl. rewrite seq_run. cbn [fst].
  by apply IH, on_queue_wf.
Qed.

Lemma routed_tearDown reason : routed none (tearDown reason).
Proof.
  split; [apply tracks_tearDown|]. split; [apply replays_tearDown|]. intros c _ Hc. unfold tearDown.
  pose proof stored_dry as Hdry.
  destruct (c_state c); try done; rewrite !seq_run; cbn [fst snd];
    (apply Hdry; [auto with frame|]); (apply Hdry; [auto with frame|]);
    (split; [|by intros ? ? ?%not_elem_of_nil]); unfold update; cbn [fst]; apply close_all_wf;
    (apply (Hdry (λ c, reject_all (failure_of reason) (c_pending c) c)); [auto with frame|]);
    apply Hdry; auto with frame.
Qed.
Lemma routed_ensure u : routed none (ensure u).
Proof.
  split; [apply tracks_ensure|]. split.
  - intros c q Hq. unfold ensure. destruct (lookup_subscription u c); [done|]. simpl.
    by rewrite (lookup_app_l_Some _ _ _ _ Hq).
  - intros c _ [[Hb Hq] Ho]. unfold ensure. destruct (lookup_subscription u c); [done|].
    split; [split; [done|]; simpl; apply Forall_app; split; [done|]; apply Forall_singleton;
            by apply new_queue_wf|].
    intros i q Hi [Hiq|[Hlen Hiq]]%lookup_app_Some; simpl in *.
    + apply lookup_lt_Some in Hiq as Hlt. eapply Ho, Hiq. unfold subscribed in *. simpl in Hi.
      rewrite map_app, elem_of_app in Hi. destruct Hi as [?| ->%list_elem_of_singleton]; [done|].
      simpl in Hlt. lia.
    + by apply list_lookup_singleton_Some in Hiq as [_ <-].
Qed.

Lemma routed_forget u : routed none (forget u).
Proof.
  split; [apply tracks_forget|]. split.
  - apply replays_by. intros c. unfold forget. destruct (lookup_subscription u c) as [j|];
      [|exists skip; auto with replays frame].
    exists (update (λ c, c <| c_subscriptions := List.filter (λ kv, negb (kv.1 =?s u)) (c_subscriptions c) |>) ;;;
            on_queue j Close). split; [|done]. apply replays_seq; [|auto with replays].
    by intros c0 q Hq.
  - intros c Hs [Hw Ho]. unfold forget. destruct (lookup_subscription u c) as [j|] eqn:Ej; [|done].
    rewrite seq_run. cbn [fst]. split; [by apply on_queue_wf|]. intros i q Hi Hq.
    assert (Hi' : i ∈ subscribed c ∧ i ≠ j).
    { apply (filtered_subscribed c u j i Hs Ej). revert Hi. unfold on_queue, subscribed. simpl.
      by destruct (c_queues c !! j); [destruct (close _)|]. }
    destruct Hi' as [Hin Hne]. apply (Ho i q Hin). revert Hq. unfold on_queue. simpl.
    destruct (c_queues c !! j); [|done]. destruct (close _). simpl. by rewrite list_lookup_insert_ne.
Qed.

Lemma routed_attach u : routed none (attachSubscription u).
Proof.
  apply routed_by. intros c. unfold attachSubscription, assertOpen.
  destruct (isClosed c); [exists none, (effect (Threw ClientClosedError)); auto using routed_dry with frame|].
  set (j := match lookup_subscription u c with Some j => j | None => length (c_queues c) end).
  set (r := match c_queues (ensure u c).1 !! j with Some q => length (heap q) | None => 0%nat end).
  exists none, (ensure u ;;; on_queue j Reader ;;; effect (Attached_ u j r)). split; [|split; [|done]].
  - apply routed_seq; [apply routed_ensure|]. apply routed_seq; [by apply routed_read|].
    auto using routed_dry with frame.
  - rewrite (seq_run (ensure u)). unfold j, r, ensure.
    destruct (lookup_subscription u c) as [j'|]; cbn [fst snd app]; apply surjective_pairing.
Qed.

Lemma routed_unsubscribe u : routed none (unsubscribe u).
Proof.
  apply routed_by. intros c. exists none. unfold unsubscribe.
  destruct (isClosed c); [exists skip; auto using routed_dry with frame|].
  exists (forget u ;;; notify "unsubscribe" (JObject [("channel", JString u)])). split; [|split; [|done]].
  - apply routed_seq; [apply routed_forget|]. apply routed_dry. unfold notify. auto with frame.
  - unfold seq, forget. by destruct (lookup_subscription u c).
Qed.
End Tracks.

(** *** All the inputs *)

Lemma dry_request method params : dry (request method params).
Proof.
  split; intros c; unfold request, assertOpen; destruct (isClosed c); try done; cbn [snd];
    by apply Forall_singleton.
Qed.

Lemma dry_dispatch channel action n : dry (dispatch channel action n).
Proof.
  split; intros c; unfold dispatch, assertOpen; destruct (isClosed c); try done; cbn [snd];
    by repeat constructor.
Qed.

Lemma dry_timer id : dry (timer_fires id).
Proof.
  split; intros c; unfold timer_fires; (destruct (existsb _ _); [|done || constructor]);
    (destruct (take_pending id (clear_timer id c)) as [[p c']|] eqn:E; [|done || constructor]).
  - by apply take_pending_Some in E as [_ ->].
  - cbn [snd]. by apply Forall_singleton.
Qed.

Lemma dry_server_request id method params : dry (handleServerRequest id method params).
Proof.
  apply frame_by. intros c. unfold handleServerRequest. destruct (c_hasHandler c).
  - exists (effect (HandlerCalled id method params)). auto with frame.
  - eexists (effect _). split; [|reflexivity]. auto with frame.
Qed.

Lemma dry_end_loop : dry end_loop.
Proof. unfold end_loop. auto with frame. Qed.

Lemma dry_next_turn : dry next_turn.
Proof.
  apply frame_by. intros c. pose proof dry_end_loop. unfold next_turn.
  destruct (c_state c); [exists end_loop|exists skip|exists end_loop|exists end_loop]; auto with frame.
Qed.
#[export] Hint Resolve dry_request dry_dispatch dry_timer dry_server_request dry_end_loop dry_next_turn : frame.
Create HintDb routed.
#[export] Hint Resolve routed_seq routed_dry routed_tearDown routed_attach routed_unsubscribe : routed.

Section Routing.
Context (json_parse : string → Parsed + string) (utf8_decode : list Byte.byte → string).
Context (uri : URI) (k : QueueId).

(** The event a frame carries for the channel [uri]. *)
Definition event_in (f : TransportFrame) : list SubscriptionEvent :=
  match decode json_parse utf8_decode f with
  | inl (ParsedObject (ServerNotification n)) =>
      match event_of n with
      | Ok (Some (channel, event)) => if channel =?s uri then [event] else []
      | _ => []
      end
  | _ => []
  end.

(** The event that arrives with an input. *)
Definition arriving (i : Input) (c : AhpClient) : list SubscriptionEvent :=
  match i, c_receiveLoop c with
  | RecvSettles (RecvFrame f), LoopReceiving => event_in f
  | _, _ => []
  end.

Lemma routed_handleFrame f :
  routed uri k (λ _, event_in f) (λ c, (handleFrame json_parse utf8_decode f c).1).
Proof.
  apply routed_by. intros c. unfold event_in, handleFrame.
  destruct (decode _ _ f) as [[m|]|msg];
    [|exists none, skip; auto using routed_dry with frame
     |eexists none, (effect _); split; [|split; [reflexivity|done]]; auto using routed_dry with frame].
  destruct m as [[id|j] result|[id|j] [e|]|id method params|n|]; simpl;
    try (exists none, skip; by auto using routed_dry with frame).
  - exists none, (settle id (Resolved id result)). auto using routed_dry with frame.
  - eexists none, (settle id _). split; [|split; [reflexivity|done]]. auto using routed_dry with frame.
  - destruct (take_pending id c) as [[p c']|] eqn:Et; [|exists none, skip; auto using routed_dry with frame].
    apply take_pending_Some in Et as [_ ->].
    exists none, (update (λ c, let c' := c <| c_pending := List.filter (λ kv, negb (kv.1 =? id)) (c_pending c) |> in
                         if pr_timer p then clear_timer id c' else c')).
    split; [|done]. apply routed_dry, frame_update. intros c0. by destruct (pr_timer p).
  - exists none, (handleServerRequest id method params). auto using routed_dry with frame.
  - destruct (event_of n) as [[[ch e]|]|[| |]]; try (exists none, skip; by auto using routed_dry with frame).
    eexists _, (fanOut ch e). split; [apply routed_fanOut|done].
Qed.

Lemma routed_recv r : routed uri k (arriving (RecvSettles r)) (recv_settles json_parse utf8_decode r).
Proof.
  apply routed_by. intros c. unfold recv_settles, arriving.
  destruct (c_receiveLoop c); try (exists none, skip; by destruct r; auto using routed_dry with frame).
  destruct r as [f| |te];
    [|exists none; eexists; split; [|split; [reflexivity|done]]; auto with routed frame..].
  destruct (handleFrame json_parse utf8_decode f c) as [[c1 e1] thrown] eqn:E.
  exists (λ _, event_in f), ((λ c, (handleFrame json_parse utf8_decode f c).1) ;;;
          match thrown with None => next_turn | Some m => loop_throws m end). split; [|split; [|done]].
  - apply routed_seq; [apply routed_handleFrame|]. unfold loop_throws.
    destruct thrown; auto with routed frame.
  - unfold seq. rewrite E. cbn [fst]. by destruct thrown.
Qed.

Lemma dry_connect : dry connect.
Proof.
  apply frame_by. intros c. unfold connect.
  destruct (c_receiveLoop c); [|exists skip; auto with frame..].
  eexists. split; [|reflexivity]. auto with frame.
Qed.

Lemma routed_shutdown : routed uri k none shutdown.
Proof.
  apply routed_by. intros c. exists none. unfold shutdown.
  destruct (isClosed c); [exists skip|eexists; split; [|split; [reflexivity|done]]]; auto with routed frame.
Qed.

Lemma routed_subscribe u params : routed uri k none (subscribe u params).
Proof.
  apply routed_by. intros c. exists none. unfold subscribe, assertOpen.
  destruct (isClosed c); [exists (effect (Threw ClientClosedError))|eexists; split; [|split; [reflexivity|done]]];
    auto with routed frame.
Qed.

Lemma routed_step i : routed uri k (arriving i) (client_step json_parse utf8_decode i).
Proof.
  assert (Hnone : ∀ ev s, routed uri k none s → (∀ c, ev c = none c) → routed uri k ev s).
  { intros ev s Hs He. apply routed_by. intros c. exists none, s. auto. }
  pose proof dry_connect. pose proof routed_shutdown. pose proof routed_subscribe.
  destruct i; cbn [client_step]; [..|apply routed_recv| | | | | | |]; apply Hnone; try done;
    auto with routed frame.
  - apply routed_dry. unfold notify. auto with frame.
  - by apply routed_read.
  - unfold send_fails. destruct caller; auto with routed frame.
  - destruct outcome; apply routed_dry; by apply frame_effect.
  - by apply routed_read.
  - by apply routed_read.
  - destruct (reads op); auto with routed frame.
  - destruct (reads op); auto with routed frame.
Qed.

(** The events that arrive for [uri] while [k] is its queue. *)
Fixpoint heard (ins : list Input) (c : AhpClient) : list SubscriptionEvent :=
  match ins with
  | [] => []
  | i :: ins =>
      (if bool_decide (lookup_subscription uri c = Some k) then arriving i c else []) ++
      heard ins (client_step json_parse utf8_decode i c).1
  end.

(** A queue that is no subscription's stays so, and nothing is published on it. *)
Lemma run_unrouted ins c :
  subs_ok c → (k < length (c_queues c))%nat → k ∉ subscribed c →
  published (ops_on k (run_client json_parse utf8_decode ins c).2) = [] ∧ heard ins c = [].
Proof.
  revert c. induction ins as [|i ins IH]; intros c Hs Hk Hn; [done|].
  cbn [run_client heard]. rewrite seq_run. cbn [fst snd]. rewrite ops_on_app, published_app.
  destruct (proj1 (routed_step i) c Hs) as (Hs1 & H1). destruct (H1 Hk) as (Hk1 & _ & Hout).
  rewrite bool_decide_eq_false_2 by (intros Hl; by apply Hn, (lookup_subscribed c uri)).
  destruct (Hout Hn) as [-> Hn1]. destruct (IH _ Hs1 Hk1 Hn1) as [-> ->]. by destruct (existsb _ _).
Qed.

Lemma run_routed ins c :
  subs_ok c → (k < length (c_queues c))%nat → lookup_subscription uri c = Some k →
  published (ops_on k (run_client json_parse utf8_decode ins c).2) = heard ins c.
Proof.
  revert c. induction ins as [|i ins IH]; intros c Hs Hk Hl; [done|].
  cbn [run_client heard]. rewrite seq_run. cbn [fst snd]. rewrite ops_on_app, published_app.
  destruct (proj1 (routed_step i) c Hs) as (Hs1 & H1). destruct (H1 Hk) as (Hk1 & Hin & _).
  rewrite bool_decide_eq_true_2 by done. destruct (Hin Hl) as [-> [[Hl1 ->]|[Hn1 ->]]]; f_equal.
  - by apply IH.
  - by destruct (run_unrouted ins _ Hs1 Hk1 Hn1) as [_ ->].
Qed.

Lemma run_replays ins : replays k (run_client json_parse utf8_decode ins).
Proof.
  induction ins as [|i ins IH]; simpl; [auto with replays frame|]. apply replays_seq; [|done].
  apply routed_step.
Qed.

Lemma run_subs_ok ins c : subs_ok c → subs_ok (run_client json_parse utf8_decode ins c).1.
Proof.
  revert c. induction ins as [|i ins IH]; intros c Hs; [done|]. simpl. rewrite seq_run. cbn [fst].
  by apply IH, routed_step.
Qed.

Lemma run_stored_wf ins c :
  subs_ok c → stored_wf c → stored_wf (run_client json_parse utf8_decode ins c).1.
Proof.
  revert c. induction ins as [|i ins IH]; intros c Hs Hw; [done|]. simpl. rewrite seq_run. cbn [fst].
  apply IH; by apply routed_step.
Qed.
End Routing.

(** *** The period of a subscription

    A subscription of [uri] lasts until [unsubscribe(uri)] or until the client
    closes: nothing else takes it away from its queue.  An open client that was
    connected is receiving. *)

(** A step that touches neither the subscriptions nor the connection. *)
Abbreviation still := (frame (λ c, (c_subscriptions c, c_state c, c_receiveLoop c)) (λ _, false)).

Lemma still_settle id e : still (settle id e).
Proof.
  apply frame_by. intros c. unfold settle.
  destruct (take_pending id c) as [[p c']|] eqn:E; [|exists skip; auto with frame].
  apply take_pending_Some in E as [_ ->].
  exists (update (λ c, let c' := c <| c_pending := List.filter (λ kv, negb (kv.1 =? id)) (c_pending c) |> in
                       if pr_timer p then clear_timer id c' else c') ;;; effect e).
  split; [|done]. apply frame_seq; [|auto with frame]. apply frame_update. intros c0. by destruct (pr_timer p).
Qed.

Lemma still_server_request id method params : still (handleServerRequest id method params).
Proof. split; intros c; unfold handleServerRequest; destruct (c_hasHandler c); by repeat constructor. Qed.

Lemma still_fanOut channel event : still (fanOut channel event).
Proof.
  apply frame_seq; [|auto with frame]. apply frame_by. intros c.
  destruct (lookup_subscription channel c) as [k|];
    [exists (on_queue k (Publish event)) | exists skip]; auto with frame.
Qed.

Lemma still_request method params : still (request method params).
Proof. split; intros c; unfold request, assertOpen; destruct (isClosed c); by repeat constructor. Qed.

Lemma still_dispatch channel action n : still (dispatch channel action n).
Proof. split; intros c; unfold dispatch, assertOpen; destruct (isClosed c); by repeat constructor. Qed.

Lemma still_timer id : still (timer_fires id).
Proof.
  split; intros c; unfold timer_fires; (destruct (existsb _ _); [|done || constructor]);
    (destruct (take_pending id (clear_timer id c)) as [[p c']|] eqn:E; [|done || constructor]).
  - by apply take_pending_Some in E as [_ ->].
  - by repeat constructor.
Qed.

Lemma still_reject_all failure l : still (reject_all failure l).
Proof.
  induction l as [|[id p] l IH]; simpl; [auto with frame|]. repeat apply frame_seq; auto with frame.
  apply frame_update. intros c. by destruct (pr_timer p).
Qed.

Lemma still_close_all ks : still (close_all ks).
Proof. induction ks; simpl; auto with frame. Qed.
#[export] Hint Resolve still_settle still_server_request still_fanOut still_request still_dispatch still_timer : frame.

Lemma still_keeps s c :
  still s → c_subscriptions (s c).1 = c_subscriptions c ∧ c_state (s c).1 = c_state c ∧
            c_receiveLoop (s c).1 = c_receiveLoop c.
Proof. intros [Hk _]. specialize (Hk c). by injection Hk. Qed.

(** The receive loop awaits [recv()] of the transport. *)
Definition alive (c : AhpClient) : Prop := c_state c = Connected ∧ c_receiveLoop c = LoopReceiving.

Section Period.
Context (json_parse : string → Parsed + string) (utf8_decode : list Byte.byte → string).
Context (uri : URI) (k : QueueId).

(** The subscription is kept, or the client closes and all are dropped. *)
Definition persists (s : Step) : Prop := ∀ c,
  let c' := (s c).1 in
  (isClosed c' = isClosed c ∧ (isClosed c = true → c_subscriptions c' = c_subscriptions c) ∧
   (lookup_subscription uri c = Some k → lookup_subscription uri c' = Some k) ∧ (alive c → alive c')) ∨
  (isClosed c' = true ∧ c_subscriptions c' = []).

Lemma persists_seq a b : persists a → persists b → persists (a ;;; b).
Proof.
  intros Ha Hb c. rewrite seq_run. cbn [fst]. specialize (Ha c). specialize (Hb (a c).1).
  destruct Hb as [(B1 & B2 & B3 & B4)|Hb]; [|by right]. destruct Ha as [(A1 & A2 & A3 & A4)|[A1 A2]].
  - left. rewrite B1, A1. split; [done|]. split; [|auto]. intros Hc. rewrite B2 by congruence. auto.
  - right. rewrite B1, B2 by done. done.
Qed.

Lemma persists_by s : (∀ c, ∃ s', persists s' ∧ (s c).1 = (s' c).1) → persists s.
Proof. intros H c. destruct (H c) as (s' & Hs & ->). apply Hs. Qed.

Lemma persists_still s : still s → persists s.
Proof.
  intros H c. destruct (still_keeps s c H) as (Hs & Hc & Hl). left. unfold isClosed, lookup_subscription, alive.
  by rewrite Hs, Hc, Hl.
Qed.

(** Closing from any state but [Closed] drops every subscription. *)
Lemma tearDown_drops reason c :
  (∀ r, c_state c ≠ Closed r) →
  isClosed (tearDown reason c).1 = true ∧ c_subscriptions (tearDown reason c).1 = [].
Proof.
  intros Hc.
  assert (E : tearDown reason c =
    ((setState (Closed reason) ;;;
      (λ c, reject_all (failure_of reason) (c_pending c) c) ;;;
      (λ c, close_all (map snd (c_subscriptions c)) c)) ;;;
     update (λ c, c <| c_subscriptions := [] |>) ;;; on_events Close ;;; on_states Close) c).
  { unfold tearDown. rewrite !seq_run. cbn [fst snd]. rewrite !app_assoc.
    destruct (c_state c); try done. by destruct (Hc reason0). }
  rewrite E, seq_run. cbn [fst]. set (c1 := ((setState _ ;;; _) c).1).
  assert (Hs1 : c_state c1 = Closed reason).
  { unfold c1. rewrite !seq_run. cbn [fst].
    rewrite (proj1 (proj2 (still_keeps (close_all _) _ (still_close_all _)))).
    rewrite (proj1 (proj2 (still_keeps (reject_all _ _) _ (still_reject_all _ _)))). apply setState_core. }
  rewrite seq_run. cbn [fst].
  destruct (still_keeps (on_events Close ;;; on_states Close)
    (update (λ c, c <| c_subscriptions := [] |>) c1).1) as (Hs & Hst & _); [auto with frame|].
  unfold isClosed. rewrite Hs, Hst. simpl. by rewrite Hs1.
Qed.

Lemma persists_tearDown reason : persists (tearDown reason).
Proof.
  intros c. destruct (c_state c) eqn:E; [right; apply tearDown_drops; congruence..|].
  left. unfold tearDown. by rewrite E.
Qed.

Lemma persists_attach u : persists (attachSubscription u).
Proof.
  intros c. left. unfold attachSubscription, assertOpen. destruct (isClosed c) eqn:E; [done|].
  assert (Hq : ∀ j r c0, isClosed ((on_queue j Reader ;;; effect (Attached_ u j r)) c0).1 = isClosed c0 ∧
    c_subscriptions ((on_queue j Reader ;;; effect (Attached_ u j r)) c0).1 = c_subscriptions c0 ∧
    (alive c0 → alive ((on_queue j Reader ;;; effect (Attached_ u j r)) c0).1)).
  { intros j r c0.
    destruct (still_keeps (on_queue j Reader ;;; effect (Attached_ u j r)) c0) as (Hs & Hst & Hl);
      [auto with frame|].
    unfold isClosed, alive. by rewrite Hs, Hst, Hl. }
  destruct (lookup_subscription u c) as [j|] eqn:Ej; cbv zeta;
    match goal with |- context [(on_queue ?j Reader ;;; effect (Attached_ u ?j ?r)) ?c0] =>
      destruct (Hq j r c0) as (-> & Hsub & Ha) end.
  - split; [done|]. split; [done|]. split; [|done]. unfold lookup_subscription. by rewrite Hsub.
  - split; [done|]. split; [done|]. split; [|done].
    unfold lookup_subscription. rewrite Hsub. simpl. rewrite find_js_app.
    by destruct (find_js (λ kv, kv.1 =?s uri) (c_subscriptions c)).
Qed.

Lemma persists_loop_ends reason : persists (tearDown reason ;;; end_loop).
Proof.
  intros c. rewrite seq_run. cbn [fst]. destruct (c_state c) eqn:E.
  1-3: right; destruct (tearDown_drops reason c) as [H1 H2]; [congruence|]; by split.
  left. unfold tearDown. rewrite E. unfold isClosed, alive. simpl. rewrite E. split; [done|].
  split; [done|]. split; [done|]. by intros [? _].
Qed.

Lemma persists_next_turn : persists next_turn.
Proof.
  intros c. left. unfold next_turn, alive, isClosed. destruct (c_state c) eqn:E; simpl; rewrite E;
    (split; [done|split; [done|split; [done|by intros [? ?]]]]).
Qed.
#[local] Hint Resolve persists_seq persists_still persists_tearDown persists_attach persists_loop_ends
  persists_next_turn : frame.

Lemma persists_handleFrame f : persists (λ c, (handleFrame json_parse utf8_decode f c).1).
Proof.
  apply persists_by. intros c. unfold handleFrame.
  destruct (decode _ _ f) as [[m|]|msg]; [|exists skip; auto with frame..].
  destruct m as [[id|j] result|[id|j] [e|]|id method params|n|]; simpl;
    try (exists skip; by auto with frame).
  - exists (settle id (Resolved id result)). auto with frame.
  - eexists (settle id _). split; [|reflexivity]. auto with frame.
  - destruct (take_pending id c) as [[p c']|] eqn:Et; [|exists skip; auto with frame].
    apply take_pending_Some in Et as [_ ->].
    exists (update (λ c, let c' := c <| c_pending := List.filter (λ kv, negb (kv.1 =? id)) (c_pending c) |> in
                         if pr_timer p then clear_timer id c' else c')).
    split; [|done]. apply persists_still, frame_update. intros c0. by destruct (pr_timer p).
  - exists (handleServerRequest id method params). auto with frame.
  - destruct (event_of n) as [[[ch e]|]|[| |]]; try (exists skip; by auto with frame).
    exists (fanOut ch e). auto with frame.
Qed.

Lemma persists_recv r : persists (recv_settles json_parse utf8_decode r).
Proof.
  apply persists_by. intros c. unfold recv_settles.
  destruct (c_receiveLoop c); try (exists skip; by destruct r; auto with frame).
  destruct r as [f| |te]; [|eexists; split; [|reflexivity]; auto with frame..].
  destruct (handleFrame json_parse utf8_decode f c) as [[c1 e1] thrown] eqn:E.
  exists ((λ c, (handleFrame json_parse utf8_decode f c).1) ;;;
          match thrown with None => next_turn | Some m => loop_throws m end). split.
  - apply persists_seq; [apply persists_handleFrame|]. unfold loop_throws. destruct thrown; auto with frame.
  - unfold seq. rewrite E. cbn [fst]. by destruct thrown.
Qed.

Lemma connect_keeps c :
  c_subscriptions (connect c).1 = c_subscriptions c ∧
  match c_receiveLoop c with LoopNotStarted => alive (connect c).1 | _ => (connect c).1 = c end.
Proof.
  unfold connect. destruct (c_receiveLoop c); [|done..]. rewrite seq_run. cbn [fst].
  assert (Hf : frame c_subscriptions (λ _, false) (setState Connected)) by (unfold setState; auto with frame).
  split; [apply Hf|]. by destruct (setState_core Connected c) as (_ & Hs & _).
Qed.

Lemma shutdown_cases c :
  (shutdown c).1 = c ∨ isClosed (shutdown c).1 = true ∧ c_subscriptions (shutdown c).1 = [].
Proof.
  unfold shutdown. destruct (isClosed c) eqn:E; [by left|right].
  rewrite !seq_run. cbn [fst]. apply tearDown_drops. intros r. rewrite (proj1 (proj2 (setState_core Closing c))).
  done.
Qed.

(** [unsubscribe] takes away the subscription of its own channel and no other. *)
Lemma unsubscribe_cases u c :
  let c' := (unsubscribe u c).1 in
  isClosed c' = isClosed c ∧ (isClosed c = true → c' = c) ∧
  (u ≠ uri → lookup_subscription uri c' = lookup_subscription uri c) ∧
  (isClosed c = false → lookup_subscription u c' = None).
Proof.
  intros c'. unfold c', unsubscribe. destruct (isClosed c) eqn:E; [by cbn [fst]|].
  match goal with |- context [fst ?x] => assert (Ef : x = (forget u ;;; notify "unsubscribe" (JObject [("channel", JString u)])) c)
    by (unfold seq, forget; by destruct (lookup_subscription u c)); rewrite Ef end.
  rewrite seq_run. cbn [fst]. set (c1 := (forget u c).1).
  assert (H1 : c_state c1 = c_state c ∧
    c_subscriptions c1 = List.filter (λ kv, negb (kv.1 =?s u)) (c_subscriptions c)).
  { unfold c1, forget. destruct (lookup_subscription u c) as [j|] eqn:Ej.
    - rewrite seq_run. cbn [fst].
      destruct (still_keeps (on_queue j Close)
        (update (λ c, c <| c_subscriptions := List.filter (λ kv, negb (kv.1 =?s u)) (c_subscriptions c) |>) c).1)
        as (-> & -> & _); [auto with frame|]. done.
    - split; [done|]. apply lookup_subscription_None in Ej. simpl.
      clear Ef. induction (c_subscriptions c) as [|[v j] l IH]; [done|]. simpl in *.
      apply not_elem_of_cons in Ej as [Hv Hl]. rewrite (proj2 (str_eqb_false v u)) by done. simpl. f_equal.
      by apply IH. }
  destruct H1 as [Hst Hsub].
  destruct (still_keeps (notify "unsubscribe" (JObject [("channel", JString u)])) c1) as (Hs2 & Hc2 & _);
    [unfold notify; auto with frame|].
  unfold isClosed, lookup_subscription in *. rewrite Hc2, Hst, Hs2, Hsub. split; [exact E|]. split; [by intros [=]|].
  split; [intros Hu; by rewrite find_js_filter_ne|]. intros _.
  by rewrite find_js_filter_eq.
Qed.

Lemma persists_subscribe u params : persists (subscribe u params).
Proof.
  apply persists_by. intros c. unfold subscribe, assertOpen.
  destruct (isClosed c); [exists (effect (Threw ClientClosedError))|eexists; split; [|reflexivity]];
    auto with frame.
Qed.


(** *** Where the receive loop is *)

Abbreviation loops := (frame c_receiveLoop (λ _, false)).

Lemma loops_still s : still s → loops s.
Proof. apply frame_weaken; [by intros c c' [=]|done]. Qed.

Lemma loops_tearDown reason : loops (tearDown reason).
Proof.
  assert (Hr : loops (λ c, reject_all (failure_of reason) (c_pending c) c)).
  { apply (frame_case _ _ c_pending (reject_all _)). intros l. apply loops_still, still_reject_all. }
  assert (Hc : loops (λ c, close_all (map snd (c_subscriptions c)) c)).
  { apply (frame_case _ _ (λ c, map snd (c_subscriptions c)) close_all). intros l.
    apply loops_still, still_close_all. }
  apply frame_by. intros c. unfold tearDown, setState.
  destruct (c_state c); [| | |exists skip; auto with frame]; (eexists; split; [|reflexivity]); auto 10 with frame.
Qed.

Lemma loops_ensure u : loops (ensure u).
Proof. split; intros c; unfold ensure; by destruct (lookup_subscription u c). Qed.

Lemma loops_attach u : loops (attachSubscription u).
Proof.
  apply frame_by. intros c. unfold attachSubscription, assertOpen.
  destruct (isClosed c); [exists (effect (Threw ClientClosedError)); auto with frame|].
  set (j := match lookup_subscription u c with Some j => j | None => length (c_queues c) end).
  set (r := match c_queues (ensure u c).1 !! j with Some q => length (heap q) | None => 0%nat end).
  exists (ensure u ;;; on_queue j Reader ;;; effect (Attached_ u j r)). split.
  - apply frame_seq; [apply loops_ensure|auto with frame].
  - rewrite (seq_run (ensure u)). unfold j, r, ensure.
    destruct (lookup_subscription u c) as [j'|]; cbn [fst snd app]; apply surjective_pairing.
Qed.

Lemma kept_unsubscribe u : frame (λ c, (c_state c, c_receiveLoop c)) (λ _, false) (unsubscribe u).
Proof.
  apply frame_by. intros c. unfold unsubscribe. destruct (isClosed c); [exists skip; auto with frame|].
  eexists. split; [|reflexivity]. unfold notify. apply frame_seq; [|auto with frame].
  destruct (lookup_subscription u c); auto with frame.
Qed.

Lemma loops_other i :
  i ≠ Connect → (∀ r, i ≠ RecvSettles r) → loops (client_step json_parse utf8_decode i).
Proof.
  intros Hc Hr. pose proof loops_still. pose proof loops_tearDown. pose proof loops_attach.
  destruct i as [| | | | | | | |u|ch a s|r| | | | | | |]; cbn [client_step]; try done;
    try (unfold send_fails, notify, subscribe_rejected, handler_settles; repeat case_match; by auto 8 with frame).
  - apply frame_by. intros c. unfold shutdown, setState. destruct (isClosed c); [exists skip; auto with frame|].
    eexists. split; [|reflexivity]. auto 8 with frame.
  - apply frame_by. intros c. unfold subscribe, assertOpen.
    destruct (isClosed c); [exists (effect (Threw ClientClosedError))|eexists; split; [|reflexivity]];
      auto 8 with frame.
  - eapply frame_weaken; [| |apply kept_unsubscribe]; [by intros c c' [=]|done].
  - by destruct (Hr r).
Qed.

(** A turn of the loop leaves it started. *)
Lemma recv_loop r c :
  c_receiveLoop (recv_settles json_parse utf8_decode r c).1 = LoopNotStarted ↔ c_receiveLoop c = LoopNotStarted.
Proof.
  unfold recv_settles. destruct (c_receiveLoop c) eqn:E; [by cbn [fst]| |by cbn [fst]; rewrite E].
  split; [|done]. destruct r as [f| |te]; [|by rewrite seq_run..].
  assert (Hf : c_receiveLoop (handleFrame json_parse utf8_decode f c).1.1 = LoopReceiving).
  { rewrite <- E. unfold handleFrame. destruct (decode _ _ f) as [[m|]|msg]; [|done..].
    destruct m as [[id|j] result|[id|j] [e|]|id method params|n|]; simpl; try done.
    - apply (still_keeps (settle id (Resolved id result)) c). auto with frame.
    - apply (still_keeps (settle id _) c). auto with frame.
    - destruct (take_pending id c) as [[p c']|] eqn:Et; [|done].
      apply take_pending_Some in Et as [_ ->]. by destruct (pr_timer p).
    - apply (still_keeps (handleServerRequest id method params) c). auto with frame.
    - destruct (event_of n) as [[[ch e]|]|[| |]]; try done. apply (still_keeps (fanOut ch e) c). auto with frame. }
  destruct (handleFrame json_parse utf8_decode f c) as [[c1 e1] thrown]. cbn [fst] in Hf.
  destruct thrown as [m|].
  - destruct (loop_throws m c1) as [c2 e2] eqn:El. unfold loop_throws in El. rewrite seq_run in El.
    injection El as <- _. done.
  - unfold next_turn. destruct (c_state c1); simpl; rewrite ?Hf; done.
Qed.

(** *** What a subscription promises *)

(** The notifications of the protocol that concern a channel, and what its
    subscribers are told: an action envelope names its channel itself, the other
    notifications in their parameters. *)
Definition told (n : Notification) : list SubscriptionEvent :=
  let on (channel : URI) (e : SubscriptionEvent) := if decide (channel = uri) then [e] else [] in
  match n with
  | NotifyAction (Some env) => on (ae_channel env) (EventAction env)
  | NotifySessionAdded (Some (channel, params)) => on channel (EventSessionAdded params)
  | NotifySessionRemoved (Some (channel, params)) => on channel (EventSessionRemoved params)
  | NotifySessionSummaryChanged (Some (channel, params)) => on channel (EventSessionSummaryChanged params)
  | NotifyAuthRequired (Some (channel, params)) => on channel (EventAuthRequired params)
  | _ => []
  end.

Definition told_by_frame (f : TransportFrame) : list SubscriptionEvent :=
  match (match f with
         | FrameParsed m => inl (ParsedObject m)
         | FrameText text => json_parse text
         | FrameBinary data => json_parse (utf8_decode data)
         end) with
  | inl (ParsedObject (ServerNotification n)) => told n
  | _ => []
  end.

Definition told_by_input (i : Input) : list SubscriptionEvent :=
  match i with RecvSettles (RecvFrame f) => told_by_frame f | _ => [] end.
Definition unsubscribes (i : Input) : bool :=
  match i with Unsubscribe u => bool_decide (u = uri) | _ => false end.
Definition is_connect (i : Input) : bool := match i with Connect => true | _ => false end.

(** What the frames that a connected client receives tell the subscribers of
    [uri], until [unsubscribe(uri)] is called or the client is closed. *)
Fixpoint told_meanwhile (connected : bool) (ins : list Input) (c : AhpClient) : list SubscriptionEvent :=
  match ins with
  | [] => []
  | i :: ins =>
      if isClosed c || unsubscribes i then []
      else (if connected then told_by_input i else []) ++
           told_meanwhile (connected || is_connect i) ins (client_step json_parse utf8_decode i c).1
  end.

Lemma event_in_told f : event_in json_parse utf8_decode uri f = told_by_frame f.
Proof.
  unfold event_in, told_by_frame, decode.
  assert (H : ∀ n, match event_of n with
                   | Ok (Some (channel, event)) => if channel =?s uri then [event] else []
                   | _ => []
                   end = told n).
  { assert (Hd : ∀ u (e : SubscriptionEvent), (if u =?s uri then [e] else []) = if decide (u = uri) then [e] else [])
      by (intros u e; case_str u uri; by case_decide).
    intros n. by destruct n as [[env|]|[[ch j]|]|[[ch j]|]|[[ch j]|]|[[ch j]|]|m]; simpl. }
  destruct f as [m|t|d]; [destruct m; done || apply H| |];
    [destruct (json_parse t) as [[[]|]|]|destruct (json_parse (utf8_decode d)) as [[[]|]|]]; done || apply H.
Qed.

(** A client that was connected receives until it closes; a closed client has no
    subscription. *)
Record session_ok (connected : bool) (c : AhpClient) : Prop := {
  ok_dropped : isClosed c = true → c_subscriptions c = [];
  ok_idle : connected = false → c_receiveLoop c = LoopNotStarted;
  ok_started : connected = true → c_receiveLoop c ≠ LoopNotStarted ∧ (isClosed c = false → alive c)
}.

Lemma session_ok_persists b c c' :
  session_ok b c → (c_receiveLoop c' = LoopNotStarted ↔ c_receiveLoop c = LoopNotStarted) →
  (isClosed c' = isClosed c ∧ (isClosed c = true → c_subscriptions c' = c_subscriptions c) ∧
   (alive c → alive c') ∨ isClosed c' = true ∧ c_subscriptions c' = []) →
  session_ok b c'.
Proof.
  intros [H1 H2 H3] Hl Hc. split.
  - intros Hcl. destruct Hc as [(Ec & Hs & _)|[_ ->]]; [|done]. rewrite Ec in Hcl. rewrite Hs by done. auto.
  - intros Hb. apply Hl. auto.
  - intros Hb. destruct (H3 Hb) as [Hn Ha]. split; [by rewrite Hl|]. intros Hcl.
    destruct Hc as [(Ec & _ & Hal)|[Ec _]]; [|congruence]. apply Hal, Ha. congruence.
Qed.

(** Only [Unsubscribe uri] and closing end the subscription. *)
Lemma period_step i b c :
  let c' := (client_step json_parse utf8_decode i c).1 in
  session_ok b c →
  session_ok (b || is_connect i) c' ∧
  (i ≠ Unsubscribe uri → lookup_subscription uri c = Some k →
     lookup_subscription uri c' = Some k ∨ isClosed c' = true).
Proof.
  intros c' Hc. unfold c'.
  assert (Hp : is_connect i = false →
    (c_receiveLoop (client_step json_parse utf8_decode i c).1 = LoopNotStarted ↔ c_receiveLoop c = LoopNotStarted) →
    persists (client_step json_parse utf8_decode i) →
    session_ok (b || is_connect i) (client_step json_parse utf8_decode i c).1 ∧
    (i ≠ Unsubscribe uri → lookup_subscription uri c = Some k →
     lookup_subscription uri (client_step json_parse utf8_decode i c).1 = Some k ∨
     isClosed (client_step json_parse utf8_decode i c).1 = true)).
  { intros Hi Hl H. rewrite Hi, orb_false_r.
    destruct (H c) as [(H1 & H2 & H3 & H4)|[H1 H2]]; (split; [|by auto]);
      apply (session_ok_persists b c); auto. }
  assert (Hl : i ≠ Connect → (∀ r, i ≠ RecvSettles r) →
    c_receiveLoop (client_step json_parse utf8_decode i c).1 = LoopNotStarted ↔ c_receiveLoop c = LoopNotStarted)
    by (intros ? ?; by rewrite (proj1 (loops_other i ltac:(done) ltac:(done)) c)).
  pose proof persists_subscribe. pose proof persists_recv.
  destruct i as [| | | | | | |j r p|u|ch a s|r| | | | | | |]; cbn [client_step] in *;
    try (apply Hp; [done|by apply Hl|];
         unfold notify, send_fails, subscribe_rejected, handler_settles; repeat case_match; by auto 8 with frame).
  - destruct (connect_keeps c) as [Hs Ha]. unfold lookup_subscription. rewrite Hs. split; [|by left].
    cbn [is_connect]. rewrite orb_true_r. destruct (c_receiveLoop c) eqn:E.
    1: { split; [|done|].
         - intros Hcl. destruct Ha as [Hst _]. unfold isClosed in Hcl. by rewrite Hst in Hcl.
         - intros _. split; [by destruct Ha as [_ ->]|done]. }
    all: rewrite Ha; destruct b; [done|]; pose proof (ok_idle _ _ Hc eq_refl); congruence.
  - rewrite orb_false_r. specialize (Hl ltac:(done) ltac:(done)).
    destruct (shutdown_cases c) as [E|[H1 H2]]; [rewrite E; split; [done|by left]|].
    split; [|by right]. apply (session_ok_persists b c); auto.
  - rewrite orb_false_r. specialize (Hl ltac:(done) ltac:(done)).
    destruct (unsubscribe_cases u c) as (H1 & H2 & H3 & _).
    destruct (kept_unsubscribe u) as [Hk _]. specialize (Hk c). injection Hk as Hst Hlp. split.
    + apply (session_ok_persists b c); [done..|left]. split; [done|].
      split; [intros Hcl; by rewrite H2|]. unfold alive. by rewrite Hst, Hlp.
    + intros Hne Hlk. left. rewrite H3; [done|]. by intros ->.
  - apply Hp; [done|apply recv_loop|auto].
Qed.

(** The specification agrees with what is published on the subscription's queue. *)
Lemma told_heard ins b c :
  subs_ok c → (k < length (c_queues c))%nat → lookup_subscription uri c = Some k → session_ok b c →
  heard json_parse utf8_decode uri k ins c = told_meanwhile b ins c.
Proof.
  revert b c. induction ins as [|i ins IH]; intros b c Hs Hk Hl Hc; [done|]. cbn [heard told_meanwhile].
  assert (Hopen : isClosed c = false).
  { destruct (isClosed c) eqn:E; [|done]. apply lookup_subscribed in Hl. unfold subscribed in Hl.
    rewrite (ok_dropped b c Hc E) in Hl. by apply not_elem_of_nil in Hl. }
  rewrite Hopen, bool_decide_eq_true_2 by done. cbn [orb].
  destruct (proj1 (routed_step json_parse utf8_decode uri k i) c Hs) as (Hs1 & H1).
  destruct (H1 Hk) as (Hk1 & Hin & _). destruct (Hin Hl) as [_ Hcase].
  assert (Hgone : k ∉ subscribed (client_step json_parse utf8_decode i c).1 →
    heard json_parse utf8_decode uri k ins (client_step json_parse utf8_decode i c).1 = [])
    by (intros Hn; apply (run_unrouted json_parse utf8_decode uri k ins _ Hs1 Hk1 Hn)).
  destruct (unsubscribes i) eqn:Eu.
  { destruct i as [| | | | | | | |u| | | | | | | | |]; try done. apply bool_decide_eq_true in Eu as ->.
    cbn [arriving]. apply Hgone. destruct Hcase as [[Hl1 _]|[Hn _]]; [|done].
    destruct (unsubscribe_cases uri c) as (_ & _ & _ & Hno). cbn [client_step] in Hl1.
    by rewrite Hno in Hl1. }
  assert (Harr : arriving json_parse utf8_decode uri i c = if b then told_by_input i else []).
  { destruct Hc as [_ Hidle Hst]. destruct i as [| | | | | | | | | |[f| |te]| | | | | | |]; try by destruct b.
    simpl. rewrite event_in_told. destruct b; [by destruct (proj2 (Hst eq_refl) Hopen) as [_ ->]|].
    by rewrite Hidle. }
  rewrite Harr. f_equal. destruct (period_step i b c Hc) as [Hc1 Hkeep].
  assert (Hne : i ≠ Unsubscribe uri)
    by (intros ->; simpl in Eu; by rewrite bool_decide_eq_true_2 in Eu).
  destruct (Hkeep Hne Hl) as [Hl1|Hcl].
  - by apply IH.
  - rewrite Hgone.
    + destruct ins; [done|]. simpl. by rewrite Hcl.
    + unfold subscribed. rewrite (ok_dropped _ _ Hc1 Hcl). apply not_elem_of_nil.
Qed.

Lemma session_ok_run ins b c :
  session_ok b c → session_ok (b || existsb is_connect ins) (run_client json_parse utf8_decode ins c).1.
Proof.
  revert b c. induction ins as [|i ins IH]; intros b c Hc; simpl; [by rewrite orb_false_r|].
  rewrite seq_run, orb_assoc. cbn [fst]. apply IH. by apply period_step.
Qed.
End Period.

Lemma new_client_routing cfg : stored_wf (new_client cfg) ∧ subs_ok (new_client cfg).
Proof.
  split; [|split; constructor]. split; [split; [|done]|by intros ? ? ?%not_elem_of_nil].
  simpl. destruct (Z.leb_spec 1 (cfg_subscriptionBuffer cfg ??! DEFAULT_SUBSCRIPTION_BUFFER)); lia.
Qed.

Lemma new_client_session cfg : session_ok false (new_client cfg).
Proof. by split. Qed.

(** Attaching to an open client registers a new reader of the channel's queue. *)
Lemma attach_open uri c :
  subs_ok c → stored_wf c → isClosed c = false →
  let r := attachSubscription uri c in
  ∃ k q, (k < length (c_queues r.1))%nat ∧ c_queues r.1 !! k = Some (reader q) ∧ subs_ok r.1 ∧
    lookup_subscription uri r.1 = Some k ∧ closed q = false ∧ wf q ∧
    Attached_ uri k (length (heap q)) ∈ r.2.
Proof.
  intros Hs Hw Hopen r.
  pose proof (proj1 (tracks_attach uri 0 uri c Hs)) as Hs1. fold r in Hs1.
  destruct (routed_ensure uri 0 uri) as (Te & _ & We).
  pose proof (We c Hs Hw) as [[_ Hwe] Hoe]. pose proof (proj1 (Te c Hs)) as Hse.
  set (ce := (ensure uri c).1) in *.
  assert (Hl : ∃ k, lookup_subscription uri ce = Some k ∧
    r = (on_queue k Reader ;;; effect (Attached_ uri k
           match c_queues ce !! k with Some q => length (heap q) | None => 0%nat end)) ce).
  { unfold r, attachSubscription, assertOpen, ce, ensure. rewrite Hopen.
    destruct (lookup_subscription uri c) as [k|] eqn:El; [by exists k|]. exists (length (c_queues c)).
    split; [|done]. unfold lookup_subscription in *. simpl. rewrite find_js_app.
    destruct (find_js _ (c_subscriptions c)); [done|]. simpl. by rewrite str_eqb_refl. }
  destruct Hl as (k & Hl & Er). pose proof (lookup_subscribed _ _ _ Hl) as Hin.
  assert (Hk : (k < length (c_queues ce))%nat)
    by (destruct Hse as [_ _ H3]; rewrite Forall_forall in H3; by apply H3).
  destruct (lookup_lt_is_Some_2 _ _ Hk) as [q Hq]. exists k, q.
  rewrite Hq, seq_run in Er. unfold on_queue in Er. rewrite Hq in Er. simpl in Er.
  rewrite Er in *. simpl. rewrite length_insert, list_lookup_insert_eq by done.
  split; [done|]. split; [done|]. split; [exact Hs1|]. split; [exact Hl|].
  split; [by eapply Hoe|]. split; [by eapply Forall_lookup_1|]. set_solver.
Qed.
