(* ===== verification/ClientProperties.v ===== *)
(** * What the client guarantees

    Requests are settled exactly once, sequence numbers increase, and the events
    of a channel reach its subscribers in order, for every interleaving of calls
    and of what the environment does. *)

From S2P Require Import Prelude KeyedList CommonState StateMirror AsyncQueue QueueProperties JsNumber Client ClientLemmas.

Local Open Scope Z_scope.

(** ** Properties *)

Section Properties.
Context (json_parse : string → Parsed + string) (utf8_decode : list Byte.byte → string).
Abbreviation run_all := (run_client json_parse utf8_decode).

(** C5: every request is settled at most once and never lost.  For any
    interleaving of calls, frames, send failures and timer firings, the requests
    sent carry the ids 1, 2, 3, ...; each is either still waiting or has been
    settled (resolved or rejected), exactly once and not both; the armed timers
    are those of the waiting requests (when the client has a timeout); and when
    the client is closed no request is waiting.  The only input excluded is an
    error response whose [error] member is [null]. *)
Theorem requests_settle_once (cfg : AhpClientConfig) (ins : list Input)
    (Hw : forallb (tolerated json_parse utf8_decode) ins = true) :
  let c := (run_all ins (new_client cfg)).1 in
  let log := (run_all ins (new_client cfg)).2 in
  issued log = seqZ 1 (c_nextRequestId c - 1) ∧
  NoDup (settled log) ∧
  (∀ id, id ∈ issued log ↔ id ∈ settled log ∨ id ∈ waiting c) ∧
  (∀ id, id ∈ settled log → id ∉ waiting c) ∧
  c_timers c = (if 0 <? c_requestTimeoutMs c then waiting c else []) ∧
  (isClosed c = true → waiting c = []).
Proof.
  intros c log. destruct (new_client_rest cfg) as [H0 Hr0].
  destruct (sound_run json_parse utf8_decode ins Hw _ [] H0 Hr0) as [[H1 H2 H3 H4 H5] [_ Hr]].
  cbn [app] in H1, H2. fold c log in H1, H2, H3, H4, Hr.
  assert (Hnd : NoDup (waiting c ++ settled log)) by (rewrite H1, H2; apply NoDup_seqZ).
  apply NoDup_app in Hnd as (_ & Hdis & Hnd). split; [done|]. split; [done|]. split; [|split; [|split]].
  - intros id. rewrite <- H1, elem_of_app. tauto.
  - intros id Hs Hw'. by apply (Hdis id).
  - done.
  - intros Hc. unfold waiting. by rewrite (Hr Hc).
Qed.

(** C36: client sequence numbers.  As long as the numbers dispatched so far, those
    given by the caller included, are safe integers (at most 2^53 - 1), a number
    that [dispatch] assigns itself is greater than every one of them; and, without
    any condition, the numbers on the wire are, in order, those [dispatch]
    returned. *)
Theorem client_seqs_fresh (cfg : AhpClientConfig) (ins : list Input) :
  let log := (run_all ins (new_client cfg)).2 in
  on_wire log = map snd (dispatched log) ∧
  (∀ earlier n later, dispatched log = earlier ++ (false, n) :: later →
     Forall (λ d, d.2 ≤ MAX_SAFE_INTEGER) earlier → Forall (λ d, d.2 < n) earlier).
Proof.
  assert (H0 : numbered (new_client cfg) []).
  { split; [|intros l1 n l2 H; by destruct l1|done]. intros _. split; [done|constructor]. }
  by destruct (numbered_run json_parse utf8_decode ins _ _ H0) as [_ H1 H2].
Qed.

(** C6: a subscription sees the events of its channel, in order.  Attach a
    subscription to [uri] in any state an open client can reach; after any
    further inputs that do not call [return] on its iterator, the iterator has
    received and can still read a subsequence of what the notifications of that
    channel told, in arrival order: those of the frames that the connected client
    received until [unsubscribe(uri)] was called or the client closed.  It is all
    of it when the iterator has room for each event when it arrives.  Nothing of
    another channel reaches it. *)
Theorem subscription_sees_its_channel (cfg : AhpClientConfig) (before ins : list Input) (uri : URI) :
  let c := (run_all before (new_client cfg)).1 in
  let '(c1, log1) := attachSubscription uri c in
  isClosed c = false →
  ∃ k r q1 q2,
    Attached_ uri k r ∈ log1 ∧ c_queues c1 !! k = Some q1 ∧ c_queues (run_all ins c1).1 !! k = Some q2 ∧
    let log := (run_all ins c1).2 in
    let arrived := told_meanwhile json_parse utf8_decode uri (existsb is_connect before) ins c1 in
    (never_returns r (ops_on k log) = true →
     received r (outs_on k log) ++ pending r q2 `sublist_of` arrived ∧
     (keeps_up r (ops_on k log) q1 = true →
      received r (outs_on k log) ++ pending r q2 = arrived)).
Proof.
  intros c. destruct (new_client_routing cfg) as [Hw0 Hs0].
  pose proof (run_stored_wf json_parse utf8_decode uri 0 before _ Hs0 Hw0) as Hw.
  pose proof (run_subs_ok json_parse utf8_decode uri 0 before _ Hs0) as Hs. fold c in Hw, Hs.
  destruct (attachSubscription uri c) as [c1 log1] eqn:Ea. intros Hopen.
  pose proof (attach_open uri c Hs Hw Hopen) as Hat. rewrite Ea in Hat. cbv zeta in Hat. cbn [fst snd] in Hat.
  destruct Hat as (k & q & Hk & Hq & Hs1 & Hl1 & Hcl & Hwf & Hlog).
  set (r := length (heap q)). set (q1 := reader q). exists k, r, q1.
  destruct (run_replays json_parse utf8_decode uri k ins c1 q1 Hq) as [Hq2 Houts].
  eexists. split; [exact Hlog|]. split; [exact Hq|]. split; [exact Hq2|]. intros log arrived Hret.
  fold log in Houts. unfold arrived.
  assert (Hok : session_ok (existsb is_connect before) c1).
  { pose proof (session_ok_run json_parse utf8_decode uri 0 before false _ (new_client_session cfg)) as Hc0.
    pose proof (proj1 (period_step json_parse utf8_decode uri 0 (AttachSubscription uri) _ _ Hc0)) as Hc1.
    rewrite orb_false_r in Hc1. cbn [client_step] in Hc1. fold c in Hc1. by rewrite Ea in Hc1. }
  rewrite <- (told_heard json_parse utf8_decode uri k ins _ c1 Hs1 (lookup_lt_Some _ _ _ Hq) Hl1 Hok).
  rewrite <- (run_routed json_parse utf8_decode uri k ins c1 Hs1 (lookup_lt_Some _ _ _ Hq) Hl1).
  fold log. rewrite Houts.
  destruct (step_refines Reader q Hwf) as (Hwf1 & [_ Hcl1] & _). simpl in Hwf1, Hcl1.
  pose proof (reader_view q) as Hv. rewrite Hcl in Hv, Hcl1.
  destruct (delivery (ops_on k log) q1 r [] None Hwf1 Hv Hret) as [Hsub Heq].
  fold q1 in Hcl1. rewrite Hcl1 in Hsub, Heq. by split.
Qed.
End Properties.

(** ** Witnesses *)

Definition no_json (_ : string) : Parsed + string := inr "unexpected token".
Definition no_bytes (_ : list Byte.byte) : string := "".
Definition demo_config : AhpClientConfig := Build_AhpClientConfig (Some 1000) (Some 2).

Definition demo_envelope (channel : URI) (seq : Z) : ActionEnvelope :=
  Build_ActionEnvelope channel (ActionRoot (Root.UnknownRootAction "{}")) seq None None.
Definition demo_frame (m : ProtocolMessage) : Input := RecvSettles (RecvFrame (FrameParsed m)).

(** Three requests: one answered, one timed out, one failed by the shutdown. *)
Definition demo_requests : list Input :=
  [Connect; Request "ping" JNull; Request "a" JNull; Request "b" JNull;
   demo_frame (SuccessResponse (IdNumber 2) JNull); TimerFires 1;
   demo_frame (SuccessResponse (IdNumber 1) JNull); Shutdown; TimerFires 3].

Lemma requests_settle_once_witness :
  let log := (run_client no_json no_bytes demo_requests (new_client demo_config)).2 in
  settled log = [2; 1; 3] ∧ issued log = [1; 2; 3] ∧ NoDup (settled log).
Proof.
  intros log. split; [by vm_compute|]. split; [by vm_compute|].
  exact (proj1 (proj2 (requests_settle_once no_json no_bytes demo_config demo_requests eq_refl))).
Defined.

(** A number chosen by the caller between two automatic ones. *)
Definition demo_action : StateAction := ActionRoot (Root.UnknownRootAction "{}").
Definition demo_dispatches : list Input :=
  [Dispatch "ahp-chat:/1" demo_action None; Dispatch "ahp-chat:/1" demo_action (Some 7);
   Dispatch "ahp-chat:/1" demo_action None].

Lemma client_seqs_fresh_witness :
  let log := (run_client no_json no_bytes demo_dispatches (new_client demo_config)).2 in
  dispatched log = [(false, 1); (true, 7)] ++ [(false, 8)] ∧ on_wire log = [1; 7; 8] ∧
  Forall (λ d, d.2 < 8) [(false, 1); (true, 7)].
Proof.
  intros log. split; [by vm_compute|].
  destruct (client_seqs_fresh no_json no_bytes demo_config demo_dispatches) as [Hwire Hfresh].
  split; [exact Hwire|]. apply (Hfresh [(false, 1); (true, 7)] 8 []); [by vm_compute|].
  repeat constructor; simpl; unfold MAX_SAFE_INTEGER; lia.
Defined.

Definition demo_arrivals : list Input :=
  [demo_frame (ServerNotification (NotifyAction (Some (demo_envelope "ahp-chat:/1" 1))));
   demo_frame (ServerNotification (NotifyAction (Some (demo_envelope "ahp-chat:/2" 2))));
   NextOf 0 0%nat 0%nat;
   demo_frame (ServerNotification (NotifyAction (Some (demo_envelope "ahp-chat:/1" 3))))].

Definition demo_subscribed : AhpClient * list Effect := Eval vm_compute in
  attachSubscription "ahp-chat:/1" (run_client no_json no_bytes [Connect] (new_client demo_config)).1.

(** The channel's two events: the first was read, the second is waiting. *)
Lemma subscription_sees_its_channel_witness :
  let r := run_client no_json no_bytes demo_arrivals demo_subscribed.1 in
  attachSubscription "ahp-chat:/1" (run_client no_json no_bytes [Connect] (new_client demo_config)).1 =
    demo_subscribed ∧
  ∃ q2, c_queues r.1 !! 0%nat = Some q2 ∧
    received 0%nat (outs_on 0 r.2) = [EventAction (demo_envelope "ahp-chat:/1" 1)] ∧
    received 0%nat (outs_on 0 r.2) ++ pending 0%nat q2 =
      [EventAction (demo_envelope "ahp-chat:/1" 1); EventAction (demo_envelope "ahp-chat:/1" 3)].
Proof.
  intros r.
  assert (E : attachSubscription "ahp-chat:/1"
    (run_client no_json no_bytes [Connect] (new_client demo_config)).1 = demo_subscribed) by by vm_compute.
  split; [exact E|].
  pose proof (subscription_sees_its_channel no_json no_bytes demo_config [Connect] demo_arrivals
    "ahp-chat:/1") as H. cbv zeta in H. rewrite E in H. rewrite (surjective_pairing demo_subscribed) in H.
  destruct (H ltac:(by vm_compute)) as (k & i & q1 & q2 & Hlog & Hq1 & Hq2 & Hrest). clear H.
  assert (Hk : k = 0%nat ∧ i = 0%nat).
  { apply elem_of_cons in Hlog as [Hlog|Hlog]; [done|].
    apply list_elem_of_singleton in Hlog. by injection Hlog. }
  destruct Hk as [-> ->]. exists q2. split; [exact Hq2|]. split; [by vm_compute|].
  destruct (Hrest ltac:(by vm_compute)) as [_ Hall].
  assert (Hup : keeps_up 0%nat (ops_on 0 r.2) q1 = true).
  { unfold demo_subscribed in Hq1. cbn in Hq1. injection Hq1 as <-. by vm_compute. }
  etrans; [exact (Hall Hup)|]. by vm_compute.
Defined.

(** ** Observations *)

(** An error response whose [error] member is [null]: the request is deleted but
    neither resolved nor rejected, and the client is torn down. *)
Lemma null_error_loses_request :
  let r := run_client no_json no_bytes
    [Connect; Request "ping" JNull; demo_frame (ErrorResponse (IdNumber 1) None)] (new_client demo_config) in
  settled r.2 = [] ∧ waiting r.1 = [] ∧ isClosed r.1 = true.
Proof. by vm_compute. Qed.

(** A text frame that is valid JSON but not an object closes the client, while
    one that is not JSON at all is only warned about. *)
Lemma primitive_frame_tears_down :
  isClosed (run_client (λ _, inl ParsedPrimitive) no_bytes
    [Connect; RecvSettles (RecvFrame (FrameText "null"))] (new_client demo_config)).1 = true ∧
  isClosed (run_client no_json no_bytes
    [Connect; RecvSettles (RecvFrame (FrameText "}"))] (new_client demo_config)).1 = false.
Proof. by vm_compute. Qed.

(** [connect] after [shutdown] of a client that was never connected: the state
    is connected again, while the event stream stays closed. *)
Lemma connect_after_shutdown_reopens :
  let c := (run_client no_json no_bytes [Shutdown; Connect] (new_client demo_config)).1 in
  isClosed c = false ∧ AsyncQueue.isClosed (c_allEvents c) = true.
Proof. by vm_compute. Qed.

(** A caller that gives 2^53: the counter does not move past it, so the numbers
    assigned afterwards repeat it. *)
Lemma unsafe_number_repeated :
  let log := (run_client no_json no_bytes
    [Dispatch "ahp-chat:/1" demo_action (Some (2 ^ 53)); Dispatch "ahp-chat:/1" demo_action None;
     Dispatch "ahp-chat:/1" demo_action None] (new_client demo_config)).2 in
  dispatched log = [(true, 2 ^ 53); (false, 2 ^ 53); (false, 2 ^ 53)].
Proof. by vm_compute. Qed.
